(* ===== verification/_CoqProject ===== *)
-Q . S2P
Prelude.v
Sql.v
Dates.v
Pandas.v
Schema.v
Bands.v
Churn.v
Cards.v
Base.v
Report.v
Sixty.v
Churn90.v
Comparativa.v
Banco.v
Validacao.v
Corrigida.v
TempoRigoroso.v
Fatores.v
RendaIdade.v
Distribuicao.v
Limites.v
LimitesCompleta.v
Hipoteses.v
Graficos.v
Persona.v
Estatistica.v
Segmentacao.v
