(* ===== verification/Prelude.v ===== *)
(** * A verification development of the Priceless Bank churn analyses

    The repository ([src/]) is a set of Python scripts over three tables of
    customers ([clientes]), cards ([cartoes]) and transactions
    ([transacoes]).  [src/bd/criar_banco_sqlite.py] reads the three CSV
    files with pandas, derives columns and writes them, with four views,
    into the SQLite database [priceless_bank.db]; the SQL scripts query that
    database through [pd.read_sql_query]; the pandas scripts read the CSV
    files directly.  Every analysis classifies customers by their
    transaction activity against a reference date (never activated,
    inactive, active), groups them by a banded attribute, and prints counts
    and percentages.

    How the parts interact, and which file models each:
    - [Prelude.v] (this file): the scope [churn_scope] with the notation
      [#[p] l] (rows satisfying [p]), the hint databases [churn] and
      [churn_rw], the tactics [case_ifs] and [count_simpl], the counting and
      summing lemmas, and [all_from] for bounded exhaustive checks.
    - [Sql.v], [Module Sql]: the SQLite fragment every SQL script runs on:
      NULL as [option], three-valued conditions, [IN]/[NOT IN] with NULLs,
      [DISTINCT], [LEFT]/[INNER JOIN] with bag semantics, [GROUP BY],
      [COUNT], [COUNT(DISTINCT)], [SUM], [AVG], [MAX], [ROUND] (half away
      from zero), [ORDER BY] (an insertion sort, with its permutation and
      sortedness lemmas), and the class [SqlOrd] of comparable column types.
    - [Dates.v], [Module Dates]: the timestamp texts pandas writes, SQLite's
      date parser, its Julian-day arithmetic, [DATE(x, '-N days')],
      [JULIANDAY] and [strftime('%Y')].
    - [Pandas.v], [Module Pandas]: the pandas and numpy operations the
      DataFrame scripts call ([Timestamp], [Timedelta.days], [np.round]
      half to even, float64 division with [inf]/[NaN], [pd.cut],
      [groupby], [merge], [drop_duplicates], [first], [sort_values],
      [nlargest], [idxmax], [quantile]).
    - [Schema.v]: the rows of the three tables as Records, every column
      nullable, with the key and foreign-key constraints as predicates
      ([to_sql(if_exists='replace')] drops the declared ones).
    - [Bands.v]: the [CASE WHEN] label chains, first match.
    - [Churn.v] ([Module Classifier]), [Cards.v] ([Module CardDims]),
      [Base.v] and [Report.v]: [src/novaAbordagem/analise_churn_completa_2024.py]
      (the shared three-CTE query shape, the seven dimension queries, the
      base summary, the insights, the executive report and [main]).
    - [Sixty.v], [Module Sessenta]: [src/analise_churn_2024_60dias_corrigida.py],
      with SQLite's column-name resolution and the error monad [exec] of
      the scripts' [try] blocks, reused by the later files.
    - [Churn90.v] ([Module Ultima]) and [Comparativa.v]: the [MAX(data)]
      scripts of [src/churn2024SQL90] and [src/churn2024SQLCOMP].
    - [Banco.v]: [criar_banco_sqlite.py] ([Module Processamento]: the derived
      columns; [Module Visoes]: the four views).
    - [Validacao.v], [Module Validacao]: the four validation queries at the
      end of [criar_banco_sqlite.py] (table counts, the overall churn rate,
      the digital share, the churn per card-age band).
    - [Corrigida.v]: [src/analise_comparativa_churn_2024_corrigida.py].
    - [TempoRigoroso.v], [Fatores.v], [RendaIdade.v]: the pandas pipelines of
      [src/comparacaoEntreTemposCertos], [src/churnPorCategoria] and
      [src/analise_renda_idade.py].
    - [Distribuicao.v]: [src/analise_distribuicao_cartoes.py] (two queries,
      the chart figures, the report and [main]).
    - [Limites.v]: [src/analiseCartoes1/analise_limites_corrigida.py] (limits
      against monthly spending, the [Situacao] labels, the summary).
    - [LimitesCompleta.v]: the first version of that analysis,
      [src/analiseCartoes1/analise_limites_vs_gastos_completa.py] (every
      card joined by a left merge, the [', '.join] of card types, churn by
      label against [Period('2024-08')], the figures of stages 3 to 8); it
      reuses [Limites.v]'s monthly spending and [.loc] assignment.
    - [Hipoteses.v]: [src/analise_profunda_hipoteses.py] (transactions and
      new accounts per quarter with their [pct_change], the quarter
      lookups that raise [KeyError], payment methods, the income profile).
    - [Graficos.v]: [src/churnPorCategoria/graficos_churn_individuais.py]
      (the tables of [criar_grafico_individual] on [Fatores.df_analise],
      proved to agree with the tables of [Fatores.v]).
    - [Persona.v], [Module Persona]: [src/analise_persona_clientes.py] (the
      persona query, its four [pd.cut] bands and the report's figures).
    - [Estatistica.v], [Module Estatistica]: analyses 4 and 5 of
      [src/analiseProfunda/analise_estatistica_completa.py] (spending per
      income band, monthly churn), each [try] block a value of
      [Sessenta.exec].
    - [Segmentacao.v], [Module Segmentacao]: [src/analise_segmentacao.py]
      (the derived columns, the printed statistics, [df_cluster], the
      [ValueError]s of [StandardScaler] and of the elbow loop, the segment
      profile, the most frequent state and city per segment and the
      summary); [KMeans] is an arbitrary labelling function, a [Variable]
      of its sections, of which the theorems assume only one label per row
      below [n_clusters].

    What the theorems show, by group:
    - invariants and refinement: the status counts of every group partition
      its rows, and the SQL counts implement an abstract classification by
      last transaction date ([Churn.v], [Sixty.v]); the quarterly counts
      partition the dated transactions and come out in quarter order
      ([Hipoteses.v]); the views' status
      refines that classification with two of its three states merged
      ([Banco.v]); the exact squared comparisons decide the script's
      comparisons of the Pearson correlation with its thresholds
      ([RendaIdade.v]);
    - functional behaviour: windows and cutoffs on timestamps (the 90th day
      counts, the 91st does not; text bounds drop December 31), bands with
      gaps, rows counted per (customer, attribute) or per (card, customer)
      pair rather than per customer or card, evasions counted per
      customer-month ([LimitesCompleta.v]), customers counted per (customer,
      card attributes) group and every purchase reaching a row, the age
      profiles partitioning the rows with a band ([Persona.v]);
    - error paths, as values of [Sessenta.exec]: the queries that name a
      missing column, charts that reject a negative or all-zero pie, a
      NULL label, or a NULL share or rate of an empty denominator
      ([Distribuicao.v], [Corrigida.v]), the [TypeError] of the printed
      change on a NULL rate ([Comparativa.v]), an integer division by an
      empty table, [astype(int)] on [NaN], the
      [TypeError] of [', '.join] on a card without a type, the [KeyError]
      of a quarter without rows, the [KeyError] of an [idxmax] with no band
      and the [NameError] it causes in the next [try] block
      ([Estatistica.v]), the [ValueError] of [KMeans] on fewer than ten
      complete customers and the [KeyError] of [mode()[0]] on a segment
      without any state or city ([Segmentacao.v]), and one NULL id that
      makes every [NOT IN] unknown;
    - equivalences: [MAX]-based and [NOT IN]-based churn; the chart tables
      of [graficos_churn_individuais.py] and the printed tables of
      [analise_churn_fatores_completa.py]; the truncated age
      and the calendar age; numpy's and SQLite's rounding of the month
      columns; successive [.loc] assignments and one priority rule; pandas'
      [nlargest] and the first rows of an [ORDER BY];
    - bounds and safety: percentages in [0, 100], shares that add up to 100
      up to rounding, no NULL share unless the denominator is 0, a finite
      utilisation when limits are at least a cent, and an infinite one,
      labelled critical, when they sum to 0, a top 10% never empty (the
      0.9 quantile is at most the largest income, [RendaIdade.v]); the
      validation queries' rates are percentages, NULL exactly on an empty
      table, [vw_analise_churn] has one row per distinct customer id, and
      the per-band table has one row per band, totals adding up to the view
      and a decreasing rate ([Validacao.v]); the "top 20%" above
      [quantile(0.8)] holds at most [n - 1 - floor(0.8 (n - 1))] rows and none
      when all spend the same ([Persona.v]); the monthly churn of the
      statistical analysis averages only the months with a drop, so it is
      in (0, 100) and at least the mean of all monthly changes
      ([Estatistica.v]); the segment sizes add up to the clustered
      customers, at most five segments, each share a percentage
      ([Segmentacao.v]);
    - roundtrip: the timestamp text [criar_banco_sqlite.py] writes parses
      back in SQLite to the same date and time, and [JULIANDAY] of it is
      the pandas instant ([Banco.v], [data_ida_volta]);
    - liveness: [main] of the complete analysis reaches its report.

    Modelling choices and bounds:
    - TEXT columns are strings compared bytewise (SQLite's BINARY
      collation); dates stay TEXT in the SQL models, as in the database;
    - REAL and float64 values are exact rationals [Q]; only the rounding
      functions ([ROUND], [np.round]) and float64 division by zero ([inf],
      [NaN]) are modelled, and the theorems that depend on the difference
      (the age and month columns) check it;
    - the date theorems hold over the years 2000-2099 ([Dates.ano_min],
      [Dates.ano_max]), which contain every date of the data, and the age
      theorem over birth dates 1900-2024; both ranges are checked
      exhaustively with [all_from] and [vm_compute];
    - SQLite and pandas leave the order of tied rows unspecified; the
      models keep them in input order, and no theorem depends on it beyond
      sortedness and permutation;
    - pandas sorts the keys of [groupby]; the models keep the groups in
      order of first appearance, and the theorems speak of each group;
    - every loop of the scripts is a [for] over a finite table or list, and
      every definition here is structurally recursive, so termination is
      by construction and no fuel is needed; no theorem states it.

    Not modelled: chart rendering (matplotlib, seaborn, plotly) and console
    printing, which only output the computed tables; CSV and SQLite I/O;
    the benchmarking and market-share scripts ([src/analise-1B],
    [src/analise-2B], [src/marketSaher]), whose data are literals; the
    k-means algorithm, the scaling, the correlation matrix and the PCA of
    [src/analise_segmentacao.py] (scikit-learn, which the script only
    calls); the four chart
    functions of [analise_persona_clientes.py]; the literal benchmarking
    tables of hypotheses 3 and 4 of [analise_profunda_hipoteses.py]; the
    recovery projections of [src/analiseProfunda/solucoes_estrategicas_recovery.py],
    computed from literal numbers without reading any data; analyses 1-3
    of [src/analiseProfunda/analise_estatistica_completa.py] (scipy's
    [pearsonr] and [linregress] on literal tables), the t-tests and
    p-values of the other scripts, and the square roots of standard
    deviations;
    [src/relatorio_correcoes_implementadas.py], which prints fixed text. *)

From stdpp Require Import base list.
From Stdlib Require Import ZArith Lia.

Declare Scope churn_scope.
Delimit Scope churn_scope with churn.

Create HintDb churn.
Create Rewrite HintDb churn_rw.

(** ** Counting rows that satisfy a boolean test *)

(** [count_if p l] is the number of elements of [l] on which [p] holds; it
    is what [COUNT(CASE WHEN p THEN 1 END)] and pandas' [sum] of a boolean
    column compute. *)
Definition count_if {A} (p : A -> bool) (l : list A) : nat :=
  length (List.filter p l).

Notation "#[ p ] l" := (count_if p l)
  (at level 10, p at level 200, l at level 9) : churn_scope.

Open Scope churn_scope.

Section Counting.
  Context {A : Type}.
  Implicit Types (p q : A -> bool) (l : list A).

Lemma count_if_nil p : #[p] [] = 0.
  Proof. reflexivity. Qed.

Lemma count_if_cons p x l :
#[p] (x :: l) = (if p x then 1 else 0) + #[p] l.
  Proof. unfold count_if; simpl; destruct (p x); reflexivity. Qed.

Lemma count_if_app p l1 l2 : #[p] (l1 ++ l2) = #[p] l1 + #[p] l2.
  Proof. unfold count_if. rewrite List.filter_app, length_app. reflexivity. Qed.

Lemma count_if_le p l : #[p] l <= length l.
  Proof.
    induction l as [|x l IH]; [done|]. rewrite count_if_cons; simpl.
    destruct (p x); lia.
  Qed.

  (** Two tests that agree on the elements of [l] count the same. *)
Lemma count_if_ext_in p q l :
    (forall x, In x l -> p x = q x) -> #[p] l = #[q] l.
  Proof.
    induction l as [|x l IH]; intros H; [done|].
    rewrite !count_if_cons, H by (left; done).
    rewrite IH; [done|]. intros y Hy; apply H; right; done.
  Qed.

  (** Splitting a count by a second test. *)
Lemma count_if_split p q l :
#[p] l = #[fun x => p x && q x] l + #[fun x => p x && negb (q x)] l.
  Proof.
    induction l as [|x l IH]; [done|]. rewrite !count_if_cons, IH.
    destruct (p x), (q x); simpl; lia.
  Qed.

Lemma count_if_true p l :
    (forall x, In x l -> p x = true) -> #[p] l = length l.
  Proof.
    intros H. rewrite (count_if_ext_in p (fun _ => true)) by done.
    unfold count_if. rewrite List.filter_true. reflexivity.
  Qed.

Lemma count_if_false p l :
    (forall x, In x l -> p x = false) -> #[p] l = 0.
  Proof.
    intros H. rewrite (count_if_ext_in p (fun _ => false)) by done.
    clear H. unfold count_if. induction l as [|x l IH]; simpl; done.
  Qed.

Lemma count_if_mono p q l :
    (forall x, In x l -> p x = true -> q x = true) -> #[p] l <= #[q] l.
  Proof.
    induction l as [|x l IH]; intros H; [done|]. rewrite !count_if_cons.
    assert (#[p] l <= #[q] l) by (apply IH; intros; apply H; [right|]; done).
    destruct (p x) eqn:E; [|destruct (q x); lia].
    rewrite (H x (or_introl eq_refl) E). lia.
  Qed.

Lemma count_if_pos p l x : In x l -> p x = true -> 1 <= #[p] l.
  Proof.
    induction l as [|y l IH]; intros Hx Hp; [done|]. rewrite count_if_cons.
    destruct Hx as [<-|Hx]; [rewrite Hp; lia|]. specialize (IH Hx Hp). lia.
  Qed.

  (** Two different elements on which the test holds are counted twice. *)
Lemma count_if_two p l x y :
    In x l -> In y l -> x <> y -> p x = true -> p y = true -> 2 <= #[p] l.
  Proof.
    induction l as [|z l IH]; intros Hx Hy Hxy Hpx Hpy; [done|]. rewrite count_if_cons.
    destruct Hx as [<-|Hx], Hy as [<-|Hy]; [done| | |].
    - rewrite Hpx. pose proof (count_if_pos p l y Hy Hpy). lia.
    - rewrite Hpy. pose proof (count_if_pos p l x Hx Hpx). lia.
    - specialize (IH Hx Hy Hxy Hpx Hpy). lia.
  Qed.

Lemma count_if_map {B} p (f : B -> A) (l : list B) :
#[p] (map f l) = #[fun x => p (f x)] l.
  Proof.
    unfold count_if. induction l as [|x l IH]; [done|]. simpl.
    destruct (p (f x)); simpl; rewrite IH; reflexivity.
  Qed.

Lemma count_if_sum p l : #[p] l = sum_list_with (fun x => if p x then 1 else 0) l.
  Proof. induction l as [|x l IH]; [done|]. rewrite count_if_cons, IH. done. Qed.

Lemma count_if_repeat p x n : #[p] (repeat x n) = if p x then n else 0.
  Proof.
    induction n as [|n IH]; [destruct (p x); done|].
    cbn [repeat]. rewrite count_if_cons, IH. destruct (p x); lia.
  Qed.

Lemma count_if_flat_map {B} p (f : B -> list A) (l : list B) :
#[p] (flat_map f l) = sum_list_with (fun b => #[p] (f b)) l.
  Proof. induction l as [|b l IH]; [done|]. simpl. rewrite count_if_app, IH. done. Qed.

  (** Three pairwise exclusive and jointly exhaustive tests partition a count. *)
Lemma count_if_partition3 p1 p2 p3 l :
    (forall x, In x l ->
       (if p1 x then 1 else 0) + (if p2 x then 1 else 0) + (if p3 x then 1 else 0) = 1) ->
#[p1] l + #[p2] l + #[p3] l = length l.
  Proof.
    induction l as [|x l IH]; intros H; [done|]. rewrite !count_if_cons.
    specialize (H x (or_introl eq_refl)) as Hx.
    assert (#[p1] l + #[p2] l + #[p3] l = length l)
      by (apply IH; intros; apply H; right; done).
    simpl. lia.
  Qed.

  (** Counts do not depend on the order of the rows: a table is a bag. *)
#[export] Instance count_if_perm p : Proper ((≡ₚ) ==> (=)) (count_if p).
  Proof.
    induction 1 as [| x l1 l2 _ IH | x y l | l1 l2 l3 _ IH1 _ IH2].
    - done.
    - rewrite !count_if_cons, IH. done.
    - rewrite !count_if_cons. lia.
    - congruence.
  Qed.
End Counting.

(** Counting inside a filter is counting both tests. *)
Lemma count_if_filter {A} (p q : A -> bool) l :
  #[q] (List.filter p l) = #[fun x => p x && q x] l.
Proof.
  unfold count_if. induction l as [|x l IH]; [done|]. cbn.
  destruct (p x); cbn; [destruct (q x)|]; cbn; rewrite ?IH; done.
Qed.

(** Counting the results of an [omap]: the elements whose image is a
    value that passes the test. *)
Lemma count_if_omap {A B} (p : B -> bool) (f : A -> option B) l :
  #[p] (omap f l) = #[fun x => match f x with Some y => p y | None => false end] l.
Proof.
  induction l as [|x l IH]; [done|]. rewrite count_if_cons, <- IH. cbn.
  destruct (f x); [apply count_if_cons|done].
Qed.

#[export] Hint Rewrite @count_if_nil @count_if_cons @count_if_app : churn_rw.
#[export] Hint Resolve count_if_le : churn.

(** ** Counting the members of a sub-list *)

Section Members.
Context `{EqDecision A}.

(** In a duplicate-free list [b], the elements that belong to a
    duplicate-free [a] contained in [b] are as many as [a] has. *)
Lemma count_if_members (a b : list A) :
  List.NoDup a -> List.NoDup b -> (forall x, In x a -> In x b) ->
#[fun x => bool_decide (x ∈ a)] b = length a.
Proof.
  intros Ha Hb Hab. unfold count_if. apply Permutation_length, Stdlib.Sorting.Permutation.NoDup_Permutation.
  - apply List.NoDup_filter. done.
  - done.
  - intros x. rewrite filter_In, bool_decide_eq_true, list_elem_of_In. split; [tauto|].
    intros Hx. split; [apply Hab|]; done.
Qed.

(** The intersection of two duplicate-free lists, counted from either side. *)
Lemma count_if_inter_sym (a b : list A) :
  List.NoDup a -> List.NoDup b ->
#[fun x => bool_decide (x ∈ a)] b = #[fun x => bool_decide (x ∈ b)] a.
Proof.
  intros Ha Hb. unfold count_if. apply Permutation_length, Stdlib.Sorting.Permutation.NoDup_Permutation.
  - apply List.NoDup_filter. done.
  - apply List.NoDup_filter. done.
  - intros x. rewrite !filter_In, !bool_decide_eq_true, !list_elem_of_In. tauto.
Qed.

Lemma count_if_complement p (l : list A) :
#[fun x => negb (p x)] l = length l - #[p] l.
Proof.
  induction l as [|x l IH]; [done|]. rewrite !count_if_cons, IH. simpl.
  pose proof (count_if_le p l). destruct (p x); simpl; lia.
Qed.
End Members.

(** ** Sums over lists *)

Section Sums.
Context {A B : Type}.

Lemma sum_list_with_map (f : B -> nat) (g : A -> B) l :
  sum_list_with f (map g l) = sum_list_with (fun x => f (g x)) l.
Proof. induction l as [|x l IH]; simpl; [done|]. rewrite IH. done. Qed.

Lemma sum_list_with_ext_in (f g : A -> nat) l :
  (forall x, In x l -> f x = g x) -> sum_list_with f l = sum_list_with g l.
Proof.
  induction l as [|x l IH]; intros H; simpl; [done|].
  rewrite (H x (or_introl eq_refl)), IH; [done|]. intros; apply H; right; done.
Qed.

Lemma sum_list_with_add (f g : A -> nat) l :
  sum_list_with (fun x => f x + g x) l = sum_list_with f l + sum_list_with g l.
Proof. induction l as [|x l IH]; simpl; [done|]. rewrite IH. lia. Qed.

Lemma sum_list_with_zero (f : A -> nat) l :
  (forall x, In x l -> f x = 0) -> sum_list_with f l = 0.
Proof.
  induction l as [|x l IH]; intros H; simpl; [done|].
  rewrite (H x (or_introl eq_refl)), IH; [done|]. intros; apply H; right; done.
Qed.

Lemma sum_list_with_filter (f : A -> nat) (p : A -> bool) l :
  sum_list_with f (List.filter p l) = sum_list_with (fun x => if p x then f x else 0) l.
Proof. induction l as [|x l IH]; simpl; [done|]. destruct (p x); simpl; rewrite IH; done. Qed.

Lemma sum_list_with_omap (f : B -> nat) (g : A -> option B) l :
  sum_list_with f (omap g l) = sum_list_with (fun x => match g x with Some y => f y | None => 0 end) l.
Proof. induction l as [|x l IH]; cbn; [done|]. destruct (g x); cbn; rewrite IH; done. Qed.

Lemma sum_list_with_mul_l (c : nat) (f : A -> nat) l :
  sum_list_with (fun x => c * f x) l = c * sum_list_with f l.
Proof. induction l as [|x l IH]; simpl; [lia|]. rewrite IH. lia. Qed.

End Sums.

(** Two finite sums commute. *)
Lemma sum_list_with_swap {A B} (g : A -> B -> nat) (l : list A) (m : list B) :
  sum_list_with (fun a => sum_list_with (g a) m) l =
  sum_list_with (fun b => sum_list_with (fun a => g a b) l) m.
Proof.
  induction l as [|a l IH]; simpl.
  - clear. induction m; simpl; lia.
  - rewrite IH. symmetry. apply (sum_list_with_add (g a) (fun b => sum_list_with (fun a0 => g a0 b) l)).
Qed.

(** [omap] drops every element exactly when each maps to [None]. *)
Lemma omap_nil_iff {A B} (f : A -> option B) (l : list A) :
  omap f l = [] <-> forall x, In x l -> f x = None.
Proof.
  induction l as [|x l IH]; cbn; [naive_solver|].
  destruct (f x) eqn:E; [split; [done|]; intros H; rewrite H in E; [done|left; done]|].
  rewrite IH. naive_solver.
Qed.

(** ** Bounded exhaustive checks *)

(** [all_from n f start] checks [f] on the [n] integers from [start]; run by
    [vm_compute], it proves a property of a bounded range of integers. *)
Fixpoint all_from (n : nat) (f : Z -> bool) (start : Z) : bool :=
  match n with
  | O => true
  | S n' => f start && all_from n' f (start + 1)
  end.

Lemma all_from_spec n f start :
  all_from n f start = true -> forall x, (start <= x < start + Z.of_nat n)%Z -> f x = true.
Proof.
  revert start; induction n as [|n IH]; intros start H x Hx; simpl in *; [lia|].
  apply andb_true_iff in H as [Hs Hn].
  destruct (Z.eq_dec x start) as [->|Hne]; [done|]. apply (IH (start + 1)%Z); [done|lia].
Qed.

(** ** Tactics *)

(** Case analysis on every boolean [if] in the goal, cleaning up the
    equations it produces. *)
Ltac case_ifs :=
  repeat match goal with
         | |- context [if ?b then _ else _] =>
             let E := fresh "E" in destruct b eqn:E
         end.

(** Rewrite with the counting equations and close arithmetic. *)
Ltac count_simpl := autorewrite with churn_rw in *; simpl in *.
