(* ===== verification/Sql.v ===== *)
(** * The SQLite fragment the analysis queries use

    Every SQL script of the repository runs through [pd.read_sql_query] on the
    SQLite database built by [src/bd/criar_banco_sqlite.py].  This file gives
    the semantics of the constructs those queries use, as SQLite evaluates
    them: NULL as [None], three-valued conditions ([sbool]), the comparisons
    of a column type ([SqlOrd]), [IN]/[NOT IN] with NULLs, [DISTINCT],
    [LEFT JOIN] with bag semantics, [GROUP BY], [COUNT(CASE WHEN ...)] and
    [ROUND]. *)

From stdpp Require Import base list sets.
From Stdlib Require Import ZArith QArith Qround String Lia Lqa OrderedTypeEx Sorting.Sorted.
From S2P Require Import Prelude.

Local Abbreviation length := Datatypes.length.
Local Open Scope nat_scope.

Declare Scope sql_scope.
Delimit Scope sql_scope with sql.

Module Sql.

(** ** Three-valued logic *)

(** A SQL condition is TRUE, FALSE or UNKNOWN; UNKNOWN is [None]. *)
Definition sbool := option bool.

Definition s_and (a b : sbool) : sbool :=
  match a, b with
  | Some false, _ | _, Some false => Some false
  | Some true, Some true => Some true
  | _, _ => None
  end.

Definition s_or (a b : sbool) : sbool :=
  match a, b with
  | Some true, _ | _, Some true => Some true
  | Some false, Some false => Some false
  | _, _ => None
  end.

Definition s_not (a : sbool) : sbool := option_map negb a.

(** [WHERE], [ON], [HAVING] and [CASE WHEN] keep a row only when the
    condition is TRUE: UNKNOWN behaves as FALSE there. *)
Definition holds (a : sbool) : bool :=
  match a with Some true => true | _ => false end.

Definition is_null {A} (x : option A) : bool :=
  match x with None => true | Some _ => false end.

Infix "&&&" := s_and (at level 40, left associativity) : sql_scope.
Infix "|||" := s_or (at level 50, left associativity) : sql_scope.
Open Scope sql_scope.

(** ** Ordered column types *)

(** The comparison SQLite applies to two non-NULL values of a column type:
    a strict weak order ([Q] compares up to [Qeq]; [Z] and TEXT are total). *)
Class SqlOrd (A : Type) := {
  sql_ltb : A -> A -> bool;
  sql_ltb_irrefl : forall a, sql_ltb a a = false;
  sql_ltb_trans : forall a b c,
    sql_ltb a b = true -> sql_ltb b c = true -> sql_ltb a c = true;
  sql_ltb_weak : forall a b c,
    sql_ltb a c = true -> sql_ltb a b = true \/ sql_ltb b c = true
}.

Section Compare.
  Context {A : Type} `{SqlOrd A}.

Definition s_lt (x y : option A) : sbool :=
    match x, y with Some a, Some b => Some (sql_ltb a b) | _, _ => None end.
Definition s_gt (x y : option A) : sbool := s_lt y x.
Definition s_le (x y : option A) : sbool :=
    match x, y with Some a, Some b => Some (negb (sql_ltb b a)) | _, _ => None end.
Definition s_ge (x y : option A) : sbool := s_le y x.
(** Numeric [x = y]: equal when neither is smaller (1.0 = 1 for REAL). *)
Definition s_eqv (x y : option A) : sbool :=
  match x, y with
  | Some a, Some b => Some (negb (sql_ltb a b) && negb (sql_ltb b a))
  | _, _ => None
  end.
(** [x BETWEEN lo AND hi] is [x >= lo AND x <= hi]. *)
Definition s_between (x lo hi : option A) : sbool := s_ge x lo &&& s_le x hi.

Lemma s_lt_null_l y : s_lt None y = None.
  Proof. reflexivity. Qed.

Lemma sql_ltb_asym a b : sql_ltb a b = true -> sql_ltb b a = false.
  Proof.
    intros Hab. destruct (sql_ltb b a) eqn:Hba; [|done].
    pose proof (sql_ltb_trans _ _ _ Hab Hba). rewrite sql_ltb_irrefl in *. done.
  Qed.

  (** Negative transitivity, the form in which [sql_ltb_weak] is used. *)
Lemma sql_ltb_not_trans a b c :
    sql_ltb a b = false -> sql_ltb b c = false -> sql_ltb a c = false.
  Proof.
    intros Hab Hbc. destruct (sql_ltb a c) eqn:Hac; [|done].
    destruct (sql_ltb_weak a b c Hac); congruence.
  Qed.
End Compare.

(** INTEGER columns. *)
Lemma Z_ltb_trans a b c : (a <? b)%Z = true -> (b <? c)%Z = true -> (a <? c)%Z = true.
Proof. rewrite !Z.ltb_lt. lia. Qed.

Lemma Z_ltb_weak a b c :
  (a <? c)%Z = true -> (a <? b)%Z = true \/ (b <? c)%Z = true.
Proof. rewrite !Z.ltb_lt. lia. Qed.

#[export] Instance sqlord_Z : SqlOrd Z :=
  {| sql_ltb := Z.ltb; sql_ltb_irrefl := Z.ltb_irrefl;
     sql_ltb_trans := Z_ltb_trans; sql_ltb_weak := Z_ltb_weak |}.

(** REAL columns, compared as exact rationals. *)
Definition Qltb (a b : Q) : bool := negb (Qle_bool b a).

Lemma Qltb_iff a b : Qltb a b = true <-> (a < b)%Q.
Proof.
  unfold Qltb. rewrite negb_true_iff, <- not_true_iff_false, Qle_bool_iff.
  split; [apply Qnot_le_lt | apply Qlt_not_le].
Qed.

Lemma Qltb_spec a b : BoolSpec (a < b)%Q (b <= a)%Q (Qltb a b).
Proof.
  destruct (Qltb a b) eqn:E; constructor.
  - apply Qltb_iff. done.
  - apply Qnot_lt_le. rewrite <- Qltb_iff, E. done.
Qed.


Lemma Qltb_irrefl a : Qltb a a = false.
Proof. apply not_true_iff_false. rewrite Qltb_iff. apply Qlt_irrefl. Qed.

Lemma Qltb_trans a b c : Qltb a b = true -> Qltb b c = true -> Qltb a c = true.
Proof. rewrite !Qltb_iff. apply Qlt_trans. Qed.

Lemma Qltb_weak a b c : Qltb a c = true -> Qltb a b = true \/ Qltb b c = true.
Proof.
  rewrite !Qltb_iff. intros Hac.
  destruct (Qlt_le_dec a b); [left; done|right]. eapply Qle_lt_trans; eauto.
Qed.

#[export] Instance sqlord_Q : SqlOrd Q :=
  {| sql_ltb := Qltb; sql_ltb_irrefl := Qltb_irrefl;
     sql_ltb_trans := Qltb_trans; sql_ltb_weak := Qltb_weak |}.

(** Rows holding REAL values are compared for [DISTINCT] and [GROUP BY]. *)
#[export] Instance Q_eq_dec : EqDecision Q.
Proof. intros [a b] [c d]. unfold Decision. decide equality; apply Pos.eq_dec || apply Z.eq_dec. Defined.

(** TEXT columns: SQLite's BINARY collation compares the bytes, which on
    ASCII text is [String.compare]. *)
Definition str_ltb (a b : string) : bool :=
  match String.compare a b with Lt => true | _ => false end.

Lemma str_ltb_lt a b : str_ltb a b = true <-> String_as_OT.lt a b.
Proof.
  unfold str_ltb. rewrite <- String_as_OT.cmp_lt. unfold String_as_OT.cmp.
  destruct (String.compare a b); split; done.
Qed.

Lemma str_compare_cases a b :
  str_ltb a b = true \/ a = b \/ str_ltb b a = true.
Proof.
  unfold str_ltb. rewrite (String.compare_antisym b a).
  destruct (String.compare a b) eqn:E; simpl; auto.
  right; left. apply String.compare_eq_iff. done.
Qed.

Lemma str_ltb_irrefl a : str_ltb a a = false.
Proof.
  apply not_true_iff_false. rewrite str_ltb_lt. intros H.
  exact (String_as_OT.lt_not_eq a a H eq_refl).
Qed.

Lemma str_ltb_trans a b c : str_ltb a b = true -> str_ltb b c = true -> str_ltb a c = true.
Proof. rewrite !str_ltb_lt. apply String_as_OT.lt_trans. Qed.

Lemma str_ltb_weak a b c : str_ltb a c = true -> str_ltb a b = true \/ str_ltb b c = true.
Proof.
  intros Hac. destruct (str_compare_cases a b) as [|[->|Hba]]; [left; done|right; done|].
  right. eapply str_ltb_trans; eauto.
Qed.

#[export] Instance sqlord_string : SqlOrd string :=
  {| sql_ltb := str_ltb; sql_ltb_irrefl := str_ltb_irrefl;
     sql_ltb_trans := str_ltb_trans; sql_ltb_weak := str_ltb_weak |}.

(** ** [IN] and [NOT IN] *)

(** SQLite: [x IN ()] is FALSE; [NULL IN (non-empty)] is NULL; a match is
    TRUE; otherwise a NULL in the list makes the result NULL. *)
Definition s_in `{EqDecision A} (x : option A) (l : list (option A)) : sbool :=
  match l with
  | [] => Some false
  | _ :: _ =>
      match x with
      | None => None
      | Some a =>
          if existsb (fun y => bool_decide (y = Some a)) l then Some true
          else if existsb is_null l then None else Some false
      end
  end.

Definition s_not_in `{EqDecision A} (x : option A) (l : list (option A)) : sbool :=
  s_not (s_in x l).

(** [x = y] on nullable values: UNKNOWN when either side is NULL. *)
Definition s_eq `{EqDecision A} (x y : option A) : sbool :=
  match x, y with Some a, Some b => Some (bool_decide (a = b)) | _, _ => None end.

(** [CASE WHEN c1 THEN v1 WHEN c2 THEN v2 ... ELSE d END]: the first
    branch whose condition is TRUE; a NULL condition does not select. *)
Fixpoint case_when {A} (bs : list (sbool * A)) (d : A) : A :=
  match bs with
  | [] => d
  | (c, v) :: bs' => if holds c then v else case_when bs' d
  end.

(** ** Relational operators on bags of rows *)

(** [SELECT DISTINCT]: duplicate rows removed (NULLs compare equal here). *)
Definition distinct `{EqDecision A} (l : list A) : list A := remove_dups l.

(** [SELECT ... FROM l WHERE c]. *)
Definition where_ {A} (c : A -> sbool) (l : list A) : list A :=
  List.filter (fun r => holds (c r)) l.

(** [l LEFT JOIN r ON c]: each left row with every right row on which the
    condition is TRUE, or once with NULLs when there is none. *)
Definition left_join {A B} (c : A -> B -> sbool) (l : list A) (r : list B)
  : list (A * option B) :=
  flat_map (fun a =>
              match List.filter (fun b => holds (c a b)) r with
              | [] => [(a, None)]
              | ms => map (fun b => (a, Some b)) ms
              end) l.

(** [l INNER JOIN r ON c]. *)
Definition inner_join {A B} (c : A -> B -> sbool) (l : list A) (r : list B)
  : list (A * B) :=
  flat_map (fun a => map (fun b => (a, b)) (List.filter (fun b => holds (c a b)) r)) l.

(** [l1 UNION l2]: the rows of both, duplicates removed. *)
Definition union `{EqDecision A} (l1 l2 : list A) : list A := distinct (l1 ++ l2).

(** [COUNT(CASE WHEN c THEN 1 END)]. *)
Definition count_when {A} (c : A -> sbool) (l : list A) : nat :=
#[fun r => holds (c r)] l.

(** [GROUP BY key]: one group per distinct key, holding the rows with that
    key, in the order of the input. *)
Definition group_of `{EqDecision K} {A} (key : A -> K) (k : K) (l : list A) : list A :=
  List.filter (fun r => bool_decide (key r = k)) l.

Definition group_by `{EqDecision K} {A} (key : A -> K) (l : list A) : list (K * list A) :=
  map (fun k => (k, group_of key k l)) (remove_dups (map key l)).

(** [MAX(col)]: the largest non-NULL value, NULL when there is none. *)
Definition s_max `{SqlOrd A} (x y : option A) : option A :=
  match x, y with
  | None, _ => y
  | _, None => x
  | Some a, Some b => if sql_ltb a b then Some b else Some a
  end.

Definition max_col `{SqlOrd A} (l : list (option A)) : option A :=
  fold_right s_max None l.

(** [MIN(col)]: the smallest non-NULL value, NULL when there is none. *)
Definition s_min `{SqlOrd A} (x y : option A) : option A :=
  match x, y with
  | None, _ => y
  | _, None => x
  | Some a, Some b => if sql_ltb b a then Some b else Some a
  end.

Definition min_col `{SqlOrd A} (l : list (option A)) : option A :=
  fold_right s_min None l.

(** The value of a column of the right table in a [LEFT JOIN] row: NULL
    when the row found no match. *)
Definition coluna {A} (m : option (option A)) : option A :=
  match m with Some v => v | None => None end.

(** [COUNT(col)]: the non-NULL values. *)
Definition count_col {A} (l : list (option A)) : nat := #[fun v => negb (is_null v)] l.

(** The non-NULL values of a column, which [SUM] and [AVG] read. *)
Definition nao_nulos {A} (l : list (option A)) : list A := omap id l.

(** [SUM(col)] of an INTEGER or a REAL column: NULL when every value is
    NULL. *)
Definition sum_col_Z (l : list (option Z)) : option Z :=
  match nao_nulos l with [] => None | xs => Some (fold_right Z.add 0%Z xs) end.

Definition sum_col (l : list (option Q)) : option Q :=
  match nao_nulos l with [] => None | xs => Some (fold_right Qplus 0%Q xs) end.

(** [AVG(col)]: the sum of the non-NULL values over their number. *)
Definition avg_col (l : list (option Q)) : option Q :=
  match nao_nulos l with
  | [] => None
  | xs => Some (fold_right Qplus 0%Q xs / inject_Z (Z.of_nat (length xs)))%Q
  end.

(** [COUNT(DISTINCT col)]: the distinct non-NULL values. *)
Definition count_distinct `{EqDecision A} (l : list (option A)) : nat := length (distinct (nao_nulos l)).

(** [ORDER BY]: [lt a b] when [a] sorts strictly before [b].  SQLite leaves
    the order of tied rows unspecified; the model keeps them in their input
    order (an insertion sort), and the theorems that use it do not depend on
    that choice beyond the sortedness and the permutation lemmas. *)
Fixpoint insere_ord {A} (lt : A -> A -> bool) (x : A) (l : list A) : list A :=
  match l with
  | [] => [x]
  | y :: l' => if lt y x then y :: insere_ord lt x l' else x :: y :: l'
  end.

Definition order_by {A} (lt : A -> A -> bool) (l : list A) : list A :=
  fold_right (insere_ord lt) [] l.

(** [ORDER BY col DESC] on a REAL column: SQLite sorts NULL below every
    number, so in descending order the NULLs come last. *)
Definition desc_nulos_ultimos {A} (f : A -> option Q) (a b : A) : bool :=
  match f a, f b with
  | Some x, Some y => Qltb y x
  | Some _, None => true
  | None, _ => false
  end.

(** ** [ROUND(x, d)]: half away from zero, at [d] decimal digits *)

Definition sql_round (x : Q) (d : nat) : Q :=
  let s := inject_Z (10 ^ Z.of_nat d) in
  if Qle_bool 0 x then (inject_Z (Qfloor (x * s + (1 # 2))) / s)%Q
  else (- (inject_Z (Qfloor (- x * s + (1 # 2))) / s))%Q.


(** ** Properties of the fragment *)

Lemma holds_s_eq `{EqDecision A} (x y : option A) :
  holds (s_eq x y) = true <-> x = y /\ x <> None.
Proof.
  destruct x as [a|], y as [b|]; simpl.
  - destruct (decide (a = b)) as [->|Hne].
    + rewrite bool_decide_true by done. done.
    + rewrite bool_decide_false by done. split; [done|]. intros [[=] _]; done.
  - split; [done|]. intros [[=] _].
  - split; [done|]. intros [[=] _].
  - split; [done|]. intros [_ H]; done.
Qed.

Lemma holds_s_and a b : holds (a &&& b) = holds a && holds b.
Proof. destruct a as [[]|], b as [[]|]; reflexivity. Qed.

Lemma holds_s_not_some b : holds (s_not (Some b)) = negb b.
Proof. destruct b; reflexivity. Qed.

Lemma In_where {A} (c : A -> sbool) l x : In x (where_ c l) <-> In x l /\ holds (c x) = true.
Proof. apply filter_In. Qed.

Lemma In_distinct `{EqDecision A} (l : list A) x : In x (distinct l) <-> In x l.
Proof. unfold distinct. rewrite <- !list_elem_of_In. apply elem_of_remove_dups. Qed.

(** [DISTINCT] leaves a duplicate-free table as it is. *)
Lemma distinct_id `{EqDecision A} (l : list A) : List.NoDup l -> distinct l = l.
Proof.
  unfold distinct. induction 1 as [|x l Hx _ IH]; [done|]. simpl.
  case_decide as Hin; [rewrite list_elem_of_In in Hin; done|]. rewrite IH. done.
Qed.

Lemma NoDup_distinct `{EqDecision A} (l : list A) : List.NoDup (distinct l).
Proof. apply NoDup_ListNoDup, NoDup_remove_dups. Qed.

(** In a duplicate-free list at most one element equals a given value. *)
Lemma NoDup_filter_eq_le1 `{EqDecision A} (l : list A) (p : A -> bool) :
  List.NoDup l -> (forall a b, p a = true -> p b = true -> a = b) ->
  length (List.filter p l) <= 1.
Proof.
  intros Hnd Hp. induction Hnd as [|x l Hx Hnd IH]; simpl; [lia|].
  destruct (p x) eqn:E; [|exact IH]. simpl.
  pose proof (count_if_false p l) as Hf. unfold count_if in Hf.
  rewrite Hf; [lia|]. intros y Hy. destruct (p y) eqn:Ey; [|done]. rewrite (Hp x y E Ey) in Hx. done.
Qed.

(** [s_in] on a non-NULL value: TRUE exactly on a match. *)
Lemma holds_s_in `{EqDecision A} (x : option A) l :
  holds (s_in x l) = true <-> exists a, x = Some a /\ In (Some a) l.
Proof.
  unfold s_in. destruct l as [|y l]; [split; [discriminate|intros (? & _ & [])]|].
  set (l' := y :: l).
  destruct x as [a|]; [|split; [discriminate|intros (? & [=] & _)]].
  destruct (existsb (fun z => bool_decide (z = Some a)) l') eqn:E.
  - split; [intros _|done]. apply existsb_exists in E as (z & Hz & Hzb).
    apply bool_decide_eq_true in Hzb. subst. exists a. done.
  - split; [destruct (existsb is_null l'); discriminate|]. intros (b & [= <-] & Hb).
    assert (existsb (fun z => bool_decide (z = Some a)) l' = true) as E'
      by (apply existsb_exists; exists (Some a); rewrite bool_decide_true; done).
    congruence.
Qed.

(** [x NOT IN l] is TRUE when [l] is empty, or when [x] is a non-NULL
    value absent from [l] and [l] holds no NULL. *)
Lemma holds_s_not_in `{EqDecision A} (x : option A) l :
  holds (s_not_in x l) = true <->
  l = [] \/ (exists a, x = Some a /\ ~ In (Some a) l /\ ~ In None l).
Proof.
  unfold s_not_in, s_in. destruct l as [|y l]; [split; [left; done|done]|].
  set (l' := y :: l).
  destruct x as [a|]; [|split; [discriminate|intros [[=]|(? & [=] & _)]]].
  destruct (existsb (fun z => bool_decide (z = Some a)) l') eqn:E1;
    [|destruct (existsb is_null l') eqn:E2]; simpl.
  - split; [done|]. intros [[=]|(b & [= <-] & Hn & _)].
    apply existsb_exists in E1 as (z & Hz & Hzb). apply bool_decide_eq_true in Hzb.
    subst. done.
  - split; [done|]. intros [[=]|(b & _ & _ & Hn)].
    apply existsb_exists in E2 as (z & Hz & Hzb). destruct z; [done|]. done.
  - split; [intros _; right|done]. exists a. split; [done|]. split.
    + intros Hin. assert (existsb (fun z => bool_decide (z = Some a)) l' = true)
        by (apply existsb_exists; exists (Some a); rewrite bool_decide_true; done).
      congruence.
    + intros Hin. assert (existsb is_null l' = true)
        by (apply existsb_exists; exists None; done). congruence.
Qed.

(** [x NOT IN l] stays TRUE on a sublist of [l]. *)
Lemma s_not_in_incl `{EqDecision A} (x : option A) (l1 l2 : list (option A)) :
  (forall y, In y l1 -> In y l2) -> holds (s_not_in x l2) = true -> holds (s_not_in x l1) = true.
Proof.
  intros Hincl. rewrite !holds_s_not_in. intros [->|(a & -> & Ha & Hn)].
  - left. destruct l1 as [|y l1]; [done|]. exfalso. apply (Hincl y). left. done.
  - destruct l1 as [|y l1]; [left; done|]. right. exists a. split; [done|].
    split; intros H; [apply Ha|apply Hn]; apply Hincl; done.
Qed.

(** A row of a [LEFT JOIN] comes from a left row, with a matching right row
    or with NULLs when nothing matches. *)
Lemma In_left_join {A B} (c : A -> B -> sbool) l r a m :
  In (a, m) (left_join c l r) ->
  In a l /\ match m with
            | Some b => In b r /\ holds (c a b) = true
            | None => forall b, In b r -> holds (c a b) = false
            end.
Proof.
  unfold left_join. rewrite in_flat_map. intros (a' & Ha' & Hin). 
  destruct (List.filter _ r) as [|b0 ms] eqn:E.
  - destruct Hin as [[= <- <-]|[]]. split; [done|]. intros b Hb.
    destruct (holds (c a' b)) eqn:Hc; [|done].
    assert (In b (List.filter (fun b => holds (c a' b)) r)) by (apply filter_In; done).
    rewrite E in *. done.
  - apply in_map_iff in Hin as (b & [= <- <-] & Hb). rewrite <- E in Hb.
    apply filter_In in Hb. done.
Qed.

(** A left row and a right row on which the condition holds meet in the
    [LEFT JOIN]. *)
Lemma left_join_In {A B} (c : A -> B -> sbool) l r a b :
  In a l -> In b r -> holds (c a b) = true -> In (a, Some b) (left_join c l r).
Proof.
  intros Ha Hb Hc. unfold left_join. apply in_flat_map. exists a. split; [done|].
  assert (In b (List.filter (fun b => holds (c a b)) r)) as Hf by (apply filter_In; done).
  destruct (List.filter _ r); [done|]. apply in_map_iff. exists b. done.
Qed.

(** When each left row has at most one match, the join keeps every left
    row exactly once, paired with its first match. *)
Lemma left_join_unique {A B} (c : A -> B -> sbool) l r :
  (forall a, In a l -> length (List.filter (fun b => holds (c a b)) r) <= 1) ->
  left_join c l r = map (fun a => (a, List.find (fun b => holds (c a b)) r)) l.
Proof.
  unfold left_join. induction l as [|a l IH]; intros H; [done|]. cbn [flat_map].
  rewrite IH by (intros; apply H; right; done).
  specialize (H a (or_introl eq_refl)).
  assert (forall r', length (List.filter (fun b => holds (c a b)) r') <= 1 ->
          match List.filter (fun b => holds (c a b)) r' with
          | [] => [(a, None)] | ms => map (fun b => (a, Some b)) ms end
          = [(a, List.find (fun b => holds (c a b)) r')]) as Hgen.
  { clear H IH. induction r' as [|b r' IHr]; [done|]. simpl.
    destruct (holds (c a b)) eqn:E; simpl.
    - intros Hle. destruct (List.filter _ r') eqn:E'; [done|simpl in Hle; lia].
    - intros Hle. apply IHr; done. }
  rewrite (Hgen r H). reflexivity.
Qed.

(** ** Grouping *)

Lemma group_of_cons `{EqDecision K} {A} (key : A -> K) k x l :
  group_of key k (x :: l) =
  if bool_decide (key x = k) then x :: group_of key k l else group_of key k l.
Proof. reflexivity. Qed.

Lemma In_group_of `{EqDecision K} {A} (key : A -> K) k l x :
  In x (group_of key k l) <-> In x l /\ key x = k.
Proof. unfold group_of. rewrite filter_In, bool_decide_eq_true. done. Qed.

(** Summing an indicator over a duplicate-free list of keys. *)
Lemma sum_indicator `{EqDecision K} (ks : list K) k :
  NoDup ks ->
  sum_list_with (fun k' => if bool_decide (k = k') then 1 else 0) ks =
  if bool_decide (k ∈ ks) then 1 else 0.
Proof.
  induction 1 as [|k' ks Hk' _ IH]; simpl; [done|]. rewrite IH.
  repeat case_bool_decide;
    subst; set_solver.
Qed.

(** Every row of [l] is counted in exactly one group: per-group counts of
    any test add up to the count over the whole table. *)
Lemma group_by_sum `{EqDecision K} {A} (key : A -> K) (p : A -> bool) l :
  sum_list_with (fun kg => #[p] (snd kg)) (group_by key l) = #[p] l.
Proof.
  unfold group_by. rewrite sum_list_with_map. simpl.
  assert (forall ks, NoDup ks -> (forall x, In x l -> key x ∈ ks) ->
          sum_list_with (fun k => #[p] (group_of key k l)) ks = #[p] l) as Hgen.
  { intros ks Hnd. induction l as [|x l IH]; intros Hcov.
    - clear Hnd Hcov. induction ks as [|k ks IHk]; simpl in *; [done|]. lia.
    - rewrite count_if_cons, <- IH by (intros; apply Hcov; right; done).
      transitivity (sum_list_with (fun k => (if p x then 1 else 0) *
                       (if bool_decide (key x = k) then 1 else 0)
                       + #[p] (group_of key k l)) ks).
      { apply sum_list_with_ext_in. intros k _. rewrite group_of_cons.
        case_bool_decide; [rewrite count_if_cons|]; destruct (p x); lia. }
      rewrite sum_list_with_add, sum_list_with_mul_l, sum_indicator by done.
      rewrite bool_decide_true by (apply Hcov; left; done). lia. }
  apply Hgen; [apply NoDup_remove_dups|].
  intros x Hx. apply elem_of_remove_dups, list_elem_of_In, in_map. done.
Qed.

Lemma group_of_map `{EqDecision K} {A B} (key : B -> K) (f : A -> B) k l :
  group_of key k (map f l) = map f (group_of (fun x => key (f x)) k l).
Proof.
  unfold group_of. induction l as [|x l IH]; [done|]. cbn [map List.filter].
  case_bool_decide; rewrite IH; done.
Qed.

(** Grouping rows computed from a base table is grouping the base table. *)
Lemma group_by_map `{EqDecision K} {A B} (key : B -> K) (f : A -> B) l :
  group_by key (map f l) =
  map (fun kg => (fst kg, map f (snd kg))) (group_by (fun x => key (f x)) l).
Proof.
  unfold group_by. rewrite (map_map f key), map_map. apply map_ext. intros k.
  rewrite group_of_map. done.
Qed.

Lemma In_group_by `{EqDecision K} {A} (key : A -> K) l k g :
  In (k, g) (group_by key l) <-> (exists x, In x l /\ key x = k) /\ g = group_of key k l.
Proof.
  unfold group_by. rewrite in_map_iff. split.
  - intros (k' & [= <- <-] & Hk). apply list_elem_of_In, elem_of_remove_dups,
      list_elem_of_In, in_map_iff in Hk as (x & <- & Hx). split; [exists x|]; done.
  - intros ((x & Hx & <-) & ->). exists (key x). split; [done|].
    apply list_elem_of_In, elem_of_remove_dups, list_elem_of_In, in_map. done.
Qed.

(** A filter whose test is constant on a list keeps all of it or none. *)
Lemma filter_const {A} (p : A -> bool) (l : list A) b :
  (forall x, In x l -> p x = b) -> List.filter p l = if b then l else [].
Proof.
  induction l as [|x l IH]; intros H; [destruct b; done|]. simpl.
  rewrite (H x (or_introl eq_refl)), IH by (intros; apply H; right; done). destruct b; done.
Qed.

(** Grouping a [LEFT JOIN] by a column of its left table is joining each
    group of the left table. *)
Lemma group_of_left_join `{EqDecision K} {A B} (key : A -> K) (c : A -> B -> sbool) k l r :
  group_of (fun x => key (fst x)) k (left_join c l r) = left_join c (group_of key k l) r.
Proof.
  unfold left_join, group_of. induction l as [|a l IH]; [done|].
  cbn [flat_map List.filter]. rewrite List.filter_app, IH.
  rewrite (filter_const _ _ (bool_decide (key a = k))).
  - case_bool_decide; done.
  - intros x Hx. destruct (List.filter _ r).
    + destruct Hx as [<-|[]]. done.
    + apply in_map_iff in Hx as (? & <- & _). done.
Qed.

Lemma find_map {A B} (p : B -> bool) (f : A -> B) (l : list A) :
  List.find p (map f l) = option_map f (List.find (fun x => p (f x)) l).
Proof. induction l as [|x l IH]; simpl; [done|]. destruct (p (f x)); done. Qed.

(** A test that holds of exactly one value finds it when it occurs. *)
Lemma find_unique `{EqDecision A} (p : A -> bool) (k : A) (l : list A) :
  (forall x, p x = true <-> x = k) ->
  List.find p l = if bool_decide (k ∈ l) then Some k else None.
Proof.
  intros Hp. induction l as [|x l IH]; cbn [List.find].
  - rewrite bool_decide_false; [done|]. apply not_elem_of_nil.
  - destruct (p x) eqn:E.
    + apply Hp in E as ->. rewrite bool_decide_true; [done|]. apply elem_of_cons. left; done.
    + rewrite IH. replace (bool_decide (k ∈ x :: l)) with (bool_decide (k ∈ l)); [done|].
      apply bool_decide_ext. rewrite elem_of_cons. split; [auto|].
      intros [Hx|Hin]; [|done]. assert (p x = true) by (apply Hp; done). congruence.
Qed.

(** Looking a key up in a [GROUP BY]: the group of the key, when some row
    has it. *)
Lemma find_group_by `{EqDecision K} {A} (key : A -> K) (p : K -> bool) (l : list A) (k : K) :
  (forall x, p x = true <-> x = k) ->
  List.find (fun kg => p (fst kg)) (group_by key l) =
  if bool_decide (k ∈ map key l) then Some (k, group_of key k l) else None.
Proof.
  intros Hp. unfold group_by. rewrite find_map. simpl. rewrite (find_unique p k) by done.
  rewrite (bool_decide_ext _ _ (elem_of_remove_dups (map key l) k)).
  case_bool_decide; done.
Qed.

Lemma group_by_keys_NoDup `{EqDecision K} {A} (key : A -> K) (l : list A) :
  List.NoDup (map fst (group_by key l)).
Proof.
  unfold group_by. rewrite map_map. simpl. rewrite map_id. apply NoDup_ListNoDup, NoDup_remove_dups.
Qed.

(** ** [MAX] *)

Lemma holds_s_gt_s_max `{SqlOrd A} (x y c : option A) :
  holds (s_gt (s_max x y) c) = holds (s_gt x c) || holds (s_gt y c).
Proof.
  destruct x as [a|], y as [b|], c as [d|]; simpl; try done; [|by rewrite orb_false_r].
  destruct (sql_ltb a b) eqn:Hab; simpl.
  - destruct (sql_ltb d a) eqn:Hda; [|done].
    rewrite (sql_ltb_trans _ _ _ Hda Hab). done.
  - destruct (sql_ltb d b) eqn:Hdb; [|by rewrite orb_false_r].
    destruct (sql_ltb_weak d a b Hdb) as [->|]; [done|congruence].
Qed.

(** [MAX(col) > c] exactly when some value of the column is [> c]. *)
Lemma holds_s_gt_max `{SqlOrd A} (l : list (option A)) c :
  holds (s_gt (max_col l) c) = true <-> exists x, In x l /\ holds (s_gt x c) = true.
Proof.
  induction l as [|x l IH]; simpl.
  - split; [destruct c; done|intros (? & [] & _)].
  - rewrite holds_s_gt_s_max, orb_true_iff, IH. split.
    + intros [Hx|(y & Hy & Hyc)]; [exists x|exists y]; auto.
    + intros (y & [<-|Hy] & Hyc); [left|right; exists y]; auto.
Qed.

(** [MAX] returns one of the values of the column. *)
Lemma max_col_in `{SqlOrd A} (l : list (option A)) a : max_col l = Some a -> In (Some a) l.
Proof.
  induction l as [|x l IH]; simpl; [done|]. unfold s_max at 1.
  destruct x as [b|]; [|intros; right; auto].
  destruct (max_col l) as [c|] eqn:E; [|intros [= <-]; left; done].
  destruct (sql_ltb b c); intros [= <-]; [right; auto|left; done].
Qed.

(** [MAX] is NULL exactly on a column of NULLs. *)
Lemma max_col_None `{SqlOrd A} (l : list (option A)) :
  max_col l = None <-> forall a, ~ In (Some a) l.
Proof.
  induction l as [|x l IH]; simpl.
  - split; [intros _ a []|done].
  - destruct x as [b|].
    + split; [unfold s_max; destruct (max_col l) as [c|]; [destruct (sql_ltb b c)|]; done|].
      intros Hn. exfalso. apply (Hn b). left. done.
    + cbn [s_max]. rewrite IH. split.
      * intros Hn a [[=]|Ha]. apply (Hn a Ha).
      * intros Hn a Ha. apply (Hn a). right. done.
Qed.

Lemma holds_s_lt_s_max `{SqlOrd A} (x y c : option A) :
  holds (s_lt (s_max x y) c) =
  match x, y with
  | None, _ => holds (s_lt y c)
  | _, None => holds (s_lt x c)
  | _, _ => holds (s_lt x c) && holds (s_lt y c)
  end.
Proof.
  destruct x as [a|], y as [b|], c as [d|]; simpl; try done; try (destruct (sql_ltb a b); done).
  destruct (sql_ltb a b) eqn:Hab; simpl.
  - destruct (sql_ltb b d) eqn:Hbd; [|by rewrite andb_false_r].
    rewrite (sql_ltb_trans _ _ _ Hab Hbd). done.
  - destruct (sql_ltb a d) eqn:Had; [|done].
    destruct (sql_ltb_weak a b d Had) as [Hab'|Hbd]; [congruence|rewrite Hbd; done].
Qed.

(** [MAX(col) < c] exactly when the column has a non-NULL value and every
    non-NULL value is [< c]. *)
Lemma holds_s_lt_max `{SqlOrd A} (l : list (option A)) c :
  holds (s_lt (max_col l) c) = true <->
  (exists a, In (Some a) l) /\ forall a, In (Some a) l -> holds (s_lt (Some a) c) = true.
Proof.
  induction l as [|x l IH].
  - simpl. split; [destruct c; done|intros [(? & []) _]].
  - change (max_col (x :: l)) with (s_max x (max_col l)). cbn [List.In].
    rewrite holds_s_lt_s_max. destruct x as [a|].
    + destruct (max_col l) as [b|] eqn:E.
      * rewrite andb_true_iff, IH. split.
        -- intros [Ha [_ Hall]]. split; [exists a; left; done|].
           intros a' [[= <-]|Ha']; auto.
        -- intros [_ Hall]. split; [apply Hall; left; done|].
           split; [exists b; apply max_col_in; done|]. auto.
      * pose proof (proj1 (max_col_None l) E) as Hn. split.
        -- intros Ha. split; [exists a; left; done|]. intros a' [[= <-]|Ha']; [done|]. by apply Hn in Ha'.
        -- intros [_ Hall]. apply Hall. left. done.
    + rewrite IH. split.
      * intros [(b & Hb) Hall]. split; [exists b; right; done|]. intros a' [[=]|Ha']; auto.
      * intros [(b & [[=]|Hb]) Hall]. split; [exists b; done|]. auto.
Qed.

(** The column a [LEFT JOIN ... ON a = b] row shows: the left value when it
    occurs in the right table, NULL otherwise. *)
Lemma coluna_find_s_eq `{EqDecision A} (id : option A) l :
  coluna (List.find (fun y => holds (s_eq id y)) l) = if holds (s_in id l) then id else None.
Proof.
  destruct (List.find _ l) as [y|] eqn:E; simpl.
  - apply find_some in E as [Hy Hyid]. apply holds_s_eq in Hyid as [<- Hnn].
    destruct id as [a|]; [|done].
    replace (holds (s_in (Some a) l)) with true; [done|].
    symmetry. apply holds_s_in. exists a. done.
  - destruct (holds (s_in id l)) eqn:Hin; [|done].
    apply holds_s_in in Hin as (a & -> & Ha).
    pose proof (find_none _ _ E _ Ha) as Hf. simpl in Hf.
    rewrite bool_decide_true in Hf by done. done.
Qed.

(** In a duplicate-free column at most one value equals a given one. *)
Lemma s_eq_matches_le1 `{EqDecision A} (id : option A) l :
  List.NoDup l -> length (List.filter (fun y => holds (s_eq id y)) l) <= 1.
Proof.
  intros Hnd. apply NoDup_filter_eq_le1; [done|].
  intros a b Ha Hb. apply holds_s_eq in Ha as [<- _]. apply holds_s_eq in Hb as [<- _]. done.
Qed.

Lemma In_union `{EqDecision A} (l1 l2 : list A) x : In x (union l1 l2) <-> In x l1 \/ In x l2.
Proof. unfold union. rewrite In_distinct. apply in_app_iff. Qed.

Lemma In_inner_join {A B} (c : A -> B -> sbool) l r a b :
  In (a, b) (inner_join c l r) <-> In a l /\ In b r /\ holds (c a b) = true.
Proof.
  unfold inner_join. rewrite in_flat_map. split.
  - intros (a' & Ha' & Hin). apply in_map_iff in Hin as (b' & [= <- <-] & Hb).
    apply filter_In in Hb as [Hb Hc]. done.
  - intros (Ha & Hb & Hc). exists a. split; [done|]. apply in_map_iff. exists b.
    split; [done|]. apply filter_In. done.
Qed.

Lemma distinct_length_le `{EqDecision A} (l : list A) : length (distinct l) <= length l.
Proof.
  unfold distinct. induction l as [|x l IH]; simpl; [done|]. case_decide; simpl; lia.
Qed.

(** Projecting a duplicate-free table on a column that two of its rows
    share leaves fewer distinct values than rows. *)
Lemma distinct_map_lt `{EqDecision A} `{EqDecision B} (f : A -> B) (l : list A) x y :
  List.NoDup l -> In x l -> In y l -> x <> y -> f x = f y ->
  length (distinct (map f l)) < length l.
Proof.
  unfold distinct. induction l as [|z l IH]; intros Hnd Hx Hy Hxy Hf; [done|].
  apply NoDup_cons_iff in Hnd as [Hz Hnd]. simpl.
  pose proof (distinct_length_le (map f l)) as Hle. unfold distinct in Hle.
  rewrite length_map in Hle.
  destruct Hx as [<-|Hx], Hy as [<-|Hy]; [done| | |].
  - case_decide as Hd; [lia|]. exfalso. apply Hd, list_elem_of_In. rewrite Hf. apply in_map. done.
  - case_decide as Hd; [lia|]. exfalso. apply Hd, list_elem_of_In. rewrite <- Hf. apply in_map. done.
  - specialize (IH Hnd Hx Hy Hxy Hf). case_decide; simpl; lia.
Qed.

(** ** [ROUND] *)

(** The floor of [q] is the integer [z] with [z <= q < z + 1]. *)
Lemma Qfloor_eq q z : (inject_Z z <= q < inject_Z z + 1)%Q -> Qfloor q = z.
Proof.
  intros [H1 H2]. pose proof (Qfloor_le q) as H3.
  assert (Qfloor q < z + 1)%Z by (rewrite Zlt_Qlt, inject_Z_plus; change (inject_Z 1) with 1%Q; lra).
  pose proof (Qfloor_resp_le _ _ H1) as H4. rewrite Qfloor_Z in H4. lia.
Qed.

(** [ROUND] reads its argument as a number: equal rationals round alike. *)
#[export] Instance sql_round_proper : Proper (Qeq ==> eq ==> eq) sql_round.
Proof.
  intros x y Hxy d d' <-. unfold sql_round.
  replace (Qle_bool 0 y) with (Qle_bool 0 x)
    by (apply eq_true_iff_eq; rewrite !Qle_bool_iff; rewrite Hxy; done).
  rewrite (Qfloor_comp (x * _ + _) (y * _ + _)) by (rewrite Hxy; reflexivity).
  rewrite (Qfloor_comp (- x * _ + _) (- y * _ + _)) by (rewrite Hxy; reflexivity).
  done.
Qed.

(** [ROUND(x, 2)] is monotone on non-negative numbers. *)
Lemma sql_round_2_mono x y : (0 <= x)%Q -> (x <= y)%Q -> (sql_round x 2 <= sql_round y 2)%Q.
Proof.
  intros Hx Hxy. unfold sql_round. change (inject_Z (10 ^ Z.of_nat 2)) with 100%Q.
  replace (Qle_bool 0 x) with true by (symmetry; apply Qle_bool_iff; done).
  replace (Qle_bool 0 y) with true by (symmetry; apply Qle_bool_iff; lra).
  assert (Qfloor (x * 100 + (1 # 2)) <= Qfloor (y * 100 + (1 # 2)))%Z as H
    by (apply Qfloor_resp_le; lra).
  rewrite Zle_Qle in H. unfold Qdiv. apply Qmult_le_compat_r; [done|]. done.
Qed.

(** [ROUND(x, 2)] is within half a hundredth of [x]. *)
Lemma sql_round_2_bound x : (- (1 # 200) <= sql_round x 2 - x <= 1 # 200)%Q.
Proof.
  unfold sql_round. change (inject_Z (10 ^ Z.of_nat 2)) with 100%Q.
  unfold Qdiv. change (/ 100)%Q with (1 # 100)%Q.
  pose proof (Qfloor_le (x * 100 + (1 # 2))%Q) as H1. pose proof (Qlt_floor (x * 100 + (1 # 2))%Q) as H2.
  pose proof (Qfloor_le (- x * 100 + (1 # 2))%Q) as H3.
  pose proof (Qlt_floor (- x * 100 + (1 # 2))%Q) as H4.
  rewrite inject_Z_plus in H2, H4. change (inject_Z 1) with 1%Q in H2, H4.
  destruct (Qle_bool 0 x); split; lra.
Qed.

(** [ROUND(x, 2)] keeps a percentage in [0, 100]. *)
Lemma sql_round_2_range x : (0 <= x <= 100)%Q -> (0 <= sql_round x 2 <= 100)%Q.
Proof.
  intros [H0 H100]. unfold sql_round. change (inject_Z (10 ^ Z.of_nat 2)) with 100%Q.
  replace (Qle_bool 0 x) with true by (symmetry; apply Qle_bool_iff; done).
  unfold Qdiv. change (/ 100)%Q with (1 # 100)%Q.
  assert (0 <= Qfloor (x * 100 + (1 # 2)) <= 10000)%Z as [Hl Hh].
  { split.
    - change 0%Z with (Qfloor 0). apply Qfloor_resp_le. lra.
    - change 10000%Z with (Qfloor (10000 + (1 # 2))). apply Qfloor_resp_le. lra. }
  rewrite Zle_Qle in Hl, Hh. change (inject_Z 0) with 0%Q in Hl.
  change (inject_Z 10000) with 10000%Q in Hh. split; lra.
Qed.

Lemma In_nao_nulos {A} (l : list (option A)) a : In a (nao_nulos l) <-> In (Some a) l.
Proof. unfold nao_nulos. rewrite <- !list_elem_of_In, list_elem_of_omap. naive_solver. Qed.

(** A sum of values within [[lo, hi]] lies between [n * lo] and [n * hi]. *)
Lemma soma_limites lo hi xs :
  Forall (fun v => lo <= v <= hi)%Q xs ->
  (inject_Z (Z.of_nat (length xs)) * lo <= fold_right Qplus 0 xs <=
   inject_Z (Z.of_nat (length xs)) * hi)%Q.
Proof.
  induction 1 as [|x xs Hx _ IH].
  - change (inject_Z (Z.of_nat (length []))) with 0%Q. cbn [fold_right]. lra.
  - cbn [length fold_right]. rewrite Nat2Z.inj_succ, <- Z.add_1_r, inject_Z_plus.
    change (inject_Z 1) with 1%Q. lra.
Qed.

(** [AVG] of values within [[lo, hi]] lies within [[lo, hi]]. *)
Lemma avg_col_range lo hi l a :
  Forall (fun v => lo <= v <= hi)%Q (nao_nulos l) -> avg_col l = Some a -> (lo <= a <= hi)%Q.
Proof.
  unfold avg_col. intros Hf Ha. destruct (nao_nulos l) as [|x xs]; [done|]. injection Ha as <-.
  apply soma_limites in Hf. cbn [length fold_right] in *.
  set (n := inject_Z (Z.of_nat (S (length xs)))) in *.
  assert (0 < n)%Q by (unfold n; change 0%Q with (inject_Z 0); rewrite <- Zlt_Qlt; lia).
  split; [apply Qle_shift_div_l | apply Qle_shift_div_r]; lra.
Qed.

(** [AVG] is NULL exactly when every value is. *)
Lemma avg_col_None l : avg_col l = None <-> nao_nulos l = [].
Proof. unfold avg_col. destruct (nao_nulos l); done. Qed.

(** The non-missing values of a column are as many as [COUNT] counts. *)
Lemma length_nao_nulos {A B} (f : B -> option A) l :
  length (nao_nulos (map f l)) = #[fun x => negb (is_null (f x))] l.
Proof.
  unfold nao_nulos in *. induction l as [|x l IH]; [done|]. rewrite count_if_cons, <- IH. cbn.
  destruct (f x); done.
Qed.

(** ** [ORDER BY] *)

Section OrderBy.
Context {A : Type} (lt : A -> A -> bool).

Lemma insere_ord_perm x l : insere_ord lt x l ≡ₚ x :: l.
Proof.
  induction l as [|y l IH]; cbn; [done|]. destruct (lt y x); [|done].
  rewrite IH. apply perm_swap.
Qed.

Lemma order_by_perm l : order_by lt l ≡ₚ l.
Proof. induction l as [|x l IH]; cbn; [done|]. rewrite insere_ord_perm, IH. done. Qed.

Lemma In_order_by l x : In x (order_by lt l) <-> In x l.
Proof. rewrite <- !list_elem_of_In. apply elem_of_Permutation_proper, order_by_perm. Qed.

(** The order is a strict weak order: asymmetric, and its complement is
    transitive. *)
Context (lt_asym : forall a b, lt a b = true -> lt b a = false)
        (lt_weak : forall a b c, lt a c = true -> lt a b = true \/ lt b c = true).

Lemma insere_ord_sorted x l :
  StronglySorted (fun a b => lt b a = false) l ->
  StronglySorted (fun a b => lt b a = false) (insere_ord lt x l).
Proof.
  induction l as [|y l IH]; intros Hs; cbn; [repeat constructor|].
  inversion Hs as [|? ? Hl Hy]; subst. destruct (lt y x) eqn:E.
  - constructor; [apply IH; done|]. rewrite insere_ord_perm.
    constructor; [apply lt_asym; done|done].
  - constructor; [done|]. constructor; [done|].
    eapply Forall_impl; [exact Hy|]. cbn. intros z Hz.
    destruct (lt z x) eqn:Ez; [|done]. destruct (lt_weak z y x Ez); congruence.
Qed.

Lemma order_by_sorted l : StronglySorted (fun a b => lt b a = false) (order_by lt l).
Proof. induction l as [|x l IH]; cbn; [constructor|]. apply insere_ord_sorted. done. Qed.

End OrderBy.

Lemma StronglySorted_filter {A} (R : A -> A -> Prop) (p : A -> bool) l :
  StronglySorted R l -> StronglySorted R (List.filter p l).
Proof.
  induction l as [|x l IH]; intros Hs; cbn; [constructor|]. inversion Hs as [|? ? Hl Hx]; subst.
  destruct (p x); [|auto]. constructor; [auto|]. apply List.Forall_forall. intros y Hy.
  apply filter_In in Hy as [Hy _]. rewrite List.Forall_forall in Hx. auto.
Qed.

(** In a sorted list whose keys are distinct, related rows have distinct keys. *)
Lemma StronglySorted_distinct {A K} (R : A -> A -> Prop) (f : A -> K) l :
  StronglySorted R l -> List.NoDup (map f l) -> StronglySorted (fun a b => R a b /\ f a <> f b) l.
Proof.
  induction l as [|x l IH]; intros Hs Hnd; [constructor|]. inversion Hs as [|? ? Hl Hx]; subst.
  inversion Hnd as [|? ? Hfx Hnd']; subst. constructor; [auto|].
  apply List.Forall_forall. intros y Hy. rewrite List.Forall_forall in Hx. split; [auto|].
  intros He. apply Hfx. rewrite He. apply in_map. done.
Qed.

Lemma StronglySorted_impl_in {A} (R R' : A -> A -> Prop) l :
  (forall a b, In a l -> In b l -> R a b -> R' a b) -> StronglySorted R l -> StronglySorted R' l.
Proof.
  induction l as [|x l IH]; intros Himp Hs; [constructor|]. inversion Hs as [|? ? Hl Hx]; subst.
  constructor.
  - apply IH; [|done]. intros a b Ha Hb. apply Himp; right; done.
  - apply List.Forall_forall. intros y Hy. rewrite List.Forall_forall in Hx.
    apply Himp; [left|right|apply Hx]; done.
Qed.

(** [ORDER BY col DESC] is a strict weak order. *)
Lemma desc_nulos_ultimos_asym {A} (f : A -> option Q) a b :
  desc_nulos_ultimos f a b = true -> desc_nulos_ultimos f b a = false.
Proof.
  unfold desc_nulos_ultimos. destruct (f a) as [x|], (f b) as [y|]; try done.
  rewrite Qltb_iff. intros H. destruct (Qltb_spec x y); [lra|done].
Qed.

Lemma desc_nulos_ultimos_weak {A} (f : A -> option Q) a b c :
  desc_nulos_ultimos f a c = true ->
  desc_nulos_ultimos f a b = true \/ desc_nulos_ultimos f b c = true.
Proof.
  unfold desc_nulos_ultimos. destruct (f a) as [x|], (f b) as [y|], (f c) as [z|]; auto.
  intros H. destruct (Qltb_weak z y x H); auto.
Qed.

(** The byte order of texts is a strict weak order. *)
Lemma str_ltb_asym a b : str_ltb a b = true -> str_ltb b a = false.
Proof.
  intros H. destruct (str_ltb b a) eqn:E; [|done].
  pose proof (str_ltb_trans _ _ _ H E) as Ha. rewrite str_ltb_irrefl in Ha. done.
Qed.

End Sql.
