(* ===== verification/Dates.v ===== *)
(** * Dates as the database stores them and SQLite reads them

    [criar_banco_sqlite.py] parses the CSV dates with [pd.to_datetime] and
    writes them with [to_sql]; Python's [sqlite3] adapter stores a timestamp
    as the TEXT ["YYYY-MM-DD HH:MM:SS"].  The queries read these texts three
    ways: by comparing them as strings with a date ([Data > DATE(...)]), by
    [JULIANDAY] (account and card age in months), and by [strftime('%Y')]
    (year of account creation).  This file models the text formats, SQLite's
    date parser for them, its Julian-day arithmetic ([computeJD],
    [computeYMD] of SQLite's [date.c], in milliseconds as SQLite keeps them),
    and the functions [DATE(x, '-N days')], [JULIANDAY(x)] and
    [strftime('%Y', x)].  SQLite evaluates the [computeYMD] divisions in
    double precision; they are modelled by exact rational division with
    truncation. *)

From stdpp Require Import base tactics option.
From Stdlib Require Import ZArith QArith String Ascii Lia.
From S2P Require Import Prelude Sql.

Module Dates.
Import Sql.
Local Open Scope Z_scope.

(** ** Decimal digits *)

(** The character of a decimal digit. *)
Definition digit (n : Z) : ascii := ascii_of_nat (48 + Z.to_nat n).

(** The value of a character, when it is a decimal digit. *)
Definition digit_val (c : ascii) : option Z :=
  let k := Z.of_nat (nat_of_ascii c) in
  if ((48 <=? k) && (k <=? 57))%bool then Some (k - 48) else None.

(** [n] on [w] digits with leading zeros: Python's ["%0wd"] for
    [0 <= n < 10^w]. *)
Fixpoint pad (w : nat) (n : Z) : string :=
  match w with
  | O => EmptyString
  | S w' => String (digit (n / 10 ^ Z.of_nat w')) (pad w' (n mod 10 ^ Z.of_nat w'))
  end.

(** Read exactly [w] digits, accumulating on [acc]: SQLite's [getDigits]
    loop for one field. *)
Fixpoint read_digits (w : nat) (acc : Z) (s : string) : option (Z * string) :=
  match w with
  | O => Some (acc, s)
  | S w' =>
      match s with
      | EmptyString => None
      | String c s' =>
          match digit_val c with
          | Some d => read_digits w' (acc * 10 + d) s'
          | None => None
          end
      end
  end.

(** ** The text formats *)

(** A civil date and time of day, as the database texts carry them. *)
Record stamp := mk_stamp {
  ano : Z; mes : Z; dia : Z;
  hora : Z; minuto : Z; segundo : Z
}.

(** ["%04d-%02d-%02d"]: the text of [DATE(...)] and of a date column. *)
Definition format_date (y m d : Z) : string :=
  (pad 4 y ++ "-" ++ pad 2 m ++ "-" ++ pad 2 d)%string.

(** The text Python's [sqlite3] adapter writes for a timestamp:
    [isoformat(" ")] without microseconds. *)
Definition format_stamp (t : stamp) : string :=
  (format_date (ano t) (mes t) (dia t) ++ " " ++
   pad 2 (hora t) ++ ":" ++ pad 2 (minuto t) ++ ":" ++ pad 2 (segundo t))%string.

(** ** SQLite's date parser, for the formats of the database *)

(** SQLite's parsed date: [Y], [M], [D] and, when the text has one, the
    time of day. *)
Record datetime := mk_datetime {
  Y : Z; M : Z; D : Z;
  hms : option (Z * Z * Z)
}.

(** One field of [getDigits]: [w] digits whose value lies in [lo..hi]. *)
Definition field (w : nat) (lo hi : Z) (s : string) : option (Z * string) :=
  match read_digits w 0 s with
  | Some (v, r) => if ((lo <=? v) && (v <=? hi))%bool then Some (v, r) else None
  | None => None
  end.

(** The separator [getDigits] requires after a field. *)
Definition expect (c : ascii) (s : string) : option string :=
  match s with
  | String c' s' => if Ascii.eqb c c' then Some s' else None
  | EmptyString => None
  end.

Definition is_space (c : ascii) : bool := Ascii.eqb c " "%char.

(** [while( sqlite3Isspace( *zDate) || 'T'==*zDate ) zDate++]. *)
Fixpoint skip_sep (s : string) : string :=
  match s with
  | String c s' => if (is_space c || Ascii.eqb c "T"%char)%bool then skip_sep s' else s
  | EmptyString => s
  end.

(** [parseTimezone] on a text with no zone: only spaces may follow. *)
Fixpoint only_spaces (s : string) : bool :=
  match s with
  | String c s' => is_space c && only_spaces s'
  | EmptyString => true
  end.

(** [parseHhMmSs]: ["HH:MM"] or ["HH:MM:SS"], hours [0..24], minutes and
    seconds [0..59]; fractional seconds and time zones are not modelled
    (such a text parses to nothing). *)
Definition parse_hms (s : string) : option (Z * Z * Z) :=
  '(h, s) ← field 2 0 24 s;
  s ← expect ":"%char s;
  '(m, s) ← field 2 0 59 s;
  match s with
  | String ":"%char s' =>
      '(sec, s'') ← field 2 0 59 s';
      if only_spaces s'' then Some (h, m, sec) else None
  | _ => if only_spaces s then Some (h, m, 0) else None
  end.

(** [parseYyyyMmDd]: ["YYYY-MM-DD"], then an optional time after spaces or
    ['T']. *)
Definition parse_date (s : string) : option datetime :=
  '(y, s) ← field 4 0 9999 s;
  s ← expect "-"%char s;
  '(m, s) ← field 2 1 12 s;
  s ← expect "-"%char s;
  '(d, s) ← field 2 1 31 s;
  let s := skip_sep s in
  match parse_hms s with
  | Some t => Some (mk_datetime y m d (Some t))
  | None => match s with EmptyString => Some (mk_datetime y m d None) | _ => None end
  end.

(** ** SQLite's Julian day arithmetic *)

(** The time of day in milliseconds. *)
Definition time_ms (t : option (Z * Z * Z)) : Z :=
  match t with Some (h, m, s) => h * 3600000 + m * 60000 + s * 1000 | None => 0 end.

(** [computeJD]: the Julian day in milliseconds,
    [(X1 + X2 + D + B - 1524.5) * 86400000] plus the time of day. *)
Definition computeJD (y m d : Z) (t : option (Z * Z * Z)) : Z :=
  let '(y, m) := if m <=? 2 then (y - 1, m + 12) else (y, m) in
  let a := Z.quot y 100 in
  let b := 2 - a + Z.quot a 4 in
  let x1 := Z.quot (36525 * (y + 4716)) 100 in
  let x2 := Z.quot (306001 * (m + 1)) 10000 in
  (x1 + x2 + d + b) * 86400000 - 131716800000 + time_ms t.

Definition iJD (dt : datetime) : Z := computeJD (Y dt) (M dt) (D dt) (hms dt).

(** The second half of [computeYMD]: the civil date of the day number [Z]
    ([A], [B], [C], [D], [E] and [X1] as SQLite names them). *)
Definition civil (z : Z) : Z * Z * Z :=
  let a := Z.quot (4 * z - 7468865) 146097 in
  let a := z + 1 + a - Z.quot a 4 in
  let b := a + 1524 in
  let c := Z.quot (20 * b - 2442) 7305 in
  let d := Z.quot (36525 * Z.land c 32767) 100 in
  let e := Z.quot (10000 * (b - d)) 306001 in
  let x1 := Z.quot (306001 * e) 10000 in
  let mm := if e <? 14 then e - 1 else e - 13 in
  let yy := if 2 <? mm then c - 4716 else c - 4715 in
  (yy, mm, b - d - x1).

(** [computeYMD]: [Z = (iJD + 43200000) / 86400000], then [civil Z]. *)
Definition computeYMD (j : Z) : Z * Z * Z := civil (Z.quot (j + 43200000) 86400000).

(** The Julian day number of a civil date (the day that starts at its
    midnight): [computeJD] without the milliseconds. *)
Definition jd_day (y m d : Z) : Z :=
  let '(y, m) := if m <=? 2 then (y - 1, m + 12) else (y, m) in
  let a := Z.quot y 100 in
  let b := 2 - a + Z.quot a 4 in
  let x1 := Z.quot (36525 * (y + 4716)) 100 in
  let x2 := Z.quot (306001 * (m + 1)) 10000 in
  x1 + x2 + d + b - 1524.

(** ** The SQL date functions *)

(** [DATE(x, 'n days')]: parse, add [n] days to the Julian day, print the
    civil date. *)
Definition date_add_days (x : option string) (n : Z) : option string :=
  match x with
  | Some s =>
      match parse_date s with
      | Some dt => let '(y, m, d) := computeYMD (iJD dt + n * 86400000) in
                   Some (format_date y m d)
      | None => None
      end
  | None => None
  end.

(** [JULIANDAY(x)]: [iJD / 86400000.0]. *)
Definition julianday (x : option string) : option Q :=
  match x with
  | Some s => option_map (fun dt => (inject_Z (iJD dt) / inject_Z 86400000)%Q) (parse_date s)
  | None => None
  end.

(** [strftime('%Y', x)]: the parsed year on four digits. *)
Definition strftime_Y (x : option string) : option string :=
  match x with
  | Some s => option_map (fun dt => pad 4 (Y dt)) (parse_date s)
  | None => None
  end.

(** The Gregorian calendar, to state which texts are dates. *)
Definition bissexto (y : Z) : bool :=
  ((Z.eqb (y mod 4) 0 && negb (Z.eqb (y mod 100) 0)) || Z.eqb (y mod 400) 0)%bool.

Definition dias_no_mes (y m : Z) : Z :=
  if Z.eqb m 2 then (if bissexto y then 29 else 28)
  else if ((Z.eqb m 4 || Z.eqb m 6) || (Z.eqb m 9 || Z.eqb m 11))%bool then 30 else 31.

Definition data_valida (y m d : Z) : bool :=
  ((0 <=? y) && (y <=? 9999) && (1 <=? m) && (m <=? 12) && (1 <=? d) && (d <=? dias_no_mes y m))%bool.

(** ** Digits: reading back and order *)

#[local] Arguments digit : simpl never.
#[local] Arguments digit_val : simpl never.

Lemma pow10_succ (w : nat) : 10 ^ Z.of_nat (S w) = 10 * 10 ^ Z.of_nat w.
Proof. rewrite Nat2Z.inj_succ, Z.pow_succ_r; lia. Qed.

Lemma pow10_pos (w : nat) : 0 < 10 ^ Z.of_nat w.
Proof. apply Z.pow_pos_nonneg; lia. Qed.

(** The leading digit and the rest of a [S w]-digit number. *)
Lemma pad_split (w : nat) (n : Z) :
  0 <= n < 10 ^ Z.of_nat (S w) ->
  0 <= n / 10 ^ Z.of_nat w < 10 /\ 0 <= n mod 10 ^ Z.of_nat w < 10 ^ Z.of_nat w /\
  n = 10 ^ Z.of_nat w * (n / 10 ^ Z.of_nat w) + n mod 10 ^ Z.of_nat w.
Proof.
  rewrite pow10_succ. pose proof (pow10_pos w). intros Hn. split; [|split].
  - split; [apply Z.div_pos; lia|]. apply Z.div_lt_upper_bound; lia.
  - apply Z.mod_pos_bound. lia.
  - apply Z.div_mod. lia.
Qed.

Lemma digit_cases (n : Z) : 0 <= n < 10 -> List.In n [0; 1; 2; 3; 4; 5; 6; 7; 8; 9].
Proof.
  intros Hn. replace n with (Z.of_nat (Z.to_nat n)) by lia.
  assert (Z.to_nat n < 10)%nat as Hk by lia. revert Hk. generalize (Z.to_nat n) as k.
  intros k Hk. do 10 (destruct k as [|k]; [cbn; tauto|]). lia.
Qed.

(** Split a goal on the ten values of a digit. *)
Ltac digit_cases n :=
  let H := fresh in
  match goal with Hn : 0 <= n < 10 |- _ => pose proof (digit_cases n Hn) as H end;
  cbn [List.In] in H; repeat (destruct H as [H|H]; [subst n|]); try contradiction.

Lemma digit_val_digit (n : Z) : 0 <= n < 10 -> digit_val (digit n) = Some n.
Proof. intros Hn. digit_cases n; reflexivity. Qed.

Lemma compare_digit (a b : Z) :
  0 <= a < 10 -> 0 <= b < 10 -> Ascii.compare (digit a) (digit b) = Z.compare a b.
Proof. intros Ha Hb. digit_cases a; digit_cases b; reflexivity. Qed.

Lemma pad_length (w : nat) (n : Z) : String.length (pad w n) = w.
Proof. revert n; induction w as [|w IH]; intros n; cbn; [done|]. rewrite IH. done. Qed.

(** Reading the digits [pad] writes gives the number back, and the rest of
    the text. *)
Lemma read_pad (w : nat) (acc n : Z) (r : string) :
  0 <= n < 10 ^ Z.of_nat w ->
  read_digits w acc (pad w n ++ r)%string = Some (acc * 10 ^ Z.of_nat w + n, r).
Proof.
  revert acc n; induction w as [|w IH]; intros acc n Hn.
  - cbn in *. f_equal. f_equal. lia.
  - cbn [pad read_digits String.append]. destruct (pad_split w n Hn) as (Hq & Hr & Heq).
    rewrite digit_val_digit, IH by done. do 2 f_equal. rewrite pow10_succ. nia.
Qed.

(** Strings of the same length compare on their prefixes first. *)
Lemma compare_app (a b c d : string) :
  String.length a = String.length b ->
  String.compare (a ++ c)%string (b ++ d)%string =
  match String.compare a b with Eq => String.compare c d | r => r end.
Proof.
  revert b; induction a as [|x a IH]; intros [|y b] Hl; simpl in *; try done.
  destruct (Ascii.compare x y); try done. apply IH. lia.
Qed.

Lemma compare_lex (p q1 r1 q2 r2 : Z) :
  0 <= r1 < p -> 0 <= r2 < p ->
  Z.compare (p * q1 + r1) (p * q2 + r2) =
  match Z.compare q1 q2 with Eq => Z.compare r1 r2 | r => r end.
Proof.
  intros H1 H2. destruct (Z.compare_spec q1 q2) as [->|Hlt|Hgt].
  - destruct (Z.compare_spec r1 r2); apply Z.compare_eq_iff || apply Z.compare_lt_iff
      || apply Z.compare_gt_iff; lia.
  - apply Z.compare_lt_iff. nia.
  - apply Z.compare_gt_iff. nia.
Qed.

(** Zero-padded numbers of one width compare as strings as they compare as
    numbers: this is why the date texts can be compared as TEXT. *)
Lemma compare_pad (w : nat) (a b : Z) :
  0 <= a < 10 ^ Z.of_nat w -> 0 <= b < 10 ^ Z.of_nat w ->
  String.compare (pad w a) (pad w b) = Z.compare a b.
Proof.
  revert a b; induction w as [|w IH]; intros a b Ha Hb; cbn [pad].
  - cbn in *. symmetry. apply Z.compare_eq_iff. lia.
  - destruct (pad_split w a Ha) as (Hqa & Hra & Ea), (pad_split w b Hb) as (Hqb & Hrb & Eb).
    cbn [String.compare]. rewrite compare_digit, IH by done. rewrite Ea, Eb.
    rewrite compare_lex by done. rewrite <- Ea, <- Eb. done.
Qed.

Lemma string_app_assoc (a b c : string) : ((a ++ b) ++ c = a ++ (b ++ c))%string.
Proof. induction a as [|x a IH]; cbn; [done|]. rewrite IH. done. Qed.

(** ** The date texts *)

(** Lexicographic comparison of civil dates. *)
Definition cmp_data (y m d y' m' d' : Z) : comparison :=
  match Z.compare y y' with
  | Eq => match Z.compare m m' with Eq => Z.compare d d' | r => r end
  | r => r
  end.

Definition stamp_valido (t : stamp) : bool :=
  (data_valida (ano t) (mes t) (dia t) && (0 <=? hora t) && (hora t <? 24) &&
   (0 <=? minuto t) && (minuto t <? 60) && (0 <=? segundo t) && (segundo t <? 60))%bool.

Ltac valid_bounds :=
  repeat match goal with
  | H : data_valida _ _ _ = true |- _ =>
      unfold data_valida in H; rewrite !andb_true_iff, !Z.leb_le in H
  | H : stamp_valido _ = true |- _ =>
      unfold stamp_valido in H; rewrite !andb_true_iff, ?Z.leb_le, ?Z.ltb_lt in H
  | H : _ /\ _ |- _ => destruct H
  end.

Lemma dias_no_mes_bounds y m : 28 <= dias_no_mes y m <= 31.
Proof. unfold dias_no_mes. repeat case_match; lia. Qed.

(** Two date texts compare as the dates do. *)
Lemma compare_format_date y m d y' m' d' :
  0 <= y < 10000 -> 0 <= m < 100 -> 0 <= d < 100 ->
  0 <= y' < 10000 -> 0 <= m' < 100 -> 0 <= d' < 100 ->
  String.compare (format_date y m d) (format_date y' m' d') = cmp_data y m d y' m' d'.
Proof.
  intros. unfold format_date, cmp_data.
  rewrite compare_app, compare_pad by (rewrite ?pad_length; done || (cbn; lia)).
  destruct (Z.compare y y'); try done. cbn [String.append String.compare Ascii.compare].
  rewrite compare_app, compare_pad by (rewrite ?pad_length; done || (cbn; lia)).
  destruct (Z.compare m m'); try done. cbn [String.append String.compare Ascii.compare].
  apply compare_pad; cbn; lia.
Qed.

(** A timestamp text is its date text followed by the time. *)
Lemma format_stamp_app t :
  format_stamp t = (format_date (ano t) (mes t) (dia t) ++
                    String " "%char (pad 2 (hora t) ++ ":" ++ pad 2 (minuto t) ++ ":" ++
                                     pad 2 (segundo t)))%string.
Proof. done. Qed.

Lemma string_app_nil_r (a : string) : (a ++ "")%string = a.
Proof. induction a as [|x a IH]; cbn; [done|]. rewrite IH. done. Qed.

Lemma string_length_app (a b : string) :
  String.length (a ++ b) = (String.length a + String.length b)%nat.
Proof. induction a as [|x a IH]; cbn; [done|]. rewrite IH. done. Qed.

Lemma format_date_length y m d : String.length (format_date y m d) = 10%nat.
Proof. unfold format_date. rewrite !string_length_app, !pad_length. done. Qed.

Lemma cmp_data_antisym y m d y' m' d' :
  cmp_data y m d y' m' d' = CompOpp (cmp_data y' m' d' y m d).
Proof.
  unfold cmp_data.
  pose proof (Z.compare_antisym y y') as E1. pose proof (Z.compare_antisym m m') as E2.
  pose proof (Z.compare_antisym d d') as E3.
  destruct (y ?= y'), (y' ?= y); simpl in E1; try discriminate E1;
  destruct (m ?= m'), (m' ?= m); simpl in E2; try discriminate E2;
  destruct (d ?= d'), (d' ?= d); simpl in E3; try discriminate E3; reflexivity.
Qed.

(** [Data > d] for a timestamp [Data] and a date text [d]: the text of a
    timestamp on the day [d] itself is greater than [d], which is its
    prefix; so the comparison holds exactly when the timestamp's day is
    [d] or later. *)
Lemma stamp_gt_date t y m d :
  stamp_valido t = true -> data_valida y m d = true ->
  Sql.str_ltb (format_date y m d) (format_stamp t) =
  negb (bool_decide (cmp_data (ano t) (mes t) (dia t) y m d = Lt)).
Proof.
  intros Ht Hd. pose proof (dias_no_mes_bounds y m). pose proof (dias_no_mes_bounds (ano t) (mes t)).
  valid_bounds. unfold Sql.str_ltb. rewrite format_stamp_app.
  rewrite <- (string_app_nil_r (format_date y m d)) at 1.
  rewrite compare_app by (rewrite !format_date_length; done).
  rewrite compare_format_date by lia. rewrite (cmp_data_antisym y).
  destruct (cmp_data (ano t) (mes t) (dia t) y m d); done.
Qed.

(** Chronological order of timestamps: the date, then the time of day. *)
Definition cmp_stamp (a b : stamp) : comparison :=
  match cmp_data (ano a) (mes a) (dia a) (ano b) (mes b) (dia b) with
  | Eq =>
      match Z.compare (hora a) (hora b) with
      | Eq => match Z.compare (minuto a) (minuto b) with
              | Eq => Z.compare (segundo a) (segundo b)
              | r => r
              end
      | r => r
      end
  | r => r
  end.

(** Two timestamp texts compare as the instants do. *)
Lemma compare_format_stamp a b :
  stamp_valido a = true -> stamp_valido b = true ->
  String.compare (format_stamp a) (format_stamp b) = cmp_stamp a b.
Proof.
  intros Ha Hb. pose proof (dias_no_mes_bounds (ano a) (mes a)).
  pose proof (dias_no_mes_bounds (ano b) (mes b)). valid_bounds.
  rewrite !format_stamp_app. unfold cmp_stamp.
  rewrite compare_app by (rewrite !format_date_length; done).
  rewrite compare_format_date by lia.
  destruct (cmp_data _ _ _ _ _ _); try done. cbn [String.compare Ascii.compare].
  do 2 (rewrite compare_app, compare_pad by (rewrite ?pad_length; done || (cbn; lia));
        destruct (Z.compare _ _); try done; cbn [String.append String.compare Ascii.compare]).
  apply compare_pad; cbn; lia.
Qed.

(** A timestamp text is below a date text exactly when its day is before
    that date: the date of the same day is a prefix of the timestamp. *)
Lemma stamp_lt_date t y m d :
  stamp_valido t = true -> data_valida y m d = true ->
  Sql.str_ltb (format_stamp t) (format_date y m d) =
  bool_decide (cmp_data (ano t) (mes t) (dia t) y m d = Lt).
Proof.
  intros Ht Hd. pose proof (dias_no_mes_bounds y m). pose proof (dias_no_mes_bounds (ano t) (mes t)).
  valid_bounds. unfold Sql.str_ltb. rewrite format_stamp_app.
  rewrite <- (string_app_nil_r (format_date y m d)).
  rewrite compare_app by (rewrite !format_date_length; done).
  rewrite compare_format_date by lia.
  destruct (cmp_data (ano t) (mes t) (dia t) y m d); done.
Qed.

(** ** Julian days *)

(** [computeJD] is the day number in milliseconds, shifted by half a day
    (Julian days start at noon), plus the time of day. *)
Lemma computeJD_day y m d t :
  computeJD y m d t = jd_day y m d * 86400000 - 43200000 + time_ms t.
Proof. unfold computeJD, jd_day. destruct (m <=? 2); lia. Qed.

(** [computeYMD] reads the day number back from any instant of the day. *)
Lemma computeYMD_day z r :
  0 <= z -> 0 <= r < 86400000 -> computeYMD (z * 86400000 - 43200000 + r) = civil z.
Proof.
  intros Hz Hr. unfold computeYMD. f_equal.
  replace (z * 86400000 - 43200000 + r + 43200000) with (86400000 * z + r) by lia.
  rewrite Z.quot_div_nonneg by lia. symmetry. apply Z.div_unique with r; lia.
Qed.

(** The range of years over which the calendar arithmetic is checked. *)
Definition ano_min : Z := 2000.
Definition ano_max : Z := 2099.
Definition dia_min : Z := jd_day ano_min 1 1.
Definition dia_max : Z := jd_day ano_max 12 31.

Lemma dia_min_max : dia_min = 2451545 /\ dia_max = 2488069.
Proof. split; vm_compute; reflexivity. Qed.

Definition civil_ok (z : Z) : bool :=
  let '(y, m, d) := civil z in
  (data_valida y m d && (jd_day y m d =? z) && (ano_min <=? y) && (y <=? ano_max))%bool.

(** Every day number of the range is the day number of the valid date
    [civil] gives it (checked day by day). *)
Lemma civil_range z :
  dia_min <= z <= dia_max ->
  let '(y, m, d) := civil z in
  data_valida y m d = true /\ jd_day y m d = z /\ ano_min <= y <= ano_max.
Proof.
  intros Hz. pose proof dia_min_max as Hmm. assert (civil_ok z = true) as H.
  { apply (all_from_spec (Z.to_nat (dia_max - dia_min + 1)) civil_ok dia_min);
      [vm_compute; reflexivity | rewrite Z2Nat.id; lia]. }
  unfold civil_ok in H. destruct (civil z) as [[y m] d].
  rewrite !andb_true_iff, Z.eqb_eq, !Z.leb_le in H. tauto.
Qed.

(** Month by month: the day number of the first day of month [k]
    (counted [12 * year + month - 1]). *)
Definition mes_idx (y m : Z) : Z := 12 * y + m - 1.
Definition primeiro (k : Z) : Z := jd_day (k / 12) (k mod 12 + 1) 1.

Definition passo_ok (k : Z) : bool :=
  primeiro (k + 1) =? primeiro k + dias_no_mes (k / 12) (k mod 12 + 1).

Lemma primeiro_passo k :
  mes_idx ano_min 1 <= k < mes_idx ano_max 12 ->
  primeiro (k + 1) = primeiro k + dias_no_mes (k / 12) (k mod 12 + 1).
Proof.
  intros Hk. apply Z.eqb_eq.
  apply (all_from_spec (Z.to_nat (mes_idx ano_max 12 - mes_idx ano_min 1)) passo_ok
           (mes_idx ano_min 1));
    [vm_compute; reflexivity | unfold mes_idx, ano_min, ano_max in *; rewrite Z2Nat.id; lia].
Qed.

Lemma primeiro_mono k k' :
  mes_idx ano_min 1 <= k < k' -> k' <= mes_idx ano_max 12 ->
  primeiro k + dias_no_mes (k / 12) (k mod 12 + 1) <= primeiro k'.
Proof.
  intros Hk Hk'. remember (Z.to_nat (k' - k - 1)) as n eqn:En.
  revert k' Hk Hk' En; induction n as [|n IH]; intros k' Hk Hk' En.
  - replace k' with (k + 1) by lia. rewrite primeiro_passo by lia. lia.
  - specialize (IH (k' - 1) ltac:(lia) ltac:(lia) ltac:(lia)).
    pose proof (primeiro_passo (k' - 1)) as E. replace (k' - 1 + 1) with k' in E by lia.
    rewrite E by lia. pose proof (dias_no_mes_bounds ((k' - 1) / 12) ((k' - 1) mod 12 + 1)). lia.
Qed.

Lemma mes_idx_div y m : 1 <= m <= 12 -> mes_idx y m / 12 = y /\ mes_idx y m mod 12 + 1 = m.
Proof.
  intros Hm. unfold mes_idx. split.
  - symmetry. apply Z.div_unique with (m - 1); lia.
  - rewrite <- (Z.mod_unique (12 * y + m - 1) 12 y (m - 1)); lia.
Qed.

Lemma jd_day_primeiro y m d :
  1 <= m <= 12 -> jd_day y m d = primeiro (mes_idx y m) + d - 1.
Proof.
  intros Hm. unfold primeiro. destruct (mes_idx_div y m Hm) as [-> ->].
  unfold jd_day. destruct (m <=? 2); lia.
Qed.

(** Over the range, day numbers are in the order of the dates. *)
Lemma jd_day_order y m d y' m' d' :
  data_valida y m d = true -> data_valida y' m' d' = true ->
  ano_min <= y <= ano_max -> ano_min <= y' <= ano_max ->
  Z.compare (jd_day y m d) (jd_day y' m' d') = cmp_data y m d y' m' d'.
Proof.
  intros Hv Hv' Hy Hy'.
  assert (cmp_data y m d y' m' d' =
          match Z.compare (mes_idx y m) (mes_idx y' m') with Eq => Z.compare d d' | r => r end)
    as ->.
  { unfold cmp_data, mes_idx. valid_bounds.
    replace (12 * y + m - 1) with (12 * y + (m - 1)) by lia.
    replace (12 * y' + m' - 1) with (12 * y' + (m' - 1)) by lia.
    rewrite compare_lex by lia.
    replace (m - 1 ?= m' - 1) with (m ?= m')
      by (rewrite (Z.compare_sub (m - 1)), (Z.compare_sub m); f_equal; lia).
    destruct (y ?= y'), (m ?= m'); reflexivity. }
  pose proof (dias_no_mes_bounds y m). pose proof (dias_no_mes_bounds y' m').
  valid_bounds. rewrite (jd_day_primeiro y), (jd_day_primeiro y') by lia.
  unfold ano_min, ano_max in *.
  destruct (Z.compare_spec (mes_idx y m) (mes_idx y' m')) as [E|Hlt|Hgt].
  - rewrite E. destruct (Z.compare_spec d d'); apply Z.compare_eq_iff || apply Z.compare_lt_iff
      || apply Z.compare_gt_iff; lia.
  - pose proof (primeiro_mono (mes_idx y m) (mes_idx y' m')) as Hm.
    destruct (mes_idx_div y m) as [E1 E2]; [lia|]. rewrite E1, E2 in Hm.
    apply Z.compare_lt_iff. unfold ano_min, ano_max, mes_idx in *. lia.
  - pose proof (primeiro_mono (mes_idx y' m') (mes_idx y m)) as Hm.
    destruct (mes_idx_div y' m') as [E1 E2]; [lia|]. rewrite E1, E2 in Hm.
    apply Z.compare_gt_iff. unfold ano_min, ano_max, mes_idx in *. lia.
Qed.

(** ** Parsing the texts the database holds *)

Lemma field_pad w lo hi n r :
  lo <= n <= hi -> 0 <= n < 10 ^ Z.of_nat w -> field w lo hi (pad w n ++ r)%string = Some (n, r).
Proof.
  intros Hb Hn. unfold field. rewrite read_pad by done.
  replace (0 * 10 ^ Z.of_nat w + n) with n by lia.
  replace ((lo <=? n) && (n <=? hi))%bool with true; [done|].
  symmetry. apply andb_true_iff. rewrite !Z.leb_le. lia.
Qed.

(** A digit is neither a space nor ['T']. *)
Lemma skip_sep_digit n s : 0 <= n < 10 -> skip_sep (String (digit n) s) = String (digit n) s.
Proof. intros Hn. digit_cases n; reflexivity. Qed.

Lemma skip_sep_space s : skip_sep (String " "%char s) = skip_sep s.
Proof. done. Qed.

Lemma pad2_cons n : pad 2 n = String (digit (n / 10)) (pad 1 (n mod 10)).
Proof. done. Qed.

Lemma skip_sep_pad2 n r : 0 <= n < 100 -> skip_sep (pad 2 n ++ r)%string = (pad 2 n ++ r)%string.
Proof.
  intros Hn. rewrite pad2_cons. cbn [String.append]. apply skip_sep_digit.
  split; [apply Z.div_pos|apply Z.div_lt_upper_bound]; lia.
Qed.

(** SQLite reads a date text back as the date. *)
Lemma parse_format_date y m d :
  data_valida y m d = true -> parse_date (format_date y m d) = Some (mk_datetime y m d None).
Proof.
  intros Hd. pose proof (dias_no_mes_bounds y m). valid_bounds.
  unfold parse_date, format_date. rewrite <- (string_app_nil_r (pad 2 d)).
  rewrite field_pad by (cbn; lia). cbn [mbind option_bind expect String.append].
  rewrite Ascii.eqb_refl. cbn [mbind option_bind expect String.append]. rewrite field_pad by (cbn; lia). cbn [mbind option_bind expect String.append].
  rewrite Ascii.eqb_refl. cbn [mbind option_bind expect String.append]. rewrite field_pad by (cbn; lia). done.
Qed.

(** SQLite reads a timestamp text back as the date and the time of day. *)
Lemma parse_format_stamp t :
  stamp_valido t = true ->
  parse_date (format_stamp t) =
  Some (mk_datetime (ano t) (mes t) (dia t) (Some (hora t, minuto t, segundo t))).
Proof.
  intros Ht. pose proof (dias_no_mes_bounds (ano t) (mes t)). valid_bounds.
  unfold parse_date. rewrite format_stamp_app. unfold format_date.
  rewrite !string_app_assoc.
  rewrite field_pad by (cbn; lia). cbn [mbind option_bind expect String.append].
  rewrite Ascii.eqb_refl. cbn [mbind option_bind expect String.append]. rewrite field_pad by (cbn; lia). cbn [mbind option_bind expect String.append].
  rewrite Ascii.eqb_refl. cbn [mbind option_bind expect String.append]. rewrite field_pad by (cbn; lia). cbn [mbind option_bind].
  rewrite skip_sep_space, skip_sep_pad2 by lia.
  rewrite <- (string_app_nil_r (pad 2 (segundo t))).
  unfold parse_hms. rewrite field_pad by (cbn; lia). cbn [mbind option_bind expect String.append].
  rewrite Ascii.eqb_refl. cbn [mbind option_bind expect String.append]. rewrite field_pad by (cbn; lia). cbn [mbind option_bind expect String.append].
  rewrite field_pad by (cbn; lia). done.
Qed.

(** ** [DATE(x, '-n days')] on a date text *)

(** Over the range, [DATE(x, 'n days')] is the text of the date whose day
    number is [x]'s plus [n]. *)
Lemma date_add_days_format y m d n :
  data_valida y m d = true -> dia_min <= jd_day y m d + n <= dia_max ->
  exists y' m' d',
    date_add_days (Some (format_date y m d)) n = Some (format_date y' m' d') /\
    data_valida y' m' d' = true /\ jd_day y' m' d' = jd_day y m d + n /\ ano_min <= y' <= ano_max.
Proof.
  intros Hd Hr. pose proof dia_min_max as Hmm. unfold date_add_days.
  rewrite parse_format_date by done. unfold iJD. cbn [Y M D hms].
  rewrite computeJD_day. cbn [time_ms].
  replace (jd_day y m d * 86400000 - 43200000 + 0 + n * 86400000)
    with ((jd_day y m d + n) * 86400000 - 43200000 + 0) by lia.
  rewrite computeYMD_day by lia.
  pose proof (civil_range (jd_day y m d + n) Hr) as Hc.
  destruct (civil (jd_day y m d + n)) as [[y' m'] d']. exists y', m', d'. done.
Qed.

(** ** The cutoff test of the activity queries *)

(** [Data > DATE(ref, '-n days')] on a timestamp text holds exactly when
    the timestamp's day is at most [n] days before the reference day: a
    transaction on the cutoff day itself passes, because its text has the
    cutoff text as a proper prefix. *)
Lemma data_apos_corte t y m d n :
  stamp_valido t = true -> ano_min <= ano t <= ano_max ->
  data_valida y m d = true -> dia_min <= jd_day y m d - n <= dia_max ->
  Sql.holds (Sql.s_gt (Some (format_stamp t)) (date_add_days (Some (format_date y m d)) (- n))) =
  (jd_day y m d - jd_day (ano t) (mes t) (dia t) <=? n).
Proof.
  intros Ht Hy Hd Hr.
  destruct (date_add_days_format y m d (- n) Hd ltac:(lia)) as (y' & m' & d' & -> & Hv & Hj & Hy').
  replace (holds (s_gt (Some (format_stamp t)) (Some (format_date y' m' d'))))
    with (str_ltb (format_date y' m' d') (format_stamp t))
    by (unfold s_gt, s_lt, holds; change sql_ltb with str_ltb;
        destruct (str_ltb (format_date y' m' d') (format_stamp t)); reflexivity).
  rewrite stamp_gt_date by done.
  assert (data_valida (ano t) (mes t) (dia t) = true) as Hdt
    by (unfold stamp_valido in Ht; rewrite !andb_true_iff in Ht; tauto).
  rewrite <- jd_day_order by done. rewrite Hj.
  destruct (Z.compare_spec (jd_day (ano t) (mes t) (dia t)) (jd_day y m d + - n)).
  - rewrite bool_decide_false by done. symmetry. apply Z.leb_le. lia.
  - rewrite bool_decide_true by done. symmetry. apply Z.leb_gt. lia.
  - rewrite bool_decide_false by done. symmetry. apply Z.leb_le. lia.
Qed.

End Dates.
