(* ===== verification/Pandas.v ===== *)
(** * The pandas and numpy operations of the DataFrame scripts

    The scripts that do not go through SQLite read the CSV files into
    DataFrames and compute with pandas.  This file gives the meaning of the
    operations they use, as the pandas documentation states it:
    - a [Timestamp] is an instant, here in milliseconds ([instante]); a
      difference of two is a [Timedelta] whose [.days] rounds down;
    - numpy's [round] goes half to even ([np_round]);
    - [pd.cut] puts a value in the bin [(b_i, b_{i+1}]] that holds it, the
      first bin closed on the left under [include_lowest] ([cut]);
    - [groupby] drops the rows whose key is [NaN] ([grupos]); [merge]
      matches equal keys, [NaN] with [NaN] as pandas does ([merge_inner],
      [merge_left]); [drop_duplicates] keeps the first occurrence;
    - [Series.idxmax] returns the first label of a maximum ([idxmax]);
    - Python's [min(a, b)] returns [b] only when [b < a], so a [NaN] first
      argument wins ([py_min]).
    Missing values ([NaN], [NaT]) are [None]. *)

From stdpp Require Import base list.
From Stdlib Require Import ZArith QArith Qround String Lia Lqa Sorting.Sorted.
From S2P Require Import Prelude Sql Dates.

Local Abbreviation length := Datatypes.length.

Module Pandas.
Import Sql.

(** ** Timestamps *)

Definition ms_dia : Z := 86400000.

(** The instant of a timestamp: its day number times a day plus the time of
    day, in milliseconds. *)
Definition instante (st : Dates.stamp) : Z :=
  Dates.jd_day (Dates.ano st) (Dates.mes st) (Dates.dia st) * ms_dia +
  Dates.time_ms (Some (Dates.hora st, Dates.minuto st, Dates.segundo st)).

(** [(a - b).dt.days]. *)
Definition dias (a b : Z) : Z := (a - b) / ms_dia.

(** [a - timedelta(days=n)]. *)
Definition menos_dias (a n : Z) : Z := a - n * ms_dia.

(** ** numpy *)

(** [np.round(x, d)]: to the nearest multiple of [10^-d], ties to even. *)
Definition np_round (x : Q) (d : nat) : Q :=
  let p := inject_Z (10 ^ Z.of_nat d) in
  let s := (x * p)%Q in
  let f := Qfloor s in
  let r := (s - inject_Z f)%Q in
  (inject_Z (if Qlt_le_dec r (1 # 2) then f
             else if Qlt_le_dec (1 # 2) r then f + 1
             else if Z.even f then f else f + 1) / p)%Q.

(** ** numpy's float division *)

(** A float64 result of a Python division of two [numpy.int64] counts:
    finite, infinite (with its sign) or NaN; numpy warns and does not
    raise on a zero divisor. *)
Inductive flt := Fin (q : Q) | Inf (positivo : bool) | NaN.

Definition div_np (a b : Z) : flt :=
  if (b =? 0)%Z then (if (a =? 0)%Z then NaN else Inf (0 <? a)%Z)
  else Fin (inject_Z a / inject_Z b)%Q.

Definition mul_np (x : flt) (k : Q) : flt :=
  match x with Fin q => Fin (q * k)%Q | _ => x end.

(** A count read as a number. *)
Definition nq (n : nat) : Q := inject_Z (Z.of_nat n).

(** A float64 quotient of two floats, as numpy computes it. *)
Definition div_q (a b : Q) : flt :=
  if Qeq_bool b 0 then (if Qeq_bool a 0 then NaN else Inf (Qltb 0 a))
  else Fin (a / b)%Q.

(** Python's [min(a, b)] on floats: [b] when [b < a], else [a]. *)
Definition py_min (a b : option Q) : option Q :=
  match a, b with
  | Some x, Some y => if Qltb y x then b else a
  | _, _ => a
  end.

(** [Series.max()]: the largest non-missing value, [NaN] when there is
    none. *)
Definition serie_max {A} (ltb : A -> A -> bool) (l : list (option A)) : option A :=
  fold_right (fun x m => match x, m with
                         | Some a, Some b => Some (if ltb b a then a else b)
                         | Some a, None => Some a
                         | None, _ => m
                         end) None l.

(** ** Statistics of a column *)

(** The values in ascending order. *)
Fixpoint insere_asc (x : Q) (l : list Q) : list Q :=
  match l with
  | [] => [x]
  | y :: l' => if Qle_bool x y then x :: y :: l' else y :: insere_asc x l'
  end.

Definition ordena_asc (l : list Q) : list Q := fold_right insere_asc [] l.

(** [mean()]: [NaN] on no value. *)
Definition media (l : list Q) : option Q :=
  match l with [] => None | _ => Some (fold_right Qplus 0 l / inject_Z (Z.of_nat (length l)))%Q end.

(** [quantile(p)] with linear interpolation: position [(n - 1) p] of the
    sorted values; [median()] is [quantile(0.5)]. *)
Definition quantil (p : Q) (l : list Q) : option Q :=
  let s := ordena_asc l in
  match s with
  | [] => None
  | x0 :: _ =>
      let h := (inject_Z (Z.of_nat (length s) - 1) * p)%Q in
      let lo := Qfloor h in
      let a := nth (Z.to_nat lo) s x0 in
      let b := nth (Z.to_nat lo + 1) s a in
      Some (a + (h - inject_Z lo) * (b - a))%Q
  end.

Definition mediana (l : list Q) : option Q := quantil (1 # 2) l.

(** ** [pd.cut] *)

Fixpoint cut_aux {L} (lo : Q) (bins : list Q) (labels : list L) (x : Q) : option L :=
  match bins, labels with
  | hi :: bins', l :: labels' => if Qltb lo x && Qle_bool x hi then Some l else cut_aux hi bins' labels' x
  | _, _ => None
  end.

Definition cut {L} (bins : list Q) (labels : list L) (include_lowest : bool) (x : option Q) : option L :=
  match x, bins with
  | Some v, lo :: bins' =>
      if include_lowest && Qeq_bool v lo then hd_error labels else cut_aux lo bins' labels v
  | _, _ => None
  end.

(** [pd.cut(x, bins=bins ++ [inf], labels=labels ++ [ultimo])]: the last
    interval has no upper bound. *)
Definition cut_inf {L} (bins : list Q) (labels : list L) (ultimo : L) (x : option Q) : option L :=
  match x with
  | Some v => if Qltb (List.last bins 0) v then Some ultimo else cut bins labels false x
  | None => None
  end.

(** ** DataFrame operations *)

(** [groupby(key)]: one group per non-missing key, in the order of first
    appearance. *)
Definition grupos {K A} `{EqDecision K} (key : A -> option K) (l : list A) : list (K * list A) :=
  omap (fun kg => match fst kg with Some k => Some (k, snd kg) | None => None end) (group_by key l).

(** [drop_duplicates()]: the first occurrence of each row. *)
Definition drop_duplicates {A} `{EqDecision A} (l : list A) : list A := reverse (remove_dups (reverse l)).

(** [l.merge(r, on=key, how='inner')] and [how='left']. *)
Definition merge_inner {A B K} `{EqDecision K} (ka : A -> K) (kb : B -> K) (l : list A) (r : list B)
  : list (A * B) :=
  flat_map (fun a => map (fun b => (a, b)) (List.filter (fun b => bool_decide (ka a = kb b)) r)) l.

Definition merge_left {A B K} `{EqDecision K} (ka : A -> K) (kb : B -> K) (l : list A) (r : list B)
  : list (A * option B) :=
  flat_map (fun a => match List.filter (fun b => bool_decide (ka a = kb b)) r with
                     | [] => [(a, None)]
                     | ms => map (fun b => (a, Some b)) ms
                     end) l.

(** [GroupBy.first()]: per column, the first non-missing value of the
    group. *)
Fixpoint first_valid {A} (l : list (option A)) : option A :=
  match l with
  | [] => None
  | Some a :: _ => Some a
  | None :: l' => first_valid l'
  end.

(** [sort_values(col, ascending=False)]: largest first, [NaN] last; the
    model keeps tied rows in their order (pandas' default quicksort leaves
    their order unspecified). *)
Definition antes (a b : option Q) : bool :=
  match a, b with
  | Some x, Some y => Qltb y x
  | Some _, None => true
  | None, _ => false
  end.

Fixpoint insere_desc {A} (f : A -> option Q) (x : A) (l : list A) : list A :=
  match l with
  | [] => [x]
  | y :: l' => if antes (f y) (f x) then y :: insere_desc f x l' else x :: y :: l'
  end.

Definition sort_desc {A} (f : A -> option Q) (l : list A) : list A := fold_right (insere_desc f) [] l.

(** [DataFrame.nlargest(n, col)] on a column with no [NaN]: the [n] rows
    of largest value, tied rows in their order ([keep='first']). *)
Definition nlargest {A} (n : nat) (f : A -> Q) (l : list A) : list A :=
  firstn n (sort_desc (fun x => Some (f x)) l).

(** [Series.idxmax()]: the first label whose value is the largest. *)
Fixpoint idxmax {L} (l : list (L * Q)) : option (L * Q) :=
  match l with
  | [] => None
  | x :: l' =>
      match idxmax l' with
      | Some y => if Qltb (snd x) (snd y) then Some y else Some x
      | None => Some x
      end
  end.

(** ** Properties *)

(** The first occurrence kept by [drop_duplicates] loses no row. *)
Lemma In_drop_duplicates {A} `{EqDecision A} (l : list A) x : In x (drop_duplicates l) <-> In x l.
Proof.
  unfold drop_duplicates. rewrite <- !list_elem_of_In, elem_of_reverse, elem_of_remove_dups, elem_of_reverse.
  done.
Qed.

Lemma NoDup_drop_duplicates {A} `{EqDecision A} (l : list A) : NoDup (drop_duplicates l).
Proof. unfold drop_duplicates. rewrite reverse_Permutation. apply NoDup_remove_dups. Qed.

(** [idxmax] returns a row of the series with a largest value. *)
Lemma idxmax_spec {L} (l : list (L * Q)) r :
  idxmax l = Some r -> In r l /\ forall y, In y l -> (snd y <= snd r)%Q.
Proof.
  revert r. induction l as [|x l IH]; intros r; [done|]. cbn.
  destruct (idxmax l) as [y|] eqn:E.
  - destruct (IH y eq_refl) as [Hy Hall].
    destruct (Qltb_spec (snd x) (snd y)); intros [= <-].
    + split; [right; done|]. intros z [<-|Hz]; [lra|auto].
    + split; [left; done|]. intros z [<-|Hz]; [lra|]. specialize (Hall z Hz). lra.
  - intros [= <-]. split; [left; done|]. intros z [<-|Hz]; [lra|].
    destruct l; [done|]. cbn in E. destruct (idxmax l); [|done]. destruct (Qltb _ _); done.
Qed.

(** [np.round] reads its argument as a number. *)
#[export] Instance np_round_proper : Proper (Qeq ==> eq ==> Qeq) np_round.
Proof.
  intros x y Hxy d d' <-. unfold np_round.
  set (p := inject_Z (10 ^ Z.of_nat d)).
  assert (x * p == y * p)%Q as Hp by (rewrite Hxy; reflexivity).
  rewrite (Qfloor_comp _ _ Hp). set (f := Qfloor (y * p)).
  destruct (Qlt_le_dec (x * p - inject_Z f) (1 # 2)), (Qlt_le_dec (y * p - inject_Z f) (1 # 2));
    try (exfalso; lra);
    destruct (Qlt_le_dec (1 # 2) (x * p - inject_Z f)), (Qlt_le_dec (1 # 2) (y * p - inject_Z f));
    try (exfalso; lra); reflexivity.
Qed.

Lemma pow10_Q_pos (d : nat) : (0 < inject_Z (10 ^ Z.of_nat d))%Q.
Proof.
  change 0%Q with (inject_Z 0). rewrite <- Zlt_Qlt. apply Z.pow_pos_nonneg; lia.
Qed.

(** An integer is its own rounding. *)
Lemma np_round_Z (z : Z) (d : nat) : (np_round (inject_Z z) d == inject_Z z)%Q.
Proof.
  unfold np_round. pose proof (pow10_Q_pos d) as Hp.
  set (p := inject_Z (10 ^ Z.of_nat d)) in *.
  assert (inject_Z z * p == inject_Z (z * 10 ^ Z.of_nat d))%Q as Hzp by (rewrite inject_Z_mult; reflexivity).
  rewrite (Qfloor_comp _ _ Hzp), Qfloor_Z.
  destruct (Qlt_le_dec (inject_Z z * p - inject_Z (z * 10 ^ Z.of_nat d)) (1 # 2)) as [H|H].
  - rewrite inject_Z_mult. fold p. clearbody p. field. lra.
  - exfalso. rewrite Hzp in H. lra.
Qed.

(** [np.round(x, 2)] is within half a hundredth of [x]. *)
Lemma np_round_2_bound x : (- (1 # 200) <= np_round x 2 - x <= 1 # 200)%Q.
Proof.
  unfold np_round. change (inject_Z (10 ^ Z.of_nat 2)) with 100%Q.
  pose proof (Qfloor_le (x * 100)%Q) as H1. pose proof (Qlt_floor (x * 100)%Q) as H2.
  rewrite inject_Z_plus in H2. change (inject_Z 1) with 1%Q in H2.
  set (f := Qfloor (x * 100)) in *. unfold Qdiv. change (/ 100)%Q with (1 # 100)%Q.
  destruct (Qlt_le_dec _ _); [split; lra|]. rewrite ?inject_Z_plus. change (inject_Z 1) with 1%Q.
  destruct (Qlt_le_dec _ _); [rewrite inject_Z_plus; change (inject_Z 1) with 1%Q; split; lra|].
  destruct (Z.even f); rewrite ?inject_Z_plus; change (inject_Z 1) with 1%Q; split; lra.
Qed.

(** [np.round(x, 1)] is within half a tenth of [x]. *)
Lemma np_round_1_bound x : (- (1 # 20) <= np_round x 1 - x <= 1 # 20)%Q.
Proof.
  unfold np_round. change (inject_Z (10 ^ Z.of_nat 1)) with 10%Q.
  pose proof (Qfloor_le (x * 10)%Q) as H1. pose proof (Qlt_floor (x * 10)%Q) as H2.
  rewrite inject_Z_plus in H2. change (inject_Z 1) with 1%Q in H2.
  set (f := Qfloor (x * 10)) in *. unfold Qdiv. change (/ 10)%Q with (1 # 10)%Q.
  destruct (Qlt_le_dec _ _); [split; lra|]. rewrite ?inject_Z_plus. change (inject_Z 1) with 1%Q.
  destruct (Qlt_le_dec _ _); [rewrite inject_Z_plus; change (inject_Z 1) with 1%Q; split; lra|].
  destruct (Z.even f); rewrite ?inject_Z_plus; change (inject_Z 1) with 1%Q; split; lra.
Qed.

(** Rounding each term to one decimal moves a sum of [n] terms by at most
    [n / 20]. *)
Lemma soma_np_round_1 {A} (x : A -> Q) (l : list A) :
  (- (1 # 20) * nq (length l) <= fold_right Qplus 0 (map (fun a => np_round (x a) 1) l) -
     fold_right Qplus 0 (map x l) <= (1 # 20) * nq (length l))%Q.
Proof.
  induction l as [|a l IH]; cbn [map fold_right length]; [change (nq 0) with 0%Q; lra|].
  pose proof (np_round_1_bound (x a)).
  assert (nq (S (length l)) == nq (length l) + 1)%Q as ->
    by (unfold nq; rewrite Nat2Z.inj_succ, <- Z.add_1_r, inject_Z_plus; reflexivity).
  lra.
Qed.

(** [np.round(x, 1)] of a percentage is a percentage. *)
Lemma np_round_1_range x : (0 <= x <= 100)%Q -> (0 <= np_round x 1 <= 100)%Q.
Proof.
  intros [H0 H100]. unfold np_round. change (inject_Z (10 ^ Z.of_nat 1)) with 10%Q.
  pose proof (Qfloor_le (x * 10)%Q) as H1. pose proof (Qlt_floor (x * 10)%Q) as H2.
  rewrite inject_Z_plus in H2. change (inject_Z 1) with 1%Q in H2.
  set (f := Qfloor (x * 10)) in *. unfold Qdiv. change (/ 10)%Q with (1 # 10)%Q.
  assert (0 <= inject_Z f)%Q as Hf0.
  { change 0%Q with (inject_Z 0). rewrite <- Zle_Qle. change 0%Z with (Qfloor 0).
    apply Qfloor_resp_le. lra. }
  assert ((1 # 2) <= x * 10 - inject_Z f -> inject_Z (f + 1) <= 1000)%Q as Hup.
  { intros Hr. assert (f < 1000)%Z as Hf by (rewrite Zlt_Qlt; change (inject_Z 1000) with 1000%Q; lra).
    rewrite inject_Z_plus. change (inject_Z 1) with 1%Q.
    assert (f <= 999)%Z as Hf' by lia. rewrite Zle_Qle in Hf'. change (inject_Z 999) with 999%Q in Hf'. lra. }
  destruct (Qlt_le_dec _ _) as [Hl|Hl]; [split; lra|].
  specialize (Hup Hl). rewrite inject_Z_plus in Hup. change (inject_Z 1) with 1%Q in Hup.
  destruct (Qlt_le_dec _ _); [rewrite inject_Z_plus; change (inject_Z 1) with 1%Q; split; lra|]. destruct (Z.even f); rewrite ?inject_Z_plus; change (inject_Z 1) with 1%Q; split; lra.
Qed.

(** A value rounded to [d] decimals, times [10^d], is an integer. *)
Lemma np_round_escala (x : Q) (d : nat) :
  exists z : Z, (np_round x d * inject_Z (10 ^ Z.of_nat d) == inject_Z z)%Q.
Proof.
  unfold np_round. pose proof (pow10_Q_pos d) as Hp.
  set (p := inject_Z (10 ^ Z.of_nat d)) in *. clearbody p.
  match goal with |- exists z, (inject_Z ?e / p * p == _)%Q => exists e end. field. lra.
Qed.

(** The order [sort_desc] produces: a missing key comes after every key. *)
Definition desc_key (a b : option Q) : Prop :=
  match a, b with
  | Some x, Some y => (y <= x)%Q
  | _, None => True
  | None, Some _ => False
  end.

Lemma antes_false a b : antes a b = false -> desc_key b a.
Proof. destruct a as [x|], b as [y|]; cbn; try done. intros H. destruct (Qltb_spec y x); done. Qed.

Lemma antes_true a b : antes a b = true -> desc_key a b.
Proof. destruct a as [x|], b as [y|]; cbn; try done. intros H. apply Qltb_iff in H. lra. Qed.

Lemma desc_key_antes a b : desc_key a b -> antes b a = false.
Proof. destruct a as [x|], b as [y|]; cbn; try done. intros H. destruct (Qltb_spec x y); [lra|done]. Qed.

Lemma desc_key_trans a b c : desc_key a b -> desc_key b c -> desc_key a c.
Proof. destruct a, b, c; cbn; try done; lra. Qed.

Lemma insere_desc_perm {A} (f : A -> option Q) x l : insere_desc f x l ≡ₚ x :: l.
Proof.
  induction l as [|y l IH]; cbn; [done|]. destruct (antes _ _); [|done].
  rewrite IH. apply Permutation_swap.
Qed.

Lemma sort_desc_perm {A} (f : A -> option Q) l : sort_desc f l ≡ₚ l.
Proof. induction l as [|x l IH]; cbn; [done|]. rewrite insere_desc_perm, IH. done. Qed.

Lemma insere_desc_sorted {A} (f : A -> option Q) x l :
  Sorted (fun a b => desc_key (f a) (f b)) l -> Sorted (fun a b => desc_key (f a) (f b)) (insere_desc f x l).
Proof.
  induction 1 as [|y l Hl IH Hhd]; cbn; [repeat constructor|].
  destruct (antes (f y) (f x)) eqn:E.
  - constructor; [done|]. apply antes_true in E. destruct l as [|z l]; cbn; [constructor; done|].
    inversion Hhd; subst. destruct (antes (f z) (f x)); constructor; done.
  - constructor; [constructor; done|]. constructor. apply antes_false. done.
Qed.

Lemma sort_desc_sorted {A} (f : A -> option Q) l : Sorted (fun a b => desc_key (f a) (f b)) (sort_desc f l).
Proof. induction l as [|x l IH]; cbn; [constructor|]. apply insere_desc_sorted. done. Qed.

(** Rows already in descending order are left as they are. *)
Lemma sort_desc_id {A} (f : A -> option Q) l :
  Sorted (fun a b => desc_key (f a) (f b)) l -> sort_desc f l = l.
Proof.
  induction l as [|x l IH]; intros Hs; [done|]. inversion Hs as [|? ? Hl Hx]; subst.
  change (insere_desc f x (sort_desc f l) = x :: l). rewrite IH by done. destruct l as [|y l]; cbn; [done|].
  inversion Hx; subst. rewrite desc_key_antes; done.
Qed.

(** The first row of a descending sort has the largest key. *)
Lemma sort_desc_topo {A} (f : A -> option Q) l top rest :
  sort_desc f l = top :: rest -> forall y, In y l -> desc_key (f top) (f y).
Proof.
  intros E y Hy. pose proof (sort_desc_sorted f l) as Hs. rewrite E in Hs.
  apply Sorted_StronglySorted in Hs; [|intros a b c; apply desc_key_trans].
  assert (In y (top :: rest)) as Hy'.
  { rewrite <- E. apply list_elem_of_In. rewrite (sort_desc_perm f l). apply list_elem_of_In. done. }
  destruct Hy' as [Heq|Hin].
  - subst y. unfold desc_key. destruct (f top) as [q|]; [apply Qle_refl|exact I].
  - inversion Hs as [|? ? _ Hall]; subst. rewrite List.Forall_forall in Hall. apply Hall. done.
Qed.

(** A [merge_left] row without a match carries no right row. *)
Lemma In_merge_left {A B K} `{EqDecision K} (ka : A -> K) (kb : B -> K) l r a m :
  In (a, m) (merge_left ka kb l r) ->
  In a l /\ match m with Some b => In b r /\ ka a = kb b | None => forall b, In b r -> ka a <> kb b end.
Proof.
  unfold merge_left. rewrite in_flat_map. intros (a' & Ha' & Hin).
  destruct (List.filter _ r) as [|b0 ms] eqn:E.
  - destruct Hin as [[= <- <-]|[]]. split; [done|]. intros b Hb Heq.
    assert (In b (List.filter (fun b => bool_decide (ka a' = kb b)) r)) as Hf
      by (apply filter_In; rewrite bool_decide_true; done).
    rewrite E in Hf. done.
  - apply in_map_iff in Hin as (b & [= <- <-] & Hb). rewrite <- E in Hb.
    apply filter_In in Hb as [Hb Hk]. apply bool_decide_eq_true in Hk. done.
Qed.

(** The keys of [groupby] are keys of the rows. *)
Lemma In_grupos {K A} `{EqDecision K} (key : A -> option K) l k g :
  In (k, g) (grupos key l) -> exists x, In x l /\ key x = Some k.
Proof.
  unfold grupos. intros Hin. apply list_elem_of_In, list_elem_of_omap in Hin as ([k' g'] & Hin & Hk).
  cbn in Hk. destruct k' as [k'|]; [|done]. injection Hk as -> ->.
  apply list_elem_of_In, In_group_by in Hin as [(x & Hx & Hkx) _]. exists x. done.
Qed.

Lemma grupos_group_of {K A} `{EqDecision K} (key : A -> option K) l k g :
  In (k, g) (grupos key l) -> g = group_of key (Some k) l.
Proof.
  unfold grupos. intros Hin. apply list_elem_of_In, list_elem_of_omap in Hin as ([k' g'] & Hin & Hk).
  cbn in Hk. destruct k' as [k'|]; [|done]. injection Hk as -> ->.
  apply list_elem_of_In, In_group_by in Hin as [_ ->]. done.
Qed.

Lemma grupos_In {K A} `{EqDecision K} (key : A -> option K) l x k :
  In x l -> key x = Some k -> In (k, group_of key (Some k) l) (grupos key l).
Proof.
  intros Hx Hk. unfold grupos. apply list_elem_of_In, list_elem_of_omap.
  exists (Some k, group_of key (Some k) l). split; [|done].
  apply list_elem_of_In, In_group_by. split; [exists x|]; done.
Qed.

Lemma NoDup_omap_id {K} (l : list (option K)) : List.NoDup l -> List.NoDup (omap id l).
Proof.
  induction 1 as [|[k|] l Hx _ IH]; cbn; [constructor| |done].
  constructor; [|done]. intros Hk%In_nao_nulos. done.
Qed.

(** The keys of [groupby] are distinct. *)
Lemma grupos_keys_NoDup {K A} `{EqDecision K} (key : A -> option K) l :
  List.NoDup (map fst (grupos key l)).
Proof.
  unfold grupos. assert (forall L : list (option K * list A),
    map fst (omap (fun kg => match fst kg with Some k => Some (k, snd kg) | None => None end) L) =
    omap id (map fst L)) as ->.
  { induction L as [|[[k|] g] L IH]; cbn; [done| |done]. rewrite IH. done. }
  apply NoDup_omap_id, group_by_keys_NoDup.
Qed.

(** Every row with a key is counted in exactly one group of [groupby]. *)
Lemma grupos_sum {K A} `{EqDecision K} (key : A -> option K) (p : A -> bool) l :
  sum_list_with (fun kg => #[p] (snd kg)) (grupos key l) = #[fun x => negb (is_null (key x)) && p x] l.
Proof.
  unfold grupos. rewrite sum_list_with_omap, <- (group_by_sum key). apply sum_list_with_ext_in.
  intros [k g] (_ & ->)%In_group_by. cbn.
  change (length (List.filter ?q ?m)) with (#[q] m). destruct k as [k|].
  - apply count_if_ext_in. intros x (_ & ->)%In_group_of. done.
  - symmetry. apply count_if_false. intros x (_ & ->)%In_group_of. done.
Qed.

Lemma In_merge_inner {A B K} `{EqDecision K} (ka : A -> K) (kb : B -> K) l r a b :
  In (a, b) (merge_inner ka kb l r) <-> In a l /\ In b r /\ ka a = kb b.
Proof.
  unfold merge_inner. rewrite in_flat_map. split.
  - intros (a' & Ha' & Hin). apply in_map_iff in Hin as (b' & [= <- <-] & Hb).
    apply filter_In in Hb as [Hb Hk]. apply bool_decide_eq_true in Hk. done.
  - intros (Ha & Hb & Hk). exists a. split; [done|]. apply in_map_iff. exists b.
    split; [done|]. apply filter_In. rewrite bool_decide_true; done.
Qed.

Lemma merge_left_Some {A B K} `{EqDecision K} (ka : A -> K) (kb : B -> K) l r a b :
  In a l -> In b r -> ka a = kb b -> In (a, Some b) (merge_left ka kb l r).
Proof.
  intros Ha Hb Hk. unfold merge_left. apply in_flat_map. exists a. split; [done|].
  assert (In b (List.filter (fun b => bool_decide (ka a = kb b)) r)) as Hf
    by (apply filter_In; rewrite bool_decide_true; done).
  destruct (List.filter _ r); [done|]. apply in_map_iff. exists b. done.
Qed.

Lemma merge_left_None {A B K} `{EqDecision K} (ka : A -> K) (kb : B -> K) l r a :
  In a l -> (forall b, In b r -> ka a <> kb b) -> In (a, None) (merge_left ka kb l r).
Proof.
  intros Ha Hn. unfold merge_left. apply in_flat_map. exists a. split; [done|].
  replace (List.filter _ r) with (@nil B); [left; done|].
  symmetry. rewrite (List.filter_ext_in _ (fun _ => false)); [apply List.filter_false|].
  intros b Hb. apply bool_decide_false. apply Hn. done.
Qed.

(** A left merge keeps every left row. *)
Lemma merge_left_cobre {A B K} `{EqDecision K} (ka : A -> K) (kb : B -> K) l r a :
  In a l -> exists m, In (a, m) (merge_left ka kb l r).
Proof.
  intros Ha. destruct (List.find (fun b => bool_decide (ka a = kb b)) r) as [b|] eqn:E.
  - apply List.find_some in E as [Hb Hk]. apply bool_decide_eq_true in Hk.
    exists (Some b). apply merge_left_Some; done.
  - exists None. apply merge_left_None; [done|]. intros b Hb Hk.
    apply (List.find_none _ _ E) in Hb. rewrite bool_decide_true in Hb; done.
Qed.

(** [idxmax] finds a label exactly when there is a value. *)
Lemma idxmax_None {L} (l : list (L * Q)) : idxmax l = None <-> l = [].
Proof. destruct l as [|x l]; cbn; [done|]. destruct (idxmax l); [destruct (Qltb _ _)|]; done. Qed.

Lemma merge_left_nil {A B K} `{EqDecision K} (ka : A -> K) (kb : B -> K) l r :
  merge_left ka kb l r = [] <-> l = [].
Proof.
  destruct l as [|a l]; [done|]. unfold merge_left. cbn. split; [|done].
  destruct (List.filter _ r); [done|]. done.
Qed.

(** ** [mean()] *)

(** The mean of values strictly within [(lo, hi)] is strictly within it. *)
Lemma media_estrita lo hi l m :
  Forall (fun v => lo < v < hi)%Q l -> media l = Some m -> (lo < m < hi)%Q.
Proof.
  unfold media. intros Hf Hm. destruct l as [|x xs]; [done|]. injection Hm as <-.
  inversion Hf as [|? ? Hx Hxs]; subst.
  assert (Forall (fun v => lo <= v <= hi)%Q xs) as Hxs'
    by (eapply List.Forall_impl; [|exact Hxs]; intros v Hv; cbn in Hv; lra).
  apply soma_limites in Hxs'. cbn [length fold_right].
  rewrite Nat2Z.inj_succ, <- Z.add_1_r, inject_Z_plus. change (inject_Z 1) with 1%Q.
  set (n := inject_Z (Z.of_nat (length xs))) in *.
  assert (0 <= n)%Q by (unfold n; change 0%Q with (inject_Z 0); rewrite <- Zle_Qle; lia).
  split; [apply Qlt_shift_div_l | apply Qlt_shift_div_r]; lra.
Qed.

(** A sum splits along a test. *)
Lemma soma_filter (p : Q -> bool) l :
  (fold_right Qplus 0 l == fold_right Qplus 0 (List.filter p l) +
                           fold_right Qplus 0 (List.filter (fun x => negb (p x)) l))%Q.
Proof. induction l as [|x l IH]; cbn; [ring|]. destruct (p x); cbn; rewrite IH; ring. Qed.

Lemma soma_nao_positiva l : Forall (fun v => v <= 0)%Q l -> (fold_right Qplus 0 l <= 0)%Q.
Proof. induction 1; cbn; lra. Qed.

Lemma soma_nao_negativa l : Forall (fun v => 0 <= v)%Q l -> (0 <= fold_right Qplus 0 l)%Q.
Proof. induction 1; cbn; lra. Qed.

(** [S / n <= SP / np] when [S <= SP], [0 <= SP] and [0 < np <= n]. *)
Lemma div_le_div (S SP n np : Q) :
  (S <= SP -> 0 <= SP -> 0 < np -> np <= n -> S / n <= SP / np)%Q.
Proof.
  intros H1 H2 H3 H4. set (a := (SP / np)%Q).
  assert (a * np == SP)%Q as Ha by (unfold a; field; lra).
  assert (0 <= a)%Q by (apply Qle_shift_div_l; lra).
  apply Qle_shift_div_r; [lra|].
  assert (0 <= a * (n - np))%Q by (apply Qmult_le_0_compat; lra). nra.
Qed.

(** The mean of the positive values is at least the mean of all of them. *)
Lemma media_positivos l a b :
  media (List.filter (fun c => Qltb 0 c) l) = Some a -> media l = Some b -> (b <= a)%Q.
Proof.
  unfold media. intros Ha Hb.
  pose proof (soma_filter (fun c => Qltb 0 c) l) as Hs.
  pose proof (count_if_le (fun c => Qltb 0 c) l) as Hle. unfold count_if in Hle.
  assert (fold_right Qplus 0 (List.filter (fun c => negb (Qltb 0 c)) l) <= 0)%Q as Hn.
  { apply soma_nao_positiva, List.Forall_forall. intros v (_ & Hv)%filter_In.
    destruct (Qltb_spec 0 v); [done|done]. }
  assert (0 <= fold_right Qplus 0 (List.filter (fun c => Qltb 0 c) l))%Q as Hp.
  { apply soma_nao_negativa, List.Forall_forall. intros v (_ & Hv)%filter_In.
    destruct (Qltb_spec 0 v); [lra|done]. }
  destruct (List.filter _ l) as [|p ps] eqn:EP; [done|]. destruct l as [|x xs]; [done|].
  apply (f_equal (fun o => match o with Some x => x | None => 0%Q end)) in Ha, Hb.
  cbv beta iota in Ha, Hb. subst a b. apply div_le_div; [lra|done| |].
  - change 0%Q with (inject_Z 0). rewrite <- Zlt_Qlt. cbn [length]. lia.
  - rewrite <- Zle_Qle. lia.
Qed.

(** ** Counts per category *)

(** Counting the rows of each label of a list of distinct labels counts
    every row whose label is one of them once. *)
Lemma soma_por_rotulo {A L} `{EqDecision L} (rot : list L) (g : A -> option L) (l : list A) :
  NoDup rot -> (forall x f, In x l -> g x = Some f -> In f rot) ->
  sum_list_with (fun f => #[fun x => bool_decide (g x = Some f)] l) rot =
  #[fun x => negb (is_null (g x))] l.
Proof.
  intros Hnd Hin.
  rewrite (sum_list_with_ext_in _
    (fun f => sum_list_with (fun x => if bool_decide (g x = Some f) then 1%nat else 0%nat) l))
    by (intros; apply count_if_sum).
  rewrite (sum_list_with_swap (fun f x => if bool_decide (g x = Some f) then 1%nat else 0%nat)).
  rewrite count_if_sum. apply sum_list_with_ext_in. intros x Hx.
  transitivity (sum_list_with (fun k => if bool_decide (g x = k) then 1%nat else 0%nat) (map Some rot));
    [rewrite sum_list_with_map; done|].
  rewrite sum_indicator by (apply NoDup_fmap; [apply _|done]).
  destruct (g x) as [f|] eqn:E; cbn [is_null negb].
  - rewrite bool_decide_true; [done|]. apply list_elem_of_In, in_map, (Hin x f Hx E).
  - rewrite bool_decide_false; [done|]. intros H. apply list_elem_of_In, in_map_iff in H as (? & ? & _).
    done.
Qed.

(** ** [pd.cut] *)

(** A band is one of the labels. *)
Lemma cut_aux_In {L} lo bins (labels : list L) x l : cut_aux lo bins labels x = Some l -> In l labels.
Proof.
  revert lo labels. induction bins as [|hi bins IH]; intros lo [|l0 labels] H; cbn in H; try done.
  destruct (Qltb lo x && Qle_bool x hi); [injection H as <-; left; done|right; eapply IH; exact H].
Qed.

Lemma cut_In {L} bins (labels : list L) il x l : cut bins labels il x = Some l -> In l labels.
Proof.
  unfold cut. destruct x as [v|], bins as [|lo bins]; try done.
  destruct (il && Qeq_bool v lo); [|apply cut_aux_In].
  destruct labels; cbn; [done|]. intros H. injection H as <-. left. done.
Qed.

(** ** [quantile] *)

Lemma insere_asc_perm x l : insere_asc x l ≡ₚ x :: l.
Proof.
  induction l as [|y l IH]; cbn; [done|]. destruct (Qle_bool x y); [done|].
  rewrite IH. apply perm_swap.
Qed.

Lemma ordena_asc_perm l : ordena_asc l ≡ₚ l.
Proof. induction l as [|x l IH]; cbn; [done|]. rewrite insere_asc_perm, IH. done. Qed.

Lemma insere_asc_sorted x l : StronglySorted Qle l -> StronglySorted Qle (insere_asc x l).
Proof.
  induction l as [|y l IH]; intros Hs; cbn; [repeat constructor|].
  inversion Hs as [|? ? Hl Hy]; subst. destruct (Qle_bool x y) eqn:E.
  - apply Qle_bool_iff in E. constructor; [done|]. constructor; [done|].
    eapply List.Forall_impl; [|exact Hy]. intros z Hz. eapply Qle_trans; eauto.
  - assert (y <= x)%Q as Hyx by (apply Qlt_le_weak, Qnot_le_lt; intros H; apply Qle_bool_iff in H; congruence).
    constructor; [auto|]. apply List.Forall_forall. intros z Hz.
    apply list_elem_of_In in Hz. rewrite insere_asc_perm in Hz. apply list_elem_of_In in Hz as [<-|Hz]; [done|].
    rewrite List.Forall_forall in Hy. auto.
Qed.

Lemma ordena_asc_sorted l : StronglySorted Qle (ordena_asc l).
Proof. induction l as [|x l IH]; cbn; [constructor|]. apply insere_asc_sorted. done. Qed.

Lemma nth_sorted (s : list Q) i j d :
  StronglySorted Qle s -> (i < j < length s)%nat -> (nth i s d <= nth j s d)%Q.
Proof.
  revert i j. induction s as [|x s IH]; intros i j Hs Hij; cbn in Hij; [lia|].
  inversion Hs as [|? ? Hl Hx]; subst. destruct i as [|i], j as [|j]; cbn; [lia| |lia|].
  - rewrite List.Forall_forall in Hx. apply Hx, nth_In. lia.
  - apply IH; [done|lia].
Qed.

(** The linear interpolation between two sorted neighbours is at most
    a value of the list. *)
Lemma interpolacao_le (s : list Q) x0 h :
  StronglySorted Qle s -> In x0 s ->
  let lo := Qfloor h in
  let a := nth (Z.to_nat lo) s x0 in
  let b := nth (Z.to_nat lo + 1) s a in
  exists x, In x s /\ (a + (h - inject_Z lo) * (b - a) <= x)%Q.
Proof.
  intros Hs Hx0 lo a b.
  pose proof (Qfloor_le h) as H1. pose proof (Qlt_floor h) as H2.
  rewrite inject_Z_plus in H2. change (inject_Z 1) with 1%Q in H2. fold lo in H1, H2.
  assert (forall k d, In d s -> In (nth k s d) s) as Hnth.
  { intros k d Hd. destruct (Nat.lt_ge_cases k (length s)); [apply nth_In; done|]. rewrite nth_overflow; done. }
  assert (In a s) as Ha by (apply Hnth; done).
  destruct (Nat.lt_ge_cases (Z.to_nat lo + 1) (length s)) as [Hlt|Hge].
  - exists b. split; [apply Hnth, Ha|].
    pose proof (nth_sorted s (Z.to_nat lo) (Z.to_nat lo + 1) a Hs ltac:(lia)) as Hab.
    rewrite (List.nth_indep s (n := Z.to_nat lo) a x0) in Hab by lia. fold a b in Hab.
    assert (0 <= (inject_Z lo + 1 - h) * (b - a))%Q by (apply Qmult_le_0_compat; lra). lra.
  - exists a. split; [done|]. unfold b. rewrite nth_overflow by lia. lra.
Qed.

(** [quantile(p)] of a non-empty column is at most one of its values,
    whatever [p]: the interpolation stays below the upper neighbour. *)
Lemma quantil_le_valor p l q : quantil p l = Some q -> exists x, In x l /\ (q <= x)%Q.
Proof.
  unfold quantil. pose proof (ordena_asc_sorted l) as Hs.
  assert (forall x, In x (ordena_asc l) -> In x l) as Hin.
  { intros x Hx. apply list_elem_of_In. rewrite <- (ordena_asc_perm l). apply list_elem_of_In. done. }
  destruct (ordena_asc l) as [|x0 s'] eqn:E; [done|]. intros Hq. injection Hq as <-.
  destruct (interpolacao_le (x0 :: s') x0 (inject_Z (Z.of_nat (length (x0 :: s')) - 1) * p) Hs (or_introl eq_refl))
    as (x & Hx & Hle).
  exists x. split; [apply Hin; done|exact Hle].
Qed.

(** The first [k + 1] sorted values are at most the [k]-th. *)
Lemma firstn_le_nth (s : list Q) k d :
  StronglySorted Qle s -> (k < length s)%nat -> Forall (fun x => x <= nth k s d)%Q (firstn (S k) s).
Proof.
  revert k. induction s as [|y s IH]; intros k Hs Hk; cbn in Hk; [lia|].
  inversion Hs as [|? ? Hl Hy]; subst. destruct k as [|k]; cbn; [constructor; [lra|constructor]|].
  constructor; [|apply IH; [done|lia]]. rewrite List.Forall_forall in Hy. apply Hy, nth_In. lia.
Qed.

(** [quantile(p)] with [0 <= p <= 1] is at least the sorted value at
    position [floor((n - 1) p)], which the interpolation starts from. *)
Lemma quantil_ge_nth p (s : list Q) x0 :
  StronglySorted Qle s ->
  let h := (inject_Z (Z.of_nat (length s) - 1) * p)%Q in
  let lo := Qfloor h in
  let a := nth (Z.to_nat lo) s x0 in
  let b := nth (Z.to_nat lo + 1) s a in
  (a <= a + (h - inject_Z lo) * (b - a))%Q.
Proof.
  intros Hs h lo a b. pose proof (Qfloor_le h) as H1. fold lo in H1.
  assert (a <= b)%Q as Hab.
  { unfold b. destruct (Nat.lt_ge_cases (Z.to_nat lo + 1) (length s)) as [Hlt|Hge].
    - rewrite (List.nth_indep s (n := Z.to_nat lo + 1) a x0) by lia. unfold a.
      apply nth_sorted; [done|lia].
    - rewrite nth_overflow by lia. lra. }
  assert (0 <= (h - inject_Z lo) * (b - a))%Q by (apply Qmult_le_0_compat; lra). lra.
Qed.

(** Above [quantile(p)], [0 <= p <= 1], lie at most
    [n - 1 - floor((n - 1) p)] of the [n] values: every sorted value up to
    that position is at most the quantile. *)
Lemma quantil_acima p l q :
  (0 <= p <= 1)%Q -> quantil p l = Some q ->
  (#[fun x => Qltb q x] l + S (Z.to_nat (Qfloor (inject_Z (Z.of_nat (length l) - 1) * p))) <= length l)%nat.
Proof.
  intros Hp. unfold quantil. pose proof (ordena_asc_sorted l) as Hs.
  rewrite <- (count_if_perm _ _ _ (ordena_asc_perm l)), <- (Permutation_length (ordena_asc_perm l)).
  destruct (ordena_asc l) as [|x0 s'] eqn:E; [done|]. intros Hq.
  pose proof (quantil_ge_nth p (x0 :: s') x0 Hs) as Hge. cbv zeta in Hge, Hq.
  set (s := x0 :: s') in *. set (h := (inject_Z (Z.of_nat (length s) - 1) * p)%Q) in *.
  set (lo := Qfloor h) in *. set (a := nth (Z.to_nat lo) s x0) in *.
  assert (a <= q)%Q as Haq by (injection Hq as Hq; rewrite <- Hq; exact Hge). clear Hq Hge.
  assert (0 <= lo < Z.of_nat (length s))%Z as Hlo.
  { assert (0 <= inject_Z (Z.of_nat (length s) - 1))%Q
      by (change 0%Q with (inject_Z 0); rewrite <- Zle_Qle; cbn [length s]; lia).
    split.
    - change 0%Z with (Qfloor 0). apply Qfloor_resp_le. unfold h. apply Qmult_le_0_compat; lra.
    - apply Z.le_lt_trans with (Z.of_nat (length s) - 1)%Z; [|lia].
      rewrite <- (Qfloor_Z (Z.of_nat (length s) - 1)). apply Qfloor_resp_le. unfold h.
      assert (0 <= inject_Z (Z.of_nat (length s) - 1) * (1 - p))%Q by (apply Qmult_le_0_compat; lra).
      lra. }
  rewrite <- (firstn_skipn (S (Z.to_nat lo)) s) at 1. rewrite count_if_app.
  rewrite (count_if_false _ (firstn _ s)).
  - pose proof (count_if_le (fun x => Qltb q x) (skipn (S (Z.to_nat lo)) s)) as Hc.
    rewrite length_skipn in Hc. lia.
  - intros x Hx. pose proof (firstn_le_nth s (Z.to_nat lo) x0 Hs ltac:(lia)) as Hf.
    rewrite List.Forall_forall in Hf. specialize (Hf x Hx). fold a in Hf.
    destruct (Qltb_spec q x); [lra|done].
Qed.

(** The quantile of equal values is that value. *)
Lemma quantil_constante p l v q :
  Forall (fun x => x == v)%Q l -> quantil p l = Some q -> (q == v)%Q.
Proof.
  intros Hv. unfold quantil.
  assert (forall x, In x (ordena_asc l) -> (x == v)%Q) as Hs.
  { intros x Hx. rewrite List.Forall_forall in Hv. apply Hv, list_elem_of_In.
    rewrite <- (ordena_asc_perm l). apply list_elem_of_In. done. }
  destruct (ordena_asc l) as [|x0 s'] eqn:E; [done|]. intros Hq. cbv zeta in Hq.
  set (s := x0 :: s') in *.
  assert (forall k d, In d s -> In (nth k s d) s) as Hnth.
  { intros k d Hd. destruct (Nat.lt_ge_cases k (length s)); [apply nth_In; done|].
    rewrite nth_overflow; done. }
  set (a := nth _ s x0) in Hq. set (b := nth _ s a) in Hq.
  assert (a == v)%Q as Ha by (apply Hs, Hnth; left; done).
  assert (b == v)%Q as Hb by (apply Hs, Hnth, Hnth; left; done).
  apply (f_equal (fun o => match o with Some x => x | None => 0%Q end)) in Hq. cbv beta iota in Hq.
  rewrite <- Hq, Hb, Ha. ring.
Qed.

Lemma In_last {A} (l : list A) d : l <> [] -> In (List.last l d) l.
Proof.
  induction l as [|x [|y l] IH]; intros H; [done|left; done|].
  change (List.last (x :: y :: l) d) with (List.last (y :: l) d). right. apply IH. done.
Qed.

(** The last row of a descending sort has the smallest key; a missing key
    is the smallest. *)
Lemma sort_desc_ultimo {A} (f : A -> option Q) l d :
  sort_desc f l <> [] -> forall y, In y l -> desc_key (f y) (f (List.last (sort_desc f l) d)).
Proof.
  intros Hne y Hy. pose proof (sort_desc_sorted f l) as Hs.
  apply Sorted_StronglySorted in Hs; [|intros a b c; apply desc_key_trans].
  assert (In y (sort_desc f l)) as Hy'
    by (apply list_elem_of_In; rewrite (sort_desc_perm f l); apply list_elem_of_In; done).
  clear Hy. induction Hs as [|x rest Hrest IH Hall]; [done|].
  destruct rest as [|z rest].
  - destruct Hy' as [<-|[]]. cbn. unfold desc_key. destruct (f x); [apply Qle_refl|exact I].
  - change (List.last (x :: z :: rest) d) with (List.last (z :: rest) d).
    destruct Hy' as [<-|Hy'].
    + rewrite List.Forall_forall in Hall. apply Hall. apply In_last. done.
    + apply IH; done.
Qed.

Lemma desc_key_None_l a : desc_key None a -> a = None.
Proof. destruct a; done. Qed.

End Pandas.
