(* ===== verification/Schema.v ===== *)
(** * The three tables of [priceless_bank.db]

    [src/bd/criar_banco_sqlite.py] reads [Base_clientes.csv],
    [Base_cartoes.csv] and [Base_transacoes.csv] with pandas, adds computed
    columns, and writes each DataFrame with [to_sql(..., if_exists='replace')].
    That call drops the tables created by the [CREATE TABLE] statements
    before it, with their PRIMARY KEY and FOREIGN KEY clauses: the database
    the analyses query enforces neither key uniqueness nor referential
    integrity.  The rows are therefore modelled with every column nullable
    ([option]), dates as the TEXT pandas writes, REAL columns as [Q], and the
    key and integrity properties appear as hypotheses where theorems need
    them ([Schema.ids_unique], [Schema.tx_refs_clientes]). *)

From stdpp Require Import base list.
From Stdlib Require Import ZArith QArith String.
From S2P Require Import Prelude Sql Dates.

Local Abbreviation length := Datatypes.length.
Local Open Scope nat_scope.

Module Cliente.
(** A row of [clientes]: the CSV columns and the two columns computed at
    lines 72 and 75 ([Idade], [Tempo_Conta_Meses]). *)
Record t := mk {
  Cliente_ID : option Z;
  Renda_Anual : option Q;
  Data_Criacao_Conta : option string;
  Estado : option string;
  Possui_Conta_Adicional : option string;
  Idade : option Z;
  Tempo_Conta_Meses : option Q;
  Data_Nascimento : option string;
  Numero_Cartoes : option Z;
  Cidade : option string
}.

(** A row given by the columns the churn queries read, the others NULL. *)
Definition cli id renda criacao estado adicional idade meses : t :=
  mk id renda criacao estado adicional idade meses None None None.
End Cliente.

Module Cartao.
(** A row of [cartoes], with [Tempo_Cartao_Meses] (line 86) and
    [Cartao_Recente] (line 89); the dates are the timestamp texts pandas
    writes. *)
Record t := mk {
  ID_Cartao : option Z;
  Produto_Mastercard : option string;
  Tipo_Cartao : option string;
  Data_Emissao : option string;
  Limite_Cartao : option Q;
  Tempo_Cartao_Meses : option Q;
  Cartao_Recente : option Z;
  Data_Ativacao : option string;
  Data_Validade : option string
}.

(** A row given by the columns the churn queries read, the others NULL. *)
Definition cartao id produto tipo emissao limite meses recente : t :=
  mk id produto tipo emissao limite meses recente None None.
End Cartao.

Module Transacao.
(** A row of [transacoes]; [Data] is the timestamp text pandas writes
    ("YYYY-MM-DD HH:MM:SS"); the last seven columns are computed at lines
    96-110. *)
Record t := mk {
  ID_Transacao : option Z;
  Data : option string;
  Valor_Compra : option Q;
  Cliente_ID : option Z;
  ID_Cartao : option Z;
  Wallet : option string;
  Input_Mode : option string;
  Pagamento_Digital : option Z;
  PayPass : option Z;
  Ano : option Z;
  Mes : option Z;
  Dia_Semana : option Z;
  Trimestre : option Z;
  Faixa_Valor : option string
}.

(** A row given by the columns the churn queries read, the others NULL. *)
Definition tx id data valor cliente cartao : t :=
  mk id data valor cliente cartao None None None None None None None None None.
End Transacao.

Module Schema.

(** The key of [clientes] is unique: no two rows share a non-NULL id, and
    no id is NULL. *)
Definition ids_unique (cs : list Cliente.t) : Prop :=
  NoDup (map Cliente.Cliente_ID cs) /\ Forall (fun c => Cliente.Cliente_ID c <> None) cs.

(** Every transaction names a registered customer (the FOREIGN KEY the
    [CREATE TABLE transacoes] statement declares). *)
Definition tx_refs_clientes (cs : list Cliente.t) (ts : list Transacao.t) : Prop :=
  Forall (fun t => Transacao.Cliente_ID t <> None /\
                   In (Transacao.Cliente_ID t) (map Cliente.Cliente_ID cs)) ts.

(** Every transaction date is a timestamp as [pd.to_datetime] and the
    [sqlite3] adapter write it (line 93 and [to_sql], line 205), within the
    years over which [Dates] checks the calendar, or NULL. *)
Definition datas_pandas (ts : list Transacao.t) : Prop :=
  Forall (fun t => forall s, Transacao.Data t = Some s ->
    exists st, s = Dates.format_stamp st /\ Dates.stamp_valido st = true /\
               (Dates.ano_min <= Dates.ano st <= Dates.ano_max)%Z) ts.

(** The transactions of one customer, matched as a join matches them
    ([t.Cliente_ID = id] is never TRUE for a NULL id). *)
Definition tx_of (ts : list Transacao.t) (id : option Z) : list Transacao.t :=
  List.filter (fun t => Sql.holds (Sql.s_eq (Transacao.Cliente_ID t) id)) ts.

End Schema.
