(* ===== verification/Bands.v ===== *)
(** * The banding [CASE WHEN] chains

    Each dimension query of [src/novaAbordagem/analise_churn_completa_2024.py]
    turns a column into a group label with a [CASE WHEN ... END] chain.  They
    are modelled with [Sql.case_when], branch by branch, over the nullable
    column, so that overlapping bounds resolve by the first match and a NULL
    column falls to the [ELSE] branch, as in SQLite. *)

From stdpp Require Import base list strings.
From Stdlib Require Import ZArith QArith String Lia Lqa.
From S2P Require Import Prelude Sql.

Local Open Scope string_scope.

Module Bands.
Import Sql.

(** [analise_1_idade_completa], lines 297-304. *)
Definition faixa_etaria (Idade : option Z) : string :=
  case_when
    [(s_between Idade (Some 18%Z) (Some 25%Z), "18-25 anos");
     (s_between Idade (Some 26%Z) (Some 35%Z), "26-35 anos");
     (s_between Idade (Some 36%Z) (Some 45%Z), "36-45 anos");
     (s_between Idade (Some 46%Z) (Some 55%Z), "46-55 anos");
     (s_gt Idade (Some 55%Z), "55+ anos")]
    "Não informado".

(** [analise_2_renda_completa], lines 362-367. *)
Definition faixa_renda (renda : option Q) : string :=
  case_when
    [(s_lt renda (Some 50000%Q), "Até R$ 50.000/ano");
     (s_between renda (Some 50000%Q) (Some 80000%Q), "R$ 50.000 - R$ 80.000/ano");
     (s_between renda (Some 80000%Q) (Some 120000%Q), "R$ 80.000 - R$ 120.000/ano");
     (s_gt renda (Some 120000%Q), "Acima de R$ 120.000/ano")]
    "Não informado".

(** [analise_3_tempo_conta_completa], lines 427-433. *)
Definition tempo_conta (meses_conta : option Q) : string :=
  case_when
    [(s_le meses_conta (Some 6%Q), "0-6 meses");
     (s_le meses_conta (Some 12%Q), "7-12 meses");
     (s_le meses_conta (Some 24%Q), "13-24 meses");
     (s_le meses_conta (Some 36%Q), "25-36 meses")]
    "Mais de 36 meses".

(** [analise_6_tempo_cartao_completa], lines 647-654: [-1] is the code the
    query gives customers without a card. *)
Definition tempo_cartao (meses_cartao : option Q) : string :=
  case_when
    [(s_eqv meses_cartao (Some (-1)%Q), "Sem Cartão Ativo");
     (s_le meses_cartao (Some 6%Q), "0-6 meses");
     (s_le meses_cartao (Some 12%Q), "7-12 meses");
     (s_le meses_cartao (Some 24%Q), "13-24 meses");
     (s_le meses_cartao (Some 36%Q), "25-36 meses")]
    "Mais de 36 meses".

(** [analise_7_limite_cartao_completa], lines 725-734: [-1] codes a
    customer without transactions. *)
Definition faixa_limite (limite : option Q) : string :=
  case_when
    [(s_eqv limite (Some (-1)%Q), "Sem Limite Definido");
     (s_eqv limite (Some 0%Q), "Limite Zero (Débito)");
     (s_lt limite (Some 1000%Q), "Até R$ 1.000");
     (s_between limite (Some 1000%Q) (Some 2500%Q), "R$ 1.000 - R$ 2.500");
     (s_between limite (Some 2500%Q) (Some 5000%Q), "R$ 2.500 - R$ 5.000");
     (s_between limite (Some 5000%Q) (Some 10000%Q), "R$ 5.000 - R$ 10.000");
     (s_gt limite (Some 10000%Q), "Acima de R$ 10.000")]
    "Outros".

(** ** Deciding the branch conditions *)

(** Split on every comparison of a [CASE] chain over a known value and
    close each branch by linear arithmetic; the chain is unfolded first. *)
Ltac decide_conds :=
  repeat match goal with H : ?P |- _ => match type of P with Prop => revert H end end;
  unfold s_between, s_gt, s_ge, s_lt, s_le, s_eqv;
  cbn [case_when holds s_and negb andb sql_ltb sqlord_Q sqlord_Z];
  repeat match goal with
         | |- context [Qltb ?a ?b] => destruct (Qltb_spec a b)
         | |- context [Z.ltb ?a ?b] => destruct (Z.ltb_spec a b)
         end;
  cbn; intros; try discriminate; try done; try lra; try lia.

Ltac decide_bands :=
  unfold faixa_etaria, faixa_renda, tempo_conta, tempo_cartao, faixa_limite; decide_conds.

(** ** Properties of the bands *)

(** The label "Não informado" ("not informed") is given to every age below
    18, not only to a missing age. *)
Lemma faixa_etaria_nao_informado (n : Z) :
  faixa_etaria (Some n) = "Não informado" <-> (n < 18)%Z.
Proof. decide_bands; split; intros; (discriminate || lia || done || (exfalso; lia)). Qed.

(** The income bands share their bounds; the first match resolves the
    overlap, so the bands are the half-open intervals below, and every known
    income gets an income label. *)
Lemma faixa_renda_intervals (x : Q) :
  ((x < 50000)%Q -> faixa_renda (Some x) = "Até R$ 50.000/ano") /\
  ((50000 <= x <= 80000)%Q -> faixa_renda (Some x) = "R$ 50.000 - R$ 80.000/ano") /\
  ((80000 < x <= 120000)%Q -> faixa_renda (Some x) = "R$ 80.000 - R$ 120.000/ano") /\
  ((120000 < x)%Q -> faixa_renda (Some x) = "Acima de R$ 120.000/ano").
Proof. repeat split; intros; decide_bands. Qed.

(** The [ELSE 'Outros'] branch of the limit bands is taken only by a NULL
    limit, which the query filters out before ([WHERE ... IS NOT NULL]). *)
Lemma faixa_limite_outros (l : option Q) : faixa_limite l = "Outros" <-> l = None.
Proof. destruct l as [x|]; [|done]. decide_bands; split; intros; (discriminate || lra || done || (exfalso; lra)). Qed.

End Bands.
