(* ===== verification/Churn.v ===== *)
(** * The activity classifier of [analise_churn_completa_2024.py]

    Each of the seven dimension queries of
    [src/novaAbordagem/analise_churn_completa_2024.py] builds the same three
    CTEs over [transacoes], joins them to a per-customer base relation with two
    [LEFT JOIN]s, groups the joined rows by a label and counts, per label, the
    customers that never transacted, the inactive ones and the active ones.
    [Module Classifier] models that shared pipeline ([analise]) once, with the
    base relation and the label as arguments, and instantiates it with the
    base relations of the age and income queries.  Next to it stands the
    abstract specification of the classification ([estado_spec]: no
    transaction, last transaction after the cutoff, or neither), and the
    refinement theorem [analise_refines] shows that the SQL counts are the
    counts of that specification, group by group. *)

From stdpp Require Import base list strings.
From Stdlib Require Import ZArith QArith String Lia Lqa.
From S2P Require Import Prelude Sql Dates Schema Bands.

Local Abbreviation length := Datatypes.length.
Local Open Scope nat_scope.

Module Classifier.
Import Sql.

(** ** The three CTEs *)

(** [clientes_com_transacoes]: [SELECT DISTINCT Cliente_ID FROM transacoes]. *)
Definition clientes_com_transacoes (transacoes : list Transacao.t) : list (option Z) :=
  distinct (map Transacao.Cliente_ID transacoes).

(** [clientes_ativos_2024]: [SELECT DISTINCT Cliente_ID FROM transacoes
    WHERE Data > DATE('2024-12-30', '-90 days')]; [corte] is the value of
    the [DATE] expression. *)
Definition clientes_ativos_2024 (corte : option string) (transacoes : list Transacao.t)
  : list (option Z) :=
  distinct (map Transacao.Cliente_ID
              (where_ (fun t => s_gt (Transacao.Data t) corte) transacoes)).

(** [DATE('2024-12-30', '-90 days')]. *)
Definition corte_90 : option string := Dates.date_add_days (Some "2024-12-30"%string) (-90).

(** ** The joined rows *)

(** A row of [todos_clientes tc LEFT JOIN clientes_com_transacoes cct
    LEFT JOIN clientes_ativos_2024 ca2024]: the base row's id and attribute,
    and the two joined id columns. *)
Record linha (X : Type) := mk_linha {
  tc_cliente_id : option Z;
  tc_attr : X;
  cct_cliente_id : option Z;
  ca2024_cliente_id : option Z
}.
Arguments mk_linha {X}.
Arguments tc_cliente_id {X}.
Arguments tc_attr {X}.
Arguments cct_cliente_id {X}.
Arguments ca2024_cliente_id {X}.

(** [FROM todos_clientes tc LEFT JOIN cct ON tc.cliente_id = cct.cliente_id
    LEFT JOIN ca2024 ON tc.cliente_id = ca2024.cliente_id]. *)
Definition juntar {X} (todos : list (option Z * X)) (cct ca2024 : list (option Z))
  : list (linha X) :=
  map (fun row => mk_linha (fst (fst (fst row))) (snd (fst (fst row)))
                           (coluna (snd (fst row))) (coluna (snd row)))
      (left_join (fun tcm id => s_eq (fst (fst tcm)) id)
         (left_join (fun tc id => s_eq (fst tc) id) todos cct) ca2024).

(** ** The counted conditions and the aggregate row *)

(** [COUNT(CASE WHEN cct.cliente_id IS NULL THEN 1 END) as nunca_ativaram]. *)
Definition nunca_cond {X} (r : linha X) : sbool := Some (is_null (cct_cliente_id r)).

(** [COUNT(CASE WHEN cct.cliente_id IS NOT NULL AND ca2024.cliente_id IS NULL
    THEN 1 END) as inativos]. *)
Definition inativo_cond {X} (r : linha X) : sbool :=
  Some (negb (is_null (cct_cliente_id r))) &&& Some (is_null (ca2024_cliente_id r)).

(** [COUNT(CASE WHEN ca2024.cliente_id IS NOT NULL THEN 1 END) as ativos]. *)
Definition ativo_cond {X} (r : linha X) : sbool := Some (negb (is_null (ca2024_cliente_id r))).

(** A row of the query's result, after its label. *)
Record agregado := mk_agregado {
  nunca_ativaram : nat;
  inativos : nat;
  ativos : nat;
  total : nat;
  perc_nunca_ativaram : Q;
  perc_inativos : Q;
  impacto_total : Q
}.

(** [ROUND(n * 100.0 / COUNT( * ), 2)]. *)
Definition percentual (n t : nat) : Q :=
  sql_round (inject_Z (Z.of_nat n) * 100 / inject_Z (Z.of_nat t))%Q 2.

(** The [SELECT] list of one group. *)
Definition agrega {X} (g : list (linha X)) : agregado :=
  let n := count_when nunca_cond g in
  let i := count_when inativo_cond g in
  mk_agregado n i (count_when ativo_cond g) (length g)
    (percentual n (length g)) (percentual i (length g)) (percentual (n + i) (length g)).

(** The whole query, for a base relation [todos] of (id, attribute) rows
    and the [CASE] label of the attribute ([GROUP BY 1]). *)
Definition analise {X K} `{EqDecision K} (rotulo : X -> K) (todos : list (option Z * X))
    (corte : option string) (transacoes : list Transacao.t) : list (K * agregado) :=
  map (fun kg => (fst kg, agrega (snd kg)))
    (group_by (fun r => rotulo (tc_attr r))
       (juntar todos (clientes_com_transacoes transacoes)
                     (clientes_ativos_2024 corte transacoes))).

(** ** The dimension queries *)

(** [analise_1_idade_completa]: [SELECT DISTINCT c.cliente_id, c.Idade FROM clientes c]. *)
Definition todos_clientes_idade (clientes : list Cliente.t) : list (option Z * option Z) :=
  distinct (map (fun c => (Cliente.Cliente_ID c, Cliente.Idade c)) clientes).

Definition analise_1_idade_completa (clientes : list Cliente.t) (transacoes : list Transacao.t)
  : list (string * agregado) :=
  analise Bands.faixa_etaria (todos_clientes_idade clientes) corte_90 transacoes.

(** [analise_2_renda_completa]: [SELECT DISTINCT c.Cliente_ID, c.Renda_Anual FROM clientes c]. *)
Definition todos_clientes_renda (clientes : list Cliente.t) : list (option Z * option Q) :=
  distinct (map (fun c => (Cliente.Cliente_ID c, Cliente.Renda_Anual c)) clientes).

Definition analise_2_renda_completa (clientes : list Cliente.t) (transacoes : list Transacao.t)
  : list (string * agregado) :=
  analise Bands.faixa_renda (todos_clientes_renda clientes) corte_90 transacoes.

(** [ROUND((JULIANDAY('2024-12-30') - JULIANDAY(d)) / 30.44)]: months from
    the date [d] to the reference day, NULL when [d] is NULL or not a date. *)
Definition meses_ate_ref (d : option string) : option Q :=
  match Dates.julianday (Some "2024-12-30"%string), Dates.julianday d with
  | Some a, Some b => Some (sql_round ((a - b) / (3044 # 100))%Q 0)
  | _, _ => None
  end.

(** [analise_3_tempo_conta_completa]: [SELECT DISTINCT c.Cliente_ID,
    ROUND(...) as meses_conta FROM clientes c]. *)
Definition todos_clientes_tempo_conta (clientes : list Cliente.t) : list (option Z * option Q) :=
  distinct (map (fun c => (Cliente.Cliente_ID c, meses_ate_ref (Cliente.Data_Criacao_Conta c)))
              clientes).

Definition analise_3_tempo_conta_completa (clientes : list Cliente.t)
    (transacoes : list Transacao.t) : list (string * agregado) :=
  analise Bands.tempo_conta (todos_clientes_tempo_conta clientes) corte_90 transacoes.

(** ** The specification of the classification *)

(** The three states of the specification (spec.md, section 4.1). *)
Inductive estado := NuncaAtivou | Inativo | Ativo.

#[export] Instance estado_eq_dec : EqDecision estado.
Proof. solve_decision. Defined.

(** The customer's last transaction date: [MAX(Data)] over its transactions. *)
Definition ultima_transacao (transacoes : list Transacao.t) (id : option Z) : option string :=
  max_col (map Transacao.Data (Schema.tx_of transacoes id)).

(** Never activated without transactions; active when the last transaction
    is after the cutoff; inactive otherwise. *)
Definition estado_spec (corte : option string) (transacoes : list Transacao.t)
    (id : option Z) : estado :=
  match Schema.tx_of transacoes id with
  | [] => NuncaAtivou
  | _ :: _ => if holds (s_gt (ultima_transacao transacoes id) corte) then Ativo else Inativo
  end.

(** The aggregate row the specification gives a group of base rows. *)
Definition agrega_spec {X} (corte : option string) (transacoes : list Transacao.t)
    (g : list (option Z * X)) : agregado :=
  let e r := estado_spec corte transacoes (fst r) in
  let n := #[fun r => bool_decide (e r = NuncaAtivou)] g in
  let i := #[fun r => bool_decide (e r = Inativo)] g in
  mk_agregado n i (#[fun r => bool_decide (e r = Ativo)] g) (length g)
    (percentual n (length g)) (percentual i (length g)) (percentual (n + i) (length g)).

(** ** The joined rows, computed *)

(** The joined column for a base id: the id itself when it occurs in the
    CTE, NULL otherwise. *)
Definition achado (id : option Z) (l : list (option Z)) : option Z :=
  if holds (s_in id l) then id else None.

(** The joined row of a base row. *)
Definition linha_de {X} (cct ca2024 : list (option Z)) (tc : option Z * X) : linha X :=
  mk_linha (fst tc) (snd tc) (achado (fst tc) cct) (achado (fst tc) ca2024).

(** Both CTEs are [DISTINCT], so each join finds at most one row and the
    joined table is the base table with the two looked-up columns. *)
Lemma juntar_eq {X} (todos : list (option Z * X)) cct ca2024 :
  List.NoDup cct -> List.NoDup ca2024 ->
  juntar todos cct ca2024 = map (linha_de cct ca2024) todos.
Proof.
  intros Hc Ha. unfold juntar.
  rewrite (left_join_unique _ todos cct) by (intros; apply s_eq_matches_le1; done).
  rewrite left_join_unique by (intros; apply s_eq_matches_le1; done).
  rewrite !map_map. apply map_ext. intros tc. simpl. unfold linha_de, achado.
  rewrite !coluna_find_s_eq. done.
Qed.

Lemma is_null_achado id l : is_null (achado id l) = negb (holds (s_in id l)).
Proof.
  unfold achado. destruct (holds (s_in id l)) eqn:E; [|done].
  apply holds_s_in in E as (a & -> & _). done.
Qed.

Lemma In_tx_of ts id t :
  In t (Schema.tx_of ts id) <-> In t ts /\ Transacao.Cliente_ID t = id /\ id <> None.
Proof. unfold Schema.tx_of. rewrite filter_In, holds_s_eq. split; intros (? & ? & ?); subst; done. Qed.

(** A customer id is in [clientes_com_transacoes] iff it has a transaction. *)
Lemma in_clientes_com_transacoes ts id :
  holds (s_in id (clientes_com_transacoes ts)) = true <-> Schema.tx_of ts id <> [].
Proof.
  rewrite holds_s_in. split.
  - intros (a & -> & Ha). apply In_distinct, in_map_iff in Ha as (t & Ht & Hin).
    intros Hnil. assert (In t (Schema.tx_of ts (Some a))) as Ht'
      by (apply In_tx_of; done). rewrite Hnil in Ht'. done.
  - destruct (Schema.tx_of ts id) as [|t l] eqn:E; [done|]. intros _.
    assert (In t (Schema.tx_of ts id)) as Ht by (rewrite E; left; done).
    apply In_tx_of in Ht as (Ht & Hid & Hnn). destruct id as [a|]; [|done].
    exists a. split; [done|]. apply In_distinct, in_map_iff. exists t. done.
Qed.

(** A customer id is in [clientes_ativos_2024] iff its last transaction is
    after the cutoff. *)
Lemma in_clientes_ativos ts corte id :
  holds (s_in id (clientes_ativos_2024 corte ts)) = true <->
  holds (s_gt (ultima_transacao ts id) corte) = true.
Proof.
  unfold ultima_transacao. rewrite holds_s_gt_max, holds_s_in. split.
  - intros (a & -> & Ha). apply In_distinct, in_map_iff in Ha as (t & Ht & Hin).
    apply In_where in Hin as [Hin Hgt]. exists (Transacao.Data t).
    split; [|done]. apply in_map, In_tx_of. done.
  - intros (d & Hd & Hgt). apply in_map_iff in Hd as (t & <- & Ht).
    apply In_tx_of in Ht as (Ht & Hid & Hnn). destruct id as [a|]; [|done].
    exists a. split; [done|]. apply In_distinct, in_map_iff. exists t.
    split; [done|]. apply In_where. done.
Qed.

Lemma ultima_transacao_nil ts id :
  Schema.tx_of ts id = [] -> ultima_transacao ts id = None.
Proof. unfold ultima_transacao. intros ->. done. Qed.

(** The three counted conditions on a joined row are the three states of
    the specification. *)
Lemma conds_spec {X} corte ts (tc : option Z * X) :
  let r := linha_de (clientes_com_transacoes ts) (clientes_ativos_2024 corte ts) tc in
  holds (nunca_cond r) = bool_decide (estado_spec corte ts (fst tc) = NuncaAtivou) /\
  holds (inativo_cond r) = bool_decide (estado_spec corte ts (fst tc) = Inativo) /\
  holds (ativo_cond r) = bool_decide (estado_spec corte ts (fst tc) = Ativo).
Proof.
  unfold nunca_cond, inativo_cond, ativo_cond, linha_de. simpl. rewrite !is_null_achado.
  pose proof (in_clientes_com_transacoes ts (fst tc)) as Hc.
  pose proof (in_clientes_ativos ts corte (fst tc)) as Ha.
  unfold estado_spec.
  destruct (holds (s_gt (ultima_transacao ts (fst tc)) corte)) eqn:Eg.
  - rewrite (proj2 Ha eq_refl).
    destruct (Schema.tx_of ts (fst tc)) as [|t l] eqn:E.
    + rewrite ultima_transacao_nil in Eg by done. destruct corte; done.
    + rewrite (proj2 Hc) by done. done.
  - destruct (holds (s_in _ (clientes_ativos_2024 corte ts))) eqn:Ea;
      [discriminate (proj1 Ha eq_refl)|].
    destruct (Schema.tx_of ts (fst tc)) as [|t l] eqn:E.
    + destruct (holds (s_in _ (clientes_com_transacoes ts))) eqn:Ec; [|done].
      exfalso. apply (proj1 Hc eq_refl). done.
    + rewrite (proj2 Hc) by done. done.
Qed.

(** ** Refinement: the query computes the specification's counts *)

(** C2: For every base relation, label, cutoff and transaction table, the
    query's rows are the specification's aggregates of the groups of the
    base relation. *)
Lemma analise_refines {X K} `{EqDecision K} (rotulo : X -> K) todos corte ts :
  analise rotulo todos corte ts =
  map (fun kg => (fst kg, agrega_spec corte ts (snd kg)))
      (group_by (fun r => rotulo (snd r)) todos).
Proof.
  unfold analise. rewrite juntar_eq by apply NoDup_distinct.
  rewrite group_by_map, map_map. apply map_ext. intros [k g]. simpl. f_equal.
  unfold agrega, agrega_spec, count_when. rewrite !count_if_map, length_map.
  set (f := linha_de _ _).
  rewrite (count_if_ext_in (fun x => holds (nunca_cond (f x)))
             (fun r => bool_decide (estado_spec corte ts (fst r) = NuncaAtivou)))
    by (intros r _; apply (conds_spec corte ts r)).
  rewrite (count_if_ext_in (fun x => holds (inativo_cond (f x)))
             (fun r => bool_decide (estado_spec corte ts (fst r) = Inativo)))
    by (intros r _; apply (conds_spec corte ts r)).
  rewrite (count_if_ext_in (fun x => holds (ativo_cond (f x)))
             (fun r => bool_decide (estado_spec corte ts (fst r) = Ativo)))
    by (intros r _; apply (conds_spec corte ts r)).
  done.
Qed.

(** ** Properties of the classifier *)

Lemma estado_spec_cases corte ts id :
  (if bool_decide (estado_spec corte ts id = NuncaAtivou) then 1 else 0) +
  (if bool_decide (estado_spec corte ts id = Inativo) then 1 else 0) +
  (if bool_decide (estado_spec corte ts id = Ativo) then 1 else 0) = 1.
Proof. destruct (estado_spec corte ts id); reflexivity. Qed.

(** A later cutoff (a shorter window) keeps every never-activated customer
    and can only turn active customers into inactive ones. *)
Lemma estado_spec_mono c1 c2 ts id :
  sql_ltb c2 c1 = false ->
  (estado_spec (Some c1) ts id = NuncaAtivou <-> estado_spec (Some c2) ts id = NuncaAtivou) /\
  (estado_spec (Some c2) ts id = Ativo -> estado_spec (Some c1) ts id = Ativo).
Proof.
  intros H21. simpl in H21. unfold estado_spec. destruct (Schema.tx_of ts id); [done|].
  destruct (ultima_transacao ts id) as [d|]; simpl; [|done].
  destruct (str_ltb c1 d) eqn:E1, (str_ltb c2 d) eqn:E2; try done.
  split; [done|]. intros _. exfalso.
  destruct (str_ltb_weak c2 c1 d E2); congruence.
Qed.

(** The group of a label in the query's result. *)
Lemma In_analise {X K} `{EqDecision K} (rotulo : X -> K) todos corte ts k a :
  In (k, a) (analise rotulo todos corte ts) <->
  (exists r, In r todos /\ rotulo (snd r) = k) /\
  a = agrega_spec corte ts (group_of (fun r => rotulo (snd r)) k todos).
Proof.
  rewrite analise_refines, in_map_iff. split.
  - intros ([k' g] & [= <- <-] & Hin). apply In_group_by in Hin as [Hk ->]. done.
  - intros [Hk ->]. exists (k, group_of (fun r => rotulo (snd r)) k todos).
    split; [done|]. apply In_group_by. done.
Qed.

(** ** The percentages *)

(** The exact share, in percent, that [percentual] rounds. *)
Definition share (n t : nat) : Q := (inject_Z (Z.of_nat n) * 100 / inject_Z (Z.of_nat t))%Q.

Lemma percentual_share n t : (- (1 # 200) <= percentual n t - share n t <= 1 # 200)%Q.
Proof. apply sql_round_2_bound. Qed.

Lemma share_range n t : n <= t -> 0 < t -> (0 <= share n t <= 100)%Q.
Proof.
  intros Hn Ht. unfold share.
  assert (0 < inject_Z (Z.of_nat t))%Q by (change 0%Q with (inject_Z 0); rewrite <- Zlt_Qlt; lia).
  assert (0 <= inject_Z (Z.of_nat n))%Q by (change 0%Q with (inject_Z 0); rewrite <- Zle_Qle; lia).
  assert (inject_Z (Z.of_nat n) <= inject_Z (Z.of_nat t))%Q by (rewrite <- Zle_Qle; lia).
  split.
  - apply Qle_shift_div_l; [done|]. lra.
  - apply Qle_shift_div_r; [done|]. lra.
Qed.

Lemma share_add n i t : (share (n + i) t == share n t + share i t)%Q.
Proof. unfold share, Qdiv. rewrite Nat2Z.inj_add, inject_Z_plus. ring. Qed.

Lemma percentual_range n t : n <= t -> 0 < t -> (0 <= percentual n t <= 100)%Q.
Proof. intros. apply sql_round_2_range. apply share_range; done. Qed.

(** The three percentages of a row whose counts add up to its total. *)
Lemma percentuais_ok n i na t :
  n + i + na = t -> 0 < t ->
  (0 <= percentual n t <= 100)%Q /\ (0 <= percentual i t <= 100)%Q /\
  (0 <= percentual (n + i) t <= 100)%Q /\
  (- (3 # 200) <= percentual (n + i) t - (percentual n t + percentual i t) <= 3 # 200)%Q.
Proof.
  intros Hs Ht. split; [apply percentual_range; lia|]. split; [apply percentual_range; lia|].
  split; [apply percentual_range; lia|].
  pose proof (percentual_share n t). pose proof (percentual_share i t).
  pose proof (percentual_share (n + i) t). pose proof (share_add n i t). lra.
Qed.

(** Every base row is counted in the row of its label. *)
Lemma analise_linha_de {X K} `{EqDecision K} (rotulo : X -> K) todos corte ts r :
  In r todos ->
  In (rotulo (snd r), agrega_spec corte ts (group_of (fun r => rotulo (snd r)) (rotulo (snd r)) todos))
     (analise rotulo todos corte ts) /\
  In r (group_of (fun r => rotulo (snd r)) (rotulo (snd r)) todos).
Proof. intros Hr. split; [apply In_analise; split; [exists r|]; done|apply In_group_of; done]. Qed.

(** C1: in every row of every dimension query, the never-activated, the
    inactive and the active customers add up to the group's total: the
    three [COUNT(CASE ...)] conditions partition the joined rows. *)
Theorem analise_particao {X K} `{EqDecision K} (rotulo : X -> K) todos corte ts k a :
  In (k, a) (analise rotulo todos corte ts) ->
  nunca_ativaram a + inativos a + ativos a = total a.
Proof.
  rewrite In_analise. intros [_ ->]. simpl.
  apply count_if_partition3. intros r _. apply estado_spec_cases.
Qed.

(** every percentage of every row of a dimension query lies in
    [0, 100], and the rounded impact differs from the sum of the two
    rounded percentages it adds by at most 0.015 points. *)
Theorem analise_percentuais {X K} `{EqDecision K} (rotulo : X -> K) todos corte ts k a :
  In (k, a) (analise rotulo todos corte ts) ->
  (0 <= perc_nunca_ativaram a <= 100)%Q /\ (0 <= perc_inativos a <= 100)%Q /\
  (0 <= impacto_total a <= 100)%Q /\
  (- (3 # 200) <= impacto_total a - (perc_nunca_ativaram a + perc_inativos a) <= 3 # 200)%Q.
Proof.
  rewrite In_analise. intros [(r & Hr & Hk) ->]. simpl.
  apply (percentuais_ok _ _ (#[fun r => bool_decide (estado_spec corte ts (fst r) = Ativo)]
                           (group_of (fun r => rotulo (snd r)) k todos))).
  - apply count_if_partition3. intros r' _. apply estado_spec_cases.
  - assert (In r (group_of (fun r => rotulo (snd r)) k todos)) as Hg by (apply In_group_of; done).
    destruct (group_of _ k todos); [done|simpl; lia].
Qed.

(** the groups of a dimension query count every row of its base
    relation exactly once. *)
Theorem analise_total {X K} `{EqDecision K} (rotulo : X -> K) todos corte ts :
  sum_list_with (fun ka => total (snd ka)) (analise rotulo todos corte ts) = length todos.
Proof.
  rewrite analise_refines, sum_list_with_map. simpl.
  rewrite <- (count_if_true (fun _ => true) todos) by done.
  rewrite <- (group_by_sum (fun r => rotulo (snd r)) (fun _ => true) todos).
  apply sum_list_with_ext_in. intros [k g] _. simpl. symmetry. apply count_if_true. done.
Qed.

(** a longer inactivity window (an earlier cutoff [c1]) never lowers the
    active count of a group, never raises its inactive count, and leaves
    its never-activated count unchanged. *)
Theorem analise_ativos_antitone {X K} `{EqDecision K} (rotulo : X -> K) todos ts c1 c2 k a1 a2 :
  sql_ltb c2 c1 = false ->
  In (k, a1) (analise rotulo todos (Some c1) ts) ->
  In (k, a2) (analise rotulo todos (Some c2) ts) ->
  ativos a2 <= ativos a1 /\ inativos a1 <= inativos a2 /\ nunca_ativaram a1 = nunca_ativaram a2.
Proof.
  intros H21 H1 H2. apply In_analise in H1 as [_ ->]. apply In_analise in H2 as [_ ->].
  simpl. set (g := group_of _ k todos).
  assert (#[fun r => bool_decide (estado_spec (Some c1) ts (fst r) = NuncaAtivou)] g =
          #[fun r => bool_decide (estado_spec (Some c2) ts (fst r) = NuncaAtivou)] g) as Hn.
  { apply count_if_ext_in. intros r _.
    apply bool_decide_ext, (estado_spec_mono c1 c2 ts (fst r) H21). }
  assert (#[fun r => bool_decide (estado_spec (Some c2) ts (fst r) = Ativo)] g <=
          #[fun r => bool_decide (estado_spec (Some c1) ts (fst r) = Ativo)] g) as Ha.
  { apply count_if_mono. intros r _. rewrite !bool_decide_eq_true.
    apply (estado_spec_mono c1 c2 ts (fst r) H21). }
  pose proof (count_if_partition3 _ _ _ g (fun r _ => estado_spec_cases (Some c1) ts (fst r))).
  pose proof (count_if_partition3 _ _ _ g (fun r _ => estado_spec_cases (Some c2) ts (fst r))).
  lia.
Qed.

(** a customer without transactions is counted as never activated in
    the group of its age band, whatever the cutoff. *)
Theorem nunca_ativou_contado clientes ts c :
  In c clientes -> Schema.tx_of ts (Cliente.Cliente_ID c) = [] ->
  exists a, In (Bands.faixa_etaria (Cliente.Idade c), a) (analise_1_idade_completa clientes ts) /\
            1 <= nunca_ativaram a.
Proof.
  intros Hc Hnil. set (r := (Cliente.Cliente_ID c, Cliente.Idade c)).
  assert (In r (todos_clientes_idade clientes)) as Hr.
  { apply In_distinct. apply (in_map (fun c => (Cliente.Cliente_ID c, Cliente.Idade c))). done. }
  destruct (analise_linha_de Bands.faixa_etaria _ corte_90 ts r Hr) as [Ha Hg].
  eexists. split; [exact Ha|]. simpl. apply (count_if_pos _ _ r Hg).
  apply bool_decide_eq_true. unfold estado_spec. simpl. rewrite Hnil. done.
Qed.

(** C22: a customer whose account-creation date is NULL, or a text SQLite
    does not read as a date, gets a NULL [meses_conta] and is counted in the
    band "Mais de 36 meses", not in an unknown band. *)
Theorem tempo_conta_sem_data clientes ts c :
  In c clientes -> Dates.julianday (Cliente.Data_Criacao_Conta c) = None ->
  exists a, In ("Mais de 36 meses"%string, a) (analise_3_tempo_conta_completa clientes ts) /\
            1 <= total a.
Proof.
  intros Hc Hj. set (r := (Cliente.Cliente_ID c, meses_ate_ref (Cliente.Data_Criacao_Conta c))).
  assert (In r (todos_clientes_tempo_conta clientes)) as Hr.
  { apply In_distinct. apply (in_map (fun c => (Cliente.Cliente_ID c,
      meses_ate_ref (Cliente.Data_Criacao_Conta c)))). done. }
  destruct (analise_linha_de Bands.tempo_conta _ corte_90 ts r Hr) as [Ha Hg].
  assert (snd r = None) as Hn by (unfold r, meses_ate_ref; simpl; rewrite Hj; destruct (Dates.julianday _); done).
  assert (1 <= length (group_of (fun r => Bands.tempo_conta (snd r)) (Bands.tempo_conta (snd r))
                         (todos_clientes_tempo_conta clientes))) as Hl
    by (destruct (group_of _ _ _); [done|simpl; lia]).
  rewrite Hn in Ha, Hl. eexists. split; [exact Ha|]. exact Hl.
Qed.

(** when the customer key is unique, the groups of
    [analise_1_idade_completa] count every customer exactly once. *)
Theorem analise_1_idade_total clientes ts :
  Schema.ids_unique clientes ->
  sum_list_with (fun ka => total (snd ka)) (analise_1_idade_completa clientes ts) =
  length clientes.
Proof.
  intros [Hnd _]. unfold analise_1_idade_completa. rewrite analise_total.
  unfold todos_clientes_idade. rewrite distinct_id, length_map; [done|].
  apply (NoDup_map_inv fst). rewrite map_map. apply NoDup_ListNoDup. done.
Qed.

(** ** The 90-day window in days *)

Lemma corte_90_format : corte_90 = Dates.date_add_days (Some (Dates.format_date 2024 12 30)) (Z.opp 90).
Proof. reflexivity. Qed.

(** A transaction date that is a timestamp of the checked years. *)
Definition data_em_dias (d : option string) (st : Dates.stamp) : Prop :=
  d = Some (Dates.format_stamp st) /\ Dates.stamp_valido st = true /\
  (Dates.ano_min <= Dates.ano st <= Dates.ano_max)%Z.

(** The test of [clientes_ativos_2024] on one transaction, in days, for a
    window of [n] days before 2024-12-30 that stays in the checked years. *)
Lemma gt_corte (n : Z) (d : option string) :
  (Dates.dia_min <= Dates.jd_day 2024 12 30 - n <= Dates.dia_max)%Z ->
  (forall s, d = Some s -> exists st, data_em_dias d st) ->
  holds (s_gt d (Dates.date_add_days (Some (Dates.format_date 2024 12 30)) (Z.opp n))) = true <->
  exists st, data_em_dias d st /\
    (Dates.jd_day 2024 12 30 - Dates.jd_day (Dates.ano st) (Dates.mes st) (Dates.dia st) <= n)%Z.
Proof.
  intros Hn Hv. split.
  - destruct d as [s|]; [|done]. destruct (Hv s eq_refl) as (st & Hd). intros H.
    exists st. split; [done|]. destruct Hd as ([= ->] & Hst & Hy).
    rewrite Dates.data_apos_corte in H by done. apply Z.leb_le in H. done.
  - intros (st & (-> & Hst & Hy) & Hd). rewrite Dates.data_apos_corte by done.
    apply Z.leb_le. done.
Qed.

Lemma datas_pandas_tx ts tx :
  Schema.datas_pandas ts -> In tx ts ->
  forall s, Transacao.Data tx = Some s -> exists st, data_em_dias (Transacao.Data tx) st.
Proof.
  intros Hts Htx s Hs. unfold Schema.datas_pandas in Hts. rewrite List.Forall_forall in Hts.
  destruct (Hts tx Htx s Hs) as (st & -> & Hv & Hy). exists st. done.
Qed.

(** A customer is active in a window of [n] days exactly when one of its
    transactions falls on a day at most [n] days before 2024-12-30. *)
Lemma ativo_dias (n : Z) ts id :
  (Dates.dia_min <= Dates.jd_day 2024 12 30 - n <= Dates.dia_max)%Z ->
  Schema.datas_pandas ts ->
  holds (s_in id (clientes_ativos_2024
                    (Dates.date_add_days (Some (Dates.format_date 2024 12 30)) (Z.opp n)) ts)) = true <->
  exists tx st, In tx (Schema.tx_of ts id) /\ data_em_dias (Transacao.Data tx) st /\
    (Dates.jd_day 2024 12 30 - Dates.jd_day (Dates.ano st) (Dates.mes st) (Dates.dia st) <= n)%Z.
Proof.
  intros Hn Hts. rewrite holds_s_in. split.
  - intros (a & -> & Ha). apply In_distinct, in_map_iff in Ha as (tx & Hid & Hin).
    apply In_where in Hin as [Hin Hgt].
    apply (gt_corte n _ Hn (datas_pandas_tx ts tx Hts Hin)) in Hgt as (st & Hd & Hle).
    exists tx, st. split; [apply In_tx_of; done|done].
  - intros (tx & st & Htx & Hd & Hle). apply In_tx_of in Htx as (Hin & Hid & Hnn).
    destruct id as [a|]; [|done]. exists a. split; [done|].
    apply In_distinct, in_map_iff. exists tx. split; [done|]. apply In_where. split; [done|].
    apply (gt_corte n _ Hn (datas_pandas_tx ts tx Hts Hin)). exists st. done.
Qed.

(** C3: when the transaction dates are timestamps of the checked years, a
    customer is in [clientes_ativos_2024] exactly when one of its
    transactions falls on a day at most 90 days before 2024-12-30; a
    transaction on the 90th day before counts as active, one on the 91st
    does not (the inclusive boundary of spec.md, section 8). *)
Theorem ativo_90_dias ts id :
  Schema.datas_pandas ts ->
  holds (s_in id (clientes_ativos_2024 corte_90 ts)) = true <->
  exists tx st, In tx (Schema.tx_of ts id) /\ data_em_dias (Transacao.Data tx) st /\
    (Dates.jd_day 2024 12 30 - Dates.jd_day (Dates.ano st) (Dates.mes st) (Dates.dia st) <= 90)%Z.
Proof.
  intros Hts. rewrite corte_90_format. apply ativo_dias; [|done].
  vm_compute. split; discriminate.
Qed.

(** ** The scenario of spec.md, section 8 *)

(** Three customers aged 30: one without transactions, one whose last
    transaction is 95 days before 2024-12-30, one 10 days before. *)
Definition exemplo_clientes : list Cliente.t :=
  [Cliente.cli (Some 1%Z) None None None None (Some 30%Z) None;
   Cliente.cli (Some 2%Z) None None None None (Some 30%Z) None;
   Cliente.cli (Some 3%Z) None None None None (Some 30%Z) None].

Definition exemplo_transacoes : list Transacao.t :=
  [Transacao.tx (Some 10%Z) (Some "2024-09-26 10:00:00"%string) None (Some 2%Z) None;
   Transacao.tx (Some 11%Z) (Some "2024-12-20 09:00:00"%string) None (Some 3%Z) None].

Definition exemplo_linha : string * agregado :=
  ("26-35 anos"%string, mk_agregado 1 1 1 3 (3333 # 100) (3333 # 100) (6667 # 100)).

Lemma analise_particao_witness :
  In exemplo_linha (analise Bands.faixa_etaria (todos_clientes_idade exemplo_clientes)
                      corte_90 exemplo_transacoes) /\
  nunca_ativaram (snd exemplo_linha) + inativos (snd exemplo_linha) +
  ativos (snd exemplo_linha) = total (snd exemplo_linha).
Proof.
  assert (In exemplo_linha (analise Bands.faixa_etaria (todos_clientes_idade exemplo_clientes)
                              corte_90 exemplo_transacoes)) as H
    by (vm_compute; left; reflexivity).
  split; [exact H|]. exact (analise_particao _ _ _ _ _ _ H).
Defined.

(** The age query on the example, with an earlier and a later cutoff. *)
Definition exemplo_analise (corte : string) : list (string * agregado) :=
  analise Bands.faixa_etaria (todos_clientes_idade exemplo_clientes) (Some corte)
    exemplo_transacoes.

Definition exemplo_grupo (corte : string) : agregado :=
  snd (hd exemplo_linha (exemplo_analise corte)).

Lemma analise_ativos_antitone_witness :
  sql_ltb "2024-10-01"%string "2024-09-01"%string = false /\
  In ("26-35 anos"%string, exemplo_grupo "2024-09-01") (exemplo_analise "2024-09-01") /\
  In ("26-35 anos"%string, exemplo_grupo "2024-10-01") (exemplo_analise "2024-10-01") /\
  (ativos (exemplo_grupo "2024-10-01") <= ativos (exemplo_grupo "2024-09-01") /\
   inativos (exemplo_grupo "2024-09-01") <= inativos (exemplo_grupo "2024-10-01") /\
   nunca_ativaram (exemplo_grupo "2024-09-01") = nunca_ativaram (exemplo_grupo "2024-10-01")).
Proof.
  assert (sql_ltb "2024-10-01"%string "2024-09-01"%string = false) as H0 by reflexivity.
  assert (In ("26-35 anos"%string, exemplo_grupo "2024-09-01") (exemplo_analise "2024-09-01"))
    as H1 by (vm_compute; left; reflexivity).
  assert (In ("26-35 anos"%string, exemplo_grupo "2024-10-01") (exemplo_analise "2024-10-01"))
    as H2 by (vm_compute; left; reflexivity).
  split; [exact H0|]. split; [exact H1|]. split; [exact H2|].
  exact (analise_ativos_antitone _ _ _ _ _ _ _ _ H0 H1 H2).
Defined.

Lemma nunca_ativou_contado_witness :
  In (List.hd (Cliente.cli None None None None None None None) exemplo_clientes) exemplo_clientes /\
  Schema.tx_of exemplo_transacoes
    (Cliente.Cliente_ID (List.hd (Cliente.cli None None None None None None None) exemplo_clientes)) = [] /\
  exists a, In (Bands.faixa_etaria (Cliente.Idade (List.hd (Cliente.cli None None None None None None None)
                                                        exemplo_clientes)), a)
               (analise_1_idade_completa exemplo_clientes exemplo_transacoes) /\
            1 <= nunca_ativaram a.
Proof.
  assert (In (List.hd (Cliente.cli None None None None None None None) exemplo_clientes)
             exemplo_clientes) as H1 by (simpl; left; reflexivity).
  assert (Schema.tx_of exemplo_transacoes
            (Cliente.Cliente_ID (List.hd (Cliente.cli None None None None None None None)
                                   exemplo_clientes)) = []) as H2 by (vm_compute; reflexivity).
  split; [exact H1|]. split; [exact H2|]. exact (nunca_ativou_contado _ _ _ H1 H2).
Defined.

Lemma analise_1_idade_total_witness :
  Schema.ids_unique exemplo_clientes /\
  sum_list_with (fun ka => total (snd ka))
    (analise_1_idade_completa exemplo_clientes exemplo_transacoes) = length exemplo_clientes.
Proof.
  assert (Schema.ids_unique exemplo_clientes) as H.
  { split.
    - apply NoDup_ListNoDup. vm_compute. repeat constructor; simpl; intuition discriminate.
    - repeat constructor; discriminate. }
  split; [exact H|]. exact (analise_1_idade_total _ _ H).
Defined.

(** The example's transaction dates are pandas timestamps of 2024. *)
Lemma exemplo_datas : Schema.datas_pandas exemplo_transacoes.
Proof.
  repeat constructor; intros s [= <-];
    [exists (Dates.mk_stamp 2024 9 26 10 0 0) | exists (Dates.mk_stamp 2024 12 20 9 0 0)];
    (split; [vm_compute; reflexivity|split; [vm_compute; reflexivity|]]);
    cbn; unfold Dates.ano_min, Dates.ano_max; lia.
Qed.

Lemma tempo_conta_sem_data_witness :
  In (List.hd (Cliente.cli None None None None None None None) exemplo_clientes) exemplo_clientes /\
  Dates.julianday (Cliente.Data_Criacao_Conta
    (List.hd (Cliente.cli None None None None None None None) exemplo_clientes)) = None /\
  exists a, In ("Mais de 36 meses"%string, a)
              (analise_3_tempo_conta_completa exemplo_clientes exemplo_transacoes) /\ 1 <= total a.
Proof.
  assert (In (List.hd (Cliente.cli None None None None None None None) exemplo_clientes)
             exemplo_clientes) as H1 by (simpl; left; reflexivity).
  assert (Dates.julianday (Cliente.Data_Criacao_Conta
    (List.hd (Cliente.cli None None None None None None None) exemplo_clientes)) = None)
    as H2 by reflexivity.
  split; [exact H1|]. split; [exact H2|]. exact (tempo_conta_sem_data _ _ _ H1 H2).
Defined.

Lemma ativo_90_dias_witness :
  Schema.datas_pandas exemplo_transacoes /\
  (holds (s_in (Some 3%Z) (clientes_ativos_2024 corte_90 exemplo_transacoes)) = true <->
   exists tx st, In tx (Schema.tx_of exemplo_transacoes (Some 3%Z)) /\
     data_em_dias (Transacao.Data tx) st /\
     (Dates.jd_day 2024 12 30 - Dates.jd_day (Dates.ano st) (Dates.mes st) (Dates.dia st) <= 90)%Z).
Proof. split; [exact exemplo_datas|]. exact (ativo_90_dias _ _ exemplo_datas). Defined.

Lemma analise_percentuais_witness :
  In exemplo_linha (analise Bands.faixa_etaria (todos_clientes_idade exemplo_clientes)
                      corte_90 exemplo_transacoes) /\
  (0 <= perc_nunca_ativaram (snd exemplo_linha) <= 100)%Q /\
  (0 <= perc_inativos (snd exemplo_linha) <= 100)%Q /\
  (0 <= impacto_total (snd exemplo_linha) <= 100)%Q /\
  (- (3 # 200) <= impacto_total (snd exemplo_linha) -
     (perc_nunca_ativaram (snd exemplo_linha) + perc_inativos (snd exemplo_linha)) <= 3 # 200)%Q.
Proof.
  assert (In exemplo_linha (analise Bands.faixa_etaria (todos_clientes_idade exemplo_clientes)
                              corte_90 exemplo_transacoes)) as H
    by (vm_compute; left; reflexivity).
  split; [exact H|]. exact (analise_percentuais _ _ _ _ _ _ H).
Defined.

End Classifier.
