(* ===== verification/Cards.v ===== *)
(** * The card dimensions of [analise_churn_completa_2024.py]

    Queries 4 to 7 ([analise_4_tipo_cartao_completa] ..
    [analise_7_limite_cartao_completa]) do not group customers: their base
    relation is a [UNION] of (customer, card attribute) pairs read off the
    transactions joined with [cartoes], and of one pair per customer without
    transactions carrying a constant label.  [Module CardDims] models the
    four base relations and instantiates [Classifier.analise] with them.
    The theorems show what the rows count: one row per distinct (customer,
    attribute) pair, so a customer whose transactions use cards of two types
    is counted in both groups and the group totals exceed the number of
    customers; and one NULL [Cliente_ID] in [transacoes] empties the branch
    of customers without transactions, which then appear in no group. *)

From stdpp Require Import base list strings.
From Stdlib Require Import ZArith QArith String Lia.
From S2P Require Import Prelude Sql Dates Schema Bands Churn.

Local Abbreviation length := Datatypes.length.
Local Open Scope nat_scope.

Module CardDims.
Import Sql Classifier.

(** [transacoes t INNER JOIN cartoes cart ON t.ID_Cartao = cart.ID_Cartao]. *)
Definition tx_cartoes (transacoes : list Transacao.t) (cartoes : list Cartao.t)
  : list (Transacao.t * Cartao.t) :=
  inner_join (fun t c => s_eq (Transacao.ID_Cartao t) (Cartao.ID_Cartao c)) transacoes cartoes.

(** [SELECT DISTINCT c.Cliente_ID, lit FROM clientes c WHERE c.Cliente_ID
    NOT IN (SELECT DISTINCT Cliente_ID FROM transacoes)]. *)
Definition sem_transacao {X} `{EqDecision X} (lit : X) (clientes : list Cliente.t)
    (transacoes : list Transacao.t) : list (option Z * X) :=
  distinct (map (fun c => (Cliente.Cliente_ID c, lit))
    (where_ (fun c => s_not_in (Cliente.Cliente_ID c) (clientes_com_transacoes transacoes))
       clientes)).

(** The pairs of the transaction branch: [SELECT DISTINCT t.Cliente_ID,
    attr FROM transacoes t INNER JOIN cartoes cart ON ... WHERE cond]. *)
Definition com_cartao {X} `{EqDecision X} (attr : Cartao.t -> X) (cond : Cartao.t -> sbool)
    (transacoes : list Transacao.t) (cartoes : list Cartao.t) : list (option Z * X) :=
  distinct (map (fun tc => (Transacao.Cliente_ID (fst tc), attr (snd tc)))
              (where_ (fun tc => cond (snd tc)) (tx_cartoes transacoes cartoes))).

(** Query 4, CTE [clientes_cartoes]. *)
Definition clientes_cartoes clientes cartoes transacoes : list (option Z * option string) :=
  union (com_cartao Cartao.Tipo_Cartao (fun _ => Some true) transacoes cartoes)
        (sem_transacao (Some "Sem Cartão Ativo"%string) clientes transacoes).

(** [GROUP BY cc.tipo_cartao]: the label is the (nullable) card type. *)
Definition analise_4_tipo_cartao_completa clientes cartoes transacoes
  : list (option string * agregado) :=
  analise (fun k => k) (clientes_cartoes clientes cartoes transacoes) corte_90 transacoes.

(** [COALESCE(cart.Produto_Mastercard, 'Não Identificado')]. *)
Definition produto_ou_padrao (c : Cartao.t) : string :=
  match Cartao.Produto_Mastercard c with Some p => p | None => "Não Identificado"%string end.

(** Query 5, CTE [clientes_produtos]. *)
Definition clientes_produtos clientes cartoes transacoes : list (option Z * string) :=
  union (com_cartao produto_ou_padrao (fun _ => Some true) transacoes cartoes)
        (sem_transacao "Sem Produto Ativo"%string clientes transacoes).

Definition analise_5_produto_mastercard_completa clientes cartoes transacoes
  : list (string * agregado) :=
  analise (fun k => k) (clientes_produtos clientes cartoes transacoes) corte_90 transacoes.

(** Query 6, CTE [clientes_tempo_cartao]: months since issue, or [-1] for
    customers without transactions. *)
Definition clientes_tempo_cartao clientes cartoes transacoes : list (option Z * option Q) :=
  union (com_cartao (fun c => meses_ate_ref (Cartao.Data_Emissao c)) (fun _ => Some true)
           transacoes cartoes)
        (sem_transacao (Some (-1)%Q) clientes transacoes).

Definition analise_6_tempo_cartao_completa clientes cartoes transacoes
  : list (string * agregado) :=
  analise Bands.tempo_cartao (clientes_tempo_cartao clientes cartoes transacoes) corte_90
    transacoes.

(** Query 7, CTE [clientes_limite]: the limits that are not NULL, or [-1]
    for customers without transactions. *)
Definition clientes_limite clientes cartoes transacoes : list (option Z * option Q) :=
  union (com_cartao Cartao.Limite_Cartao (fun c => Some (negb (is_null (Cartao.Limite_Cartao c))))
           transacoes cartoes)
        (sem_transacao (Some (-1)%Q) clientes transacoes).

Definition analise_7_limite_cartao_completa clientes cartoes transacoes
  : list (string * agregado) :=
  analise Bands.faixa_limite (clientes_limite clientes cartoes transacoes) corte_90 transacoes.

(** ** What the base relations hold *)

Lemma In_com_cartao {X} `{EqDecision X} (attr : Cartao.t -> X) cond ts cs id v :
  In (id, v) (com_cartao attr cond ts cs) <->
  exists t c, In t ts /\ In c cs /\ holds (s_eq (Transacao.ID_Cartao t) (Cartao.ID_Cartao c)) = true /\
              holds (cond c) = true /\ Transacao.Cliente_ID t = id /\ attr c = v.
Proof.
  unfold com_cartao, tx_cartoes. rewrite In_distinct, in_map_iff. split.
  - intros ([t c] & [= <- <-] & Hin). apply In_where in Hin as [Hin Hc].
    apply In_inner_join in Hin as (Ht & Hc' & Hj). exists t, c. done.
  - intros (t & c & Ht & Hc & Hj & Hcond & <- & <-). exists (t, c). split; [done|].
    apply In_where. split; [apply In_inner_join|]; done.
Qed.

Lemma In_sem_transacao {X} `{EqDecision X} (lit : X) clientes ts id v :
  In (id, v) (sem_transacao lit clientes ts) <->
  v = lit /\ (exists c, In c clientes /\ Cliente.Cliente_ID c = id) /\
  holds (s_not_in id (clientes_com_transacoes ts)) = true.
Proof.
  unfold sem_transacao. rewrite In_distinct, in_map_iff. split.
  - intros (c & [= <- <-] & Hin). apply In_where in Hin as [Hin Hc]. split; [done|].
    split; [exists c|]; done.
  - intros (-> & (c & Hc & <-) & Hn). exists c. split; [done|]. apply In_where. done.
Qed.

(** A NULL customer id in [transacoes] makes every [NOT IN] over
    [clientes_com_transacoes] NULL: the branch of customers without
    transactions is empty. *)
Lemma sem_transacao_nulo {X} `{EqDecision X} (lit : X) clientes ts t :
  In t ts -> Transacao.Cliente_ID t = None -> sem_transacao lit clientes ts = [].
Proof.
  intros Ht Hn. destruct (sem_transacao lit clientes ts) as [|[id v] l] eqn:E; [done|].
  assert (In (id, v) (sem_transacao lit clientes ts)) as Hin by (rewrite E; left; done).
  apply In_sem_transacao in Hin as (_ & _ & Hni). exfalso.
  apply holds_s_not_in in Hni as [Hnil|(a & _ & _ & Hnone)].
  - assert (In None (clientes_com_transacoes ts)) as H
      by (apply In_distinct, in_map_iff; exists t; done). rewrite Hnil in H. done.
  - apply Hnone, In_distinct, in_map_iff. exists t. done.
Qed.

(** ** The card-type query counts pairs, not customers *)

(** C21: a customer whose transactions use two cards of different types is
    counted in the group of each type, so the totals of
    [analise_4_tipo_cartao_completa] add up to more than the number of
    distinct customers its base relation holds. *)
Theorem tipo_cartao_conta_dupla clientes cartoes ts t1 t2 c1 c2 :
  In (t1, c1) (tx_cartoes ts cartoes) -> In (t2, c2) (tx_cartoes ts cartoes) ->
  Transacao.Cliente_ID t1 = Transacao.Cliente_ID t2 ->
  Cartao.Tipo_Cartao c1 <> Cartao.Tipo_Cartao c2 ->
  length (distinct (map fst (clientes_cartoes clientes cartoes ts))) <
  sum_list_with (fun ka => total (snd ka)) (analise_4_tipo_cartao_completa clientes cartoes ts).
Proof.
  intros H1 H2 Hid Hty. unfold analise_4_tipo_cartao_completa. rewrite analise_total.
  apply (distinct_map_lt fst _ (Transacao.Cliente_ID t1, Cartao.Tipo_Cartao c1)
                               (Transacao.Cliente_ID t2, Cartao.Tipo_Cartao c2)).
  - apply NoDup_distinct.
  - apply In_union. left. apply In_com_cartao. apply In_inner_join in H1 as (? & ? & ?).
    exists t1, c1. done.
  - apply In_union. left. apply In_com_cartao. apply In_inner_join in H2 as (? & ? & ?).
    exists t2, c2. done.
  - intros [= _ E]. done.
  - done.
Qed.

(** when one transaction has a NULL customer id, a registered customer
    without transactions has no row in the base relation of the card-type
    query: it is counted in no group, never-activated or otherwise. *)
Theorem tipo_cartao_sem_transacao_omitido clientes cartoes ts t c :
  In t ts -> Transacao.Cliente_ID t = None ->
  Cliente.Cliente_ID c <> None -> Schema.tx_of ts (Cliente.Cliente_ID c) = [] ->
  forall r, In r (clientes_cartoes clientes cartoes ts) -> fst r <> Cliente.Cliente_ID c.
Proof.
  intros Ht Hn Hc Hnil [id k] Hr. simpl. intros ->.
  unfold clientes_cartoes, union in Hr. rewrite (sem_transacao_nulo _ _ _ t Ht Hn), app_nil_r in Hr.
  rewrite In_distinct in Hr.
  apply In_com_cartao in Hr as (t' & c' & Ht' & _ & _ & _ & Hid & _).
  assert (In t' (Schema.tx_of ts (Cliente.Cliente_ID c))) as Hin by (apply In_tx_of; done).
  rewrite Hnil in Hin. done.
Qed.

(** ** Examples *)

(** Two cards of different types; customer 1 uses both, customer 2 never
    transacts, and one transaction has no customer id. *)
Definition exemplo_cartoes : list Cartao.t :=
  [Cartao.cartao (Some 100%Z) (Some "Gold"%string) (Some "Crédito"%string)
     (Some "2023-01-10 00:00:00"%string) (Some 5000%Q) None None;
   Cartao.cartao (Some 200%Z) (Some "Standard"%string) (Some "Débito"%string)
     (Some "2023-02-10 00:00:00"%string) (Some 0%Q) None None].

Definition exemplo_clientes : list Cliente.t :=
  [Cliente.cli (Some 1%Z) None None None None (Some 40%Z) None;
   Cliente.cli (Some 2%Z) None None None None (Some 50%Z) None].

Definition exemplo_tx1 : Transacao.t :=
  Transacao.tx (Some 1%Z) (Some "2024-12-01 10:00:00"%string) (Some 50%Q) (Some 1%Z) (Some 100%Z).
Definition exemplo_tx2 : Transacao.t :=
  Transacao.tx (Some 2%Z) (Some "2024-11-01 10:00:00"%string) (Some 20%Q) (Some 1%Z) (Some 200%Z).
Definition exemplo_tx_nula : Transacao.t :=
  Transacao.tx (Some 3%Z) (Some "2024-12-02 10:00:00"%string) (Some 10%Q) None (Some 100%Z).

Definition exemplo_transacoes : list Transacao.t := [exemplo_tx1; exemplo_tx2; exemplo_tx_nula].

Lemma tipo_cartao_conta_dupla_witness :
  In (exemplo_tx1, List.hd (Cartao.cartao None None None None None None None) exemplo_cartoes)
     (tx_cartoes exemplo_transacoes exemplo_cartoes) /\
  In (exemplo_tx2, List.nth 1 exemplo_cartoes (Cartao.cartao None None None None None None None))
     (tx_cartoes exemplo_transacoes exemplo_cartoes) /\
  length (distinct (map fst (clientes_cartoes exemplo_clientes exemplo_cartoes exemplo_transacoes))) <
  sum_list_with (fun ka => total (snd ka))
    (analise_4_tipo_cartao_completa exemplo_clientes exemplo_cartoes exemplo_transacoes).
Proof.
  assert (In (exemplo_tx1, List.hd (Cartao.cartao None None None None None None None) exemplo_cartoes)
             (tx_cartoes exemplo_transacoes exemplo_cartoes)) as H1 by (vm_compute; tauto).
  assert (In (exemplo_tx2, List.nth 1 exemplo_cartoes (Cartao.cartao None None None None None None None))
             (tx_cartoes exemplo_transacoes exemplo_cartoes)) as H2 by (vm_compute; tauto).
  split; [exact H1|]. split; [exact H2|].
  exact (tipo_cartao_conta_dupla _ _ _ _ _ _ _ H1 H2 eq_refl ltac:(vm_compute; congruence)).
Defined.

Lemma tipo_cartao_sem_transacao_omitido_witness :
  In exemplo_tx_nula exemplo_transacoes /\ Transacao.Cliente_ID exemplo_tx_nula = None /\
  Cliente.Cliente_ID (List.nth 1 exemplo_clientes (Cliente.cli None None None None None None None)) <> None /\
  Schema.tx_of exemplo_transacoes
    (Cliente.Cliente_ID (List.nth 1 exemplo_clientes (Cliente.cli None None None None None None None))) = [] /\
  (forall r, In r (clientes_cartoes exemplo_clientes exemplo_cartoes exemplo_transacoes) ->
     fst r <> Cliente.Cliente_ID (List.nth 1 exemplo_clientes (Cliente.cli None None None None None None None))).
Proof.
  assert (In exemplo_tx_nula exemplo_transacoes) as H1 by (vm_compute; tauto).
  assert (Transacao.Cliente_ID exemplo_tx_nula = None) as H2 by reflexivity.
  assert (Cliente.Cliente_ID (List.nth 1 exemplo_clientes (Cliente.cli None None None None None None None))
          <> None) as H3 by (vm_compute; congruence).
  assert (Schema.tx_of exemplo_transacoes
    (Cliente.Cliente_ID (List.nth 1 exemplo_clientes (Cliente.cli None None None None None None None))) = [])
    as H4 by (vm_compute; reflexivity).
  split; [exact H1|]. split; [exact H2|]. split; [exact H3|]. split; [exact H4|].
  exact (tipo_cartao_sem_transacao_omitido _ _ _ _ _ H1 H2 H3 H4).
Defined.

End CardDims.
