(* ===== verification/Base.v ===== *)
(** * The base summary [analise_base_completa]

    [analise_base_completa] (lines 179-275 of
    [src/novaAbordagem/analise_churn_completa_2024.py]) prints nine rows: the
    number of customers, those created in 2023 and in 2024, and the numbers
    of never-activated, inactive and active customers.  Unlike the dimension
    queries it counts them with [NOT IN] sub-queries over three different
    tables: the never-activated among the customers, the inactive among the
    ids of [transacoes], the active as the size of [clientes_ativos_2024].
    [Module Base] models the query row by row.  The theorems show that the
    three status counts add up to the number of customers when the key and
    the foreign key of the database hold (which [to_sql] does not enforce),
    that one NULL customer id in [transacoes] makes the never-activated count
    0, and that a transaction of an unregistered customer makes the counts
    add up to more than the customers. *)

From stdpp Require Import base list strings.
From Stdlib Require Import ZArith QArith String Lia.
From S2P Require Import Prelude Sql Dates Schema Bands Churn.

Local Abbreviation length := Datatypes.length.
Local Open Scope nat_scope.

Module Base.
Import Sql Classifier.

(** [todos_clientes]: [SELECT DISTINCT cliente_id, Data_Criacao_Conta,
    strftime('%Y', Data_Criacao_Conta) as ano_criacao FROM clientes]. *)
Definition todos_clientes (clientes : list Cliente.t)
  : list (option Z * option string * option string) :=
  distinct (map (fun c => (Cliente.Cliente_ID c, Cliente.Data_Criacao_Conta c,
                           Dates.strftime_Y (Cliente.Data_Criacao_Conta c))) clientes).

(** The [detalhes] column: the literal [''], or [ROUND(n * 100.0 / total, 1)
    || '%'], kept as the number before ['%'] (NULL when [total] is 0, as
    SQLite's division by zero). *)
Inductive detalhe := Vazio | Perc (p : option Q).

Record linha_base := mk_linha_base {
  categoria : string;
  quantidade : nat;
  detalhes : detalhe
}.

Definition perc_1 (n t : nat) : detalhe :=
  Perc (if Nat.eqb t 0 then None
        else Some (sql_round (inject_Z (Z.of_nat n) * 100 / inject_Z (Z.of_nat t))%Q 1)).

(** The labels of the nine rows. *)
Definition cat_total : string := "TOTAL CLIENTES CADASTRADOS (2023+2024)".
Definition cat_2023 : string := "Clientes cadastrados em 2023".
Definition cat_2024 : string := "Clientes cadastrados em 2024".
Definition cat_status : string := "--- STATUS EM 2024 (TODOS OS CLIENTES) ---".
Definition cat_nunca : string := "NUNCA ATIVARAM (sem transações)".
Definition cat_inativos : string := "INATIVOS (90+ dias sem transação)".
Definition cat_ativos : string := "ATIVOS (transacionaram < 90 dias)".
Definition cat_impacto : string := "--- IMPACTO TOTAL DO CHURN ---".
Definition cat_problemas : string := "TOTAL COM PROBLEMAS (Nunca + Inativos)".

(** [SELECT COUNT( * ) FROM todos_clientes tc WHERE tc.cliente_id NOT IN
    (SELECT cliente_id FROM clientes_com_transacoes)]. *)
Definition nunca_base (tc : list (option Z * option string * option string))
    (cct : list (option Z)) : nat :=
  count_when (fun r => s_not_in (fst (fst r)) cct) tc.

(** [SELECT COUNT( * ) FROM clientes_com_transacoes cct WHERE cct.cliente_id
    NOT IN (SELECT cliente_id FROM clientes_ativos_2024)]. *)
Definition inativos_base (cct ca : list (option Z)) : nat :=
  count_when (fun id => s_not_in id ca) cct.

(** [SELECT COUNT( * ) FROM todos_clientes WHERE ano_criacao = y]. *)
Definition criados_em (tc : list (option Z * option string * option string)) (y : string) : nat :=
  count_when (fun r => s_eq (snd r) (Some y)) tc.

(** The nine rows of the [UNION ALL]. *)
Definition analise_base_completa (clientes : list Cliente.t) (transacoes : list Transacao.t)
  : list linha_base :=
  let tc := todos_clientes clientes in
  let cct := clientes_com_transacoes transacoes in
  let ca := clientes_ativos_2024 corte_90 transacoes in
  let total := length tc in
  let n23 := criados_em tc "2023" in
  let n24 := criados_em tc "2024" in
  let nunca := nunca_base tc cct in
  let inat := inativos_base cct ca in
  [mk_linha_base cat_total total Vazio;
   mk_linha_base cat_2023 n23 (perc_1 n23 total);
   mk_linha_base cat_2024 n24 (perc_1 n24 total);
   mk_linha_base cat_status 0 Vazio;
   mk_linha_base cat_nunca nunca (perc_1 nunca total);
   mk_linha_base cat_inativos inat (perc_1 inat total);
   mk_linha_base cat_ativos (length ca) (perc_1 (length ca) total);
   mk_linha_base cat_impacto 0 Vazio;
   mk_linha_base cat_problemas (nunca + inat) (perc_1 (nunca + inat) total)].

(** The quantity of the first row with a given label (0 when there is none). *)
Definition qtd (k : string) (rows : list linha_base) : nat :=
  match List.find (fun r => String.eqb (categoria r) k) rows with
  | Some r => quantidade r
  | None => 0
  end.

(** ** The counts of the summary *)

Lemma qtd_base clientes ts :
  qtd cat_total (analise_base_completa clientes ts) = length (todos_clientes clientes) /\
  qtd cat_nunca (analise_base_completa clientes ts) =
    nunca_base (todos_clientes clientes) (clientes_com_transacoes ts) /\
  qtd cat_inativos (analise_base_completa clientes ts) =
    inativos_base (clientes_com_transacoes ts) (clientes_ativos_2024 corte_90 ts) /\
  qtd cat_ativos (analise_base_completa clientes ts) = length (clientes_ativos_2024 corte_90 ts).
Proof. repeat split; reflexivity. Qed.

Lemma holds_s_not_in_some (a : Z) (l : list (option Z)) :
  ~ In None l -> holds (s_not_in (Some a) l) = negb (bool_decide (Some a ∈ l)).
Proof.
  intros Hn. destruct (holds (s_not_in (Some a) l)) eqn:E.
  - apply holds_s_not_in in E as [->|(b & [= <-] & Hb & _)].
    + rewrite bool_decide_false; [done|]. apply not_elem_of_nil.
    + rewrite bool_decide_false; [done|]. rewrite list_elem_of_In. done.
  - destruct (bool_decide (Some a ∈ l)) eqn:B; [done|]. exfalso.
    apply bool_decide_eq_false in B. assert (holds (s_not_in (Some a) l) = true); [|congruence].
    apply holds_s_not_in. destruct l; [left; done|right]. exists a. rewrite <- list_elem_of_In. done.
Qed.

(** With unique non-NULL ids, [todos_clientes] has one row per customer. *)
Lemma todos_clientes_ids clientes :
  Schema.ids_unique clientes ->
  map (fun r => fst (fst r)) (todos_clientes clientes) = map Cliente.Cliente_ID clientes.
Proof.
  intros [Hnd _]. unfold todos_clientes. rewrite distinct_id.
  - rewrite map_map. done.
  - apply (NoDup_map_inv (fun r => fst (fst r))). rewrite map_map. apply NoDup_ListNoDup. done.
Qed.

Lemma In_cct_tx ts id : In id (clientes_com_transacoes ts) <-> exists t, In t ts /\ Transacao.Cliente_ID t = id.
Proof. unfold clientes_com_transacoes. rewrite In_distinct, in_map_iff. firstorder. Qed.

Lemma In_ca_cct ts corte id :
  In id (clientes_ativos_2024 corte ts) -> In id (clientes_com_transacoes ts).
Proof.
  unfold clientes_ativos_2024. rewrite In_distinct, in_map_iff, In_cct_tx.
  intros (t & <- & Ht). apply In_where in Ht as [Ht _]. exists t. done.
Qed.

Lemma todos_clientes_length clientes :
  Schema.ids_unique clientes -> length (todos_clientes clientes) = length clientes.
Proof.
  intros Hu. rewrite <- (length_map (fun r => fst (fst r))), todos_clientes_ids by done.
  apply length_map.
Qed.

(** With unique ids and no NULL in [cct], the never-activated row counts the
    customers whose id is not in [cct]. *)
Lemma nunca_base_eq clientes cct :
  Schema.ids_unique clientes -> ~ In None cct ->
  nunca_base (todos_clientes clientes) cct =
  length clientes - #[fun id => bool_decide (id ∈ cct)] (map Cliente.Cliente_ID clientes).
Proof.
  intros Hu Hcct. unfold nunca_base, count_when.
  rewrite (count_if_ext_in _ (fun r => negb (bool_decide (fst (fst r) ∈ cct)))).
  2:{ intros r Hr. destruct (fst (fst r)) as [a|] eqn:E; [apply holds_s_not_in_some; done|].
      exfalso. destruct Hu as [_ Hnn]. unfold todos_clientes in Hr.
      apply In_distinct, in_map_iff in Hr as (c & <- & Hc). rewrite List.Forall_forall in Hnn.
      apply (Hnn c Hc). done. }
  rewrite count_if_complement, todos_clientes_length by done. f_equal.
  rewrite <- todos_clientes_ids by done. rewrite count_if_map. done.
Qed.

(** With no NULL in [ca] and [ca] inside [cct], the inactive row counts the
    ids of [cct] that are not in [ca]. *)
Lemma inativos_base_eq ts corte :
  ~ In None (clientes_com_transacoes ts) ->
  inativos_base (clientes_com_transacoes ts) (clientes_ativos_2024 corte ts) =
  length (clientes_com_transacoes ts) - length (clientes_ativos_2024 corte ts).
Proof.
  intros Hcct. assert (~ In None (clientes_ativos_2024 corte ts)) as Hca
    by (intros Hn; apply Hcct, In_ca_cct with corte; done).
  unfold inativos_base, count_when.
  rewrite (count_if_ext_in (fun id => holds (s_not_in id _))
             (fun id => negb (bool_decide (id ∈ clientes_ativos_2024 corte ts)))).
  2:{ intros [a|] Hid; [apply holds_s_not_in_some; done|done]. }
  rewrite count_if_complement, count_if_members; [done|apply NoDup_distinct|apply NoDup_distinct|].
  intros id. apply In_ca_cct.
Qed.

Lemma sem_nulos_cct ts :
  Forall (fun t => Transacao.Cliente_ID t <> None) ts ->
  ~ In None (clientes_com_transacoes ts) /\ ~ In None (clientes_ativos_2024 corte_90 ts).
Proof.
  intros Hnn. assert (~ In None (clientes_com_transacoes ts)) as Hcct.
  { intros Hn. apply In_cct_tx in Hn as (t & Ht & Hid). rewrite List.Forall_forall in Hnn.
    apply (Hnn t Ht). done. }
  split; [done|]. intros Hn. apply Hcct, In_ca_cct with corte_90. done.
Qed.

Lemma ca_le_cct ts corte :
  length (clientes_ativos_2024 corte ts) <= length (clientes_com_transacoes ts).
Proof.
  rewrite <- (count_if_members (clientes_ativos_2024 corte ts) (clientes_com_transacoes ts));
    [apply count_if_le|apply NoDup_distinct|apply NoDup_distinct|intros id; apply In_ca_cct].
Qed.

(** when every customer id is unique and non-NULL and every
    transaction names a registered customer (the PRIMARY and FOREIGN KEY
    clauses [to_sql] drops), the never-activated, inactive and active rows
    of [analise_base_completa] add up to its total row. *)
Theorem base_soma clientes ts :
  Schema.ids_unique clientes -> Schema.tx_refs_clientes clientes ts ->
  let rows := analise_base_completa clientes ts in
  qtd cat_nunca rows + qtd cat_inativos rows + qtd cat_ativos rows = qtd cat_total rows.
Proof.
  intros Hu Hfk. cbv zeta. destruct (qtd_base clientes ts) as (-> & -> & -> & ->).
  assert (Forall (fun t => Transacao.Cliente_ID t <> None) ts) as Hnn
    by (eapply List.Forall_impl; [|exact Hfk]; intros t [H _]; exact H).
  destruct (sem_nulos_cct ts Hnn) as [Hcct Hca].
  rewrite nunca_base_eq, inativos_base_eq, todos_clientes_length by done.
  assert (#[fun id => bool_decide (id ∈ clientes_com_transacoes ts)] (map Cliente.Cliente_ID clientes)
          = length (clientes_com_transacoes ts)) as E.
  { apply count_if_members; [apply NoDup_distinct| |].
    - destruct Hu as [Hnd _]. apply NoDup_ListNoDup. done.
    - intros id Hid. apply In_cct_tx in Hid as (t & Ht & <-).
      unfold Schema.tx_refs_clientes in Hfk. rewrite List.Forall_forall in Hfk. apply (Hfk t Ht). }
  pose proof (count_if_le (fun id => bool_decide (id ∈ clientes_com_transacoes ts))
                (map Cliente.Cliente_ID clientes)) as Hle.
  rewrite length_map in Hle. pose proof (ca_le_cct ts corte_90). lia.
Qed.

(** C23: one transaction with a NULL customer id makes [clientes_com_transacoes]
    hold a NULL, so [tc.cliente_id NOT IN (...)] is never TRUE and the row
    "NUNCA ATIVARAM" reports 0, whatever the customers. *)
Theorem base_nunca_nulo clientes ts t :
  In t ts -> Transacao.Cliente_ID t = None ->
  qtd cat_nunca (analise_base_completa clientes ts) = 0.
Proof.
  intros Ht Hn. rewrite (proj1 (proj2 (qtd_base clientes ts))). unfold nunca_base, count_when.
  apply count_if_false. intros r _. apply not_true_iff_false. rewrite holds_s_not_in.
  assert (In None (clientes_com_transacoes ts)) as Hin by (apply In_cct_tx; exists t; done).
  intros [Hnil|(a & _ & _ & Hno)]; [rewrite Hnil in Hin; done|done].
Qed.

(** ** Examples *)

(** Customer 1 is active, customer 2 has one old transaction, customer 3
    none; a fourth transaction names customer 9, who is not registered. *)
Definition exemplo_clientes : list Cliente.t :=
  [Cliente.cli (Some 1%Z) None (Some "2023-03-01 00:00:00"%string) None None (Some 30%Z) None;
   Cliente.cli (Some 2%Z) None (Some "2024-02-01 00:00:00"%string) None None (Some 40%Z) None;
   Cliente.cli (Some 3%Z) None (Some "2024-05-01 00:00:00"%string) None None (Some 50%Z) None].

Definition exemplo_transacoes : list Transacao.t :=
  [Transacao.tx (Some 10%Z) (Some "2024-12-01 10:00:00"%string) None (Some 1%Z) None;
   Transacao.tx (Some 11%Z) (Some "2024-06-01 10:00:00"%string) None (Some 2%Z) None].

Definition exemplo_nao_cadastrado : list Transacao.t :=
  exemplo_transacoes ++
  [Transacao.tx (Some 12%Z) (Some "2024-12-10 10:00:00"%string) None (Some 9%Z) None].

Definition exemplo_nulo : list Transacao.t :=
  exemplo_transacoes ++
  [Transacao.tx (Some 13%Z) (Some "2024-12-11 10:00:00"%string) None None None].

Lemma base_soma_witness :
  Schema.ids_unique exemplo_clientes /\ Schema.tx_refs_clientes exemplo_clientes exemplo_transacoes /\
  qtd cat_nunca (analise_base_completa exemplo_clientes exemplo_transacoes) +
  qtd cat_inativos (analise_base_completa exemplo_clientes exemplo_transacoes) +
  qtd cat_ativos (analise_base_completa exemplo_clientes exemplo_transacoes) =
  qtd cat_total (analise_base_completa exemplo_clientes exemplo_transacoes).
Proof.
  assert (Schema.ids_unique exemplo_clientes) as H1.
  { split; [apply NoDup_ListNoDup; vm_compute; repeat constructor; simpl; intuition discriminate|].
    repeat constructor; discriminate. }
  assert (Schema.tx_refs_clientes exemplo_clientes exemplo_transacoes) as H2.
  { repeat constructor; try discriminate; vm_compute; tauto. }
  split; [exact H1|]. split; [exact H2|]. exact (base_soma _ _ H1 H2).
Defined.

Lemma base_nunca_nulo_witness :
  In (Transacao.tx (Some 13%Z) (Some "2024-12-11 10:00:00"%string) None None None) exemplo_nulo /\
  Transacao.Cliente_ID (Transacao.tx (Some 13%Z) (Some "2024-12-11 10:00:00"%string) None None None) = None /\
  qtd cat_nunca (analise_base_completa exemplo_clientes exemplo_nulo) = 0.
Proof.
  assert (In (Transacao.tx (Some 13%Z) (Some "2024-12-11 10:00:00"%string) None None None) exemplo_nulo)
    as H1 by (vm_compute; tauto).
  split; [exact H1|]. split; [reflexivity|]. exact (base_nunca_nulo _ _ _ H1 eq_refl).
Defined.

(** C24: without the foreign key the summary miscounts: with unique
    customer ids and no NULL customer id in [transacoes], the three status
    rows add up to the number of customers plus the number of distinct ids
    of [transacoes] that name no registered customer (each such id is
    counted as inactive or active). *)
Theorem base_soma_nao_cadastrados clientes ts :
  Schema.ids_unique clientes -> Forall (fun t => Transacao.Cliente_ID t <> None) ts ->
  let rows := analise_base_completa clientes ts in
  qtd cat_nunca rows + qtd cat_inativos rows + qtd cat_ativos rows =
  qtd cat_total rows +
#[fun id => negb (bool_decide (id ∈ map Cliente.Cliente_ID clientes))] (clientes_com_transacoes ts).
Proof.
  intros Hu Hnn. cbv zeta. destruct (qtd_base clientes ts) as (-> & -> & -> & ->).
  destruct (sem_nulos_cct ts Hnn) as [Hcct Hca].
  rewrite nunca_base_eq, inativos_base_eq, todos_clientes_length by done.
  rewrite count_if_inter_sym, count_if_complement
    by (apply NoDup_distinct || (destruct Hu as [Hnd _]; apply NoDup_ListNoDup; done)).
  pose proof (count_if_le (fun id => bool_decide (id ∈ map Cliente.Cliente_ID clientes))
                (clientes_com_transacoes ts)).
  pose proof (count_if_le (fun id => bool_decide (id ∈ clientes_com_transacoes ts))
                (map Cliente.Cliente_ID clientes)) as Hle.
  rewrite count_if_inter_sym in Hle
    by (apply NoDup_distinct || (destruct Hu as [Hnd _]; apply NoDup_ListNoDup; done)).
  rewrite length_map in Hle. pose proof (ca_le_cct ts corte_90). lia.
Qed.

Lemma base_soma_nao_cadastrados_witness :
  Schema.ids_unique exemplo_clientes /\
  Forall (fun t => Transacao.Cliente_ID t <> None) exemplo_nao_cadastrado /\
  qtd cat_nunca (analise_base_completa exemplo_clientes exemplo_nao_cadastrado) +
  qtd cat_inativos (analise_base_completa exemplo_clientes exemplo_nao_cadastrado) +
  qtd cat_ativos (analise_base_completa exemplo_clientes exemplo_nao_cadastrado) =
  qtd cat_total (analise_base_completa exemplo_clientes exemplo_nao_cadastrado) +
#[fun id => negb (bool_decide (id ∈ map Cliente.Cliente_ID exemplo_clientes))]
    (clientes_com_transacoes exemplo_nao_cadastrado).
Proof.
  assert (Schema.ids_unique exemplo_clientes) as H1.
  { split; [apply NoDup_ListNoDup; vm_compute; repeat constructor; simpl; intuition discriminate|].
    repeat constructor; discriminate. }
  assert (Forall (fun t => Transacao.Cliente_ID t <> None) exemplo_nao_cadastrado) as H2
    by (repeat constructor; discriminate).
  split; [exact H1|]. split; [exact H2|]. exact (base_soma_nao_cadastrados _ _ H1 H2).
Defined.


End Base.
