(* ===== verification/Report.v ===== *)
(** * The insights, the executive report and [main]

    After each dimension query, [analise_churn_completa_2024.py] flags the
    rows whose [impacto_total] exceeds 30 ("CRÍTICO") or 20 ("ATENÇÃO").
    [gerar_relatorio_executivo_final] (lines 772-835) then takes, from each
    non-empty result, the first row of maximal impact, sorts these problems
    by impact (Python's stable [sort(reverse=True)]), prints the top five,
    chooses the main focus (activation when the top problem has more
    never-activated than inactive customers, retention otherwise) and counts
    the critical problems; [main] (lines 837-891) runs the base summary, the
    seven queries and the report.  [Module Relatorio] models these steps;
    [problemas_criticos[0]] raising [IndexError] on an empty list is the
    [None] of [gerar_relatorio_executivo_final].  The theorems show that the
    sort is a sorting, that the report's top problem has the largest impact
    of every row of every dimension, and that [main] always reaches a report
    when there is a customer. *)

From stdpp Require Import base list strings.
From Stdlib Require Import ZArith QArith String Ascii Lia Lqa Sorted.
From S2P Require Import Prelude Sql Dates Schema Bands Churn Cards Base.

Local Abbreviation length := Datatypes.length.
Local Open Scope nat_scope.

Module Relatorio.
Import Sql Classifier.

(** ** The insights of each query *)

Inductive alerta := Critico | Atencao.

(** [if row['impacto_total'] > 30: ... CRÍTICO ... elif row['impacto_total']
    > 20: ... ATENÇÃO]. *)
Definition insights {K} (df : list (K * agregado)) : list (K * alerta) :=
  flat_map (fun ka =>
              if Qltb 30 (impacto_total (snd ka)) then [(fst ka, Critico)]
              else if Qltb 20 (impacto_total (snd ka)) then [(fst ka, Atencao)]
              else []) df.

(** ** The executive report *)

(** A row of [problemas_criticos]. *)
Record problema := mk_problema {
  dimensao : string;
  categoria : option string;
  impacto : Q;
  p_nunca : nat;
  p_inativos : nat;
  p_total : nat
}.

(** [str.title()] on the ASCII names of the dimensions: a letter after a
    non-letter is upper-cased, the other letters lower-cased. *)
Definition letra (c : ascii) : bool :=
  let n := nat_of_ascii c in ((65 <=? n) && (n <=? 90)) || ((97 <=? n) && (n <=? 122)).

Definition maiuscula (c : ascii) : ascii :=
  let n := nat_of_ascii c in if (97 <=? n) && (n <=? 122) then ascii_of_nat (n - 32) else c.

Definition minuscula (c : ascii) : ascii :=
  let n := nat_of_ascii c in if (65 <=? n) && (n <=? 90) then ascii_of_nat (n + 32) else c.

Fixpoint title_from (inicio : bool) (s : string) : string :=
  match s with
  | EmptyString => EmptyString
  | String c s' =>
      String (if letra c then (if inicio then maiuscula c else minuscula c) else c)
             (title_from (negb (letra c)) s')
  end.

Definition title (s : string) : string := title_from true s.

(** [max(a, b)] of two impacts. *)
Definition qmax (a b : Q) : Q := if Qle_bool a b then b else a.

(** [df['impacto_total'].max()] of a non-empty result. *)
Definition max_impacto (a0 : agregado) (rest : list (option string * agregado)) : Q :=
  fold_left (fun m ka => qmax m (impacto_total (snd ka))) rest (impacto_total a0).

(** The entry of one dimension: [df[df['impacto_total'] == max_impacto].iloc[0]],
    when the result is not empty. *)
Definition maior_problema (dim : string) (df : list (option string * agregado)) : option problema :=
  match df with
  | [] => None
  | (k0, a0) :: rest =>
      let m := max_impacto a0 rest in
      match List.find (fun ka => Qeq_bool (impacto_total (snd ka)) m) df with
      | Some (k, a) => Some (mk_problema (title dim) k m (nunca_ativaram a) (inativos a) (total a))
      | None => None
      end
  end.

(** [problemas_criticos.sort(key=lambda x: x['impacto'], reverse=True)]:
    a stable sort by decreasing impact (a problem goes after those of equal
    impact already placed). *)
Fixpoint insere (p : problema) (l : list problema) : list problema :=
  match l with
  | [] => [p]
  | q :: l' => if Qltb (impacto q) (impacto p) then p :: q :: l' else q :: insere p l'
  end.

Definition ordena (l : list problema) : list problema := fold_left (fun acc p => insere p acc) l [].

Inductive foco := Ativacao | Retencao.

Record relatorio := mk_relatorio {
  top5 : list problema;
  foco_principal : foco;
  acoes : list (string * option string);
  n_criticos : nat
}.

(** The report, or [None] where [problemas_criticos[0]] raises [IndexError]. *)
Definition gerar_relatorio_executivo_final
    (resultados : list (string * list (option string * agregado))) : option relatorio :=
  let ps := ordena (omap (fun dd => maior_problema (fst dd) (snd dd)) resultados) in
  match ps with
  | [] => None
  | top :: _ =>
      Some (mk_relatorio (firstn 5 ps)
              (if p_inativos top <? p_nunca top then Ativacao else Retencao)
              (map (fun p => (dimensao p, categoria p)) (firstn 3 ps))
              (count_if (fun p => Qltb 30 (impacto p)) ps))
  end.

(** ** [main] *)

Definition rotulos {K} (f : K -> option string) (df : list (K * agregado))
  : list (option string * agregado) :=
  map (fun ka => (f (fst ka), snd ka)) df.

(** The dictionary [resultados], in its insertion order. *)
Definition resultados (clientes : list Cliente.t) (cartoes : list Cartao.t)
    (transacoes : list Transacao.t) : list (string * list (option string * agregado)) :=
  [("idade"%string, rotulos Some (analise_1_idade_completa clientes transacoes));
   ("renda"%string, rotulos Some (analise_2_renda_completa clientes transacoes));
   ("tempo_conta"%string, rotulos Some (analise_3_tempo_conta_completa clientes transacoes));
   ("tipo_cartao"%string,
     rotulos (fun k => k) (CardDims.analise_4_tipo_cartao_completa clientes cartoes transacoes));
   ("produto_mastercard"%string,
     rotulos Some (CardDims.analise_5_produto_mastercard_completa clientes cartoes transacoes));
   ("tempo_cartao"%string,
     rotulos Some (CardDims.analise_6_tempo_cartao_completa clientes cartoes transacoes));
   ("limite_cartao"%string,
     rotulos Some (CardDims.analise_7_limite_cartao_completa clientes cartoes transacoes))].

(** [main]: the base summary, then the report over the seven results. *)
Definition main (clientes : list Cliente.t) (cartoes : list Cartao.t)
    (transacoes : list Transacao.t) : list Base.linha_base * option relatorio :=
  (Base.analise_base_completa clientes transacoes,
   gerar_relatorio_executivo_final (resultados clientes cartoes transacoes)).

(** ** The maximum of a result *)

Lemma qmax_cases a b : qmax a b = a \/ qmax a b = b.
Proof. unfold qmax. destruct (Qle_bool a b); auto. Qed.

Lemma qmax_ge a b : (a <= qmax a b)%Q /\ (b <= qmax a b)%Q.
Proof.
  unfold qmax. destruct (Qle_bool a b) eqn:E.
  - apply Qle_bool_iff in E. split; [done|apply Qle_refl].
  - split; [apply Qle_refl|]. apply Qlt_le_weak, Qnot_le_lt. rewrite <- Qle_bool_iff, E. done.
Qed.

(** The fold is at least its start and every impact of the rows. *)
Lemma max_impacto_ge (m : Q) (rest : list (option string * agregado)) :
  (m <= fold_left (fun m ka => qmax m (impacto_total (snd ka))) rest m)%Q /\
  forall ka, In ka rest -> (impacto_total (snd ka) <= fold_left (fun m ka => qmax m (impacto_total (snd ka))) rest m)%Q.
Proof.
  revert m; induction rest as [|kb rest IH]; intros m; simpl; [split; [apply Qle_refl|done]|].
  destruct (IH (qmax m (impacto_total (snd kb)))) as [H1 H2]. destruct (qmax_ge m (impacto_total (snd kb))).
  split; [eapply Qle_trans; eauto|]. intros ka [<-|Hin]; [eapply Qle_trans; eauto|auto].
Qed.

(** The fold returns its start or one of the impacts. *)
Lemma max_impacto_attained (m : Q) (rest : list (option string * agregado)) :
  fold_left (fun m ka => qmax m (impacto_total (snd ka))) rest m = m \/
  exists ka, In ka rest /\ fold_left (fun m ka => qmax m (impacto_total (snd ka))) rest m = impacto_total (snd ka).
Proof.
  revert m; induction rest as [|kb rest IH]; intros m; simpl; [auto|].
  destruct (IH (qmax m (impacto_total (snd kb)))) as [E|(ka & Hin & E)]; rewrite E.
  - destruct (qmax_cases m (impacto_total (snd kb))) as [Ec|Ec]; rewrite Ec; [left|right; exists kb]; auto.
  - right. exists ka. auto.
Qed.

(** A non-empty result gives its entry, whose impact is the maximum. *)
Lemma maior_problema_spec dim df :
  df <> [] ->
  exists p, maior_problema dim df = Some p /\ dimensao p = title dim /\
    (exists k a, In (k, a) df /\ categoria p = k /\ impacto_total a == impacto p)%Q /\
    forall ka, In ka df -> (impacto_total (snd ka) <= impacto p)%Q.
Proof.
  destruct df as [|[k0 a0] rest]; [done|]. intros _. unfold maior_problema.
  set (m := max_impacto a0 rest).
  assert (exists ka, In ka ((k0, a0) :: rest) /\ impacto_total (snd ka) = m) as (kb & Hkb & Hm).
  { destruct (max_impacto_attained (impacto_total a0) rest) as [E|(ka & Hin & E)].
    - exists (k0, a0). split; [left|]; done.
    - exists ka. split; [right|]; done. }
  destruct (List.find (fun ka => Qeq_bool (impacto_total (snd ka)) m) ((k0, a0) :: rest)) as [[k a]|] eqn:F.
  - apply find_some in F as [Hin Heq]. apply Qeq_bool_iff in Heq.
    eexists. split; [reflexivity|]. split; [done|]. split; [exists k, a; done|].
    destruct (max_impacto_ge (impacto_total a0) rest) as [H0 H1].
    intros ka [<-|Hin']; [exact H0|apply H1; done].
  - exfalso. pose proof (find_none _ _ F kb Hkb) as Hn. simpl in Hn. rewrite Hm in Hn.
    rewrite (proj2 (Qeq_bool_iff m m) (Qeq_refl m)) in Hn. done.
Qed.

(** ** The sort *)

(** Decreasing impact. *)
Definition desc (p q : problema) : Prop := (impacto q <= impacto p)%Q.

Lemma Qltb_false_le a b : Qltb a b = false -> (b <= a)%Q.
Proof. intros H. apply Qnot_lt_le. rewrite <- Qltb_iff, H. done. Qed.

Lemma insere_perm p l : insere p l ≡ₚ p :: l.
Proof.
  induction l as [|q l IH]; simpl; [done|]. destruct (Qltb (impacto q) (impacto p)); [done|].
  rewrite IH. constructor.
Qed.

Lemma ordena_perm l : ordena l ≡ₚ l.
Proof.
  unfold ordena. rewrite <- (app_nil_r l) at 2. generalize (@nil problema) as acc.
  induction l as [|p l IH]; intros acc; simpl; [done|].
  rewrite IH, insere_perm. symmetry. apply Permutation_middle.
Qed.

Lemma insere_hd q p l : HdRel desc q l -> desc q p -> HdRel desc q (insere p l).
Proof.
  intros Hh Hqp. destruct l as [|r l]; simpl; [constructor; done|].
  destruct (Qltb (impacto r) (impacto p)); constructor; [done|]. inversion Hh. done.
Qed.

Lemma insere_sorted p l : Sorted desc l -> Sorted desc (insere p l).
Proof.
  induction 1 as [|q l Hs IH Hh]; simpl; [repeat constructor|].
  destruct (Qltb (impacto q) (impacto p)) eqn:E.
  - constructor; [constructor; done|]. constructor. apply Qlt_le_weak, Qltb_iff. done.
  - constructor; [done|]. apply insere_hd; [done|]. apply Qltb_false_le. done.
Qed.

Lemma ordena_sorted l : Sorted desc (ordena l).
Proof.
  unfold ordena. assert (Sorted desc (@nil problema)) as H by constructor. revert H.
  generalize (@nil problema) as acc. induction l as [|p l IH]; intros acc Hacc; simpl; [done|].
  apply IH, insere_sorted. done.
Qed.

(** The head of the sorted problems has the largest impact. *)
Lemma ordena_topo l top rest :
  ordena l = top :: rest -> forall p, In p l -> (impacto p <= impacto top)%Q.
Proof.
  intros E p Hp. pose proof (ordena_sorted l) as Hs. rewrite E in Hs.
  apply Sorted_StronglySorted in Hs; [|intros a b c Hab Hbc; unfold desc in *; eapply Qle_trans; eauto].
  assert (In p (top :: rest)) as [<-|Hin].
  { rewrite <- E. apply list_elem_of_In. rewrite ordena_perm. apply list_elem_of_In. done. }
  - apply Qle_refl.
  - inversion Hs as [|? ? _ Hall]. rewrite List.Forall_forall in Hall. apply Hall. done.
Qed.

(** ** The report *)

Lemma In_omap_problema resultados d df p :
  In (d, df) resultados -> maior_problema d df = Some p ->
  In p (omap (fun dd => maior_problema (fst dd) (snd dd)) resultados).
Proof.
  intros Hin Hp. apply list_elem_of_In, list_elem_of_omap. exists (d, df).
  split; [apply list_elem_of_In; done|done].
Qed.

(** the first problem of the report has the largest impact of every
    row of every dimension result: the report's "top problem" is the worst
    group of the whole analysis. *)
Theorem relatorio_topo_maximo resultados r :
  gerar_relatorio_executivo_final resultados = Some r ->
  exists top, hd_error (top5 r) = Some top /\
    forall d df ka, In (d, df) resultados -> In ka df -> (impacto_total (snd ka) <= impacto top)%Q.
Proof.
  unfold gerar_relatorio_executivo_final.
  destruct (ordena _) as [|top rest] eqn:E; [discriminate|]. intros [= <-].
  exists top. split; [done|]. intros d df ka Hd Hka.
  destruct (maior_problema_spec d df) as (p & Hp & _ & _ & Hmax); [destruct df; done|].
  eapply Qle_trans; [apply Hmax; done|]. eapply ordena_topo; [exact E|].
  eapply In_omap_problema; eauto.
Qed.

(** C25: with at least one customer, [main] reaches the report: the age
    result is not empty, so [problemas_criticos[0]] does not raise. *)
Theorem main_relatorio clientes cartoes ts :
  clientes <> [] -> exists r, snd (main clientes cartoes ts) = Some r.
Proof.
  intros Hc. destruct clientes as [|c cs]; [done|]. simpl.
  set (df := rotulos Some (analise_1_idade_completa (c :: cs) ts)).
  assert (df <> []) as Hdf.
  { assert (In (Cliente.Cliente_ID c, Cliente.Idade c) (todos_clientes_idade (c :: cs))) as Hr
      by (apply In_distinct; left; done).
    destruct (analise_linha_de Bands.faixa_etaria _ corte_90 ts _ Hr) as [Ha _].
    unfold df, rotulos, analise_1_idade_completa. intros Hnil. apply map_eq_nil in Hnil.
    rewrite Hnil in Ha. done. }
  destruct (maior_problema_spec "idade" df Hdf) as (p & Hp & _).
  assert (In p (omap (fun dd => maior_problema (fst dd) (snd dd)) (resultados (c :: cs) cartoes ts)))
    as Hin by (eapply In_omap_problema; [left; reflexivity|exact Hp]).
  unfold gerar_relatorio_executivo_final.
  destruct (ordena _) as [|top rest] eqn:E; [|eexists; reflexivity].
  exfalso. apply list_elem_of_In in Hin. rewrite <- ordena_perm, E in Hin. apply not_elem_of_nil in Hin. done.
Qed.

Lemma main_relatorio_witness :
  CardDims.exemplo_clientes <> [] /\
  exists r, snd (main CardDims.exemplo_clientes CardDims.exemplo_cartoes CardDims.exemplo_transacoes) = Some r.
Proof.
  assert (CardDims.exemplo_clientes <> []) as H by (vm_compute; discriminate).
  split; [exact H|]. exact (main_relatorio _ _ _ H).
Defined.

Lemma relatorio_topo_maximo_witness :
  exists r, gerar_relatorio_executivo_final
    (resultados CardDims.exemplo_clientes CardDims.exemplo_cartoes CardDims.exemplo_transacoes) = Some r /\
  exists top, hd_error (top5 r) = Some top /\
    forall d df ka, In (d, df) (resultados CardDims.exemplo_clientes CardDims.exemplo_cartoes
                                  CardDims.exemplo_transacoes) ->
                    In ka df -> (impacto_total (snd ka) <= impacto top)%Q.
Proof.
  destruct (gerar_relatorio_executivo_final
    (resultados CardDims.exemplo_clientes CardDims.exemplo_cartoes CardDims.exemplo_transacoes))
    as [r|] eqn:E; [|vm_compute in E; discriminate].
  exists r. split; [reflexivity|]. exact (relatorio_topo_maximo _ r E).
Defined.

End Relatorio.
