(* ===== verification/Sixty.v ===== *)
(** * The 60-day analysis [analise_churn_2024_60dias_corrigida.py]

    The script runs nine grouped queries and a summary in one [try] block of
    [main]; the first query that fails ends the block.  Each query builds
    [todos_clientes] (the customers, or the (customer, card attribute) pairs,
    that have transactions), the CTE [clientes_churn] of their ids with no
    transaction after [DATE('2024-12-30', '-60 days')], and counts per label
    the rows whose id is found in [clientes_churn] by a [LEFT JOIN].

    [Module Sessenta] models the queries with SQLite's dynamic typing of
    column values ([valor]) and the name resolution of the columns of
    [clientes] ([coluna]), so that a query naming a column the table does
    not have is an error, as [pd.read_sql_query] raises it; [exec] is the
    error monad of the [try] block.  The theorems show that the second
    query always fails and [main] stops there, that [clientes_churn] is not
    [DISTINCT], so a churned customer with two card types is counted twice
    in each of its groups, that the card queries keep only the cards issued
    on or after the account creation (spec.md, section 4.2) but drop the
    customers without such a card, and that the customer queries partition
    their rows into churned and active customers. *)

From stdpp Require Import base list strings.
From Stdlib Require Import ZArith QArith Qround String Ascii Lia.
From S2P Require Import Prelude Sql Dates Schema Bands Churn Cards.

Local Abbreviation length := Datatypes.length.
Local Open Scope nat_scope.

Module Sessenta.
Import Sql.

(** ** The error monad of the [try] block *)

Inductive exec (A : Type) := Ok (a : A) | Erro (msg : string).
Arguments Ok {A} a.
Arguments Erro {A} msg.

Definition bind {A B} (m : exec A) (k : A -> exec B) : exec B :=
  match m with Ok a => k a | Erro e => Erro e end.

Declare Scope exec_scope.
Notation "'let*' x := m 'in' k" := (bind m (fun x => k))
  (at level 10, x name, m at level 100, k at level 200) : exec_scope.
Local Open Scope exec_scope.

(** A step run on every element in turn, the first error ending the loop. *)
Fixpoint mapM {A B} (f : A -> exec B) (l : list A) : exec (list B) :=
  match l with
  | [] => Ok []
  | x :: l' => let* y := f x in let* ys := mapM f l' in Ok (y :: ys)
  end.

Lemma bind_Ok_iff {A B} (m : exec A) (k : A -> exec B) :
  (exists r, bind m k = Ok r) <-> exists x, m = Ok x /\ exists r, k x = Ok r.
Proof. destruct m as [a|e]; cbn; split; [eauto|intros (? & [= <-] & ?); done|intros [? [=]]|intros (? & [=] & _)]. Qed.

Lemma mapM_Ok {A B} (f : A -> exec B) l :
  (forall x, In x l -> exists y, f x = Ok y) -> exists ys, mapM f l = Ok ys.
Proof.
  induction l as [|x l IH]; intros H; cbn; [eauto|].
  destruct (H x (or_introl eq_refl)) as [y ->]. destruct IH as [ys ->]; [intros; apply H; right; done|].
  cbn. eauto.
Qed.

Lemma mapM_Ok_inv {A B} (f : A -> exec B) l ys :
  mapM f l = Ok ys -> forall x, In x l -> exists y, f x = Ok y.
Proof.
  revert ys. induction l as [|x l IH]; intros ys; cbn; [done|].
  destruct (f x) eqn:E; cbn; [|done]. destruct (mapM f l) eqn:E'; cbn; [|done].
  intros _ y [<-|Hy]; [eauto|]. apply (IH _ eq_refl). done.
Qed.

Lemma mapM_Erro {A B} (f : A -> exec B) l e :
  mapM f l = Erro e -> exists x, In x l /\ f x = Erro e.
Proof.
  induction l as [|x l IH]; cbn; [done|]. destruct (f x) eqn:E; cbn; [|intros [= <-]; eauto].
  destruct (mapM f l); cbn; [done|]. intros [= <-]. destruct IH as (y & Hy & Hf); [done|]. eauto.
Qed.

Lemma mapM_Ok_iff {A B} (f : A -> exec B) l :
  (exists ys, mapM f l = Ok ys) <-> forall x, In x l -> exists y, f x = Ok y.
Proof. split; [intros [ys H]; exact (mapM_Ok_inv f l ys H)|apply mapM_Ok]. Qed.

(** ** Column values and column names *)

(** A value of a [clientes] column, as SQLite stores it. *)
Inductive valor := VNum (q : Q) | VText (s : string).

(** SQLite orders numbers before texts; numbers by value, texts by the
    BINARY collation. *)
Definition valor_ltb (a b : valor) : bool :=
  match a, b with
  | VNum x, VNum y => Qltb x y
  | VNum _, VText _ => true
  | VText _, VNum _ => false
  | VText x, VText y => str_ltb x y
  end.

Lemma valor_ltb_irrefl a : valor_ltb a a = false.
Proof. destruct a; simpl; [apply Qltb_irrefl|apply str_ltb_irrefl]. Qed.

Lemma valor_ltb_trans a b c : valor_ltb a b = true -> valor_ltb b c = true -> valor_ltb a c = true.
Proof.
  destruct a, b, c; simpl; try done; [apply Qltb_trans|apply str_ltb_trans].
Qed.

Lemma valor_ltb_weak a b c : valor_ltb a c = true -> valor_ltb a b = true \/ valor_ltb b c = true.
Proof.
  destruct a, b, c; simpl; try (intros; auto; done); [apply Qltb_weak|apply str_ltb_weak].
Qed.

#[export] Instance sqlord_valor : SqlOrd valor :=
  {| sql_ltb := valor_ltb; sql_ltb_irrefl := valor_ltb_irrefl;
     sql_ltb_trans := valor_ltb_trans; sql_ltb_weak := valor_ltb_weak |}.

#[export] Instance valor_eq_dec : EqDecision valor.
Proof. solve_decision. Defined.

Definition num (q : Q) : option valor := Some (VNum q).

(** SQLite matches column names without regard to ASCII case. *)
Definition minusc (c : ascii) : ascii :=
  let n := nat_of_ascii c in if (65 <=? n) && (n <=? 90) then ascii_of_nat (n + 32) else c.

Fixpoint lower (s : string) : string :=
  match s with EmptyString => EmptyString | String c s' => String (minusc c) (lower s') end.

(** The columns of [clientes], with their values: [to_sql('clientes', ...,
    if_exists='replace')] ([bd/criar_banco_sqlite.py], line 197) drops the
    table of the [CREATE TABLE] and writes the columns of [df_clientes_sql]
    (lines 66-75), the headers of [Base_clientes.csv] followed by [Idade]
    and [Tempo_Conta_Meses]; the names are listed in lower case, as SQLite
    matches them. *)
Definition colunas_clientes : list (string * (Cliente.t -> option valor)) :=
  [("cliente_id", fun c => option_map (fun z => VNum (inject_Z z)) (Cliente.Cliente_ID c));
   ("data_nascimento", fun c => option_map VText (Cliente.Data_Nascimento c));
   ("renda_anual", fun c => option_map VNum (Cliente.Renda_Anual c));
   ("data_criacao_conta", fun c => option_map VText (Cliente.Data_Criacao_Conta c));
   ("numero_cartoes", fun c => option_map (fun z => VNum (inject_Z z)) (Cliente.Numero_Cartoes c));
   ("cidade", fun c => option_map VText (Cliente.Cidade c));
   ("estado", fun c => option_map VText (Cliente.Estado c));
   ("possui_conta_adicional", fun c => option_map VText (Cliente.Possui_Conta_Adicional c));
   ("idade", fun c => option_map (fun z => VNum (inject_Z z)) (Cliente.Idade c));
   ("tempo_conta_meses", fun c => option_map VNum (Cliente.Tempo_Conta_Meses c))]%string.

(** [c.nome] in a query: the column's value, or SQLite's "no such column"
    error, which [pd.read_sql_query] raises. *)
Definition coluna_clientes (nome : string) : exec (Cliente.t -> option valor) :=
  match List.find (fun nc => String.eqb (fst nc) (lower nome)) colunas_clientes with
  | Some (_, f) => Ok f
  | None => Erro ("no such column: c." ++ nome)%string
  end.

(** ** The shared query shape *)

(** [DATE('2024-12-30', '-60 days')]. *)
Definition corte_60 : option string := Dates.date_add_days (Some "2024-12-30"%string) (-60).

(** [SELECT DISTINCT Cliente_ID FROM transacoes WHERE Data > DATE('2024-12-30', '-60 days')]. *)
Definition ativos_60 (ts : list Transacao.t) : list (option Z) :=
  Classifier.clientes_ativos_2024 corte_60 ts.

(** [clientes_churn]: [SELECT cliente_id FROM todos_clientes WHERE cliente_id
    NOT IN (...)], without [DISTINCT]. *)
Definition clientes_churn {X} (todos : list (option Z * X)) (ts : list Transacao.t)
  : list (option Z) :=
  map fst (where_ (fun r => s_not_in (fst r) (ativos_60 ts)) todos).

(** A row after the label: [clientes_churn], [clientes_ativos],
    [total_clientes], [taxa_churn]. *)
Record agregado60 := mk_agregado60 {
  n_churn : nat;
  n_ativos : nat;
  total_clientes : nat;
  taxa_churn : Q
}.

(** [COUNT(CASE WHEN cc.cliente_id IS NOT NULL THEN 1 END)] and the other
    columns of a group of joined rows. *)
Definition agrega60 {X} (g : list ((option Z * X) * option (option Z))) : agregado60 :=
  let c := count_when (fun r => Some (negb (is_null (coluna (snd r))))) g in
  mk_agregado60 c (count_when (fun r => Some (is_null (coluna (snd r)))) g) (length g)
    (Classifier.percentual c (length g)).

(** [FROM todos_clientes tc LEFT JOIN clientes_churn cc ON tc.cliente_id =
    cc.cliente_id GROUP BY label [HAVING ...]]. *)
Definition consulta60 {X K} `{EqDecision K} (rotulo : X -> K) (having : nat -> bool)
    (todos : list (option Z * X)) (ts : list Transacao.t) : list (K * agregado60) :=
  List.filter (fun ka => having (total_clientes (snd ka)))
    (map (fun kg => (fst kg, agrega60 (snd kg)))
       (group_by (fun r => rotulo (snd (fst r)))
          (left_join (fun tc cc => s_eq (fst tc) cc) todos (clientes_churn todos ts)))).

Definition sem_having (_ : nat) : bool := true.

(** [todos_clientes] of the customer queries: [SELECT DISTINCT c.cliente_id,
    c.col FROM clientes c WHERE c.cliente_id IN (SELECT DISTINCT Cliente_ID
    FROM transacoes)]. *)
Definition todos_por_cliente {X} `{EqDecision X} (col : Cliente.t -> X) (clientes : list Cliente.t)
    (ts : list Transacao.t) : list (option Z * X) :=
  distinct (map (fun c => (Cliente.Cliente_ID c, col c))
    (where_ (fun c => s_in (Cliente.Cliente_ID c) (Classifier.clientes_com_transacoes ts)) clientes)).

(** [transacoes t INNER JOIN cartoes cart ON t.ID_Cartao = cart.ID_Cartao
    INNER JOIN clientes c ON t.Cliente_ID = c.cliente_id]. *)
Definition associacoes (ts : list Transacao.t) (cartoes : list Cartao.t) (clientes : list Cliente.t)
  : list ((Transacao.t * Cartao.t) * Cliente.t) :=
  inner_join (fun tc c => s_eq (Transacao.Cliente_ID (fst tc)) (Cliente.Cliente_ID c))
    (CardDims.tx_cartoes ts cartoes) clientes.

(** [cart.Data_Emissao >= '2023-01-01' AND cart.Data_Emissao >= c.Data_Criacao_Conta]. *)
Definition cartao_valido (criacao : Cliente.t -> option valor)
    (r : (Transacao.t * Cartao.t) * Cliente.t) : sbool :=
  let emissao := option_map VText (Cartao.Data_Emissao (snd (fst r))) in
  s_ge emissao (Some (VText "2023-01-01"%string)) &&& s_ge emissao (criacao (snd r)).

(** [todos_clientes] of the card queries: [SELECT DISTINCT t.Cliente_ID,
    attr FROM ... WHERE <validity> [AND cond]]. *)
Definition todos_por_cartao {X} `{EqDecision X} (criacao : Cliente.t -> option valor)
    (attr : Cartao.t -> X) (cond : Cartao.t -> sbool) (ts : list Transacao.t)
    (cartoes : list Cartao.t) (clientes : list Cliente.t) : list (option Z * X) :=
  distinct (map (fun r => (Transacao.Cliente_ID (fst (fst r)), attr (snd (fst r))))
    (where_ (fun r => cartao_valido criacao r &&& cond (snd (fst r)))
       (associacoes ts cartoes clientes))).

(** ** The nine analyses *)

(** A number given to a date function is a Julian day number: SQLite keeps
    it, to the millisecond, when [0 <= r < 5373484.5]. *)
Definition jd_numero (q : Q) : option Z :=
  if Qle_bool 0 q && Qltb q (107469690 # 20) then Some (Qfloor (q * 86400000 + (1 # 2))) else None.

(** [JULIANDAY(v)] of a column value. *)
Definition julianday_valor (v : option valor) : option Q :=
  match v with
  | Some (VText s) => Dates.julianday (Some s)
  | Some (VNum q) => option_map (fun j => inject_Z j / inject_Z 86400000)%Q (jd_numero q)
  | None => None
  end.

(** [strftime('%Y', v)] of a column value. *)
Definition strftime_Y_valor (v : option valor) : option string :=
  match v with
  | Some (VText s) => Dates.strftime_Y (Some s)
  | Some (VNum q) =>
      option_map (fun j => let '(y, _, _) := Dates.computeYMD j in Dates.pad 4 y) (jd_numero q)
  | None => None
  end.

(** [ROUND((JULIANDAY('2024-12-30') - JULIANDAY(v)) / 30.44)]. *)
Definition meses_valor (v : option valor) : option Q :=
  match Dates.julianday (Some "2024-12-30"%string), julianday_valor v with
  | Some a, Some b => Some (sql_round ((a - b) / (3044 # 100))%Q 0)
  | _, _ => None
  end.

(** [analise_1_idade_churn], lines 128-135. *)
Definition faixa_etaria (Idade : option valor) : string :=
  case_when
    [(s_between Idade (num 18) (num 25), "18-25 anos");
     (s_between Idade (num 26) (num 35), "26-35 anos");
     (s_between Idade (num 36) (num 45), "36-45 anos");
     (s_between Idade (num 46) (num 55), "46-55 anos");
     (s_gt Idade (num 55), "55+ anos")]%string
    "Não informado"%string.

(** [analise_2_renda_churn], lines 180-187. *)
Definition faixa_renda (Renda : option valor) : string :=
  case_when
    [(s_lt Renda (num 3000), "Até R$ 3.000");
     (s_between Renda (num 3000) (num 6000), "R$ 3.000 - R$ 6.000");
     (s_between Renda (num 6000) (num 10000), "R$ 6.000 - R$ 10.000");
     (s_between Renda (num 10000) (num 20000), "R$ 10.000 - R$ 20.000");
     (s_gt Renda (num 20000), "Acima de R$ 20.000")]%string
    "Não informado"%string.

(** [analise_3_tempo_conta_churn], lines 233-239; the same chain
    is [tempo_cartao] of [analise_8_tempo_cartao_churn], lines 478-484. *)
Definition tempo_conta (meses_conta : option Q) : string :=
  case_when
    [(s_le meses_conta (Some 6%Q), "0-6 meses");
     (s_le meses_conta (Some 12%Q), "7-12 meses");
     (s_le meses_conta (Some 24%Q), "13-24 meses");
     (s_le meses_conta (Some 36%Q), "25-36 meses")]%string
    "Mais de 36 meses"%string.

(** [analise_4_conta_adicional_churn], lines 284-287. *)
Definition status_conta_adicional (Conta_Adicional : option valor) : string :=
  case_when [(s_eq Conta_Adicional (Some (VText "Sim"%string)), "Com Conta Adicional"%string)]
    "Sem Conta Adicional"%string.

(** [analise_9_limite_cartao_churn], lines 533-540. *)
Definition faixa_limite (Limite : option Q) : string :=
  case_when
    [(s_lt Limite (Some 1000%Q), "Até R$ 1.000");
     (s_between Limite (Some 1000%Q) (Some 2500%Q), "R$ 1.000 - R$ 2.500");
     (s_between Limite (Some 2500%Q) (Some 5000%Q), "R$ 2.500 - R$ 5.000");
     (s_between Limite (Some 5000%Q) (Some 10000%Q), "R$ 5.000 - R$ 10.000");
     (s_gt Limite (Some 10000%Q), "Acima de R$ 10.000")]%string
    "Não informado"%string.

Section Analises.
Variables (clientes : list Cliente.t) (cartoes : list Cartao.t) (transacoes : list Transacao.t).

Definition analise_1_idade_churn : exec (list (string * agregado60)) :=
  let* idade := coluna_clientes "Idade" in
  Ok (consulta60 faixa_etaria sem_having (todos_por_cliente idade clientes transacoes) transacoes).

Definition analise_2_renda_churn : exec (list (string * agregado60)) :=
  let* renda := coluna_clientes "Renda" in
  Ok (consulta60 faixa_renda sem_having (todos_por_cliente renda clientes transacoes) transacoes).

Definition analise_3_tempo_conta_churn : exec (list (string * agregado60)) :=
  let* criacao := coluna_clientes "Data_Criacao_Conta" in
  Ok (consulta60 tempo_conta sem_having
        (todos_por_cliente (fun c => meses_valor (criacao c)) clientes transacoes) transacoes).

Definition analise_4_conta_adicional_churn : exec (list (string * agregado60)) :=
  let* adicional := coluna_clientes "Conta_Adicional" in
  Ok (consulta60 status_conta_adicional sem_having
        (todos_por_cliente adicional clientes transacoes) transacoes).

(** [GROUP BY tc.Estado HAVING COUNT( * ) >= 18]. *)
Definition analise_5_estado_churn : exec (list (option valor * agregado60)) :=
  let* estado := coluna_clientes "Estado" in
  Ok (consulta60 (fun e => e) (fun n => 18 <=? n)
        (todos_por_cliente estado clientes transacoes) transacoes).

Definition analise_6_tipo_cartao_churn : exec (list (option string * agregado60)) :=
  let* criacao := coluna_clientes "Data_Criacao_Conta" in
  Ok (consulta60 (fun t => t) sem_having
        (todos_por_cartao criacao Cartao.Tipo_Cartao (fun _ => Some true) transacoes cartoes clientes)
        transacoes).

Definition analise_7_produto_mastercard_churn : exec (list (option string * agregado60)) :=
  let* criacao := coluna_clientes "Data_Criacao_Conta" in
  Ok (consulta60 (fun p => p) sem_having
        (todos_por_cartao criacao Cartao.Produto_Mastercard (fun _ => Some true) transacoes cartoes
           clientes) transacoes).

Definition analise_8_tempo_cartao_churn : exec (list (string * agregado60)) :=
  let* criacao := coluna_clientes "Data_Criacao_Conta" in
  Ok (consulta60 tempo_conta sem_having
        (todos_por_cartao criacao (fun k => Classifier.meses_ate_ref (Cartao.Data_Emissao k))
           (fun _ => Some true) transacoes cartoes clientes) transacoes).

(** [AND cart.Limite_Cartao IS NOT NULL]. *)
Definition analise_9_limite_cartao_churn : exec (list (string * agregado60)) :=
  let* criacao := coluna_clientes "Data_Criacao_Conta" in
  Ok (consulta60 faixa_limite sem_having
        (todos_por_cartao criacao Cartao.Limite_Cartao
           (fun k => Some (negb (is_null (Cartao.Limite_Cartao k)))) transacoes cartoes clientes)
        transacoes).

End Analises.

(** ** The executive summary and [main] *)

(** The single row of [query_geral], lines 570-590. *)
Record geral60 := mk_geral60 {
  total_clientes_ativos_historico : nat;
  total_clientes_churn : nat;
  clientes_ainda_ativos : Z;
  taxa_churn_geral : option Q
}.

(** [todos_clientes] is [SELECT DISTINCT Cliente_ID FROM transacoes]; the
    rate is NULL on an empty table, SQLite's division by zero. *)
Definition query_geral (transacoes : list Transacao.t) : geral60 :=
  let todos := Classifier.clientes_com_transacoes transacoes in
  let churn := where_ (fun id => s_not_in id (ativos_60 transacoes)) todos in
  mk_geral60 (length todos) (length churn) (Z.of_nat (length todos) - Z.of_nat (length churn))
    (if length todos =? 0 then None else Some (Classifier.percentual (length churn) (length todos))).

(** [CASE WHEN strftime('%Y', tc.Data_Criacao_Conta) = '2024' ...], lines 617-620. *)
Definition periodo_criacao (Data_Criacao_Conta : option valor) : string :=
  case_when [(s_eq (strftime_Y_valor Data_Criacao_Conta) (Some "2024"%string),
              "Conta criada em 2024"%string)]
    "Conta criada antes de 2024"%string.

(** [query_temporal], lines 601-627: the grouped query without its
    [clientes_ativos] column. *)
Definition query_temporal (clientes : list Cliente.t) (transacoes : list Transacao.t)
  : exec (list (string * (nat * nat * Q))) :=
  let* criacao := coluna_clientes "Data_Criacao_Conta" in
  Ok (map (fun ka => (fst ka, (n_churn (snd ka), total_clientes (snd ka), taxa_churn (snd ka))))
        (consulta60 periodo_criacao sem_having (todos_por_cliente criacao clientes transacoes)
           transacoes)).

Definition resumo_executivo_churn clientes transacoes
  : exec (geral60 * list (string * (nat * nat * Q))) :=
  let geral := query_geral transacoes in
  let* temporal := query_temporal clientes transacoes in
  Ok (geral, temporal).

(** A value of the [resultados] dict: the DataFrame of one analysis, by the
    type of its label column. *)
Inductive tabela :=
  | PorFaixa (r : list (string * agregado60))
  | PorValor (r : list (option valor * agregado60))
  | PorTexto (r : list (option string * agregado60)).

Definition exec_map {A B} (f : A -> B) (m : exec A) : exec B := let* a := m in Ok (f a).

Definition falhou {A} (m : exec A) : bool := match m with Ok _ => false | Erro _ => true end.

(** The assignments of lines 658-666, in order. *)
Definition analises clientes cartoes transacoes : list (string * exec tabela) :=
  [("idade", exec_map PorFaixa (analise_1_idade_churn clientes transacoes));
   ("renda", exec_map PorFaixa (analise_2_renda_churn clientes transacoes));
   ("tempo_conta", exec_map PorFaixa (analise_3_tempo_conta_churn clientes transacoes));
   ("conta_adicional", exec_map PorFaixa (analise_4_conta_adicional_churn clientes transacoes));
   ("estado", exec_map PorValor (analise_5_estado_churn clientes transacoes));
   ("tipo_cartao", exec_map PorTexto (analise_6_tipo_cartao_churn clientes cartoes transacoes));
   ("produto_mastercard",
     exec_map PorTexto (analise_7_produto_mastercard_churn clientes cartoes transacoes));
   ("tempo_cartao", exec_map PorFaixa (analise_8_tempo_cartao_churn clientes cartoes transacoes));
   ("limite_cartao", exec_map PorFaixa (analise_9_limite_cartao_churn clientes cartoes transacoes))
  ]%string.

(** Running the assignments: each result is stored in [resultados]; the
    first exception leaves the [try] block with the dict as it was. *)
Fixpoint executa (resultados : list (string * tabela)) (ps : list (string * exec tabela))
  : list (string * tabela) * option string :=
  match ps with
  | [] => (resultados, None)
  | (k, Ok t) :: ps' => executa (resultados ++ [(k, t)]) ps'
  | (_, Erro e) :: _ => (resultados, Some e)
  end.

(** [main], lines 640-685: the analyses, then the summary; the outcome is
    the dict and either the summary or the message the [except] prints. *)
Definition main clientes cartoes transacoes
  : list (string * tabela) * exec (geral60 * list (string * (nat * nat * Q))) :=
  match executa [] (analises clientes cartoes transacoes) with
  | (resultados, Some e) => (resultados, Erro e)
  | (resultados, None) => (resultados, resumo_executivo_churn clientes transacoes)
  end.

(** ** Counting the joined rows *)

(** The ids the [LEFT JOIN] finds in [clientes_churn]: non-NULL ids that
    are [NOT IN] the ids active in the last 60 days. *)
Definition churned (ts : list Transacao.t) (id : option Z) : bool :=
  negb (is_null id) && holds (s_not_in id (ativos_60 ts)).

(** The number of rows of [todos_clientes] with the id [id]. *)
Definition mult {X} (todos : list (option Z * X)) (id : option Z) : nat :=
  #[fun b => bool_decide (fst b = id)] todos.

Section Contagens.
Context {X : Type} (todos : list (option Z * X)) (ts : list Transacao.t).

(** The rows of [clientes_churn] an id matches: one per row of
    [todos_clientes] with that id, when the id churned. *)
Lemma matches_churn id :
  List.filter (fun cc => holds (s_eq id cc)) (clientes_churn todos ts) =
  repeat id (if churned ts id then mult todos id else 0).
Proof.
  unfold clientes_churn, where_, mult. induction todos as [|b l IH]; cbn [List.filter map].
  - destruct (churned ts id); done.
  - rewrite count_if_cons. unfold churned in *.
    destruct (holds (s_not_in (fst b) _)) eqn:Hn; cbn [List.filter map].
    + destruct (holds (s_eq id (fst b))) eqn:He.
      * apply holds_s_eq in He as [Heq Hnn]. rewrite <- Heq in Hn |- *.
        rewrite IH, bool_decide_true, Hn by done.
        destruct id; [reflexivity|done].
      * rewrite IH. case_bool_decide as Hb; [|done]. subst id.
        destruct (fst b); [|done]. simpl in He. rewrite bool_decide_true in He; done.
    + rewrite IH. case_bool_decide as Hb; [|done]. subst id. rewrite Hn, andb_false_r. done.
Qed.

Lemma mult_pos a : In a todos -> 1 <= mult todos (fst a).
Proof. intros Ha. apply (count_if_pos _ _ a Ha). rewrite bool_decide_true; done. Qed.

(** The rows one row of [todos_clientes] contributes to the [LEFT JOIN],
    counted by the three columns. *)
Lemma linhas_contagens a (p : (option Z * X) * option (option Z) -> bool) :
  In a todos ->
  #[p] (match List.filter (fun cc => holds (s_eq (fst a) cc)) (clientes_churn todos ts) with
        | [] => [(a, None)]
        | ms => map (fun b => (a, Some b)) ms
        end) =
  if churned ts (fst a) then (if p (a, Some (fst a)) then mult todos (fst a) else 0)
  else (if p (a, None) then 1 else 0).
Proof.
  intros Ha. rewrite matches_churn. pose proof (mult_pos a Ha) as Hm.
  destruct (churned ts (fst a)); cbn [repeat].
  2:{ rewrite count_if_cons, count_if_nil. destruct (p (a, None)); done. }
  destruct (mult todos (fst a)) as [|m]; [lia|]. cbn [repeat].
  change (fst a :: repeat (fst a) m) with (repeat (fst a) (S m)).
  rewrite count_if_map, count_if_repeat.
  done.
Qed.

Section Grupo.
Variable g : list (option Z * X).
Hypothesis Hg : forall a, In a g -> In a todos.

Lemma count_juntadas (p : (option Z * X) * option (option Z) -> bool) :
  #[p] (left_join (fun tc cc => s_eq (fst tc) cc) g (clientes_churn todos ts)) =
  sum_list_with (fun a => if churned ts (fst a)
                          then (if p (a, Some (fst a)) then mult todos (fst a) else 0)
                          else (if p (a, None) then 1 else 0)) g.
Proof.
  unfold left_join. rewrite count_if_flat_map. apply sum_list_with_ext_in.
  intros a Ha. apply linhas_contagens, Hg, Ha.
Qed.

(** A churned id is not NULL, so its joined rows count as churn. *)
Lemma churned_not_null id : churned ts id = true -> is_null id = false.
Proof. unfold churned. destruct (is_null id); done. Qed.

Ltac por_linha :=
  apply sum_list_with_ext_in; intros a _;
  destruct (churned ts (fst a)) eqn:Ec; cbn [coluna snd];
  try rewrite (churned_not_null _ Ec); simpl; lia.

Lemma n_churn_juntadas :
  count_when (fun r => Some (negb (is_null (coluna (snd r)))))
    (left_join (fun tc cc => s_eq (fst tc) cc) g (clientes_churn todos ts)) =
  sum_list_with (fun a => if churned ts (fst a) then mult todos (fst a) else 0) g.
Proof. unfold count_when. rewrite count_juntadas. por_linha. Qed.

Lemma n_ativos_juntadas :
  count_when (fun r => Some (is_null (coluna (snd r))))
    (left_join (fun tc cc => s_eq (fst tc) cc) g (clientes_churn todos ts)) =
  #[fun a => negb (churned ts (fst a))] g.
Proof. unfold count_when. rewrite count_juntadas, count_if_sum. por_linha. Qed.

Lemma length_juntadas :
  length (left_join (fun tc cc => s_eq (fst tc) cc) g (clientes_churn todos ts)) =
  sum_list_with (fun a => if churned ts (fst a) then mult todos (fst a) else 0) g +
  #[fun a => negb (churned ts (fst a))] g.
Proof.
  rewrite <- (count_if_true (fun _ => true)) by done.
  rewrite count_juntadas, count_if_sum, <- sum_list_with_add. por_linha.
Qed.

Lemma agrega60_left_join :
  agrega60 (left_join (fun tc cc => s_eq (fst tc) cc) g (clientes_churn todos ts)) =
  let c := sum_list_with (fun a => if churned ts (fst a) then mult todos (fst a) else 0) g in
  let n := #[fun a => negb (churned ts (fst a))] g in
  mk_agregado60 c n (c + n) (Classifier.percentual c (c + n)).
Proof. unfold agrega60. rewrite n_churn_juntadas, n_ativos_juntadas, length_juntadas. done. Qed.

End Grupo.

End Contagens.

(** ** The counts of a 60-day query *)

(** C5: a row of a 60-day query counts, as churn, each row of its group
    whose id churned as many times as [todos_clientes] holds that id; as
    active, each row whose id did not churn; the total is the sum of the
    two, it is positive, and it passes the [HAVING] clause. *)
Theorem consulta60_contagens {X K} `{EqDecision K} (rotulo : X -> K) having todos ts k ag :
  In (k, ag) (consulta60 rotulo having todos ts) ->
  let g := group_of (fun r => rotulo (snd r)) k todos in
  n_churn ag = sum_list_with (fun a => if churned ts (fst a) then mult todos (fst a) else 0) g /\
  n_ativos ag = #[fun a => negb (churned ts (fst a))] g /\
  total_clientes ag = n_churn ag + n_ativos ag /\
  0 < total_clientes ag /\
  taxa_churn ag = Classifier.percentual (n_churn ag) (total_clientes ag) /\
  having (total_clientes ag) = true.
Proof.
  unfold consulta60. intros Hin. apply filter_In in Hin as [Hin Hh].
  apply in_map_iff in Hin as ([k' g'] & [= -> <-] & Hkg).
  apply In_group_by in Hkg as ((x & Hx & Hk) & ->). cbn [fst snd] in Hh |- *.
  rewrite (group_of_left_join (fun r => rotulo (snd r))) in Hh |- *.
  assert (forall a, In a (group_of (fun r => rotulo (snd r)) k todos) -> In a todos) as Hsub
    by (intros a Ha; apply In_group_of in Ha; tauto).
  assert (0 < length (left_join (fun tc cc => s_eq (fst tc) cc)
                        (group_of (fun r => rotulo (snd r)) k todos) (clientes_churn todos ts))).
  { rewrite <- (group_of_left_join (fun r => rotulo (snd r))).
    assert (In x (group_of (fun r => rotulo (snd (fst r))) k
                    (left_join (fun tc cc => s_eq (fst tc) cc) todos (clientes_churn todos ts))))
      as Hx' by (apply In_group_of; split; [exact Hx|exact Hk]).
    revert Hx'. match goal with |- _ -> 0 < length ?l => destruct l; [intros []|intros; simpl; lia] end. }
  rewrite length_juntadas in H by done.
  rewrite agrega60_left_join in Hh |- * by done. simpl in Hh |- *.
  repeat split; done || lia.
Qed.

(** In a table whose key column is duplicate free, a row's key occurs once. *)
Lemma count_key_unique {A B} `{EqDecision A} (l : list (A * B)) a :
  List.NoDup (map fst l) -> In a l -> #[fun b => bool_decide (fst b = fst a)] l = 1.
Proof.
  induction l as [|b l IH]; intros Hnd Ha; [done|]. simpl in Hnd. inversion Hnd as [|? ? Hb Hnd']; subst.
  rewrite count_if_cons. destruct Ha as [<-|Ha].
  - rewrite bool_decide_true, count_if_false; [done| |done].
    intros c Hc. apply bool_decide_eq_false. intros He. apply Hb. rewrite <- He. apply in_map. done.
  - rewrite bool_decide_false, IH by (done || (intros He; apply Hb; rewrite He; apply in_map; done)).
    done.
Qed.

Lemma NoDup_map_filter {A B} (f : A -> B) (p : A -> bool) l :
  List.NoDup (map f l) -> List.NoDup (map f (List.filter p l)).
Proof.
  induction l as [|a l IH]; intros Hnd; simpl in *; [constructor|].
  inversion Hnd as [|? ? Ha Hnd']; subst. destruct (p a); simpl; [constructor|]; auto.
  intros Hin. apply Ha. apply in_map_iff in Hin as (x & <- & Hx). apply filter_In in Hx.
  apply in_map. tauto.
Qed.

(** With a unique customer key, [todos_clientes] of a customer query holds
    each customer once. *)
Lemma todos_por_cliente_ids {V} `{EqDecision V} (col : Cliente.t -> V) clientes ts :
  Schema.ids_unique clientes -> List.NoDup (map fst (todos_por_cliente col clientes ts)).
Proof.
  intros [Hnd _]. unfold todos_por_cliente, where_.
  rewrite distinct_id; rewrite ?map_map; cbn [fst].
  - apply NoDup_map_filter, NoDup_ListNoDup. done.
  - apply (NoDup_map_inv fst). rewrite map_map. apply NoDup_map_filter, NoDup_ListNoDup. done.
Qed.

(** with a unique customer key, every row of a customer query of the
    60-day script counts each customer of its group once: the churned ones
    in [clientes_churn], the others in [clientes_ativos], all of them in
    [total_clientes]. *)
Theorem analise_cliente_particao {V K} `{EqDecision V} `{EqDecision K} (col : Cliente.t -> V)
    (rotulo : V -> K) having clientes ts k ag :
  Schema.ids_unique clientes ->
  In (k, ag) (consulta60 rotulo having (todos_por_cliente col clientes ts) ts) ->
  let g := group_of (fun r => rotulo (snd r)) k (todos_por_cliente col clientes ts) in
  n_churn ag = #[fun a => churned ts (fst a)] g /\
  n_ativos ag = #[fun a => negb (churned ts (fst a))] g /\
  total_clientes ag = length g.
Proof.
  intros Hu Hin g. pose proof (todos_por_cliente_ids col clientes ts Hu) as Hnd.
  destruct (consulta60_contagens _ _ _ _ _ _ Hin) as (Hc & Hn & Ht & _).
  assert (n_churn ag = #[fun a => churned ts (fst a)] g) as Hc'.
  { rewrite Hc, count_if_sum. apply sum_list_with_ext_in. intros a Ha.
    apply In_group_of in Ha as [Ha _]. unfold mult. rewrite count_key_unique by done.
    done. }
  split; [done|]. split; [done|]. rewrite Ht, Hc', Hn, count_if_complement. subst g.
  pose proof (count_if_le (fun a => churned ts (fst a))
                (group_of (fun r => rotulo (snd r)) k (todos_por_cliente col clientes ts))). lia.
Qed.

(** ** The analyses that fail *)

(** C4: of the nine analyses, exactly the second ([c.Renda]) and the
    fourth ([c.Conta_Adicional]) fail, whatever the data, since [clientes]
    has neither column; so [main] stores only the age analysis in
    [resultados] and ends in its [except] branch with the error of the
    income query, without running the other analyses or the summary. *)
Theorem main_para_na_renda clientes cartoes ts :
  map (fun ke => (fst ke, falhou (snd ke))) (analises clientes cartoes ts) =
    [("idade", false); ("renda", true); ("tempo_conta", false); ("conta_adicional", true);
     ("estado", false); ("tipo_cartao", false); ("produto_mastercard", false);
     ("tempo_cartao", false); ("limite_cartao", false)]%string /\
  analise_2_renda_churn clientes ts = Erro "no such column: c.Renda"%string /\
  analise_4_conta_adicional_churn clientes ts = Erro "no such column: c.Conta_Adicional"%string /\
  main clientes cartoes ts =
    ([("idade"%string, PorFaixa (consulta60 faixa_etaria sem_having
        (todos_por_cliente (fun c => option_map (fun z => VNum (inject_Z z)) (Cliente.Idade c))
           clientes ts) ts))],
     Erro "no such column: c.Renda"%string).
Proof. repeat split. Qed.

(** ** The card queries *)

Lemma In_todos_por_cartao {X} `{EqDecision X} criacao (attr : Cartao.t -> X) cond ts cartoes
    clientes id x :
  In (id, x) (todos_por_cartao criacao attr cond ts cartoes clientes) <->
  exists t k c, In t ts /\ In k cartoes /\ In c clientes /\
    holds (s_eq (Transacao.ID_Cartao t) (Cartao.ID_Cartao k)) = true /\
    holds (s_eq (Transacao.Cliente_ID t) (Cliente.Cliente_ID c)) = true /\
    holds (cartao_valido criacao ((t, k), c)) = true /\ holds (cond k) = true /\
    Transacao.Cliente_ID t = id /\ attr k = x.
Proof.
  unfold todos_por_cartao, associacoes, CardDims.tx_cartoes.
  rewrite In_distinct, in_map_iff. split.
  - intros ([[t k] c] & [= <- <-] & Hin). apply In_where in Hin as [Hin Hv].
    rewrite holds_s_and in Hv. apply andb_true_iff in Hv as [Hv Hc].
    apply In_inner_join in Hin as (Htk & Hc' & Hj). apply In_inner_join in Htk as (Ht & Hk & Hj').
    exists t, k, c. done.
  - intros (t & k & c & Ht & Hk & Hc & Hj & Hj' & Hv & Hcond & <- & <-).
    exists ((t, k), c). split; [done|]. apply In_where. cbn [fst snd]. rewrite holds_s_and, Hv, Hcond.
    split; [|done]. apply In_inner_join. split; [apply In_inner_join; done|]. done.
Qed.

(** The column [Data_Criacao_Conta] the card queries read. *)
Lemma coluna_criacao :
  coluna_clientes "Data_Criacao_Conta" = Ok (fun c => option_map VText (Cliente.Data_Criacao_Conta c)).
Proof. reflexivity. Qed.

(** C6: on the timestamps pandas writes, the validity filter of the card
    queries keeps a card exactly when it was issued on or after
    2023-01-01 and not before the account's creation instant, the rule of
    spec.md, section 4.2. *)
Theorem cartao_valido_datas t k c se sc :
  Cartao.Data_Emissao k = Some (Dates.format_stamp se) ->
  Cliente.Data_Criacao_Conta c = Some (Dates.format_stamp sc) ->
  Dates.stamp_valido se = true -> Dates.stamp_valido sc = true ->
  holds (cartao_valido (fun c => option_map VText (Cliente.Data_Criacao_Conta c)) ((t, k), c)) = true
  <-> Dates.cmp_data (Dates.ano se) (Dates.mes se) (Dates.dia se) 2023 1 1 <> Lt /\
      Dates.cmp_stamp se sc <> Lt.
Proof.
  intros He Hc Hse Hsc. unfold cartao_valido. cbn [fst snd]. rewrite He, Hc, holds_s_and.
  cbn [option_map s_ge s_le holds sql_ltb sqlord_valor valor_ltb].
  change "2023-01-01"%string with (Dates.format_date 2023 1 1).
  rewrite Dates.stamp_lt_date by (done || reflexivity).
  unfold str_ltb. rewrite Dates.compare_format_stamp by done.
  destruct (Dates.cmp_stamp se sc); case_bool_decide; simpl; intuition congruence.
Qed.

(** C7: on the timestamps pandas writes, a customer has no row in
    [todos_clientes] of a card query exactly when every card it used (and
    that meets the query's condition) was issued before 2023-01-01 or
    before the creation of its owner's account, the customer the
    transaction names: the validity filter compares each card with its
    owner only.  Such a customer is in no group at all, where spec.md,
    section 4.2, puts customers without a valid card in a "no active card"
    group. *)
Theorem sem_cartao_valido_omitido {X} `{EqDecision X} (attr : Cartao.t -> X) cond ts cartoes clientes
    (emissao : Cartao.t -> Dates.stamp) (criacao : Cliente.t -> Dates.stamp) id :
  (forall k, In k cartoes -> Cartao.Data_Emissao k = Some (Dates.format_stamp (emissao k))) ->
  (forall k, In k cartoes -> Dates.stamp_valido (emissao k) = true) ->
  (forall c, In c clientes -> Cliente.Data_Criacao_Conta c = Some (Dates.format_stamp (criacao c))) ->
  (forall c, In c clientes -> Dates.stamp_valido (criacao c) = true) ->
  (forall x, ~ In (id, x) (todos_por_cartao (fun c => option_map VText (Cliente.Data_Criacao_Conta c))
                             attr cond ts cartoes clientes)) <->
  forall t k c, In t ts -> In k cartoes -> In c clientes -> Transacao.Cliente_ID t = id ->
    holds (s_eq (Transacao.ID_Cartao t) (Cartao.ID_Cartao k)) = true ->
    holds (s_eq (Transacao.Cliente_ID t) (Cliente.Cliente_ID c)) = true ->
    holds (cond k) = true ->
    Dates.cmp_data (Dates.ano (emissao k)) (Dates.mes (emissao k)) (Dates.dia (emissao k)) 2023 1 1 = Lt \/
    Dates.cmp_stamp (emissao k) (criacao c) = Lt.
Proof.
  intros He Hev Hc Hcv.
  assert (forall t k c, In k cartoes -> In c clientes ->
            holds (cartao_valido (fun c => option_map VText (Cliente.Data_Criacao_Conta c)) ((t, k), c)) = true <->
            Dates.cmp_data (Dates.ano (emissao k)) (Dates.mes (emissao k)) (Dates.dia (emissao k)) 2023 1 1 <> Lt /\
            Dates.cmp_stamp (emissao k) (criacao c) <> Lt) as Hv
    by (intros t k c Hk Hc'; apply cartao_valido_datas; auto).
  split.
  - intros Hno t k c Ht Hk Hc' Hid Hj Hj' Hcond.
    destruct (Dates.cmp_data _ _ _ 2023 1 1) eqn:E1; [|left; done|];
      (destruct (Dates.cmp_stamp (emissao k) (criacao c)) eqn:E2; [|right; done|]);
      exfalso; apply (Hno (attr k)); apply In_todos_por_cartao; exists t, k, c;
      repeat split; try done; apply (Hv t k c Hk Hc'); rewrite E1, E2; done.
  - intros Hall x (t & k & c & Ht & Hk & Hc' & Hj & Hj' & Hval & Hcond & Hid & _)%In_todos_por_cartao.
    apply (Hv t k c Hk Hc') in Hval as [N1 N2].
    destruct (Hall t k c Ht Hk Hc' Hid Hj Hj' Hcond); done.
Qed.

(** ** The 60-day window and NULL ids *)

Lemma corte_60_format :
  corte_60 = Dates.date_add_days (Some (Dates.format_date 2024 12 30)) (Z.opp 60).
Proof. reflexivity. Qed.

(** when the transaction dates are timestamps of the checked years and
    no transaction of the window has a NULL customer, an id is in
    [clientes_churn] exactly when none of its transactions falls on a day
    at most 60 days before 2024-12-30. *)
Theorem churn_60_dias ts i :
  Schema.datas_pandas ts -> ~ In None (ativos_60 ts) ->
  churned ts (Some i) = true <->
  ~ exists tx st, In tx (Schema.tx_of ts (Some i)) /\
      Classifier.data_em_dias (Transacao.Data tx) st /\
      (Dates.jd_day 2024 12 30 - Dates.jd_day (Dates.ano st) (Dates.mes st) (Dates.dia st) <= 60)%Z.
Proof.
  intros Hts Hnone. unfold churned. cbn [is_null negb andb].
  rewrite <- (Classifier.ativo_dias 60) by (done || (vm_compute; split; discriminate)).
  rewrite <- corte_60_format. fold (ativos_60 ts).
  rewrite holds_s_not_in, holds_s_in. split.
  - intros [E|(a & [= <-] & Hn & _)] (a' & [= <-] & Ha); [rewrite E in Ha|]; done.
  - intros Hno. right. exists i. split; [done|]. split; [|done].
    intros Hin. apply Hno. exists i. done.
Qed.

(** one transaction of the window with a NULL customer makes [NOT IN]
    UNKNOWN for every id: every 60-day query then reports no churn at
    all, every row counting all its customers as active, and the summary
    reports zero churned customers. *)
Theorem nulo_anula_churn {X K} `{EqDecision K} (rotulo : X -> K) having todos ts k ag :
  In None (ativos_60 ts) ->
  In (k, ag) (consulta60 rotulo having todos ts) ->
  n_churn ag = 0 /\ n_ativos ag = total_clientes ag /\
  total_clientes_churn (query_geral ts) = 0.
Proof.
  intros Hnone Hin.
  assert (forall id, holds (s_not_in id (ativos_60 ts)) = false) as Hf.
  { intros id. destruct (holds _) eqn:E; [|done]. apply holds_s_not_in in E as [E|(_ & _ & _ & E)].
    - rewrite E in Hnone. done.
    - done. }
  destruct (consulta60_contagens _ _ _ _ _ _ Hin) as (Hc & _ & Ht & _).
  assert (n_churn ag = 0) as H0.
  { rewrite Hc. apply sum_list_with_zero. intros a _. unfold churned. rewrite Hf, andb_false_r. done. }
  split; [done|]. split; [lia|]. unfold query_geral. cbn [total_clientes_churn].
  apply (count_if_false _ _). intros id _. apply Hf.
Qed.

(** ** A worked example *)

(** Customer 1 (account of 2023-01-10) used a credit card and a debit card
    until June 2024; customer 2 (account of 2023-02-01) pays in December
    2024 with a card issued in 2022. *)
Definition ex_clientes : list Cliente.t :=
  [Cliente.cli (Some 1%Z) None (Some "2023-01-10 00:00:00"%string) (Some "SP"%string) None
     (Some 30%Z) None;
   Cliente.cli (Some 2%Z) None (Some "2023-02-01 00:00:00"%string) (Some "RJ"%string) None
     (Some 40%Z) None].

Definition ex_cartoes : list Cartao.t :=
  [Cartao.cartao (Some 10%Z) (Some "Gold"%string) (Some "Crédito"%string)
     (Some "2023-03-01 00:00:00"%string) (Some 2000%Q) None None;
   Cartao.cartao (Some 11%Z) (Some "Standard"%string) (Some "Débito"%string)
     (Some "2023-04-01 00:00:00"%string) None None None;
   Cartao.cartao (Some 12%Z) (Some "Black"%string) (Some "Crédito"%string)
     (Some "2022-12-01 00:00:00"%string) (Some 5000%Q) None None].

Definition ex_transacoes : list Transacao.t :=
  [Transacao.tx (Some 100%Z) (Some "2024-05-01 10:00:00"%string) None (Some 1%Z) (Some 10%Z);
   Transacao.tx (Some 101%Z) (Some "2024-06-01 10:00:00"%string) None (Some 1%Z) (Some 11%Z);
   Transacao.tx (Some 102%Z) (Some "2024-12-01 10:00:00"%string) None (Some 2%Z) (Some 12%Z)].

(** The same log with one more payment of the window without a customer. *)
Definition ex_transacoes_nulo : list Transacao.t :=
  ex_transacoes ++
  [Transacao.tx (Some 103%Z) (Some "2024-12-15 10:00:00"%string) None None (Some 10%Z)].

Definition ex_criacao (c : Cliente.t) : option valor :=
  option_map VText (Cliente.Data_Criacao_Conta c).

Definition ex_tipos : list (option Z * option string) :=
  todos_por_cartao ex_criacao Cartao.Tipo_Cartao (fun _ => Some true) ex_transacoes ex_cartoes
    ex_clientes.

Definition ex_idades : list (option Z * option valor) :=
  todos_por_cliente (fun c => option_map (fun z => VNum (inject_Z z)) (Cliente.Idade c))
    ex_clientes ex_transacoes.

Lemma ex_datas : Schema.datas_pandas ex_transacoes.
Proof.
  repeat constructor; intros s [= <-];
    [exists (Dates.mk_stamp 2024 5 1 10 0 0) | exists (Dates.mk_stamp 2024 6 1 10 0 0)
    | exists (Dates.mk_stamp 2024 12 1 10 0 0)];
    (split; [vm_compute; reflexivity|split; [vm_compute; reflexivity|]]);
    cbn; unfold Dates.ano_min, Dates.ano_max; lia.
Qed.

Lemma ex_ids_unique : Schema.ids_unique ex_clientes.
Proof.
  split.
  - apply NoDup_ListNoDup. vm_compute. repeat constructor; simpl; intuition discriminate.
  - repeat constructor; discriminate.
Qed.

(** Customer 1, churned, has two card types: each of its groups counts it
    twice, as two churned customers. *)
Lemma consulta60_contagens_witness :
  In (Some "Crédito"%string, mk_agregado60 2 0 2 (10000 # 100)) (consulta60 (fun t => t) sem_having ex_tipos
                                                          ex_transacoes) /\
  let g := group_of (fun r => snd r) (Some "Crédito"%string) ex_tipos in
  n_churn (mk_agregado60 2 0 2 (10000 # 100)) =
    sum_list_with (fun a => if churned ex_transacoes (fst a) then mult ex_tipos (fst a) else 0) g /\
  n_ativos (mk_agregado60 2 0 2 (10000 # 100)) = #[fun a => negb (churned ex_transacoes (fst a))] g /\
  total_clientes (mk_agregado60 2 0 2 (10000 # 100)) =
    n_churn (mk_agregado60 2 0 2 (10000 # 100)) + n_ativos (mk_agregado60 2 0 2 (10000 # 100)) /\
  0 < total_clientes (mk_agregado60 2 0 2 (10000 # 100)) /\
  taxa_churn (mk_agregado60 2 0 2 (10000 # 100)) =
    Classifier.percentual (n_churn (mk_agregado60 2 0 2 (10000 # 100)))
      (total_clientes (mk_agregado60 2 0 2 (10000 # 100))) /\
  sem_having (total_clientes (mk_agregado60 2 0 2 (10000 # 100))) = true.
Proof.
  assert (In (Some "Crédito"%string, mk_agregado60 2 0 2 (10000 # 100))
            (consulta60 (fun t => t) sem_having ex_tipos ex_transacoes)) as H
    by (vm_compute; left; reflexivity).
  split; [exact H|]. exact (consulta60_contagens _ _ _ _ _ _ H).
Defined.

Lemma analise_cliente_particao_witness :
  Schema.ids_unique ex_clientes /\
  In ("26-35 anos"%string, mk_agregado60 1 0 1 (10000 # 100))
     (consulta60 faixa_etaria sem_having ex_idades ex_transacoes) /\
  let g := group_of (fun r => faixa_etaria (snd r)) "26-35 anos"%string ex_idades in
  n_churn (mk_agregado60 1 0 1 (10000 # 100)) = #[fun a => churned ex_transacoes (fst a)] g /\
  n_ativos (mk_agregado60 1 0 1 (10000 # 100)) = #[fun a => negb (churned ex_transacoes (fst a))] g /\
  total_clientes (mk_agregado60 1 0 1 (10000 # 100)) = length g.
Proof.
  assert (In ("26-35 anos"%string, mk_agregado60 1 0 1 (10000 # 100))
            (consulta60 faixa_etaria sem_having ex_idades ex_transacoes)) as H
    by (vm_compute; left; reflexivity).
  split; [exact ex_ids_unique|]. split; [exact H|].
  exact (analise_cliente_particao _ _ _ _ _ _ _ ex_ids_unique H).
Defined.

(** A third customer, whose account was opened after its only card was
    issued in 2023: the card is valid against the first customer's account,
    not against its owner's. *)
Definition ex_clientes3 : list Cliente.t :=
  ex_clientes ++ [Cliente.cli (Some 3%Z) None (Some "2023-06-01 00:00:00"%string) (Some "MG"%string) None
                    (Some 35%Z) None].

Definition ex_cartoes3 : list Cartao.t :=
  ex_cartoes ++ [Cartao.cartao (Some 13%Z) (Some "Platinum"%string) (Some "Crédito"%string)
                   (Some "2023-05-01 00:00:00"%string) (Some 3000%Q) None None].

Definition ex_transacoes3 : list Transacao.t :=
  ex_transacoes ++ [Transacao.tx (Some 104%Z) (Some "2024-07-01 10:00:00"%string) None (Some 3%Z) (Some 13%Z)].

Definition ex_emissao (k : Cartao.t) : Dates.stamp :=
  match Cartao.ID_Cartao k with
  | Some i => if (i =? 10)%Z then Dates.mk_stamp 2023 3 1 0 0 0
              else if (i =? 11)%Z then Dates.mk_stamp 2023 4 1 0 0 0
              else if (i =? 12)%Z then Dates.mk_stamp 2022 12 1 0 0 0
              else Dates.mk_stamp 2023 5 1 0 0 0
  | None => Dates.mk_stamp 2023 5 1 0 0 0
  end.

Definition ex_criacao_st (c : Cliente.t) : Dates.stamp :=
  match Cliente.Cliente_ID c with
  | Some i => if (i =? 1)%Z then Dates.mk_stamp 2023 1 10 0 0 0
              else if (i =? 2)%Z then Dates.mk_stamp 2023 2 1 0 0 0
              else Dates.mk_stamp 2023 6 1 0 0 0
  | None => Dates.mk_stamp 2023 6 1 0 0 0
  end.

Lemma sem_cartao_valido_omitido_witness :
  ((forall k, In k ex_cartoes3 -> Cartao.Data_Emissao k = Some (Dates.format_stamp (ex_emissao k))) /\
   (forall k, In k ex_cartoes3 -> Dates.stamp_valido (ex_emissao k) = true) /\
   (forall c, In c ex_clientes3 -> Cliente.Data_Criacao_Conta c = Some (Dates.format_stamp (ex_criacao_st c))) /\
   (forall c, In c ex_clientes3 -> Dates.stamp_valido (ex_criacao_st c) = true)) /\
  forall x, ~ In (Some 3%Z, x)
    (todos_por_cartao ex_criacao Cartao.Tipo_Cartao (fun _ => Some true) ex_transacoes3 ex_cartoes3 ex_clientes3).
Proof.
  assert (forall k, In k ex_cartoes3 -> Cartao.Data_Emissao k = Some (Dates.format_stamp (ex_emissao k))) as H1
    by (intros k Hk; vm_compute in Hk; repeat destruct Hk as [<-|Hk]; [..|destruct Hk]; vm_compute; reflexivity).
  assert (forall k, In k ex_cartoes3 -> Dates.stamp_valido (ex_emissao k) = true) as H2
    by (intros k Hk; vm_compute in Hk; repeat destruct Hk as [<-|Hk]; [..|destruct Hk]; vm_compute; reflexivity).
  assert (forall c, In c ex_clientes3 -> Cliente.Data_Criacao_Conta c = Some (Dates.format_stamp (ex_criacao_st c)))
    as H3 by (intros c Hc; vm_compute in Hc; repeat destruct Hc as [<-|Hc]; [..|destruct Hc]; vm_compute; reflexivity).
  assert (forall c, In c ex_clientes3 -> Dates.stamp_valido (ex_criacao_st c) = true) as H4
    by (intros c Hc; vm_compute in Hc; repeat destruct Hc as [<-|Hc]; [..|destruct Hc]; vm_compute; reflexivity).
  split; [done|].
  apply (proj2 (sem_cartao_valido_omitido Cartao.Tipo_Cartao (fun _ => Some true) ex_transacoes3 ex_cartoes3
                  ex_clientes3 ex_emissao ex_criacao_st (Some 3%Z) H1 H2 H3 H4)).
  intros t k c Ht Hk Hc Hid Hj Hj' _. vm_compute in Ht, Hk, Hc.
  repeat destruct Ht as [<-|Ht]; try destruct Ht; try discriminate Hid;
    repeat destruct Hk as [<-|Hk]; try destruct Hk; try discriminate Hj;
    repeat destruct Hc as [<-|Hc]; try destruct Hc; try discriminate Hj'.
  right. vm_compute. reflexivity.
Defined.


Lemma cartao_valido_datas_witness :
  holds (cartao_valido ex_criacao ((List.nth 2 ex_transacoes (Transacao.tx None None None None None),
                                    List.nth 2 ex_cartoes (Cartao.cartao None None None None None None None)),
                                   List.nth 1 ex_clientes (Cliente.cli None None None None None None None)))
    = true <->
  Dates.cmp_data 2022 12 1 2023 1 1 <> Lt /\
  Dates.cmp_stamp (Dates.mk_stamp 2022 12 1 0 0 0) (Dates.mk_stamp 2023 2 1 0 0 0) <> Lt.
Proof.
  exact (cartao_valido_datas
           (List.nth 2 ex_transacoes (Transacao.tx None None None None None))
           (List.nth 2 ex_cartoes (Cartao.cartao None None None None None None None))
           (List.nth 1 ex_clientes (Cliente.cli None None None None None None None))
           (Dates.mk_stamp 2022 12 1 0 0 0) (Dates.mk_stamp 2023 2 1 0 0 0)
           eq_refl eq_refl eq_refl eq_refl).
Defined.

Lemma churn_60_dias_witness :
  Schema.datas_pandas ex_transacoes /\ ~ In None (ativos_60 ex_transacoes) /\
  (churned ex_transacoes (Some 1%Z) = true <->
   ~ exists tx st, In tx (Schema.tx_of ex_transacoes (Some 1%Z)) /\
       Classifier.data_em_dias (Transacao.Data tx) st /\
       (Dates.jd_day 2024 12 30 - Dates.jd_day (Dates.ano st) (Dates.mes st) (Dates.dia st) <= 60)%Z).
Proof.
  assert (~ In None (ativos_60 ex_transacoes)) as H
    by (vm_compute; intros [H|[]]; discriminate H).
  split; [exact ex_datas|]. split; [exact H|]. exact (churn_60_dias _ _ ex_datas H).
Defined.

Lemma nulo_anula_churn_witness :
  In None (ativos_60 ex_transacoes_nulo) /\
  In ("26-35 anos"%string, mk_agregado60 0 1 1 (0 # 100))
     (consulta60 faixa_etaria sem_having ex_idades ex_transacoes_nulo) /\
  n_churn (mk_agregado60 0 1 1 (0 # 100)) = 0 /\
  n_ativos (mk_agregado60 0 1 1 (0 # 100)) = total_clientes (mk_agregado60 0 1 1 (0 # 100)) /\
  total_clientes_churn (query_geral ex_transacoes_nulo) = 0.
Proof.
  assert (In None (ativos_60 ex_transacoes_nulo)) as H1 by (vm_compute; tauto).
  assert (In ("26-35 anos"%string, mk_agregado60 0 1 1 (0 # 100))
            (consulta60 faixa_etaria sem_having ex_idades ex_transacoes_nulo)) as H2
    by (vm_compute; left; reflexivity).
  split; [exact H1|]. split; [exact H2|]. exact (nulo_anula_churn _ _ _ _ _ _ H1 H2).
Defined.

End Sessenta.
