(* ===== verification/Churn90.v ===== *)
(** * The last-transaction analysis [churn2024SQL90/analise_churn_2024_completa.py]

    This script classifies by [MAX(data)] instead of [NOT IN]: the CTE
    [ultima_transacao_por_cliente] holds each customer's last transaction
    date, and a row is churned when [ultima_transacao < DATE('2024-12-30',
    '-90 days')].  Queries 1 to 5 join [clientes] created in 2024 with that
    CTE; queries 6 to 9 join the DISTINCT (customer, card attribute) pairs of
    the cards issued in 2024.  [Module Ultima] models the CTE, the two base
    relations, the aggregates ([COUNT], [SUM(CASE ...)], [ROUND(AVG(...) *
    100, 2)]) and the nine queries.

    The theorems show that the [MAX] test agrees with the [NOT IN]
    classification of [Churn.v] on the timestamps pandas writes; that the
    text bounds ['2024-01-01'] and ['2024-12-31'] drop every timestamp of
    December 31; that the [BETWEEN] bands on REAL columns leave gaps that
    fall to the last band; and that the card queries divide a row count by
    a [COUNT(DISTINCT ...)], so their churn count can exceed their total. *)

From stdpp Require Import base list strings.
From Stdlib Require Import ZArith QArith String Lia Lqa.
From S2P Require Import Prelude Sql Dates Schema Bands Churn Cards.

Local Abbreviation length := Datatypes.length.
Local Open Scope nat_scope.

Module Ultima.
Import Sql.

(** ** The CTE and the churn test *)

(** [ultima_transacao_por_cliente]: [SELECT cliente_id, MAX(data) FROM
    transacoes GROUP BY cliente_id]. *)
Definition ultima_transacao_por_cliente (transacoes : list Transacao.t)
  : list (option Z * option string) :=
  map (fun kg => (fst kg, max_col (map Transacao.Data (snd kg))))
    (group_by Transacao.Cliente_ID transacoes).

(** [DATE('2024-12-30', '-90 days')]. *)
Definition corte_90 : option string := Dates.date_add_days (Some "2024-12-30"%string) (-90).

(** [ut.ultima_transacao] in a row of [... LEFT JOIN ultima_transacao_por_cliente ut]. *)
Definition ultima {A} (r : A * option (option Z * option string)) : option string :=
  coluna (option_map snd (snd r)).

(** [ut.ultima_transacao < DATE('2024-12-30', '-90 days')]. *)
Definition churn_cond {A} (r : A * option (option Z * option string)) : sbool :=
  s_lt (ultima r) corte_90.

(** The columns after the label. *)
Record agregado90 := mk_agregado90 {
  total_clientes : nat;
  clientes_churn : nat;
  taxa_churn_pct : Q
}.

(** [ROUND(AVG(CASE WHEN churn THEN 1.0 ELSE 0.0 END) * 100, 2)]: the mean
    of the indicator over the [t] rows of the group. *)
Definition taxa_media (n t : nat) : Q :=
  sql_round ((inject_Z (Z.of_nat n) / inject_Z (Z.of_nat t)) * 100)%Q 2.

(** [COUNT(c.cliente_id)], [SUM(CASE WHEN churn THEN 1 ELSE 0 END)] and the
    rate, for the customer queries. *)
Definition agrega90 (g : list (Cliente.t * option (option Z * option string))) : agregado90 :=
  mk_agregado90 (count_when (fun r => Some (negb (is_null (Cliente.Cliente_ID (fst r))))) g)
    (count_when churn_cond g) (taxa_media (count_when churn_cond g) (length g)).

(** ** Queries 1 to 5: customers created in 2024 *)

(** [c.Data_Criacao_Conta >= '2024-01-01' AND c.Data_Criacao_Conta <= '2024-12-31']. *)
Definition criada_2024 (c : Cliente.t) : sbool :=
  s_ge (Cliente.Data_Criacao_Conta c) (Some "2024-01-01"%string) &&&
  s_le (Cliente.Data_Criacao_Conta c) (Some "2024-12-31"%string).

(** [FROM clientes c LEFT JOIN ultima_transacao_por_cliente ut ON
    c.cliente_id = ut.cliente_id WHERE <created in 2024> AND
    ut.ultima_transacao IS NOT NULL]. *)
Definition base_clientes (clientes : list Cliente.t) (transacoes : list Transacao.t)
  : list (Cliente.t * option (option Z * option string)) :=
  where_ (fun r => criada_2024 (fst r) &&& Some (negb (is_null (ultima r))))
    (left_join (fun c u => s_eq (Cliente.Cliente_ID c) (fst u)) clientes
       (ultima_transacao_por_cliente transacoes)).

(** [GROUP BY label [HAVING COUNT(c.cliente_id) >= n]]. *)
Definition por_cliente {K} `{EqDecision K} (rotulo : Cliente.t -> K) (having : nat -> bool)
    (clientes : list Cliente.t) (transacoes : list Transacao.t) : list (K * agregado90) :=
  List.filter (fun ka => having (total_clientes (snd ka)))
    (map (fun kg => (fst kg, agrega90 (snd kg)))
       (group_by (fun r => rotulo (fst r)) (base_clientes clientes transacoes))).

Definition sem_having (_ : nat) : bool := true.

(** [query_idade], lines 118-124: no [ELSE], so a NULL age has a NULL label. *)
Definition faixa_etaria (idade : option Z) : option string :=
  case_when
    [(s_lt idade (Some 25%Z), Some "18-24 anos");
     (s_between idade (Some 25%Z) (Some 34%Z), Some "25-34 anos");
     (s_between idade (Some 35%Z) (Some 44%Z), Some "35-44 anos");
     (s_between idade (Some 45%Z) (Some 54%Z), Some "45-54 anos");
     (s_ge idade (Some 55%Z), Some "55+ anos")]%string
    None.

(** [query_renda], lines 153-160. *)
Definition faixa_renda (renda_anual : option Q) : string :=
  case_when
    [(s_lt renda_anual (Some 30000%Q), "Até R$ 30k");
     (s_between renda_anual (Some 30000%Q) (Some 50000%Q), "R$ 30-50k");
     (s_between renda_anual (Some 50001%Q) (Some 75000%Q), "R$ 50-75k");
     (s_between renda_anual (Some 75001%Q) (Some 100000%Q), "R$ 75-100k");
     (s_between renda_anual (Some 100001%Q) (Some 150000%Q), "R$ 100-150k")]%string
    "R$ 150k+"%string.

(** [query_tempo_conta], lines 189-195; the same chain is [periodo_cartao]
    of [query_tempo_cartao], lines 358-364. *)
Definition periodo_conta (meses : option Q) : string :=
  case_when
    [(s_le meses (Some 6%Q), "0-6 meses");
     (s_between meses (Some 7%Q) (Some 12%Q), "7-12 meses");
     (s_between meses (Some 13%Q) (Some 18%Q), "13-18 meses");
     (s_between meses (Some 19%Q) (Some 24%Q), "19-24 meses")]%string
    "24+ meses"%string.

(** [query_limite], lines 397-404. *)
Definition faixa_limite (limite : option Q) : string :=
  case_when
    [(s_le limite (Some 1000%Q), "Até R$ 1k");
     (s_between limite (Some 1001%Q) (Some 3000%Q), "R$ 1-3k");
     (s_between limite (Some 3001%Q) (Some 5000%Q), "R$ 3-5k");
     (s_between limite (Some 5001%Q) (Some 10000%Q), "R$ 5-10k");
     (s_between limite (Some 10001%Q) (Some 20000%Q), "R$ 10-20k")]%string
    "R$ 20k+"%string.

Section Clientes.
Variables (clientes : list Cliente.t) (transacoes : list Transacao.t).

Definition query_idade : list (option string * agregado90) :=
  por_cliente (fun c => faixa_etaria (Cliente.Idade c)) sem_having clientes transacoes.

Definition query_renda : list (string * agregado90) :=
  por_cliente (fun c => faixa_renda (Cliente.Renda_Anual c)) sem_having clientes transacoes.

Definition query_tempo_conta : list (string * agregado90) :=
  por_cliente (fun c => periodo_conta (Cliente.Tempo_Conta_Meses c)) sem_having clientes transacoes.

Definition query_conta_adicional : list (option string * agregado90) :=
  por_cliente Cliente.Possui_Conta_Adicional sem_having clientes transacoes.

(** [churn_por_estado ... GROUP BY c.estado HAVING COUNT(c.cliente_id) >= 10]. *)
Definition query_estado : list (option string * agregado90) :=
  por_cliente Cliente.Estado (fun n => 10 <=? n) clientes transacoes.

End Clientes.

(** ** Queries 6 to 9: cards issued in 2024 *)

(** [cart.data_emissao >= '2024-01-01' AND cart.data_emissao <= '2024-12-31']. *)
Definition emitido_2024 (k : Cartao.t) : sbool :=
  s_ge (Cartao.Data_Emissao k) (Some "2024-01-01"%string) &&&
  s_le (Cartao.Data_Emissao k) (Some "2024-12-31"%string).

(** [cartoes_2024]: [SELECT DISTINCT t.cliente_id, cart.attr FROM
    transacoes t JOIN cartoes cart ON t.id_cartao = cart.id_cartao WHERE
    <issued in 2024>]. *)
Definition cartoes_2024 {X} `{EqDecision X} (attr : Cartao.t -> X) (transacoes : list Transacao.t)
    (cartoes : list Cartao.t) : list (option Z * X) :=
  distinct (map (fun tk => (Transacao.Cliente_ID (fst tk), attr (snd tk)))
    (where_ (fun tk => emitido_2024 (snd tk)) (CardDims.tx_cartoes transacoes cartoes))).

(** [COUNT(DISTINCT c24.cliente_id)]: the distinct non-NULL ids. *)
Definition count_distinct (ids : list (option Z)) : nat :=
  length (distinct (List.filter (fun x => negb (is_null x)) ids)).

(** The columns of a card query: the total counts distinct customers, the
    churn count and the rate count rows. *)
Definition agrega_cartoes {X} (g : list ((option Z * X) * option (option Z * option string)))
  : agregado90 :=
  mk_agregado90 (count_distinct (map (fun r => fst (fst r)) g)) (count_when churn_cond g)
    (taxa_media (count_when churn_cond g) (length g)).

(** [FROM cartoes_2024 c24 LEFT JOIN ultima_transacao_por_cliente ut ON
    c24.cliente_id = ut.cliente_id GROUP BY label]. *)
Definition por_cartao {X K} `{EqDecision X} `{EqDecision K} (attr : Cartao.t -> X)
    (rotulo : X -> K) (transacoes : list Transacao.t) (cartoes : list Cartao.t)
  : list (K * agregado90) :=
  map (fun kg => (fst kg, agrega_cartoes (snd kg)))
    (group_by (fun r => rotulo (snd (fst r)))
       (left_join (fun c u => s_eq (fst c) (fst u)) (cartoes_2024 attr transacoes cartoes)
          (ultima_transacao_por_cliente transacoes))).

Section Cartoes.
Variables (transacoes : list Transacao.t) (cartoes : list Cartao.t).

Definition query_tipo_cartao : list (option string * agregado90) :=
  por_cartao Cartao.Tipo_Cartao (fun x => x) transacoes cartoes.

Definition query_produto : list (option string * agregado90) :=
  por_cartao Cartao.Produto_Mastercard (fun x => x) transacoes cartoes.

Definition query_tempo_cartao : list (string * agregado90) :=
  por_cartao Cartao.Tempo_Cartao_Meses periodo_conta transacoes cartoes.

Definition query_limite : list (string * agregado90) :=
  por_cartao Cartao.Limite_Cartao faixa_limite transacoes cartoes.

End Cartoes.

(** ** The CTE computes the last transaction *)

Lemma group_of_cliente ts id :
  id <> None -> group_of Transacao.Cliente_ID id ts = Schema.tx_of ts id.
Proof.
  intros Hid. unfold group_of, Schema.tx_of. apply filter_ext. intros t.
  destruct id as [a|]; [|done]. destruct (Transacao.Cliente_ID t) as [b|]; simpl; [|done].
  case_bool_decide as H1; case_bool_decide as H2; congruence.
Qed.

Lemma tx_of_nil ts id :
  id <> None -> Schema.tx_of ts id = [] <-> id ∉ map Transacao.Cliente_ID ts.
Proof.
  intros Hid. rewrite <- (group_of_cliente ts id Hid). unfold group_of.
  rewrite list_elem_of_In, in_map_iff. split.
  - intros E (t & Ht & Hin). assert (In t (List.filter (fun r => bool_decide (Transacao.Cliente_ID r = id)) ts))
      as Hf by (apply filter_In; rewrite bool_decide_true; done). rewrite E in Hf. done.
  - intros Hn. destruct (List.filter _ ts) as [|t l] eqn:E; [done|].
    assert (In t (t :: l)) as Ht by (left; done). rewrite <- E, filter_In, bool_decide_eq_true in Ht.
    exfalso. apply Hn. exists t. tauto.
Qed.

(** The row of [ultima_transacao_por_cliente] a non-NULL id finds: its
    [MAX(data)], which is [Classifier.ultima_transacao], when the customer
    has transactions. *)
Lemma find_ultima ts id :
  id <> None ->
  List.find (fun u => holds (s_eq id (fst u))) (ultima_transacao_por_cliente ts) =
  match Schema.tx_of ts id with
  | [] => None
  | _ :: _ => Some (id, Classifier.ultima_transacao ts id)
  end.
Proof.
  intros Hid. unfold ultima_transacao_por_cliente. rewrite find_map. cbn [fst].
  rewrite (find_group_by Transacao.Cliente_ID (fun k => holds (s_eq id k)) ts id)
    by (intros x; rewrite holds_s_eq; split; [intros [-> _]; done|intros ->; done]).
  rewrite group_of_cliente by done. unfold Classifier.ultima_transacao.
  destruct (Schema.tx_of ts id) as [|t l] eqn:E.
  - apply tx_of_nil in E; [|done]. rewrite bool_decide_false; done.
  - rewrite bool_decide_true; [done|].
    destruct (decide (id ∈ map Transacao.Cliente_ID ts)) as [|Hn]; [done|].
    apply (tx_of_nil ts id Hid) in Hn. congruence.
Qed.

(** Each id finds at most one row of the CTE: its keys are the distinct
    ids of [transacoes]. *)
Lemma ultima_matches_le1 ts id :
  length (List.filter (fun u => holds (s_eq id (fst u))) (ultima_transacao_por_cliente ts)) <= 1.
Proof.
  pose proof (count_if_map (fun y => holds (s_eq id y)) fst (ultima_transacao_por_cliente ts)) as H.
  unfold count_if in H. rewrite <- H. apply s_eq_matches_le1.
  unfold ultima_transacao_por_cliente. rewrite map_map. cbn [fst].
  rewrite <- (map_map fst (fun k => k)), map_id. apply group_by_keys_NoDup.
Qed.

(** A row kept by the customer queries: a customer created in 2024 with
    transactions, whose [ut.ultima_transacao] is its last transaction date. *)
Lemma In_base_clientes clientes ts r :
  In r (base_clientes clientes ts) -> Cliente.Cliente_ID (fst r) <> None ->
  In (fst r) clientes /\ holds (criada_2024 (fst r)) = true /\
  Schema.tx_of ts (Cliente.Cliente_ID (fst r)) <> [] /\
  exists d, ultima r = Some d /\ Classifier.ultima_transacao ts (Cliente.Cliente_ID (fst r)) = Some d.
Proof.
  unfold base_clientes. rewrite In_where, holds_s_and.
  rewrite left_join_unique by (intros; apply ultima_matches_le1).
  intros [Hin Hh] Hid. apply in_map_iff in Hin as (c & <- & Hc). cbn [fst] in *.
  apply andb_true_iff in Hh as [Hcr Hnn]. unfold ultima in *. cbn [snd] in *.
  rewrite find_ultima in * by done.
  destruct (Schema.tx_of ts (Cliente.Cliente_ID c)); [done|]. cbn in Hnn |- *.
  destruct (Classifier.ultima_transacao ts (Cliente.Cliente_ID c)) as [d|]; [|done].
  split; [done|]. split; [done|]. split; [done|]. exists d. done.
Qed.

Lemma corte_90_valor : corte_90 = Some (Dates.format_date 2024 10 1).
Proof. reflexivity. Qed.

(** The last transaction of a customer is one of its pandas timestamps. *)
Lemma ultima_stamp ts id d :
  Schema.datas_pandas ts -> Classifier.ultima_transacao ts id = Some d ->
  exists st, d = Dates.format_stamp st /\ Dates.stamp_valido st = true.
Proof.
  intros Hts Hd. apply max_col_in, in_map_iff in Hd as (tx & Htx & Hin).
  apply Classifier.In_tx_of in Hin as (Hin & _).
  unfold Schema.datas_pandas in Hts. rewrite List.Forall_forall in Hts.
  destruct (Hts tx Hin d Htx) as (st & -> & Hv & _). exists st. done.
Qed.

(** C8: on the timestamps pandas writes, the [MAX(data) < DATE(...)] test of
    this script marks a kept customer as churned exactly when the [NOT IN]
    classification of [analise_churn_completa_2024.py] makes it inactive:
    the two formulations of the 90-day rule agree. *)
Theorem churn_max_equiv clientes ts r :
  Schema.datas_pandas ts -> In r (base_clientes clientes ts) -> Cliente.Cliente_ID (fst r) <> None ->
  holds (churn_cond r) = true <->
  Classifier.estado_spec Classifier.corte_90 ts (Cliente.Cliente_ID (fst r)) = Classifier.Inativo.
Proof.
  intros Hts Hin Hid. destruct (In_base_clientes _ _ _ Hin Hid) as (_ & _ & Hne & d & Hu & Hd).
  destruct (ultima_stamp _ _ _ Hts Hd) as (st & -> & Hst).
  unfold churn_cond, Classifier.estado_spec. rewrite Hu, Hd.
  destruct (Schema.tx_of ts (Cliente.Cliente_ID (fst r))); [done|].
  change Classifier.corte_90 with corte_90. rewrite corte_90_valor. cbn [s_lt s_gt holds sql_ltb sqlord_string].
  rewrite Dates.stamp_lt_date, Dates.stamp_gt_date by (done || reflexivity).
  case_bool_decide; simpl; split; congruence.
Qed.

(** ** The 2024 bounds on timestamps *)

(** [x >= '2024-01-01' AND x <= '2024-12-31'] on a pandas timestamp: from
    January 1 up to December 30 only, since the timestamp of any instant of
    December 31 is a text greater than ['2024-12-31']. *)
Lemma entre_2024_stamp st :
  Dates.stamp_valido st = true ->
  holds (s_ge (Some (Dates.format_stamp st)) (Some "2024-01-01"%string) &&&
         s_le (Some (Dates.format_stamp st)) (Some "2024-12-31"%string)) = true <->
  Dates.cmp_data (Dates.ano st) (Dates.mes st) (Dates.dia st) 2024 1 1 <> Lt /\
  Dates.cmp_data (Dates.ano st) (Dates.mes st) (Dates.dia st) 2024 12 31 = Lt.
Proof.
  intros Hst. rewrite holds_s_and. cbn [s_ge s_le holds sql_ltb sqlord_string].
  change "2024-01-01"%string with (Dates.format_date 2024 1 1).
  change "2024-12-31"%string with (Dates.format_date 2024 12 31).
  rewrite Dates.stamp_lt_date, Dates.stamp_gt_date by (done || reflexivity).
  do 2 case_bool_decide; simpl; intuition congruence.
Qed.

(** C19: the 2024 filters of the customer and the card queries keep a
    pandas timestamp exactly when its day is in 2024 and before December
    31: customers created and cards issued on 2024-12-31 are left out. *)
Theorem filtros_2024_sem_31_dez c k sc sk :
  Cliente.Data_Criacao_Conta c = Some (Dates.format_stamp sc) -> Dates.stamp_valido sc = true ->
  Cartao.Data_Emissao k = Some (Dates.format_stamp sk) -> Dates.stamp_valido sk = true ->
  (holds (criada_2024 c) = true <->
   Dates.cmp_data (Dates.ano sc) (Dates.mes sc) (Dates.dia sc) 2024 1 1 <> Lt /\
   Dates.cmp_data (Dates.ano sc) (Dates.mes sc) (Dates.dia sc) 2024 12 31 = Lt) /\
  (holds (emitido_2024 k) = true <->
   Dates.cmp_data (Dates.ano sk) (Dates.mes sk) (Dates.dia sk) 2024 1 1 <> Lt /\
   Dates.cmp_data (Dates.ano sk) (Dates.mes sk) (Dates.dia sk) 2024 12 31 = Lt).
Proof.
  intros Hc Hsc Hk Hsk. unfold criada_2024, emitido_2024. rewrite Hc, Hk.
  split; apply entre_2024_stamp; done.
Qed.

(** ** The bands on REAL columns *)

(** the [BETWEEN] bounds of the account-age bands are integers while
    [tempo_conta_meses] is a REAL with two decimals: an age strictly
    between 6 and 7, 12 and 13 or 18 and 19 months matches no [WHEN] and
    is reported as "24+ meses". *)
Theorem periodo_conta_lacunas (x : Q) :
  periodo_conta (Some x) = "24+ meses"%string <->
  (24 < x \/ (6 < x < 7) \/ (12 < x < 13) \/ (18 < x < 19))%Q.
Proof.
  unfold periodo_conta. Bands.decide_conds; split; intros; try discriminate;
    try (exfalso; lra); try (intuition lra).
  all: first [left; lra | right; left; lra | right; right; left; lra | right; right; right; lra].
Qed.

(** the income bands leave the gaps (50000, 50001), (75000, 75001) and
    (100000, 100001) of the REAL [renda_anual]; an income there falls to
    the ELSE branch "R$ 150k+" with the incomes above 150000. *)
Theorem faixa_renda_lacunas (x : Q) :
  faixa_renda (Some x) = "R$ 150k+"%string <->
  (150000 < x \/ (50000 < x < 50001) \/ (75000 < x < 75001) \/ (100000 < x < 100001))%Q.
Proof.
  unfold faixa_renda. Bands.decide_conds; split; intros; try discriminate;
    try (exfalso; lra); try (intuition lra).
  all: first [left; lra | right; left; lra | right; right; left; lra | right; right; right; lra].
Qed.

(** ** The columns of the customer queries *)

(** [AVG(...) * 100] and [... * 100.0 / COUNT( * )] are the same number. *)
Lemma taxa_media_percentual n t : 0 < t -> taxa_media n t = Classifier.percentual n t.
Proof.
  intros Ht. unfold taxa_media, Classifier.percentual. apply sql_round_proper; [|done].
  assert (~ inject_Z (Z.of_nat t) == 0)%Q.
  { change 0%Q with (inject_Z 0). rewrite inject_Z_injective. lia. }
  field. done.
Qed.

(** A row of a group of the customer base comes from [clientes]. *)
Lemma In_grupo_clientes {K} `{EqDecision K} (rotulo : Cliente.t -> K) clientes ts k r :
  In r (group_of (fun r => rotulo (fst r)) k (base_clientes clientes ts)) -> In (fst r) clientes.
Proof.
  rewrite In_group_of. intros [Hr _]. unfold base_clientes in Hr. apply In_where in Hr as [Hr _].
  destruct r as [c m]. apply In_left_join in Hr as [Hc _]. done.
Qed.

(** when every customer has an id, every row of a customer query has a
    positive total, at most as many churned customers as customers, and a
    rate in [0, 100] that is [ROUND(clientes_churn * 100 / total, 2)]: the
    [AVG] formulation of the rate is the percentage of the group. *)
Theorem por_cliente_colunas {K} `{EqDecision K} (rotulo : Cliente.t -> K) having clientes ts k a :
  Forall (fun c => Cliente.Cliente_ID c <> None) clientes ->
  In (k, a) (por_cliente rotulo having clientes ts) ->
  0 < total_clientes a /\ clientes_churn a <= total_clientes a /\
  taxa_churn_pct a = Classifier.percentual (clientes_churn a) (total_clientes a) /\
  (0 <= taxa_churn_pct a <= 100)%Q.
Proof.
  intros Hids Hin. unfold por_cliente in Hin. apply filter_In in Hin as [Hin _].
  apply in_map_iff in Hin as ([k' g] & [= -> <-] & Hkg).
  apply In_group_by in Hkg as ((x & Hx & Hk) & ->).
  set (g := group_of _ _ _).
  assert (count_when (fun r => Some (negb (is_null (Cliente.Cliente_ID (fst r))))) g = length g) as Ht.
  { apply count_if_true. intros r Hr. apply In_grupo_clientes in Hr.
    rewrite List.Forall_forall in Hids. specialize (Hids _ Hr). cbn.
    destruct (Cliente.Cliente_ID (fst r)); done. }
  assert (0 < length g).
  { assert (In x g) as Hxg by (apply In_group_of; done). destruct g; [done|simpl; lia]. }
  pose proof (count_if_le (fun r => holds (churn_cond r)) g).
  unfold agrega90; cbn [total_clientes clientes_churn taxa_churn_pct]. rewrite Ht.
  unfold count_when. rewrite taxa_media_percentual by done.
  split; [done|]. split; [done|]. split; [done|]. apply Classifier.percentual_range; done.
Qed.

(** ** A worked example *)

(** Customer 1, created in February 2024, used a credit and a debit card
    issued in 2024 until June; customer 2 was created on 2024-12-31. *)
Definition ex_clientes : list Cliente.t :=
  [Cliente.cli (Some 1%Z) (Some 60000%Q) (Some "2024-02-10 00:00:00"%string) (Some "MG"%string)
     (Some "Não"%string) (Some 40%Z) (Some (1050 # 100));
   Cliente.cli (Some 2%Z) (Some 40000%Q) (Some "2024-12-31 09:00:00"%string) (Some "SP"%string)
     (Some "Sim"%string) (Some 30%Z) (Some 0%Q)].

Definition ex_cartoes : list Cartao.t :=
  [Cartao.cartao (Some 10%Z) (Some "Gold"%string) (Some "Crédito"%string)
     (Some "2024-03-01 00:00:00"%string) (Some 2000%Q) (Some (950 # 100)) None;
   Cartao.cartao (Some 11%Z) (Some "Standard"%string) (Some "Débito"%string)
     (Some "2024-04-01 00:00:00"%string) None (Some (850 # 100)) None].

Definition ex_transacoes : list Transacao.t :=
  [Transacao.tx (Some 100%Z) (Some "2024-05-01 10:00:00"%string) None (Some 1%Z) (Some 10%Z);
   Transacao.tx (Some 101%Z) (Some "2024-06-01 10:00:00"%string) None (Some 1%Z) (Some 11%Z);
   Transacao.tx (Some 102%Z) (Some "2024-12-31 10:00:00"%string) None (Some 2%Z) (Some 10%Z)].

(** the card queries count churn and the rate over the DISTINCT
    (customer, attribute) rows but the total over distinct customers: one
    churned customer with two cards of the 7-12 month band makes a row
    whose churn count exceeds its total. *)
Theorem tempo_cartao_churn_excede_total :
  exists ts cartoes k a, In (k, a) (query_tempo_cartao ts cartoes) /\
    total_clientes a < clientes_churn a.
Proof.
  exists (firstn 2 ex_transacoes), ex_cartoes, "7-12 meses"%string,
    (mk_agregado90 1 2 (10000 # 100)).
  split; [vm_compute; left; reflexivity|cbn; lia].
Qed.

Lemma ex_datas_90 : Schema.datas_pandas ex_transacoes.
Proof.
  repeat constructor; intros s [= <-];
    [exists (Dates.mk_stamp 2024 5 1 10 0 0) | exists (Dates.mk_stamp 2024 6 1 10 0 0)
    | exists (Dates.mk_stamp 2024 12 31 10 0 0)];
    (split; [vm_compute; reflexivity|split; [vm_compute; reflexivity|]]);
    cbn; unfold Dates.ano_min, Dates.ano_max; lia.
Qed.

Definition ex_linha : Cliente.t * option (option Z * option string) :=
  (List.hd (Cliente.cli None None None None None None None) ex_clientes,
   Some (Some 1%Z, Some "2024-06-01 10:00:00"%string)).

Lemma churn_max_equiv_witness :
  Schema.datas_pandas ex_transacoes /\ In ex_linha (base_clientes ex_clientes ex_transacoes) /\
  Cliente.Cliente_ID (fst ex_linha) <> None /\
  (holds (churn_cond ex_linha) = true <->
   Classifier.estado_spec Classifier.corte_90 ex_transacoes (Cliente.Cliente_ID (fst ex_linha)) =
   Classifier.Inativo).
Proof.
  assert (In ex_linha (base_clientes ex_clientes ex_transacoes)) as H
    by (vm_compute; left; reflexivity).
  assert (Cliente.Cliente_ID (fst ex_linha) <> None) as Hid by discriminate.
  split; [exact ex_datas_90|]. split; [exact H|]. split; [exact Hid|].
  exact (churn_max_equiv _ _ _ ex_datas_90 H Hid).
Defined.

Lemma filtros_2024_sem_31_dez_witness :
  (holds (criada_2024 (List.nth 1 ex_clientes (Cliente.cli None None None None None None None))) = true <->
   Dates.cmp_data 2024 12 31 2024 1 1 <> Lt /\ Dates.cmp_data 2024 12 31 2024 12 31 = Lt) /\
  (holds (emitido_2024 (List.hd (Cartao.cartao None None None None None None None) ex_cartoes)) = true <->
   Dates.cmp_data 2024 3 1 2024 1 1 <> Lt /\ Dates.cmp_data 2024 3 1 2024 12 31 = Lt).
Proof.
  exact (filtros_2024_sem_31_dez
           (List.nth 1 ex_clientes (Cliente.cli None None None None None None None))
           (List.hd (Cartao.cartao None None None None None None None) ex_cartoes)
           (Dates.mk_stamp 2024 12 31 9 0 0) (Dates.mk_stamp 2024 3 1 0 0 0)
           eq_refl eq_refl eq_refl eq_refl).
Defined.

Lemma por_cliente_colunas_witness :
  Forall (fun c => Cliente.Cliente_ID c <> None) ex_clientes /\
  In (Some "35-44 anos"%string, mk_agregado90 1 1 (10000 # 100))
     (por_cliente (fun c => faixa_etaria (Cliente.Idade c)) sem_having ex_clientes ex_transacoes) /\
  (0 < total_clientes (mk_agregado90 1 1 (10000 # 100)) /\
   clientes_churn (mk_agregado90 1 1 (10000 # 100)) <= total_clientes (mk_agregado90 1 1 (10000 # 100)) /\
   taxa_churn_pct (mk_agregado90 1 1 (10000 # 100)) =
     Classifier.percentual (clientes_churn (mk_agregado90 1 1 (10000 # 100)))
       (total_clientes (mk_agregado90 1 1 (10000 # 100))) /\
   (0 <= taxa_churn_pct (mk_agregado90 1 1 (10000 # 100)) <= 100)%Q).
Proof.
  assert (Forall (fun c => Cliente.Cliente_ID c <> None) ex_clientes) as H1
    by (repeat constructor; discriminate).
  assert (In (Some "35-44 anos"%string, mk_agregado90 1 1 (10000 # 100))
            (por_cliente (fun c => faixa_etaria (Cliente.Idade c)) sem_having ex_clientes
               ex_transacoes)) as H2 by (vm_compute; left; reflexivity).
  split; [exact H1|]. split; [exact H2|]. exact (por_cliente_colunas _ _ _ _ _ _ H1 H2).
Defined.

End Ultima.
