(* ===== verification/Comparativa.v ===== *)
(** * The 30/60/90-day comparison [churn2024SQLCOMP/analise_comparativa_churn_2024.py]

    [obter_dados_churn(dias)] runs four aggregate queries without [GROUP BY]
    (ages 35-44, Standard cards, cards of 7 to 12 months, incomes below
    30000), each with the cutoff [DATE('2024-12-30', '-{dias} days')], and
    the script collects them for 30, 60 and 90 days and prints the relative
    change of each rate between the periods.  [Module Comparativa] models the
    four queries over the CTEs of [Churn90.v] with the cutoff as a
    parameter, the aggregate of an empty table ([SUM] and [AVG] are NULL),
    the collection, and the variation formula, whose comparison [taxa > 0]
    raises [TypeError] on a NULL rate (a [None] in pandas).

    The theorems show that a longer window never raises a category's churn
    count or rate, so the change from 30 to 90 days is never positive. *)

From stdpp Require Import base list strings.
From Stdlib Require Import ZArith QArith String Lia Lqa.
From S2P Require Import Prelude Sql Dates Schema Churn Cards Sixty Churn90.

Local Abbreviation length := Datatypes.length.
Local Open Scope nat_scope.

Module Comparativa.
Import Sql.

(** [DATE('2024-12-30', '-{dias} days')]. *)
Definition corte (dias : Z) : option string :=
  Dates.date_add_days (Some "2024-12-30"%string) (- dias).

(** [ut.ultima_transacao < DATE('2024-12-30', '-{dias} days')]. *)
Definition churn_dias {A} (dias : Z) (r : A * option (option Z * option string)) : sbool :=
  s_lt (Ultima.ultima r) (corte dias).

(** The single row of an aggregate query, with the [periodo] column the
    script adds ([f'{dias} dias'], kept as the number of days). *)
Record linha := mk_linha {
  categoria : string;
  total_clientes : nat;
  clientes_churn : option nat;
  taxa_churn_pct : option Q;
  periodo : Z
}.

(** [SUM(CASE ... THEN 1 ELSE 0 END)] and [ROUND(AVG(CASE ... THEN 1.0 ELSE
    0.0 END) * 100, 2)] over a table: NULL when it has no row. *)
Definition soma_churn {A} (dias : Z) (g : list (A * option (option Z * option string))) : option nat :=
  match g with [] => None | _ :: _ => Some (count_when (churn_dias dias) g) end.

Definition media_churn {A} (dias : Z) (g : list (A * option (option Z * option string))) : option Q :=
  match g with
  | [] => None
  | _ :: _ => Some (Ultima.taxa_media (count_when (churn_dias dias) g) (length g))
  end.

Section Consultas.
Variables (dias : Z) (clientes : list Cliente.t) (cartoes : list Cartao.t)
  (transacoes : list Transacao.t).

(** The customers of [query_idade] and [query_renda_baixa]: the WHERE of
    [Ultima.base_clientes] and one more condition. *)
Definition base_onde (cond : Cliente.t -> sbool) : list (Cliente.t * option (option Z * option string)) :=
  where_ (fun r => cond (fst r)) (Ultima.base_clientes clientes transacoes).

Definition linha_clientes (cat : string) (cond : Cliente.t -> sbool) : linha :=
  let g := base_onde cond in
  mk_linha cat (count_when (fun r => Some (negb (is_null (Cliente.Cliente_ID (fst r))))) g)
    (soma_churn dias g) (media_churn dias g) dias.

(** [query_idade]: [... AND c.idade BETWEEN 35 AND 44]. *)
Definition query_idade : linha :=
  linha_clientes "Idade 35-44" (fun c => s_between (Cliente.Idade c) (Some 35%Z) (Some 44%Z)).

(** [query_renda_baixa]: [... AND c.renda_anual < 30000]. *)
Definition query_renda_baixa : linha :=
  linha_clientes "Renda Baixa" (fun c => s_lt (Cliente.Renda_Anual c) (Some 30000%Q)).

(** [cartoes_2024] with one more condition on the card. *)
Definition cartoes_2024_onde {X} `{EqDecision X} (attr : Cartao.t -> X) (cond : Cartao.t -> sbool)
  : list (option Z * X) :=
  distinct (map (fun tk => (Transacao.Cliente_ID (fst tk), attr (snd tk)))
    (where_ (fun tk => Ultima.emitido_2024 (snd tk) &&& cond (snd tk))
       (CardDims.tx_cartoes transacoes cartoes))).

Definition linha_cartoes {X} `{EqDecision X} (cat : string) (attr : Cartao.t -> X)
    (cond : Cartao.t -> sbool) : linha :=
  let g := left_join (fun c u => s_eq (fst c) (fst u)) (cartoes_2024_onde attr cond)
             (Ultima.ultima_transacao_por_cliente transacoes) in
  mk_linha cat (Ultima.count_distinct (map (fun r => fst (fst r)) g))
    (soma_churn dias g) (media_churn dias g) dias.

(** [query_standard]: [... AND cart.produto_mastercard = 'Standard']. *)
Definition query_standard : linha :=
  linha_cartoes "Standard" Cartao.Produto_Mastercard
    (fun k => s_eq (Cartao.Produto_Mastercard k) (Some "Standard"%string)).

(** [query_cartao_tempo]: [... AND cart.tempo_cartao_meses BETWEEN 7 AND 12]. *)
Definition query_cartao_tempo : linha :=
  linha_cartoes "Cartão 7-12m" Cartao.Tempo_Cartao_Meses
    (fun k => s_between (Cartao.Tempo_Cartao_Meses k) (Some 7%Q) (Some 12%Q)).

(** [df_resultado = pd.concat([df_idade, df_standard, df_cartao, df_renda])]. *)
Definition obter_dados_churn : list linha :=
  [query_idade; query_standard; query_cartao_tempo; query_renda_baixa].

End Consultas.

(** [df_completo = pd.concat([df_30d, df_60d, df_90d])]. *)
Definition df_completo clientes cartoes transacoes : list linha :=
  obter_dados_churn 30 clientes cartoes transacoes ++ obter_dados_churn 60 clientes cartoes transacoes ++
  obter_dados_churn 90 clientes cartoes transacoes.

(** [((taxa_b - taxa_a) / taxa_a) * 100 if taxa_a > 0 else 0], lines
    251-253.  A NULL rate reaches pandas as [None] (the column of a
    one-row result of NULLs has dtype object, and [pd.concat] keeps it):
    [None > 0] raises [TypeError], and so does [None - taxa_a] when only
    [taxa_b] is NULL; the else branch does not read [taxa_b].  (The chart
    loop of line 183, [max(taxas)], raises on the same [None] first.) *)
Definition erro_comparacao : string := "'>' not supported between instances of 'NoneType' and 'int'".
Definition erro_subtracao : string := "unsupported operand type(s) for -: 'NoneType' and 'float'".

Definition variacao (taxa_a taxa_b : option Q) : Sessenta.exec Q :=
  match taxa_a with
  | Some a =>
      if Qltb 0 a then
        match taxa_b with
        | Some b => Sessenta.Ok (((b - a) / a) * 100)%Q
        | None => Sessenta.Erro erro_subtracao
        end
      else Sessenta.Ok 0%Q
  | None => Sessenta.Erro erro_comparacao
  end.

(** The rate of a category in a period: [dados_cat[dados_cat['periodo'] ==
    p]['taxa_churn_pct'].iloc[0]]. *)
Definition taxa_de (df : list linha) (cat : string) (dias : Z) : option (option Q) :=
  option_map taxa_churn_pct
    (List.find (fun l => String.eqb (categoria l) cat && Z.eqb (periodo l) dias) df).

(** ** A longer window never raises churn *)

(** Two optional counts or rates, the first at most the second; NULL only
    against NULL. *)
Definition opt_le {A} (le : A -> A -> Prop) (x y : option A) : Prop :=
  match x, y with
  | Some a, Some b => le a b
  | None, None => True
  | _, _ => False
  end.

(** The row [l1] counts the same rows as [l2] with fewer churned. *)
Definition menos_churn (l1 l2 : linha) : Prop :=
  categoria l1 = categoria l2 /\ total_clientes l1 = total_clientes l2 /\
  opt_le le (clientes_churn l1) (clientes_churn l2) /\
  opt_le Qle (taxa_churn_pct l1) (taxa_churn_pct l2).

Lemma corte_ordem :
  corte 90 = Some "2024-10-01"%string /\ corte 60 = Some "2024-10-31"%string /\
  corte 30 = Some "2024-11-30"%string.
Proof. repeat split. Qed.

(** An earlier cutoff is a stronger test. *)
Lemma churn_dias_mono {A} d1 d2 (r : A * option (option Z * option string)) c1 c2 :
  corte d1 = Some c1 -> corte d2 = Some c2 -> str_ltb c1 c2 = true ->
  holds (churn_dias d1 r) = true -> holds (churn_dias d2 r) = true.
Proof.
  unfold churn_dias. intros -> -> H12. destruct (Ultima.ultima r) as [u|]; [|done].
  cbn. destruct (str_ltb u c1) eqn:E; [|done]. intros _.
  rewrite (str_ltb_trans _ _ _ E H12). done.
Qed.

Lemma inject_nat_nonneg (n : nat) : (0 <= inject_Z (Z.of_nat n))%Q.
Proof. change 0%Q with (inject_Z 0). rewrite <- Zle_Qle. lia. Qed.

Lemma taxa_media_mono n1 n2 t :
  n1 <= n2 -> (Ultima.taxa_media n1 t <= Ultima.taxa_media n2 t)%Q.
Proof.
  intros H. unfold Ultima.taxa_media, Qdiv.
  pose proof (Qinv_le_0_compat _ (inject_nat_nonneg t)) as Ht.
  assert (inject_Z (Z.of_nat n1) <= inject_Z (Z.of_nat n2))%Q by (rewrite <- Zle_Qle; lia).
  apply sql_round_2_mono.
  - apply Qmult_le_0_compat; [apply Qmult_le_0_compat; [apply inject_nat_nonneg|done]|done].
  - apply Qmult_le_compat_r; [apply Qmult_le_compat_r|]; done.
Qed.

Section Monotonia.
Variables (d1 d2 : Z) (c1 c2 : string).
Hypotheses (H1 : corte d1 = Some c1) (H2 : corte d2 = Some c2) (H12 : str_ltb c1 c2 = true).

Lemma soma_media_mono {A} (g : list (A * option (option Z * option string))) :
  opt_le le (soma_churn d1 g) (soma_churn d2 g) /\
  opt_le Qle (media_churn d1 g) (media_churn d2 g).
Proof.
  assert (count_when (churn_dias d1) g <= count_when (churn_dias d2) g) as Hc
    by (apply count_if_mono; intros r _; apply (churn_dias_mono d1 d2 r c1 c2); done).
  unfold soma_churn, media_churn. destruct g; [done|]. split; [done|].
  cbn [opt_le]. apply taxa_media_mono. done.
Qed.

Lemma obter_dados_mono clientes cartoes ts :
  Forall2 menos_churn (obter_dados_churn d1 clientes cartoes ts) (obter_dados_churn d2 clientes cartoes ts).
Proof.
  repeat constructor; cbn [categoria total_clientes clientes_churn taxa_churn_pct];
    apply soma_media_mono.
Qed.

End Monotonia.

(** The printed change between two rates, the second at most the first:
    never positive, and the script raises only on two NULL rates. *)
Lemma variacao_nao_positiva a b :
  opt_le Qle b a ->
  match variacao a b with Sessenta.Ok v => (v <= 0)%Q | Sessenta.Erro _ => a = None /\ b = None end.
Proof.
  destruct a as [x|], b as [y|]; cbn; try done; intros Hyx.
  destruct (Qltb_spec 0 x) as [Hx|Hx]; cbn; [|lra].
  unfold Qdiv. assert (0 < / x)%Q by (apply Qinv_lt_0_compat; done). nra.
Qed.

(** C20: for every category of [obter_dados_churn] the 90-day churn count
    and rate are at most the 60-day ones, which are at most the 30-day ones,
    over the same customers; so the printed change from 30 to 90 days is
    never positive: each printed change is at most 0, and the change
    raises only where both rates are NULL. *)
Theorem comparativa_monotona clientes cartoes ts :
  Forall2 menos_churn (obter_dados_churn 90 clientes cartoes ts) (obter_dados_churn 60 clientes cartoes ts) /\
  Forall2 menos_churn (obter_dados_churn 60 clientes cartoes ts) (obter_dados_churn 30 clientes cartoes ts) /\
  Forall (fun cat => forall a b, taxa_de (df_completo clientes cartoes ts) cat 30 = Some a ->
                      taxa_de (df_completo clientes cartoes ts) cat 90 = Some b ->
                      match variacao a b with
                      | Sessenta.Ok v => (v <= 0)%Q
                      | Sessenta.Erro _ => a = None /\ b = None
                      end)
    ["Idade 35-44"; "Standard"; "Cartão 7-12m"; "Renda Baixa"]%string.
Proof.
  destruct corte_ordem as (E90 & E60 & E30).
  split; [apply (obter_dados_mono 90 60 _ _ E90 E60); reflexivity|].
  split; [apply (obter_dados_mono 60 30 _ _ E60 E30); reflexivity|].
  pose proof (obter_dados_mono 90 30 _ _ E90 E30 eq_refl clientes cartoes ts) as Hm.
  inversion Hm as [|? ? ? ? (_ & _ & _ & Hi) Hm1]; subst.
  inversion Hm1 as [|? ? ? ? (_ & _ & _ & Hs) Hm2]; subst.
  inversion Hm2 as [|? ? ? ? (_ & _ & _ & Hc) Hm3]; subst.
  inversion Hm3 as [|? ? ? ? (_ & _ & _ & Hr) _]; subst.
  repeat constructor; intros a b Ha Hb; injection Ha as <-; injection Hb as <-;
    apply variacao_nao_positiva; assumption.
Qed.

End Comparativa.
