(* ===== verification/Banco.v ===== *)
(** * Building [priceless_bank.db]: [bd/criar_banco_sqlite.py]

    The script derives columns with pandas before writing the tables
    ([Module Processamento]: age, months of account and of card, the recent
    card flag, the date parts, the value band and the digital payment
    flags), and then creates four views ([Module Visoes]: the per-customer
    views [vw_analise_churn] and [vw_resumo_cliente], the per-card view
    [vw_analise_cartoes] and the joined [vw_transacoes_completas]).

    The derived columns are functions of the parsed dates (a day number and
    a time of day, [Dates]); float arithmetic is replaced by exact rationals,
    which changes no result: [days / 365.25] is never within a float's error
    of an integer, and [days / 30.44 * 100] is never a tie of [round(2)]
    (lemma [meses_sem_empate]).  The theorems show that the truncated age is the
    calendar age for every birth date from 1900 to the reference day
    (checked day by day), and that the views' status maps the three states
    of the specification to two, reporting never-activated customers as
    active. *)

From stdpp Require Import base list strings.
From Stdlib Require Import ZArith QArith Qround String Lia Lqa.
From S2P Require Import Prelude Sql Dates Pandas Schema Churn Churn90.

Local Abbreviation length := Datatypes.length.
Local Open Scope nat_scope.

Module Processamento.
Import Sql.

(** ** Columns computed from dates, lines 66-89 *)

(** [data_referencia = datetime(2024, 12, 30)], line 71, as a day number. *)
Definition dia_referencia : Z := Dates.jd_day 2024 12 30.

(** [(pd.to_datetime(data_referencia) - d).dt.days] for a timestamp [d]:
    whole days, rounded down, from [d] to the reference midnight. *)
Definition dias_ate_ref (st : Dates.stamp) : Z :=
  Pandas.dias (dia_referencia * Pandas.ms_dia) (Pandas.instante st).

(** [Idade], line 72: [(dias / 365.25).astype(int)], a truncation toward
    zero. *)
Definition idade (nascimento : Dates.stamp) : Z := Z.quot (dias_ate_ref nascimento * 100) 36525.

(** [Tempo_Conta_Meses] and [Tempo_Cartao_Meses], lines 75 and 86:
    [(dias / 30.44).round(2)]. *)
Definition meses (d : Dates.stamp) : Q := Pandas.np_round (inject_Z (dias_ate_ref d) / (3044 # 100))%Q 2.

(** [Cartao_Recente], line 89: [(Data_Emissao >= '2023-01-01').astype(int)];
    a missing date ([NaT]) compares false. *)
Definition cartao_recente (emissao : option Dates.stamp) : Z :=
  match emissao with
  | Some st =>
      match Dates.cmp_data (Dates.ano st) (Dates.mes st) (Dates.dia st) 2023 1 1 with
      | Lt => 0
      | _ => 1
      end
  | None => 0
  end.

(** ** Columns of [transacoes], lines 93-110 *)

(** [Ano], [Mes], [Dia_Semana] (Monday is 0) and [Trimestre], lines 96-101. *)
Definition ano (st : Dates.stamp) : Z := Dates.ano st.
Definition mes (st : Dates.stamp) : Z := Dates.mes st.
Definition dia_semana (st : Dates.stamp) : Z :=
  (Dates.jd_day (Dates.ano st) (Dates.mes st) (Dates.dia st)) mod 7.
Definition trimestre (st : Dates.stamp) : Z := (Dates.mes st - 1) / 3 + 1.

(** [Faixa_Valor], lines 104-106: [pd.cut] with the bins [0, 100, 500,
    1000, inf], closed on the right; a value outside them, or missing, has
    no band ([NaN]). *)
Definition faixa_valor (v : option Q) : option string :=
  match v with
  | Some x =>
      if Qle_bool x 0 then None
      else if Qle_bool x 100 then Some "Baixo"%string
      else if Qle_bool x 500 then Some "Médio"%string
      else if Qle_bool x 1000 then Some "Alto"%string
      else Some "Premium"%string
  | None => None
  end.

(** [wallets_digitais], line 108. *)
Definition wallets_digitais : list string := ["Apple Pay"; "Google Pay"; "Samsung Pay"]%string.

(** [Pagamento_Digital], line 109: [Wallet.isin(wallets_digitais).astype(int)]. *)
Definition pagamento_digital (wallet : option string) : Z :=
  match wallet with
  | Some w => if existsb (String.eqb w) wallets_digitais then 1 else 0
  | None => 0
  end.

(** [PayPass], line 110: [(Input_Mode == 'PayPass').astype(int)]. *)
Definition paypass (input_mode : option string) : Z :=
  match input_mode with
  | Some s => if String.eqb s "PayPass" then 1 else 0
  | None => 0
  end.

(** ** The rows the script writes, lines 66-110 *)

(** A row of [Base_clientes.csv] with its dates parsed by [pd.to_datetime]
    (the birth date with [format='%d/%m/%Y']); [None] is [NaT] or [NaN]. *)
Record cliente_csv := mk_cliente_csv {
  csv_Cliente_ID : option Z;
  csv_Data_Nascimento : option Dates.stamp;
  csv_Renda_Anual : option Q;
  csv_Data_Criacao_Conta : option Dates.stamp;
  csv_Numero_Cartoes : option Z;
  csv_Cidade : option string;
  csv_Estado : option string;
  csv_Possui_Conta_Adicional : option string
}.

(** A row of [Base_cartoes.csv], dates parsed. *)
Record cartao_csv := mk_cartao_csv {
  csv_ID_Cartao : option Z;
  csv_Produto_Mastercard : option string;
  csv_Tipo_Cartao : option string;
  csv_Data_Emissao : option Dates.stamp;
  csv_Data_Ativacao : option Dates.stamp;
  csv_Data_Validade : option Dates.stamp;
  csv_Limite_Cartao : option Q
}.

(** A row of [Base_transacoes.csv], its [Data] parsed. *)
Record transacao_csv := mk_transacao_csv {
  csv_ID_Transacao : option Z;
  csv_Data : option Dates.stamp;
  csv_Valor_Compra : option Q;
  csv_Cliente_ID_tx : option Z;
  csv_ID_Cartao_tx : option Z;
  csv_Wallet : option string;
  csv_Input_Mode : option string
}.

(** The text [to_sql] writes for a timestamp column ([NaT] is NULL). *)
Definition texto (d : option Dates.stamp) : option string := option_map Dates.format_stamp d.

(** Lines 66-75 on one customer.  [astype(int)] raises on the [NaN] age of a
    missing birth date: the whole step fails. *)
Definition processar_cliente (r : cliente_csv) : option Cliente.t :=
  match csv_Data_Nascimento r with
  | Some nascimento =>
      Some (Cliente.mk (csv_Cliente_ID r) (csv_Renda_Anual r) (texto (csv_Data_Criacao_Conta r))
              (csv_Estado r) (csv_Possui_Conta_Adicional r) (Some (idade nascimento))
              (option_map meses (csv_Data_Criacao_Conta r)) (Some (Dates.format_stamp nascimento))
              (csv_Numero_Cartoes r) (csv_Cidade r))
  | None => None
  end.

Definition processar_clientes (rs : list cliente_csv) : option (list Cliente.t) :=
  mapM processar_cliente rs.

(** Lines 79-89 on one card. *)
Definition processar_cartao (r : cartao_csv) : Cartao.t :=
  Cartao.mk (csv_ID_Cartao r) (csv_Produto_Mastercard r) (csv_Tipo_Cartao r)
    (texto (csv_Data_Emissao r)) (csv_Limite_Cartao r) (option_map meses (csv_Data_Emissao r))
    (Some (cartao_recente (csv_Data_Emissao r))) (texto (csv_Data_Ativacao r))
    (texto (csv_Data_Validade r)).

(** Lines 93-110 on one transaction. *)
Definition processar_transacao (r : transacao_csv) : Transacao.t :=
  Transacao.mk (csv_ID_Transacao r) (texto (csv_Data r)) (csv_Valor_Compra r)
    (csv_Cliente_ID_tx r) (csv_ID_Cartao_tx r) (csv_Wallet r) (csv_Input_Mode r)
    (Some (pagamento_digital (csv_Wallet r))) (Some (paypass (csv_Input_Mode r)))
    (option_map ano (csv_Data r)) (option_map mes (csv_Data r))
    (option_map dia_semana (csv_Data r)) (option_map trimestre (csv_Data r))
    (faixa_valor (csv_Valor_Compra r)).

(** ** Properties of the derived columns *)

(** The age in full years on the reference day 2024-12-30: one less when
    the birthday (December 31) is still to come. *)
Definition idade_calendario (y m d : Z) : Z :=
  if (100 * m + d <=? 1230)%Z then 2024 - y else 2023 - y.

Definition meia_noite (y m d : Z) : Dates.stamp := Dates.mk_stamp y m d 0 0 0.

Definition idade_ok (y m d : Z) : bool :=
  negb (Dates.data_valida y m d) ||
  bool_decide (Dates.cmp_data y m d 2024 12 30 = Gt) ||
  (idade (meia_noite y m d) =? idade_calendario y m d)%Z.

Lemma all_from_3 (f : Z -> Z -> Z -> bool) ny y0 :
  all_from ny (fun y => all_from 12 (fun m => all_from 31 (fun d => f y m d) 1) 1) y0 = true ->
  forall y m d, (y0 <= y < y0 + Z.of_nat ny)%Z -> (1 <= m <= 12)%Z -> (1 <= d <= 31)%Z -> f y m d = true.
Proof.
  intros H y m d Hy Hm Hd.
  apply (all_from_spec 31 (fun d => f y m d) 1); [|lia].
  apply (all_from_spec 12 (fun m => all_from 31 (fun d => f y m d) 1) 1); [|lia].
  apply (all_from_spec ny (fun y => all_from 12 (fun m => all_from 31 (fun d => f y m d) 1) 1) y0); [exact H|lia].
Qed.

(** the age column, [int(days / 365.25)], is the calendar age on
    2024-12-30 of every customer born at midnight of a valid date between
    1900-01-01 and the reference day (checked day by day; on 1899-12-30 the
    formula already gives one year less, lemma [idade_1899]). *)
Theorem idade_exata y m d :
  Dates.data_valida y m d = true -> (1900 <= y)%Z -> Dates.cmp_data y m d 2024 12 30 <> Gt ->
  idade (meia_noite y m d) = idade_calendario y m d.
Proof.
  intros Hv Hy Hc.
  assert (y <= 2024)%Z.
  { destruct (Z.le_gt_cases y 2024) as [|Hgt]; [done|]. exfalso. apply Hc.
    unfold Dates.cmp_data. rewrite (proj2 (Z.compare_gt_iff _ _) Hgt). done. }
  assert (idade_ok y m d = true) as Hok.
  { apply (all_from_3 idade_ok 125 1900); [vm_compute; reflexivity|lia|..];
      unfold Dates.data_valida in Hv; rewrite !andb_true_iff, !Z.leb_le in Hv;
      pose proof (Dates.dias_no_mes_bounds y m); lia. }
  unfold idade_ok in Hok. rewrite Hv, bool_decide_false in Hok by done. apply Z.eqb_eq. done.
Qed.

Lemma idade_1899 : idade (meia_noite 1899 12 30) = 124%Z /\ idade_calendario 1899 12 30 = 125%Z.
Proof. vm_compute. split; reflexivity. Qed.

(** Away from ties, numpy's rounding and [ROUND] agree. *)
Lemma np_round2_sql_round x :
  (forall k : Z, ~ (x * 200 == inject_Z (2 * k + 1))%Q) -> (Pandas.np_round x 2 == sql_round x 2)%Q.
Proof.
  intros Hk. unfold Pandas.np_round, sql_round. change (inject_Z (10 ^ Z.of_nat 2)) with 100%Q.
  pose proof (Qfloor_le (x * 100)) as Hf1. pose proof (Qlt_floor (x * 100)) as Hf2.
  set (f := Qfloor (x * 100)) in *. rewrite inject_Z_plus in Hf2. change (inject_Z 1) with 1%Q in Hf2.
  destruct (Qlt_le_dec (x * 100 - inject_Z f) (1 # 2)) as [Hr|Hr];
    [|destruct (Qlt_le_dec (1 # 2) (x * 100 - inject_Z f)) as [Hr'|Hr']].
  - rewrite (Qfloor_eq (x * 100 + (1 # 2)) f) by lra.
    rewrite (Qfloor_eq (- x * 100 + (1 # 2)) (- f)) by (rewrite inject_Z_opp; lra).
    destruct (Qle_bool 0 x); [reflexivity|]. rewrite inject_Z_opp. field.
  - rewrite (Qfloor_eq (x * 100 + (1 # 2)) (f + 1))
      by (rewrite inject_Z_plus; change (inject_Z 1) with 1%Q; lra).
    rewrite (Qfloor_eq (- x * 100 + (1 # 2)) (- (f + 1)))
      by (rewrite inject_Z_opp, inject_Z_plus; change (inject_Z 1) with 1%Q; lra).
    destruct (Qle_bool 0 x); [reflexivity|]. rewrite inject_Z_opp. field.
  - exfalso. apply (Hk f). rewrite inject_Z_plus, inject_Z_mult. change (inject_Z 1) with 1%Q.
    change (inject_Z 2) with 2%Q. lra.
Qed.

(** [days / 30.44 * 100] is never half an odd integer: [5000 * days] is even
    and [761] odd. *)
Lemma meses_sem_empate (n : Z) (k : Z) : ~ (inject_Z n / (3044 # 100) * 200 == inject_Z (2 * k + 1))%Q.
Proof. unfold Qeq, Qdiv, Qmult, Qinv. cbn. lia. Qed.

(** numpy rounds the months of account and of card half to even and
    SQLite's [ROUND] half away from zero; on [days / 30.44] the two never
    differ, so the stored column is [ROUND(days / 30.44, 2)] whatever the
    date. *)
Theorem meses_arredondamento (d : Dates.stamp) :
  (meses d == sql_round (inject_Z (dias_ate_ref d) / (3044 # 100)) 2)%Q.
Proof. unfold meses. apply np_round2_sql_round. apply meses_sem_empate. Qed.

(** the transactions the script writes carry the timestamp texts the
    query theorems assume ([Schema.datas_pandas]) as soon as the parsed
    dates are valid and within the years of [Dates]. *)
Theorem processar_datas_pandas (rs : list transacao_csv) :
  Forall (fun r => forall st, csv_Data r = Some st ->
            Dates.stamp_valido st = true /\ (Dates.ano_min <= Dates.ano st <= Dates.ano_max)%Z) rs ->
  Schema.datas_pandas (map processar_transacao rs).
Proof.
  intros Hrs. unfold Schema.datas_pandas. apply List.Forall_map. eapply List.Forall_impl; [|exact Hrs].
  intros r Hr s0 Hs. cbn beta in Hr. cbn in Hs. unfold texto in Hs.
  destruct (csv_Data r) as [st|]; [|done]. injection Hs as <-. exists st. split; [done|]. apply Hr. done.
Qed.

(** processing the customers fails, as [astype(int)] raises on a [NaN]
    age, exactly when some birth date is missing. *)
Theorem processar_clientes_erro (rs : list cliente_csv) :
  processar_clientes rs = None <-> Exists (fun r => csv_Data_Nascimento r = None) rs.
Proof.
  unfold processar_clientes. induction rs as [|r rs IH]; simpl.
  - split; [done|]. intros H. inversion H.
  - assert (processar_cliente r = None <-> csv_Data_Nascimento r = None) as Hr
      by (unfold processar_cliente; destruct (csv_Data_Nascimento r); done).
    rewrite List.Exists_cons, <- IH, <- Hr.
    destruct (processar_cliente r), (mapM processar_cliente rs); simpl; naive_solver.
Qed.

Lemma idade_exata_witness :
  Dates.data_valida 1990 12 31 = true /\ (1900 <= 1990)%Z /\ Dates.cmp_data 1990 12 31 2024 12 30 <> Gt /\
  idade (meia_noite 1990 12 31) = idade_calendario 1990 12 31.
Proof.
  assert (Dates.data_valida 1990 12 31 = true) as H1 by reflexivity.
  assert (Dates.cmp_data 1990 12 31 2024 12 30 <> Gt) as H3 by discriminate.
  split; [exact H1|]. split; [lia|]. split; [exact H3|]. apply idade_exata; [exact H1|lia|exact H3].
Defined.

(** Three rows of [Base_transacoes.csv], parsed. *)
Definition ex_csv_transacoes : list transacao_csv :=
  [mk_transacao_csv (Some 1%Z) (Some (Dates.mk_stamp 2024 12 1 10 15 0)) (Some 50%Q) (Some 1%Z)
     (Some 10%Z) (Some "Apple Pay"%string) (Some "PayPass"%string);
   mk_transacao_csv (Some 2%Z) (Some (Dates.mk_stamp 2024 5 1 9 30 0)) (Some 700%Q) (Some 2%Z)
     (Some 11%Z) None (Some "Chip"%string);
   mk_transacao_csv (Some 3%Z) (Some (Dates.mk_stamp 2024 4 2 18 0 0)) (Some 80%Q) (Some 2%Z)
     (Some 11%Z) (Some "Google Pay"%string) (Some "Chip"%string)].

Lemma ex_csv_datas :
  Forall (fun r => forall st, csv_Data r = Some st ->
            Dates.stamp_valido st = true /\ (Dates.ano_min <= Dates.ano st <= Dates.ano_max)%Z)
    ex_csv_transacoes.
Proof.
  apply List.Forall_forall. intros r Hr st Hst.
  destruct Hr as [<-|[<-|[<-|[]]]]; injection Hst as <-;
    (split; [vm_compute; reflexivity|]); cbn; unfold Dates.ano_min, Dates.ano_max; lia.
Qed.

Lemma processar_datas_pandas_witness :
  Forall (fun r => forall st, csv_Data r = Some st ->
            Dates.stamp_valido st = true /\ (Dates.ano_min <= Dates.ano st <= Dates.ano_max)%Z)
    ex_csv_transacoes /\
  Schema.datas_pandas (map processar_transacao ex_csv_transacoes).
Proof. split; [exact ex_csv_datas|]. apply processar_datas_pandas. exact ex_csv_datas. Defined.

(** SQLite's Julian day of a timestamp is pandas' instant shifted by half a
    day (a Julian day starts at noon). *)
Lemma iJD_instante st :
  Dates.iJD (Dates.mk_datetime (Dates.ano st) (Dates.mes st) (Dates.dia st)
               (Some (Dates.hora st, Dates.minuto st, Dates.segundo st))) =
  (Pandas.instante st - 43200000)%Z.
Proof.
  unfold Dates.iJD, Dates.computeJD, Pandas.instante, Dates.jd_day, Pandas.ms_dia. cbn [Dates.Y Dates.M Dates.D Dates.hms].
  destruct (Dates.mes st <=? 2)%Z; lia.
Qed.

(** C10: the [Data] text the script writes for a valid timestamp is read
    back by SQLite as the same date and time of day; its [JULIANDAY] is
    pandas' instant of the timestamp (less half a day), and its
    [strftime('%Y')] is the [Ano] column pandas derived. *)
Theorem data_ida_volta r st :
  csv_Data r = Some st -> Dates.stamp_valido st = true ->
  let data := Transacao.Data (processar_transacao r) in
  option_map Dates.parse_date data =
    Some (Some (Dates.mk_datetime (Dates.ano st) (Dates.mes st) (Dates.dia st)
                  (Some (Dates.hora st, Dates.minuto st, Dates.segundo st)))) /\
  Dates.julianday data = Some (inject_Z (Pandas.instante st - 43200000) / inject_Z 86400000)%Q /\
  Dates.strftime_Y data = option_map (Dates.pad 4) (Transacao.Ano (processar_transacao r)).
Proof.
  intros Hd Hv data. unfold data. cbn [processar_transacao Transacao.Data Transacao.Ano]. rewrite Hd.
  cbn [texto option_map Dates.julianday Dates.strftime_Y]. rewrite Dates.parse_format_stamp by done.
  cbn [option_map Dates.Y]. rewrite iJD_instante. done.
Qed.

Lemma data_ida_volta_witness :
  csv_Data (List.hd (mk_transacao_csv None None None None None None None) ex_csv_transacoes) =
    Some (Dates.mk_stamp 2024 12 1 10 15 0) /\
  Dates.stamp_valido (Dates.mk_stamp 2024 12 1 10 15 0) = true /\
  let st := Dates.mk_stamp 2024 12 1 10 15 0 in
  let data := Transacao.Data (processar_transacao
                (List.hd (mk_transacao_csv None None None None None None None) ex_csv_transacoes)) in
  option_map Dates.parse_date data =
    Some (Some (Dates.mk_datetime (Dates.ano st) (Dates.mes st) (Dates.dia st)
                  (Some (Dates.hora st, Dates.minuto st, Dates.segundo st)))) /\
  Dates.julianday data = Some (inject_Z (Pandas.instante st - 43200000) / inject_Z 86400000)%Q /\
  Dates.strftime_Y data = option_map (Dates.pad 4)
    (Transacao.Ano (processar_transacao (List.hd (mk_transacao_csv None None None None None None None) ex_csv_transacoes))).
Proof.
  assert (csv_Data (List.hd (mk_transacao_csv None None None None None None None) ex_csv_transacoes) =
            Some (Dates.mk_stamp 2024 12 1 10 15 0)) as Hd by reflexivity.
  assert (Dates.stamp_valido (Dates.mk_stamp 2024 12 1 10 15 0) = true) as Hv by (vm_compute; reflexivity).
  split; [exact Hd|]. split; [exact Hv|]. exact (data_ida_volta _ _ Hd Hv).
Defined.

End Processamento.

Module Visoes.
Import Sql.

(** ** The views, lines 217-326 *)

(** [GROUP BY key] with one output row per group, computed by [f] from a row
    of the group (whose bare columns the row shows) and the group. *)
Definition agrupar {A K S} `{EqDecision K} (key : A -> K) (f : A -> list A -> S) (rows : list A)
  : list S :=
  flat_map (fun kg => match snd kg with [] => [] | r :: _ => [f r (snd kg)] end) (group_by key rows).

(** A column of [t] in a row of a [LEFT JOIN transacoes t]: NULL where no
    transaction matched. *)
Definition col_t {A B} (f : Transacao.t -> option A) (r : B * option Transacao.t) : option A :=
  coluna (option_map f (snd r)).

(** [MAX(t.data) < DATE('2024-12-30', '-90 days')], the churn test of the
    three views. *)
Definition churn_max (ultima : option string) : sbool := s_lt ultima Classifier.corte_90.

(** [faixa_tempo_conta] and [faixa_tempo_cartao]: the [<=] chain. *)
Definition faixa_tempo (meses : option Q) : string :=
  case_when [(s_le meses (Some 6%Q), "0-6 meses"); (s_le meses (Some 12%Q), "6-12 meses");
             (s_le meses (Some 18%Q), "12-18 meses"); (s_le meses (Some 24%Q), "18-24 meses")]%string
    "24+ meses"%string.

(** [FROM clientes c LEFT JOIN transacoes t ON c.cliente_id = t.cliente_id]. *)
Definition clientes_transacoes (clientes : list Cliente.t) (transacoes : list Transacao.t)
  : list (Cliente.t * option Transacao.t) :=
  left_join (fun c t => s_eq (Cliente.Cliente_ID c) (Transacao.Cliente_ID t)) clientes transacoes.

(** *** [vw_analise_churn], lines 217-244 *)

Record analise_churn := mk_analise_churn {
  ac_cliente_id : option Z;
  ac_idade : option Z;
  ac_renda_anual : option Q;
  ac_tempo_conta_meses : option Q;
  ac_estado : option string;
  ac_possui_conta_adicional : option string;
  ac_ultima_transacao : option string;
  ac_total_transacoes : nat;
  ac_valor_total : option Q;
  ac_ticket_medio : option Q;
  ac_churn : Z;
  ac_faixa_tempo_conta : string
}.

Definition analise_de (r : Cliente.t * option Transacao.t) (g : list (Cliente.t * option Transacao.t))
  : analise_churn :=
  let c := fst r in
  let ultima := max_col (map (col_t Transacao.Data) g) in
  mk_analise_churn (Cliente.Cliente_ID c) (Cliente.Idade c) (Cliente.Renda_Anual c)
    (Cliente.Tempo_Conta_Meses c) (Cliente.Estado c) (Cliente.Possui_Conta_Adicional c)
    ultima (count_col (map (col_t Transacao.ID_Transacao) g))
    (sum_col (map (col_t Transacao.Valor_Compra) g)) (avg_col (map (col_t Transacao.Valor_Compra) g))
    (if holds (churn_max ultima) then 1%Z else 0%Z) (faixa_tempo (Cliente.Tempo_Conta_Meses c)).

Definition vw_analise_churn (clientes : list Cliente.t) (transacoes : list Transacao.t)
  : list analise_churn :=
  agrupar (fun r => Cliente.Cliente_ID (fst r)) analise_de (clientes_transacoes clientes transacoes).

(** *** [vw_analise_cartoes], lines 249-279 *)

Record analise_cartao := mk_analise_cartao {
  acc_id_cartao : option Z;
  acc_produto_mastercard : option string;
  acc_tipo_cartao : option string;
  acc_limite_cartao : option Q;
  acc_tempo_cartao_meses : option Q;
  acc_cartao_recente : option Z;
  acc_cliente_id : option Z;
  acc_estado : option string;
  acc_total_transacoes : nat;
  acc_valor_total : option Q;
  acc_ultima_transacao : option string;
  acc_churn : Z;
  acc_faixa_tempo_cartao : string
}.

Definition linha_cartao : Type := (Cartao.t * option Transacao.t) * option Cliente.t.

Definition analise_cartao_de (r : linha_cartao) (g : list linha_cartao) : analise_cartao :=
  let k := fst (fst r) in
  let ts := map fst g in
  let ultima := max_col (map (col_t Transacao.Data) ts) in
  mk_analise_cartao (Cartao.ID_Cartao k) (Cartao.Produto_Mastercard k) (Cartao.Tipo_Cartao k)
    (Cartao.Limite_Cartao k) (Cartao.Tempo_Cartao_Meses k) (Cartao.Cartao_Recente k)
    (coluna (option_map Cliente.Cliente_ID (snd r))) (coluna (option_map Cliente.Estado (snd r)))
    (count_col (map (col_t Transacao.ID_Transacao) ts)) (sum_col (map (col_t Transacao.Valor_Compra) ts))
    ultima (if holds (churn_max ultima) then 1%Z else 0%Z) (faixa_tempo (Cartao.Tempo_Cartao_Meses k)).

(** [FROM cartoes cart LEFT JOIN transacoes t ON cart.id_cartao =
    t.id_cartao LEFT JOIN clientes c ON t.cliente_id = c.cliente_id WHERE
    cart.cartao_recente = 1 GROUP BY cart.id_cartao]. *)
Definition vw_analise_cartoes (cartoes : list Cartao.t) (transacoes : list Transacao.t)
    (clientes : list Cliente.t) : list analise_cartao :=
  agrupar (fun r : linha_cartao => Cartao.ID_Cartao (fst (fst r))) analise_cartao_de
    (where_ (fun r : linha_cartao => s_eq (Cartao.Cartao_Recente (fst (fst r))) (Some 1%Z))
       (left_join (fun kt c => s_eq (col_t Transacao.Cliente_ID kt) (Cliente.Cliente_ID c))
          (left_join (fun k t => s_eq (Cartao.ID_Cartao k) (Transacao.ID_Cartao t)) cartoes transacoes)
          clientes)).

(** *** [vw_transacoes_completas], lines 284-299: each transaction with its
    customer and its card (the selected columns are theirs). *)
Definition vw_transacoes_completas (transacoes : list Transacao.t) (clientes : list Cliente.t)
    (cartoes : list Cartao.t) : list ((Transacao.t * Cliente.t) * Cartao.t) :=
  inner_join (fun tc k => s_eq (Transacao.ID_Cartao (fst tc)) (Cartao.ID_Cartao k))
    (inner_join (fun t c => s_eq (Transacao.Cliente_ID t) (Cliente.Cliente_ID c)) transacoes clientes)
    cartoes.

(** *** [vw_resumo_cliente], lines 304-326 *)

Record resumo_cliente := mk_resumo_cliente {
  rc_cliente_id : option Z;
  rc_idade : option Z;
  rc_renda_anual : option Q;
  rc_estado : option string;
  rc_tempo_conta_meses : option Q;
  rc_qtd_cartoes_ativos : nat;
  rc_total_transacoes : nat;
  rc_receita_total : option Q;
  rc_ticket_medio : option Q;
  rc_transacoes_digitais : option Z;
  rc_pct_digital : option Q;
  rc_ultima_transacao : option string;
  rc_status_cliente : string
}.

(** [ROUND(SUM(t.pagamento_digital) * 100.0 / COUNT(t.id_transacao), 2)]:
    NULL when the sum is NULL or the count is zero (division by zero). *)
Definition pct_digital (soma : option Z) (n : nat) : option Q :=
  match soma with
  | Some s => if (n =? 0)%nat then None
              else Some (sql_round (inject_Z s * 100 / inject_Z (Z.of_nat n))%Q 2)
  | None => None
  end.

(** [CASE WHEN MAX(t.data) < DATE(...) THEN 'Churn' ELSE 'Ativo' END]. *)
Definition status_cliente (ultima : option string) : string :=
  if holds (churn_max ultima) then "Churn"%string else "Ativo"%string.

Definition resumo_de (r : Cliente.t * option Transacao.t) (g : list (Cliente.t * option Transacao.t))
  : resumo_cliente :=
  let c := fst r in
  let ultima := max_col (map (col_t Transacao.Data) g) in
  let n := count_col (map (col_t Transacao.ID_Transacao) g) in
  let digitais := sum_col_Z (map (col_t Transacao.Pagamento_Digital) g) in
  mk_resumo_cliente (Cliente.Cliente_ID c) (Cliente.Idade c) (Cliente.Renda_Anual c)
    (Cliente.Estado c) (Cliente.Tempo_Conta_Meses c)
    (Ultima.count_distinct (map (col_t Transacao.ID_Cartao) g)) n
    (sum_col (map (col_t Transacao.Valor_Compra) g)) (avg_col (map (col_t Transacao.Valor_Compra) g))
    digitais (pct_digital digitais n) ultima (status_cliente ultima).

Definition vw_resumo_cliente (clientes : list Cliente.t) (transacoes : list Transacao.t)
  : list resumo_cliente :=
  agrupar (fun r => Cliente.Cliente_ID (fst r)) resumo_de (clientes_transacoes clientes transacoes).

(** ** Properties of the views *)

(** A row of a grouped view is computed from a group, a row of it first. *)
Lemma In_agrupar {A K S} `{EqDecision K} (key : A -> K) (f : A -> list A -> S) rows s :
  In s (agrupar key f rows) ->
  exists r rest, In r rows /\ group_of key (key r) rows = r :: rest /\ s = f r (r :: rest).
Proof.
  unfold agrupar. rewrite in_flat_map. intros ([k g] & Hkg & Hs). cbn [snd] in Hs.
  apply In_group_by in Hkg as [_ ->]. destruct (group_of key k rows) as [|r rest] eqn:E; [done|].
  destruct Hs as [<-|[]]. assert (In r (group_of key k rows)) as Hr by (rewrite E; left; done).
  apply In_group_of in Hr as [Hr <-]. exists r, rest. done.
Qed.

(** The dates the [t] columns of a customer's group show are the dates of
    its transactions. *)
Lemma datas_grupo (cs : list Cliente.t) ts k a :
  k <> None -> (exists c, In c (group_of Cliente.Cliente_ID k cs)) ->
  In (Some a) (map (col_t Transacao.Data)
    (left_join (fun c t => s_eq (Cliente.Cliente_ID c) (Transacao.Cliente_ID t))
       (group_of Cliente.Cliente_ID k cs) ts)) <->
  exists t, In t (Schema.tx_of ts k) /\ Transacao.Data t = Some a.
Proof.
  intros Hk [c0 Hc0]. rewrite in_map_iff. split.
  - intros ([c o] & Ha & Hin). apply In_left_join in Hin as [Hc Ho].
    apply In_group_of in Hc as [_ Hck]. destruct o as [t|]; [|done].
    destruct Ho as [Ht Hm]. exists t. rewrite Classifier.In_tx_of.
    rewrite holds_s_eq in Hm. destruct Hm as [Hm _]. split; [split; [done|split; congruence]|done].
  - intros (t & Ht & Ha). exists (c0, Some t). split; [done|].
    apply Classifier.In_tx_of in Ht as (Ht & Htk & _). apply left_join_In; [done|done|].
    apply In_group_of in Hc0 as [_ Hck]. apply holds_s_eq. rewrite Hck, Htk. done.
Qed.

(** On a pandas timestamp the 90-day cutoff is never equal: below it or
    above it. *)
Lemma stamp_corte_90 ts t a :
  Schema.datas_pandas ts -> In t ts -> Transacao.Data t = Some a ->
  holds (s_lt (Some a) Classifier.corte_90) = negb (holds (s_gt (Some a) Classifier.corte_90)).
Proof.
  intros Hts Ht Ha. unfold Schema.datas_pandas in Hts. rewrite List.Forall_forall in Hts.
  destruct (Hts t Ht a Ha) as (st & -> & Hv & _).
  change Classifier.corte_90 with Ultima.corte_90. rewrite Ultima.corte_90_valor.
  cbn [s_lt s_gt holds sql_ltb sqlord_string].
  rewrite Dates.stamp_lt_date, Dates.stamp_gt_date by (done || reflexivity).
  case_bool_decide; done.
Qed.

(** C9: the status of [vw_resumo_cliente] refines the three states of the
    specification into two: a customer whose transactions all fall before
    the 90-day cutoff is ['Churn'], and both an active customer and one who
    never transacted are ['Ativo'] ([MAX] over no transaction is NULL and
    the test is not TRUE). *)
Theorem status_cliente_estado clientes ts r :
  Schema.datas_pandas ts -> Forall (fun t => Transacao.Data t <> None) ts ->
  In r (vw_resumo_cliente clientes ts) -> rc_cliente_id r <> None ->
  rc_status_cliente r =
  match Classifier.estado_spec Classifier.corte_90 ts (rc_cliente_id r) with
  | Classifier.Inativo => "Churn"%string
  | _ => "Ativo"%string
  end.
Proof.
  intros Hts Hnn Hin Hid. apply In_agrupar in Hin as (r0 & rest & Hr0 & Hg & ->).
  unfold resumo_de in *. cbn [rc_status_cliente rc_cliente_id] in *.
  set (k := Cliente.Cliente_ID (fst r0)) in *. rewrite <- Hg.
  unfold clientes_transacoes. rewrite group_of_left_join.
  assert (exists c, In c (group_of Cliente.Cliente_ID k clientes)) as Hc.
  { exists (fst r0). destruct r0 as [c o]. apply In_left_join in Hr0 as [Hc _]. apply In_group_of. done. }
  pose proof (fun a => datas_grupo clientes ts k a Hid Hc) as HL.
  unfold status_cliente, churn_max, Classifier.estado_spec, Classifier.ultima_transacao.
  set (L := map (col_t Transacao.Data) _) in *.
  destruct (Schema.tx_of ts k) as [|t0 l] eqn:E.
  - destruct (holds (s_lt (max_col L) _)) eqn:Hh; [|done].
    apply holds_s_lt_max in Hh as [(a & Ha) _]. apply HL in Ha as (t & [] & _).
  - rewrite <- E in *. destruct (holds (s_gt (max_col (map Transacao.Data (Schema.tx_of ts k))) _)) eqn:Hgt.
    + destruct (holds (s_lt (max_col L) _)) eqn:Hh; [|done]. exfalso.
      apply holds_s_gt_max in Hgt as (x & Hx & Hxc). apply in_map_iff in Hx as (t & <- & Ht).
      destruct (Transacao.Data t) as [a|] eqn:Ha; [|done].
      apply holds_s_lt_max in Hh as [_ Hall].
      assert (In (Some a) L) as HaL by (apply HL; exists t; done).
      apply Classifier.In_tx_of in Ht as (Ht & _).
      specialize (Hall a HaL). rewrite (stamp_corte_90 ts t a Hts Ht Ha), Hxc in Hall. done.
    + replace (holds (s_lt (max_col L) _)) with true; [done|]. symmetry. apply holds_s_lt_max. split.
      * assert (In t0 (Schema.tx_of ts k)) as Ht0 by (rewrite E; left; done).
        pose proof Ht0 as Ht0'. apply Classifier.In_tx_of in Ht0' as (Ht0' & _).
        rewrite List.Forall_forall in Hnn. destruct (Transacao.Data t0) as [a0|] eqn:Ha0;
          [|by apply Hnn in Ht0']. exists a0. apply HL. exists t0. done.
      * intros a Ha. apply HL in Ha as (t & Ht & Ha). pose proof Ht as Ht'.
        apply Classifier.In_tx_of in Ht' as (Ht' & _). rewrite (stamp_corte_90 ts t a Hts Ht' Ha).
        destruct (holds (s_gt (Some a) _)) eqn:Hga; [|done]. exfalso.
        assert (holds (s_gt (max_col (map Transacao.Data (Schema.tx_of ts k))) Classifier.corte_90) = true)
          as Hc'; [|congruence].
        apply holds_s_gt_max. exists (Some a). split; [|done]. rewrite <- Ha. apply in_map. done.
Qed.

(** The digital payments a group sums are at most the transactions it
    counts, when every transaction has an id and a 0/1 flag. *)
Lemma digitais_le_total {A} (g : list (A * option Transacao.t)) :
  (forall a t, In (a, Some t) g -> Transacao.ID_Transacao t <> None /\
     (Transacao.Pagamento_Digital t = Some 0%Z \/ Transacao.Pagamento_Digital t = Some 1%Z)) ->
  (0 <= fold_right Z.add 0 (nao_nulos (map (col_t Transacao.Pagamento_Digital) g)) <=
   Z.of_nat (count_col (map (col_t Transacao.ID_Transacao) g)))%Z.
Proof.
  unfold count_col, nao_nulos. induction g as [|[a o] g IH]; intros Hg; [cbn; lia|].
  cbn [map]. rewrite count_if_cons.
  assert (forall a t, In (a, Some t) g -> Transacao.ID_Transacao t <> None /\
     (Transacao.Pagamento_Digital t = Some 0%Z \/ Transacao.Pagamento_Digital t = Some 1%Z)) as Hg'
    by (intros a' t' Ht'; apply (Hg a' t'); right; exact Ht').
  specialize (IH Hg'). destruct o as [t|]; cbn; [|done].
  destruct (Hg a t (or_introl eq_refl)) as [Hid Hpd].
  destruct (Transacao.ID_Transacao t); [|done]. destruct Hpd as [-> | ->]; cbn; lia.
Qed.

(** the share of digital payments of [vw_resumo_cliente] is a
    percentage in [0, 100] when every transaction has an id and a 0/1
    [pagamento_digital], as the script computes it. *)
Theorem pct_digital_limites clientes ts r p :
  Forall (fun t => Transacao.ID_Transacao t <> None /\
    (Transacao.Pagamento_Digital t = Some 0%Z \/ Transacao.Pagamento_Digital t = Some 1%Z)) ts ->
  In r (vw_resumo_cliente clientes ts) -> rc_pct_digital r = Some p -> (0 <= p <= 100)%Q.
Proof.
  intros Hts Hin Hp. apply In_agrupar in Hin as (r0 & rest & _ & Hg & ->).
  unfold resumo_de in Hp. cbn [rc_pct_digital] in Hp. rewrite <- Hg in Hp.
  set (g := group_of _ _ _) in Hp.
  assert (forall a t, In (a, Some t) g -> Transacao.ID_Transacao t <> None /\
     (Transacao.Pagamento_Digital t = Some 0%Z \/ Transacao.Pagamento_Digital t = Some 1%Z)) as Hg'.
  { intros a t Ht. apply In_group_of in Ht as [Ht _]. apply In_left_join in Ht as [_ [Ht _]].
    rewrite List.Forall_forall in Hts. apply Hts. done. }
  pose proof (digitais_le_total g Hg') as Hle. unfold pct_digital, sum_col_Z in Hp.
  destruct (nao_nulos _) as [|x xs] eqn:E; [done|].
  destruct (count_col _ =? 0)%nat eqn:Hn; [done|]. apply Nat.eqb_neq in Hn. injection Hp as <-.
  apply sql_round_2_range. change (x + fold_right Z.add 0%Z xs)%Z with (fold_right Z.add 0%Z (x :: xs)).
  rewrite <- (Z2Nat.id (fold_right Z.add 0%Z (x :: xs))) by lia.
  apply (Classifier.share_range (Z.to_nat (fold_right Z.add 0%Z (x :: xs)))); lia.
Qed.

(** ** Examples *)

Definition ex_clientes : list Cliente.t :=
  [Cliente.cli (Some 1%Z) (Some 60000%Q) (Some "2023-02-10 00:00:00"%string) (Some "MG"%string)
     (Some "Não"%string) (Some 40%Z) (Some (2248 # 100));
   Cliente.cli (Some 2%Z) (Some 40000%Q) (Some "2022-07-01 00:00:00"%string) (Some "SP"%string)
     (Some "Sim"%string) (Some 30%Z) (Some (3006 # 100));
   Cliente.cli (Some 3%Z) (Some 90000%Q) (Some "2024-03-05 00:00:00"%string) (Some "RJ"%string)
     (Some "Não"%string) (Some 52%Z) (Some (983 # 100))].

Definition ex_transacoes : list Transacao.t :=
  map Processamento.processar_transacao Processamento.ex_csv_transacoes.

Lemma ex_datas_banco : Schema.datas_pandas ex_transacoes.
Proof.
  apply List.Forall_forall. intros t Ht s Hs.
  destruct Ht as [<-|[<-|[<-|[]]]]; injection Hs as <-;
    [exists (Dates.mk_stamp 2024 12 1 10 15 0) | exists (Dates.mk_stamp 2024 5 1 9 30 0)
    | exists (Dates.mk_stamp 2024 4 2 18 0 0)];
    (split; [reflexivity|split; [vm_compute; reflexivity|]]);
    cbn; unfold Dates.ano_min, Dates.ano_max; lia.
Qed.

Lemma ex_ids_banco : Forall (fun r => rc_cliente_id r <> None) (vw_resumo_cliente ex_clientes ex_transacoes).
Proof. vm_compute. repeat constructor; discriminate. Qed.

Lemma status_cliente_estado_witness :
  Schema.datas_pandas ex_transacoes /\ Forall (fun t => Transacao.Data t <> None) ex_transacoes /\
  map rc_status_cliente (vw_resumo_cliente ex_clientes ex_transacoes) = ["Ativo"; "Churn"; "Ativo"]%string /\
  Forall (fun r => rc_status_cliente r =
                   match Classifier.estado_spec Classifier.corte_90 ex_transacoes (rc_cliente_id r) with
                   | Classifier.Inativo => "Churn"%string
                   | _ => "Ativo"%string
                   end) (vw_resumo_cliente ex_clientes ex_transacoes).
Proof.
  assert (Forall (fun t => Transacao.Data t <> None) ex_transacoes) as Hn
    by (repeat constructor; discriminate).
  split; [exact ex_datas_banco|]. split; [exact Hn|]. split; [vm_compute; reflexivity|].
  apply List.Forall_forall. intros r Hr. apply (status_cliente_estado ex_clientes ex_transacoes r ex_datas_banco Hn Hr).
  exact (proj1 (List.Forall_forall _ _) ex_ids_banco r Hr).
Defined.

Definition ex_resumo : resumo_cliente :=
  List.hd (mk_resumo_cliente None None None None None 0 0 None None None None None "")
    (vw_resumo_cliente ex_clientes ex_transacoes).

Lemma pct_digital_limites_witness :
  Forall (fun t => Transacao.ID_Transacao t <> None /\
    (Transacao.Pagamento_Digital t = Some 0%Z \/ Transacao.Pagamento_Digital t = Some 1%Z)) ex_transacoes /\
  In ex_resumo (vw_resumo_cliente ex_clientes ex_transacoes) /\
  exists p, rc_pct_digital ex_resumo = Some p /\ (0 <= p <= 100)%Q.
Proof.
  assert (Forall (fun t => Transacao.ID_Transacao t <> None /\
    (Transacao.Pagamento_Digital t = Some 0%Z \/ Transacao.Pagamento_Digital t = Some 1%Z)) ex_transacoes) as H1
    by (repeat constructor; (discriminate || (left; reflexivity) || (right; reflexivity))).
  assert (In ex_resumo (vw_resumo_cliente ex_clientes ex_transacoes)) as H2 by (vm_compute; left; reflexivity).
  split; [exact H1|]. split; [exact H2|]. eexists. split; [vm_compute; reflexivity|].
  apply (pct_digital_limites ex_clientes ex_transacoes ex_resumo); [exact H1|exact H2|vm_compute; reflexivity].
Defined.

End Visoes.
