(* ===== verification/Validacao.v ===== *)
(** * The validation tests of [bd/criar_banco_sqlite.py], lines 520-557

    After creating the views the script runs four queries and prints their
    results: the row counts of the three tables, the overall churn rate
    over [vw_analise_churn], the share of digital transactions, and the
    churn rate per card-age band over [vw_analise_cartoes].  They are
    modelled on the tables and views of [Banco.v].

    The theorems show that [vw_analise_churn] has one row per distinct
    customer id (so, with unique ids, exactly as many rows as the
    [COUNT( * ) FROM clientes] of the first test), that the two rates are
    percentages, NULL exactly on an empty table, and that the per-band table
    has one row per band, totals that add up to the rows of the view, and
    comes out in decreasing order of its rate. *)

From stdpp Require Import base list sets strings.
From Stdlib Require Import ZArith QArith Qround String Lia Lqa Sorting.Sorted.
From S2P Require Import Prelude Sql Schema Banco.

Local Abbreviation length := Datatypes.length.
Local Open Scope nat_scope.

Module Validacao.
Import Sql Banco.Visoes.

(** ** The four tests *)

(** Teste 1, lines 521-528: [SELECT COUNT( * )] of each table. *)
Record contagens := mk_contagens {
  count_clientes : nat;
  count_cartoes : nat;
  count_transacoes : nat
}.

Definition teste_1 (clientes : list Cliente.t) (cartoes : list Cartao.t)
    (transacoes : list Transacao.t) : contagens :=
  mk_contagens (length clientes) (length cartoes) (length transacoes).

(** [ROUND(AVG(col) * 100, 2)]: NULL when [AVG] is. *)
Definition pct_medio (l : list (option Q)) : option Q :=
  option_map (fun a => sql_round (a * 100)%Q 2) (avg_col l).

(** An INTEGER column read as a number. *)
Definition col_Z (v : option Z) : option Q := option_map inject_Z v.

(** Teste 2, line 535: [SELECT ROUND(AVG(churn) * 100, 2) FROM
    vw_analise_churn]. *)
Definition taxa_churn (vw : list analise_churn) : option Q :=
  pct_medio (map (fun r => Some (inject_Z (ac_churn r))) vw).

(** Teste 3, line 540: [SELECT ROUND(AVG(pagamento_digital) * 100, 2) FROM
    transacoes]. *)
Definition pct_digital (transacoes : list Transacao.t) : option Q :=
  pct_medio (map (fun t => col_Z (Transacao.Pagamento_Digital t)) transacoes).

(** Teste 4, lines 545-551: [SELECT faixa_tempo_cartao, COUNT( * ) as total,
    ROUND(AVG(churn) * 100, 2) as taxa_churn FROM vw_analise_cartoes WHERE
    faixa_tempo_cartao IS NOT NULL GROUP BY faixa_tempo_cartao ORDER BY
    taxa_churn DESC]. *)
Record linha_faixa := mk_linha_faixa {
  lf_faixa : string;
  lf_total : nat;
  lf_taxa : option Q
}.

Definition linha_faixa_de (r : analise_cartao) (g : list analise_cartao) : linha_faixa :=
  mk_linha_faixa (acc_faixa_tempo_cartao r) (length g)
    (pct_medio (map (fun r => Some (inject_Z (acc_churn r))) g)).

(** [ORDER BY taxa_churn DESC]: a NULL rate comes last. *)
Definition taxa_desc : linha_faixa -> linha_faixa -> bool := desc_nulos_ultimos lf_taxa.

(** [col IS NOT NULL]: never UNKNOWN. *)
Definition is_not_null {A} (x : option A) : sbool := Some (negb (is_null x)).

Definition teste_4 (vw : list analise_cartao) : list linha_faixa :=
  order_by taxa_desc
    (agrupar acc_faixa_tempo_cartao linha_faixa_de
       (where_ (fun r => is_not_null (Some (acc_faixa_tempo_cartao r))) vw)).

(** ** Grouping: one output row per key *)

Section Agrupar.
Context {A K S : Type} `{EqDecision K} (key : A -> K) (f : A -> list A -> S).

(** [GROUP BY] gives one row per distinct key of its input. *)
Lemma agrupar_length rows :
  length (agrupar key f rows) = length (remove_dups (map key rows)).
Proof.
  unfold agrupar, group_by.
  assert (forall k, k ∈ remove_dups (map key rows) -> exists r, In r (group_of key k rows)) as Hk.
  { intros k Hk. apply elem_of_remove_dups, list_elem_of_In, in_map_iff in Hk as (r & <- & Hr).
    exists r. apply In_group_of. done. }
  revert Hk. generalize (remove_dups (map key rows)) as ks.
  induction ks as [|k ks IH]; intros Hk; [done|]. cbn [map flat_map snd].
  destruct (Hk k) as [r Hr]; [set_solver|].
  destruct (group_of key k rows) as [|r0 g]; [done|]. cbn. f_equal. apply IH.
  intros k' Hk'. apply Hk. set_solver.
Qed.

(** Sizes of the groups, when the output row records them, add up to the
    input. *)
Lemma agrupar_sum (h : S -> nat) rows :
  (forall r g, h (f r g) = length g) -> sum_list_with h (agrupar key f rows) = length rows.
Proof.
  intros Hh. unfold agrupar.
  rewrite <- (count_if_true (fun _ => true) rows) by auto.
  rewrite <- (group_by_sum key (fun _ => true) rows).
  induction (group_by key rows) as [|[k g] G IH]; [done|]. cbn [flat_map snd].
  rewrite sum_list_with_app, IH. cbn [sum_list_with snd]. rewrite count_if_true by auto.
  destruct g as [|r g]; cbn [sum_list_with]; [done|]. rewrite Hh. lia.
Qed.

(** When the output row shows its key, the keys of the output are
    distinct. *)
Lemma agrupar_NoDup (h : S -> K) rows :
  (forall r g, h (f r g) = key r) -> List.NoDup (map h (agrupar key f rows)).
Proof.
  intros Hh. unfold agrupar.
  assert (List.NoDup (map fst (group_by key rows))) as Hnd by apply group_by_keys_NoDup.
  assert (forall k g, In (k, g) (group_by key rows) -> forall r, In r g -> key r = k) as Hk.
  { intros k g Hkg r Hr. apply In_group_by in Hkg as [_ ->]. apply In_group_of in Hr as [_ ?]. done. }
  revert Hnd Hk. generalize (group_by key rows) as G.
  induction G as [|[k g] G IH]; intros Hnd Hk; cbn [flat_map map]; [constructor|].
  inversion Hnd as [|? ? Hnin Hnd']; subst.
  assert (forall k' g', In (k', g') G -> forall r, In r g' -> key r = k') as HkG
    by (intros k' g' Hkg; apply Hk; right; done).
  destruct g as [|r g]; cbn; [auto|]. constructor; [|auto].
  rewrite Hh, (Hk k (r :: g) (or_introl eq_refl) r (or_introl eq_refl)). intros Hin. apply Hnin.
  apply in_map_iff in Hin as (s & Hs & Hin). apply in_flat_map in Hin as ([k' g'] & Hkg' & Hin).
  destruct g' as [|r' g']; [done|]. destruct Hin as [<-|[]]. rewrite Hh in Hs.
  rewrite (HkG k' (r' :: g') Hkg' r' (or_introl eq_refl)) in Hs. rewrite <- Hs.
  apply (in_map fst) in Hkg'. done.
Qed.

(** Every input row has an output row, computed from the group of its key. *)
Lemma agrupar_In rows r :
  In r rows -> exists r0 rest, group_of key (key r) rows = r0 :: rest /\
                              In (f r0 (r0 :: rest)) (agrupar key f rows).
Proof.
  intros Hr. assert (In r (group_of key (key r) rows)) as Hg by (apply In_group_of; done).
  destruct (group_of key (key r) rows) as [|r0 rest] eqn:E; [done|]. exists r0, rest. split; [done|].
  unfold agrupar. apply in_flat_map. exists (key r, group_of key (key r) rows). split.
  - apply In_group_by. split; [exists r; done|done].
  - rewrite E. left. done.
Qed.

End Agrupar.

(** Every row of the left table shows up in a [LEFT JOIN]. *)
Lemma left_join_chaves {B C K} (key : B -> K) (c : B -> C -> sbool) l r k :
  In k (map (fun x => key (fst x)) (left_join c l r)) <-> In k (map key l).
Proof.
  rewrite !in_map_iff. split.
  - intros ([a m] & <- & Ha). apply In_left_join in Ha as [Ha _]. exists a. done.
  - intros (a & <- & Ha). unfold left_join.
    destruct (List.filter (fun b => holds (c a b)) r) as [|b ms] eqn:E;
      [exists (a, None) | exists (a, Some b)]; (split; [done|]); apply in_flat_map;
      exists a; (split; [done|]); cbv beta; rewrite E; cbn; auto.
Qed.

Lemma remove_dups_nil `{EqDecision B} (l : list B) : remove_dups l = [] <-> l = [].
Proof.
  split; [|intros ->; done]. destruct l as [|x l]; [done|]. intros E.
  assert (x ∈ remove_dups (x :: l)) as Hx by (apply elem_of_remove_dups; set_solver).
  rewrite E in Hx. set_solver.
Qed.

(** ** The rates *)

Lemma nao_nulos_Some {B} (g : B -> Q) l : nao_nulos (map (fun x => Some (g x)) l) = map g l.
Proof. induction l as [|x l IH]; cbn; [done|]. f_equal. exact IH. Qed.

(** [ROUND(AVG(col) * 100, 2)] of a 0/1 column is a percentage. *)
Lemma pct_medio_range l q :
  Forall (fun v => 0 <= v <= 1)%Q (nao_nulos l) -> pct_medio l = Some q -> (0 <= q <= 100)%Q.
Proof.
  unfold pct_medio. intros Hf Hq. destruct (avg_col l) as [a|] eqn:Ha; [|done].
  injection Hq as <-. apply (avg_col_range 0 1) in Ha; [|done]. apply sql_round_2_range. lra.
Qed.

Lemma pct_medio_None {B} (g : B -> Q) l :
  pct_medio (map (fun x => Some (g x)) l) = None <-> l = [].
Proof.
  unfold pct_medio. pose proof (avg_col_None (map (fun x => Some (g x)) l)) as H.
  rewrite nao_nulos_Some in H. destruct (avg_col _), l; naive_solver.
Qed.

Lemma Forall_01 {B} (g : B -> Z) l :
  (forall x, In x l -> g x = 0%Z \/ g x = 1%Z) ->
  Forall (fun v => 0 <= v <= 1)%Q (map (fun x => inject_Z (g x)) l).
Proof.
  intros Hl. apply List.Forall_forall. intros v Hv. apply in_map_iff in Hv as (x & <- & Hx).
  destruct (Hl x Hx) as [-> | ->];
    [change (inject_Z 0) with 0%Q | change (inject_Z 1) with 1%Q]; lra.
Qed.

(** The churn flag of both views is 0 or 1. *)
Lemma analise_churn_01 cs ts r :
  In r (vw_analise_churn cs ts) -> ac_churn r = 0%Z \/ ac_churn r = 1%Z.
Proof.
  intros Hr. apply In_agrupar in Hr as (r0 & rest & _ & _ & ->). cbn. destruct (holds _); auto.
Qed.

Lemma analise_cartao_01 cartoes ts cs r :
  In r (vw_analise_cartoes cartoes ts cs) -> acc_churn r = 0%Z \/ acc_churn r = 1%Z.
Proof.
  intros Hr. apply In_agrupar in Hr as (r0 & rest & _ & _ & ->). cbn. destruct (holds _); auto.
Qed.

(** [WHERE col IS NOT NULL] on a column that is never NULL keeps every row. *)
Lemma where_not_null {B C} (g : B -> C) l : where_ (fun r => is_not_null (Some (g r))) l = l.
Proof. unfold where_. induction l as [|x l IH]; cbn; [done|]. f_equal. exact IH. Qed.

(** ** Properties of the tests *)

(** C11: [vw_analise_churn] has exactly one row per distinct customer id of
    [clientes], whatever the transactions: the [LEFT JOIN] keeps every
    customer and the [GROUP BY c.cliente_id] folds a customer's transactions
    into one row. *)
Theorem vw_analise_churn_uma_linha cs ts :
  length (vw_analise_churn cs ts) = length (remove_dups (map Cliente.Cliente_ID cs)).
Proof.
  unfold vw_analise_churn. rewrite agrupar_length. apply Permutation_length.
  apply NoDup_Permutation; [apply NoDup_remove_dups..|]. intros k.
  rewrite !elem_of_remove_dups, !list_elem_of_In. apply left_join_chaves.
Qed.

(** With unique customer ids, the view has as many rows as the customers
    table counts in the first test. *)
Lemma vw_analise_churn_contagem cs cartoes ts :
  Schema.ids_unique cs -> length (vw_analise_churn cs ts) = count_clientes (teste_1 cs cartoes ts).
Proof.
  intros [Hnd _]. rewrite vw_analise_churn_uma_linha. cbn.
  rewrite (distinct_id (map Cliente.Cliente_ID cs)) by (apply NoDup_ListNoDup; done).
  apply length_map.
Qed.

(** the overall churn rate of the second test is NULL exactly when the
    customers table is empty, and otherwise a percentage in [0, 100]. *)
Theorem taxa_churn_geral cs ts :
  (taxa_churn (vw_analise_churn cs ts) = None <-> cs = []) /\
  (forall q, taxa_churn (vw_analise_churn cs ts) = Some q -> (0 <= q <= 100)%Q).
Proof.
  unfold taxa_churn. split.
  - rewrite pct_medio_None, <- length_zero_iff_nil, vw_analise_churn_uma_linha,
      length_zero_iff_nil, remove_dups_nil. destruct cs; done.
  - intros q. apply pct_medio_range. rewrite nao_nulos_Some.
    apply (Forall_01 ac_churn). apply analise_churn_01.
Qed.

(** The digital share of the third test is a percentage when every flag is
    0 or 1, NULL on an empty table. *)
Lemma pct_digital_range ts q :
  Forall (fun t => Transacao.Pagamento_Digital t = Some 0%Z \/ Transacao.Pagamento_Digital t = Some 1%Z) ts ->
  pct_digital ts = Some q -> (0 <= q <= 100)%Q.
Proof.
  intros Hts. apply pct_medio_range. unfold nao_nulos. apply List.Forall_forall.
  intros v Hv. apply list_elem_of_In, list_elem_of_omap in Hv as (o & Ho & Hov). unfold id in Hov. subst o.
  apply list_elem_of_In, in_map_iff in Ho as (t & Htv & Ht). rewrite List.Forall_forall in Hts.
  unfold col_Z in Htv. destruct (Hts t Ht) as [E | E]; rewrite E in Htv; injection Htv as <-;
    [change (inject_Z 0) with 0%Q | change (inject_Z 1) with 1%Q]; lra.
Qed.

(** C12: the table of the fourth test has one row per card-age band, the
    row totals add up to the rows of [vw_analise_cartoes], every rate is a
    percentage, and the rows come out in decreasing order of the rate. *)
Theorem teste_4_tabela cartoes ts cs :
  List.NoDup (map lf_faixa (teste_4 (vw_analise_cartoes cartoes ts cs))) /\
  sum_list_with lf_total (teste_4 (vw_analise_cartoes cartoes ts cs)) =
    length (vw_analise_cartoes cartoes ts cs) /\
  Forall (fun l => exists q, lf_taxa l = Some q /\ (0 <= q <= 100)%Q)
    (teste_4 (vw_analise_cartoes cartoes ts cs)) /\
  StronglySorted (fun a b => taxa_desc b a = false) (teste_4 (vw_analise_cartoes cartoes ts cs)).
Proof.
  unfold teste_4. rewrite where_not_null. set (vw := vw_analise_cartoes cartoes ts cs).
  split; [|split; [|split]].
  - eapply Permutation_NoDup; [symmetry; apply Permutation_map, order_by_perm|].
    apply agrupar_NoDup. done.
  - rewrite order_by_perm. apply agrupar_sum. done.
  - apply List.Forall_forall. intros l Hl. apply In_order_by, In_agrupar in Hl as (r & rest & _ & Hg & ->).
    cbn [lf_taxa linha_faixa_de]. destruct (pct_medio _) as [q|] eqn:Hq.
    + exists q. split; [done|]. revert Hq. apply pct_medio_range. rewrite nao_nulos_Some.
      apply (Forall_01 acc_churn). intros x Hx. apply (analise_cartao_01 cartoes ts cs).
      assert (In x (group_of acc_faixa_tempo_cartao (acc_faixa_tempo_cartao r) vw)) as Hx'
        by (rewrite Hg; done). apply In_group_of in Hx' as [? _]. done.
    + apply pct_medio_None in Hq. done.
  - apply order_by_sorted; [apply desc_nulos_ultimos_asym | apply desc_nulos_ultimos_weak].
Qed.

(** ** Examples: the customers and transactions of [Banco.v] with three
    recent cards, one never used *)

Definition ex_cartoes : list Cartao.t :=
  [Cartao.cartao (Some 10%Z) (Some "Gold"%string) (Some "Crédito"%string) None (Some 5000%Q)
     (Some 5%Q) (Some 1%Z);
   Cartao.cartao (Some 11%Z) (Some "Standard"%string) (Some "Débito"%string) None (Some 2000%Q)
     (Some 20%Q) (Some 1%Z);
   Cartao.cartao (Some 12%Z) (Some "Black"%string) (Some "Crédito"%string) None (Some 9000%Q)
     (Some 4%Q) (Some 1%Z)].

Example taxa_churn_ex :
  taxa_churn (vw_analise_churn ex_clientes ex_transacoes) = Some (3333 # 100)%Q.
Proof. vm_compute. reflexivity. Qed.

Example teste_4_ex :
  map (fun l => (lf_faixa l, lf_total l, option_map Qred (lf_taxa l)))
    (teste_4 (vw_analise_cartoes ex_cartoes ex_transacoes ex_clientes)) =
  [("18-24 meses", 1, Some 100%Q); ("0-6 meses", 2, Some 0%Q)]%string.
Proof. vm_compute. reflexivity. Qed.

Example pct_digital_ex : option_map Qred (pct_digital ex_transacoes) = Some (6667 # 100)%Q.
Proof. vm_compute. reflexivity. Qed.

End Validacao.
