(* ===== verification/Corrigida.v ===== *)
(** * Every customer who transacted: [src/analise_comparativa_churn_2024_corrigida.py]

    The "corrected" comparison takes as population every distinct
    [Cliente_ID] of [transacoes] (not only the accounts of 2024), counts the
    churned ones ([NOT IN] the ids with a transaction after the cutoff) at
    30, 60 and 90 days, compares with the old 2024-only approach, breaks the
    counts down by account creation year, plots the evolution and prints a
    summary.  [main] runs the five steps inside one [try] block: the error
    monad [Sessenta.exec].

    The theorems show that the churn counts shrink as the window grows
    (the "increments" the script plots are never positive) and that, as a
    consequence, [matplotlib]'s [pie] rejects the increments and [main]
    stops at the chart, before the yearly breakdown and the summary,
    exactly when some customer's last transaction falls 31 to 90 days
    before the reference day. *)

From stdpp Require Import base list strings.
From Stdlib Require Import ZArith QArith String Lia Lqa.
From S2P Require Import Prelude Sql Dates Pandas Schema Churn Comparativa Sixty.

Local Abbreviation length := Datatypes.length.
Local Open Scope nat_scope.

Module Corrigida.
Import Sql Pandas Sessenta.
Local Open Scope exec_scope.

(** ** The shared CTEs *)

(** [SELECT DISTINCT Cliente_ID FROM transacoes WHERE Data >
    DATE('2024-12-30', '-{periodo} days')]. *)
Definition ativos (dias : Z) (ts : list Transacao.t) : list (option Z) :=
  Classifier.clientes_ativos_2024 (Comparativa.corte dias) ts.

(** [SELECT cliente_id FROM todos WHERE cliente_id NOT IN (ativos)]. *)
Definition churn_de (todos : list (option Z)) (dias : Z) (ts : list Transacao.t) : list (option Z) :=
  where_ (fun id => s_not_in id (ativos dias ts)) todos.

(** [ROUND(n * 100.0 / COUNT( * ), 2)]: NULL over an empty table (a
    division by zero). *)
Definition taxa (n t : nat) : option Q :=
  if (t =? 0)%nat then None else Some (Classifier.percentual n t).

(** ** [comparar_abordagens_churn], lines 42-118 *)

Record abordagem := mk_abordagem { ab_total : nat; ab_churns : nat; ab_taxa : option Q }.

(** [query_antiga]: the customers created from 2024 on who transacted. *)
Definition clientes_2024 (clientes : list Cliente.t) (ts : list Transacao.t) : list (option Z) :=
  distinct (map Cliente.Cliente_ID
    (where_ (fun c => s_ge (Cliente.Data_Criacao_Conta c) (Some "2024-01-01"%string) &&&
                      s_in (Cliente.Cliente_ID c) (Classifier.clientes_com_transacoes ts)) clientes)).

Definition query_antiga (clientes : list Cliente.t) (ts : list Transacao.t) : abordagem :=
  let todos := clientes_2024 clientes ts in
  let ch := churn_de todos 90 ts in
  mk_abordagem (length todos) (length ch) (taxa (length ch) (length todos)).

(** [query_corrigida]: every distinct id of [transacoes]. *)
Definition query_corrigida (ts : list Transacao.t) : abordagem :=
  let todos := Classifier.clientes_com_transacoes ts in
  let ch := churn_de todos 90 ts in
  mk_abordagem (length todos) (length ch) (taxa (length ch) (length todos)).

(** The two results, [diferenca_clientes] and [percentual_subestimado]. *)
Definition comparar_abordagens_churn (clientes : list Cliente.t) (ts : list Transacao.t)
  : abordagem * abordagem * Z * flt :=
  let antiga := query_antiga clientes ts in
  let corrigida := query_corrigida ts in
  let diferenca := (Z.of_nat (ab_churns corrigida) - Z.of_nat (ab_churns antiga))%Z in
  (antiga, corrigida, diferenca, mul_np (div_np diferenca (Z.of_nat (ab_churns corrigida))) 100).

(** ** [obter_dados_comparativos_periodos], lines 120-162 *)

Record periodo := mk_periodo {
  periodo_dias : Z;
  total_clientes : nat;
  clientes_churn : nat;
  clientes_ativos : Z;
  taxa_churn : option Q
}.

Definition obter_periodo (dias : Z) (ts : list Transacao.t) : periodo :=
  let todos := Classifier.clientes_com_transacoes ts in
  let ch := churn_de todos dias ts in
  mk_periodo dias (length todos) (length ch) (Z.of_nat (length todos) - Z.of_nat (length ch))%Z
    (taxa (length ch) (length todos)).

(** [resultados]: the row of each period, in the order 30, 60, 90. *)
Definition obter_dados_comparativos_periodos (ts : list Transacao.t) : list (Z * periodo) :=
  map (fun p => (p, obter_periodo p ts)) [30; 60; 90]%Z.

(** [resultados_periodos[p]['clientes_churn']]. *)
Definition churn_em (res : list (Z * periodo)) (p : Z) : Z :=
  match List.find (fun r => Z.eqb (fst r) p) res with
  | Some r => Z.of_nat (clientes_churn (snd r))
  | None => 0
  end.

(** ** [criar_grafico_evolucao_churn], lines 164-234 *)

(** [incrementos]: the 30-day count, then the differences 60 - 30 and
    90 - 60. *)
Definition incrementos (res : list (Z * periodo)) : list Z :=
  [churn_em res 30; churn_em res 60 - churn_em res 30; churn_em res 90 - churn_em res 60]%Z.

Definition erro_pie : string := "Wedge sizes 'x' must be non negative values".

(** [ax2.bar(periodos, taxas)], lines 194-205: a NULL [taxa_churn] (no
    customer in [todos_clientes]) is a bar of height [None], whose
    position [y0 + height] raises [TypeError]. *)
Definition erro_taxa : string := "unsupported operand type(s) for +: 'int' and 'NoneType'".

(** [ax4.pie] of wedges that are all 0: their sum is 0 and the pie has no
    wedge to draw. *)
Definition erro_pie_zero : string := "All wedge sizes are zero".

(** The figure, panel by panel: [ax2] raises on a NULL rate, then
    [ax4.pie(incrementos, ...)] raises [ValueError] on a negative wedge and
    on wedges that are all 0; the panels [ax1] and [ax3] draw whatever
    they are given. *)
Definition criar_grafico_evolucao_churn (res : list (Z * periodo)) : exec unit :=
  if existsb (fun r => is_null (taxa_churn (snd r))) res then Erro erro_taxa
  else if negb (forallb (fun x => (0 <=? x)%Z) (incrementos res)) then Erro erro_pie
  else if forallb (fun x => (x =? 0)%Z) (incrementos res) then Erro erro_pie_zero
  else Ok tt.

(** ** [analise_temporal_detalhada], lines 236-329 *)

(** [todos_clientes]: [SELECT DISTINCT c.cliente_id, c.Data_Criacao_Conta,
    strftime('%Y', c.Data_Criacao_Conta) FROM clientes c WHERE c.cliente_id
    IN (SELECT DISTINCT Cliente_ID FROM transacoes)]. *)
Definition todos_temporal (clientes : list Cliente.t) (ts : list Transacao.t)
  : list (option Z * option string * option string) :=
  distinct (map (fun c => (Cliente.Cliente_ID c, Cliente.Data_Criacao_Conta c,
                           Dates.strftime_Y (Cliente.Data_Criacao_Conta c)))
    (where_ (fun c => s_in (Cliente.Cliente_ID c) (Classifier.clientes_com_transacoes ts)) clientes)).

Definition id_tc (r : option Z * option string * option string) : option Z := fst (fst r).
Definition ano_tc (r : option Z * option string * option string) : option string := snd r.

(** [churns_{d}d]: [SELECT cliente_id FROM todos_clientes WHERE cliente_id
    NOT IN (...)]. *)
Definition churns_d (todos : list (option Z * option string * option string)) (dias : Z)
    (ts : list Transacao.t) : list (option Z) :=
  map id_tc (where_ (fun r => s_not_in (id_tc r) (ativos dias ts)) todos).

Definition linha_t : Type :=
  (((option Z * option string * option string) * option (option Z)) * option (option Z)) * option (option Z).

Record temporal := mk_temporal {
  ano_criacao : option string;
  t_total : nat;
  churns_30d : nat;
  churns_60d : nat;
  churns_90d : nat;
  taxa_churn_30d : Q;
  taxa_churn_60d : Q;
  taxa_churn_90d : Q
}.

(** [COUNT(cNN.cliente_id)]: the rows whose join found a non-NULL id. *)
Definition conta_col (f : linha_t -> option (option Z)) (g : list linha_t) : nat :=
  count_col (map (fun r => coluna (f r)) g).

Definition agrega_temporal (ano : option string) (g : list linha_t) : temporal :=
  let c30 := conta_col (fun r => snd (fst (fst r))) g in
  let c60 := conta_col (fun r => snd (fst r)) g in
  let c90 := conta_col snd g in
  mk_temporal ano (length g) c30 c60 c90 (Classifier.percentual c30 (length g))
    (Classifier.percentual c60 (length g)) (Classifier.percentual c90 (length g)).

Definition analise_temporal_detalhada (clientes : list Cliente.t) (ts : list Transacao.t) : list temporal :=
  let todos := todos_temporal clientes ts in
  let on tc c := s_eq (id_tc tc) c in
  map (fun kg => agrega_temporal (fst kg) (snd kg))
    (group_by (fun r : linha_t => ano_tc (fst (fst (fst r))))
       (left_join (fun r c => on (fst (fst r)) c)
          (left_join (fun r c => on (fst r) c)
             (left_join on todos (churns_d todos 30 ts)) (churns_d todos 60 ts))
          (churns_d todos 90 ts))).

(** ** [resumo_executivo_comparativo], lines 331-357 *)

Record resumo := mk_resumo {
  resultados : list (Z * periodo);
  incremento_60_30 : Z;
  incremento_90_60 : Z;
  aumento_60_30 : flt;
  aumento_90_60 : flt
}.

Definition resumo_executivo_comparativo (ts : list Transacao.t) : resumo :=
  let res := obter_dados_comparativos_periodos ts in
  let i1 := (churn_em res 60 - churn_em res 30)%Z in
  let i2 := (churn_em res 90 - churn_em res 60)%Z in
  mk_resumo res i1 i2 (mul_np (div_np i1 (churn_em res 30)) 100) (mul_np (div_np i2 (churn_em res 60)) 100).

(** ** [main], lines 359-404: the five steps of the [try] block *)

Record saida := mk_saida {
  s_comparacao : abordagem * abordagem * Z * flt;
  s_periodos : list (Z * periodo);
  s_temporal : list temporal;
  s_resumo : resumo
}.

Definition main (clientes : list Cliente.t) (ts : list Transacao.t) : exec saida :=
  let* comparacao := Ok (comparar_abordagens_churn clientes ts) in
  let* res := Ok (obter_dados_comparativos_periodos ts) in
  let* _ := criar_grafico_evolucao_churn res in
  let* temp := Ok (analise_temporal_detalhada clientes ts) in
  let* r := Ok (resumo_executivo_comparativo ts) in
  Ok (mk_saida comparacao res temp r).

(** ** Properties *)

(** A later cutoff keeps fewer active ids. *)
Lemma ativos_incl (c1 c2 : string) ts x :
  str_ltb c2 c1 = true ->
  In x (Classifier.clientes_ativos_2024 (Some c1) ts) -> In x (Classifier.clientes_ativos_2024 (Some c2) ts).
Proof.
  intros H21. unfold Classifier.clientes_ativos_2024. rewrite !In_distinct, !in_map_iff.
  intros (t & <- & Ht). exists t. split; [done|]. rewrite In_where in *. destruct Ht as [Ht Hgt].
  split; [done|]. destruct (Transacao.Data t) as [d|]; [|done]. cbn in *.
  destruct (str_ltb c1 d) eqn:E; [|done]. rewrite (str_ltb_trans _ _ _ H21 E). done.
Qed.

(** The churned ids of a longer window are churned in a shorter one. *)
Lemma churn_de_mono todos d1 d2 c1 c2 ts :
  Comparativa.corte d1 = Some c1 -> Comparativa.corte d2 = Some c2 -> str_ltb c2 c1 = true ->
  length (churn_de todos d2 ts) <= length (churn_de todos d1 ts).
Proof.
  intros H1 H2 H21. apply (count_if_mono (fun id => holds (s_not_in id (ativos d2 ts)))).
  intros x _. apply s_not_in_incl. intros y. unfold ativos. rewrite H1, H2. apply ativos_incl. done.
Qed.

(** The churn counts at 90, 60 and 30 days are ordered. *)
Lemma churn_periodos_antitone ts :
  clientes_churn (obter_periodo 90 ts) <= clientes_churn (obter_periodo 60 ts) <=
  clientes_churn (obter_periodo 30 ts).
Proof.
  destruct Comparativa.corte_ordem as (H90 & H60 & H30). cbn [obter_periodo clientes_churn].
  split; eapply churn_de_mono; eauto; reflexivity.
Qed.

(** The counts the chart and the summary read. *)
Lemma churn_em_periodos ts p :
  List.In p [30; 60; 90]%Z ->
  churn_em (obter_dados_comparativos_periodos ts) p = Z.of_nat (clientes_churn (obter_periodo p ts)).
Proof. intros [<-|[<-|[<-|[]]]]; reflexivity. Qed.

(** Every period counts its churned ids among the same distinct ids. *)
Lemma churn_le_total p ts : clientes_churn (obter_periodo p ts) <= total_clientes (obter_periodo p ts).
Proof. cbn [obter_periodo clientes_churn total_clientes]. unfold churn_de, where_. apply count_if_le. Qed.

(** A period's rate is NULL exactly when [transacoes] has no row. *)
Lemma taxa_churn_nula p ts :
  taxa_churn (obter_periodo p ts) = None <-> Classifier.clientes_com_transacoes ts = [].
Proof.
  cbn [obter_periodo taxa_churn]. unfold taxa. rewrite <- length_zero_iff_nil.
  destruct (Nat.eqb_spec (length (Classifier.clientes_com_transacoes ts)) 0); done.
Qed.

Lemma taxas_nulas ts :
  existsb (fun r => is_null (taxa_churn (snd r))) (obter_dados_comparativos_periodos ts) = true <->
  Classifier.clientes_com_transacoes ts = [].
Proof.
  rewrite existsb_exists. split.
  - intros ((p & r) & Hp & Hn). cbn in Hp. cbn [snd] in Hn.
    destruct Hp as [[= <- <-]|[[= <- <-]|[[= <- <-]|[]]]];
      [apply (taxa_churn_nula 30 ts)|apply (taxa_churn_nula 60 ts)|apply (taxa_churn_nula 90 ts)];
      destruct (taxa_churn _); done.
  - intros H. exists (30%Z, obter_periodo 30 ts). split; [left; done|]. cbn [snd].
    rewrite (proj2 (taxa_churn_nula 30 ts) H). done.
Qed.

(** C26: [main] of the corrected comparison stops at the evolution chart,
    with [pie]'s error, before the yearly breakdown and the summary, exactly
    when fewer customers are churned at 90 days than at 30: the plotted
    "increments" 60 - 30 and 90 - 60 are never positive, and [pie]
    rejects a negative one. *)
Theorem main_falha_grafico clientes ts :
  main clientes ts = Erro erro_pie <->
  clientes_churn (obter_periodo 90 ts) < clientes_churn (obter_periodo 30 ts).
Proof.
  pose proof (churn_periodos_antitone ts) as Hm.
  unfold main, criar_grafico_evolucao_churn. cbn [bind].
  destruct (existsb _ _) eqn:E0; cbn [bind].
  { apply taxas_nulas in E0. pose proof (churn_le_total 30 ts) as H30.
    cbn [obter_periodo total_clientes] in H30. rewrite E0 in H30. cbn [length] in H30.
    split; [intros [= H]; discriminate H|lia]. }
  unfold incrementos. rewrite !churn_em_periodos by (cbn; tauto). cbn [forallb].
  destruct (Z.leb_spec 0 (Z.of_nat (clientes_churn (obter_periodo 30 ts))));
  destruct (Z.leb_spec 0 (Z.of_nat (clientes_churn (obter_periodo 60 ts))
                          - Z.of_nat (clientes_churn (obter_periodo 30 ts))));
  destruct (Z.leb_spec 0 (Z.of_nat (clientes_churn (obter_periodo 90 ts))
                          - Z.of_nat (clientes_churn (obter_periodo 60 ts)))); cbn [andb negb bind];
    try (split; intros; first [done|lia]).
  match goal with |- context [if ?b then Erro erro_pie_zero else _] => destruct b end;
    cbn [bind]; split; try (intros [= H]; discriminate H); try done; lia.
Qed.

End Corrigida.
