(* ===== verification/TempoRigoroso.v ===== *)
(** * Account age against card age: [src/comparacaoEntreTemposCertos/analise_rigorosa_churn_tempo.py]

    A pandas pipeline over the three CSV files: the reference instant is
    the last transaction, a customer churns when its last transaction is
    more than 90 days before it, the (customer, card) pairs of the
    transactions are joined with the cards issued from 2023 on, with the
    customers and with the churn flag; account and card ages in months are
    banded with [pd.cut] into intervals chosen from the smaller of the two
    maxima, and the two churn tables are compared band by band.

    The rows are the parsed CSV rows of [Banco.Processamento]; the
    operations are those of [Pandas].  The theorems show that a band's rate
    is always a whole percentage (the mean is rounded to two decimals
    before it is multiplied by 100), and that the largest difference the
    conclusions report is a largest one.  The Pearson correlations and the
    t-tests (scipy) and the charts are not modelled. *)

From stdpp Require Import base list strings.
From Stdlib Require Import ZArith QArith Qround Qminmax Qabs String Lia Lqa.
From S2P Require Import Prelude Sql Dates Pandas Schema Banco.

Local Abbreviation length := Datatypes.length.
Local Open Scope nat_scope.

Module TempoRigoroso.
Import Sql Pandas Processamento.

(** ** Preparation, lines 31-144 *)

Definition instante_opt (d : option Dates.stamp) : option Z := option_map instante d.

(** [data_referencia = df_transacoes['Data'].max()], line 48. *)
Definition data_referencia (ts : list transacao_csv) : option Z :=
  serie_max Z.ltb (map (fun t => instante_opt (csv_Data t)) ts).

(** [data_corte = pd.to_datetime('2023-01-01')], line 59. *)
Definition data_corte : Z := instante (Dates.mk_stamp 2023 1 1 0 0 0).

(** [Data_Emissao >= data_corte]: false on [NaT]. *)
Definition emitido_desde_2023 (k : cartao_csv) : bool :=
  match instante_opt (csv_Data_Emissao k) with Some e => (data_corte <=? e)%Z | None => false end.

(** [df_cartoes_filtrado], line 71, and the counts of lines 62-63. *)
Definition cartoes_filtrado (ks : list cartao_csv) : list cartao_csv :=
  List.filter emitido_desde_2023 ks.

Definition cartoes_antes_2023 (ks : list cartao_csv) : nat :=
  #[fun k => match instante_opt (csv_Data_Emissao k) with Some e => (e <? data_corte)%Z | None => false end] ks.

(** [((data_referencia - d).dt.days / 30.44)], lines 93-96 and 143-144. *)
Definition tempo_meses (ref : option Z) (d : option Dates.stamp) : option Q :=
  match ref, instante_opt d with
  | Some r, Some x => Some (inject_Z (dias r x) / (3044 # 100))%Q
  | _, _ => None
  end.

(** [ultima_transacao], lines 118-123: the last date of each customer
    (groupby drops a missing id) and [Ultima_Transacao < data_limite_churn];
    a comparison with [NaT] is false. *)
Record ultima := mk_ultima { u_cliente : Z; u_ultima : option Z; u_churn : bool }.

Definition dias_churn : Z := 90.

Definition ultima_transacao (ts : list transacao_csv) : list ultima :=
  let limite := option_map (fun r => menos_dias r dias_churn) (data_referencia ts) in
  map (fun kg => let u := serie_max Z.ltb (map (fun t => instante_opt (csv_Data t)) (snd kg)) in
                 mk_ultima (fst kg) u
                   (match u, limite with Some a, Some l => (a <? l)%Z | _, _ => false end))
    (grupos csv_Cliente_ID_tx ts).

(** [cartao_cliente], line 130. *)
Definition cartao_cliente (ts : list transacao_csv) : list (option Z * option Z) :=
  drop_duplicates (map (fun t => (csv_Cliente_ID_tx t, csv_ID_Cartao_tx t)) ts).

(** A row of [df_analise], lines 133-144. *)
Record analise := mk_analise {
  a_cliente : option Z;
  a_cartao : option Z;
  a_emissao : option Dates.stamp;
  a_criacao : option Dates.stamp;
  a_churn : option bool;
  a_tempo_conta : option Q;
  a_tempo_cartao : option Q
}.

Definition df_analise (clientes : list cliente_csv) (ts : list transacao_csv) (ks : list cartao_csv)
  : list analise :=
  let ref := data_referencia ts in
  let validos := merge_inner snd csv_ID_Cartao (cartao_cliente ts) (cartoes_filtrado ks) in
  let com_cliente := merge_left (fun r => fst (fst r)) csv_Cliente_ID validos clientes in
  let com_churn := merge_left (fun r => fst (fst (fst r))) (fun u => Some (u_cliente u))
                     com_cliente (ultima_transacao ts) in
  map (fun r =>
         let '(((cc, k), c), u) := r in
         let criacao := match c with Some c => csv_Data_Criacao_Conta c | None => None end in
         mk_analise (fst cc) (snd cc) (csv_Data_Emissao k) criacao (option_map u_churn u)
           (tempo_meses ref criacao) (tempo_meses ref (csv_Data_Emissao k)))
    com_churn.

(** ** The bands, lines 164-183 *)

Definition rotulos5 : list string := ["0-6 meses"; "6-12 meses"; "12-18 meses"; "18-24 meses"; "24+ meses"]%string.
Definition rotulos4 : list string := ["0-6 meses"; "6-12 meses"; "12-18 meses"; "18+ meses"]%string.
Definition rotulos3 : list string := ["0-6 meses"; "6-12 meses"; "12+ meses"]%string.

(** [intervalos] and [labels] from [min(tempo_max_conta,
    tempo_max_cartao)]; a [NaN] maximum fails both tests. *)
Definition intervalos (df : list analise) : list Q * list string :=
  let comum := py_min (serie_max Qltb (map a_tempo_conta df)) (serie_max Qltb (map a_tempo_cartao df)) in
  match comum with
  | Some m => if Qle_bool 24 m then ([0; 6; 12; 18; 24; 1000]%Q, rotulos5)
              else if Qle_bool 18 m then ([0; 6; 12; 18; 1000]%Q, rotulos4)
              else ([0; 6; 12; 1000]%Q, rotulos3)
  | None => ([0; 6; 12; 1000]%Q, rotulos3)
  end.

(** ** [analisar_churn_rigoroso], lines 192-230 *)

Record resultado := mk_resultado {
  total_clientes : nat;
  clientes_churn : nat;
  taxa_churn_calc : Q;
  tempo_min : Q;
  tempo_max : Q;
  tempo_medio : Q;
  taxa_churn : Q;
  pct_base : Q
}.

Definition nq (n : nat) : Q := inject_Z (Z.of_nat n).

(** [df_clean]: the rows with both columns and a non-negative time. *)
Definition limpo (col : analise -> option Q) (df : list analise) : list (Q * bool) :=
  omap (fun r => match col r, a_churn r with
                 | Some x, Some b => if Qle_bool 0 x then Some (x, b) else None
                 | _, _ => None
                 end) df.

Definition soma_q (l : list Q) : Q := fold_right Qplus 0%Q l.

(** The aggregates of one band, [.round(2)], then [Taxa_Churn] and
    [Pct_Base]; [base] is the sum of the band totals. *)
Definition agrega (base : nat) (g : list (Q * bool)) : resultado :=
  let n := length g in
  let c := #[snd] g in
  let xs := map fst g in
  let tmin := fold_right Qmin (hd 0%Q xs) xs in
  let tmax := fold_right Qmax (hd 0%Q xs) xs in
  let calc := np_round (nq c / nq n) 2 in
  mk_resultado n c calc (np_round tmin 2) (np_round tmax 2) (np_round (soma_q xs / nq n) 2)
    (np_round (calc * 100) 1) (np_round (nq n / nq base * 100) 1).

(** [groupby('Faixa_Tempo', observed=True)]: the non-empty bands, in the
    order of the labels. *)
Definition analisar_churn_rigoroso (bins : list Q) (labels : list string) (col : analise -> option Q)
    (df : list analise) : list (string * list (Q * bool)) :=
  let rows := limpo col df in
  omap (fun l => match List.filter (fun r => bool_decide (cut bins labels true (Some (fst r)) = Some l)) rows with
                 | [] => None
                 | g => Some (l, g)
                 end) labels.

Definition tabela (grupos : list (string * list (Q * bool))) : list (string * resultado) :=
  let base := sum_list_with (fun lg => length (snd lg)) grupos in
  map (fun lg => (fst lg, agrega base (snd lg))) grupos.

(** ** The comparison, lines 259-276 *)

Record comparacao := mk_comparacao {
  taxa_churn_conta : Q;
  taxa_churn_cartao : Q;
  clientes_conta : nat;
  clientes_cartao : nat;
  diferenca_taxa : Q
}.

Definition linha_de (t : list (string * resultado)) (l : string) : Q * nat :=
  match List.find (fun r => String.eqb (fst r) l) t with
  | Some r => (taxa_churn (snd r), total_clientes (snd r))
  | None => (0%Q, 0)
  end.

Definition comparar (labels : list string) (conta cartao : list (string * resultado))
  : list (string * comparacao) :=
  map (fun l => let '(tc, nc) := linha_de conta l in
                let '(tk, nk) := linha_de cartao l in
                (l, mk_comparacao tc tk nc nk (tk - tc)%Q)) labels.

(** [faixas_graficos], lines 344-356: the bands with customers. *)
Definition faixas_graficos (comp : list (string * comparacao)) : list (string * comparacao) :=
  List.filter (fun r => (0 <? clientes_conta (snd r)) || (0 <? clientes_cartao (snd r))) comp.

(** [maior_diferenca_idx], lines 455-456: the first band of largest absolute
    difference, with its signed difference. *)
Definition maior_diferenca (comp : list (string * comparacao)) : option (string * comparacao) :=
  option_map fst (idxmax (map (fun r => (r, Qabs (diferenca_taxa (snd r)))) comp)).

(** The whole script: both tables, the comparison, the plotted bands and
    the band of the conclusions. *)
Definition analise_rigorosa (clientes : list cliente_csv) (ts : list transacao_csv) (ks : list cartao_csv)
  : list (string * resultado) * list (string * resultado) * list (string * comparacao) *
    list (string * comparacao) * option (string * comparacao) :=
  let df := df_analise clientes ts ks in
  let '(bins, labels) := intervalos df in
  let conta := tabela (analisar_churn_rigoroso bins labels a_tempo_conta df) in
  let cartao := tabela (analisar_churn_rigoroso bins labels a_tempo_cartao df) in
  let comp := comparar labels conta cartao in
  (conta, cartao, comp, faixas_graficos comp, maior_diferenca comp).

(** ** Properties *)

(** A band's [Taxa_Churn] is a whole percentage: [Taxa_Churn_Calc] is
    already rounded to hundredths, so [(x * 100).round(1)] only sees an
    integer. *)
Lemma taxa_churn_inteira grupos l r :
  In (l, r) (tabela grupos) -> exists k : Z, (taxa_churn r == inject_Z k)%Q.
Proof.
  unfold tabela. rewrite in_map_iff. intros ([l' g] & [= _ <-] & _). cbn.
  destruct (np_round_escala (nq (#[snd] g) / nq (length g)) 2) as [z Hz].
  exists z. change (inject_Z (10 ^ Z.of_nat 2)) with 100%Q in Hz. rewrite Hz. apply np_round_Z.
Qed.

(** The band the conclusions name has a largest absolute difference. *)
Lemma maior_diferenca_max comp l r :
  maior_diferenca comp = Some (l, r) ->
  In (l, r) comp /\ forall l' r', In (l', r') comp -> (Qabs (diferenca_taxa r') <= Qabs (diferenca_taxa r))%Q.
Proof.
  unfold maior_diferenca. destruct (idxmax _) as [[x q]|] eqn:E; [|done]. cbn. intros [= ->].
  apply idxmax_spec in E as [Hin Hall]. apply in_map_iff in Hin as (y & Hyq & Hy).
  inversion Hyq; subst. split; [done|]. intros l' r' H'. apply (Hall ((l', r'), Qabs (diferenca_taxa r'))).
  apply in_map_iff. exists (l', r'). done.
Qed.

End TempoRigoroso.
