(* ===== verification/Fatores.v ===== *)
(** * Churn by factor: [src/churnPorCategoria/analise_churn_fatores_completa.py]

    A pandas pipeline: the last transaction of each customer against the
    last transaction date minus 90 days gives the churn flag (as in
    [TempoRigoroso]); the customers are left-merged with it, with their age
    and account age truncated to integers, and with the [first()] card
    columns of their transactions; [analisar_churn_por_fator] then groups
    the rows by a column or by its [pd.cut] interval and sorts the groups
    by churn rate.

    The theorems show that a customer without transactions is in no table
    (its churn flag is [NaN] and [dropna] removes it), that
    [groupby(...).first()] can pair the card type of one card with the limit
    of another, and that the insights name a band of largest rate. *)

From stdpp Require Import base list strings.
From Stdlib Require Import ZArith QArith Qround String Lia Lqa.
From S2P Require Import Prelude Sql Dates Pandas Schema Banco TempoRigoroso.

Local Abbreviation length := Datatypes.length.
Local Open Scope nat_scope.

Module Fatores.
Import Sql Pandas Processamento.

(** ** The customer table, lines 57-120 *)

(** [taxa_churn_geral = clientes_churn / total_clientes * 100], lines
    75-77: numpy division, [NaN] on no transaction. *)
Definition taxa_churn_geral (ts : list transacao_csv) : flt :=
  let u := TempoRigoroso.ultima_transacao ts in
  mul_np (div_np (Z.of_nat (#[TempoRigoroso.u_churn] u)) (Z.of_nat (length u))) 100.

(** [Dias_Sem_Transacao], line 69. *)
Definition dias_sem_transacao (ref : option Z) (u : TempoRigoroso.ultima) : option Z :=
  match ref, TempoRigoroso.u_ultima u with Some r, Some x => Some (dias r x) | _, _ => None end.

(** [(d / k).fillna(v).astype(int)] of a number of days, [k] in
    hundredths: truncation toward zero. *)
Definition trunca_dias (ref : option Z) (d : option Dates.stamp) (k : Z) (v : Z) : Z :=
  match ref, TempoRigoroso.instante_opt d with
  | Some r, Some x => Z.quot (dias r x * 100) k
  | _, _ => v
  end.

(** [cartao_info] (line 108) and [cartao_por_cliente] (line 111): the
    [first()] non-missing value of each card column among the customer's
    (customer, card) pairs. *)
Record cartao_cli := mk_cartao_cli {
  cc_produto : option string;
  cc_tipo : option string;
  cc_emissao : option Dates.stamp;
  cc_limite : option Q
}.

Definition cartao_por_cliente (ts : list transacao_csv) (ks : list cartao_csv) : list (Z * cartao_cli) :=
  let info := merge_left snd csv_ID_Cartao (TempoRigoroso.cartao_cliente ts) ks in
  let col {X} (f : cartao_csv -> option X) (r : (option Z * option Z) * option cartao_csv) :=
    match snd r with Some k => f k | None => None end in
  map (fun kg => (fst kg, mk_cartao_cli (first_valid (map (col csv_Produto_Mastercard) (snd kg)))
                            (first_valid (map (col csv_Tipo_Cartao) (snd kg)))
                            (first_valid (map (col csv_Data_Emissao) (snd kg)))
                            (first_valid (map (col csv_Limite_Cartao) (snd kg)))))
    (grupos (fun r => fst (fst r)) info).

(** A row of [df_analise]. *)
Record linha := mk_linha {
  l_cliente : option Z;
  l_renda : option Q;
  l_estado : option string;
  l_adicional : option string;
  l_churn : option bool;
  l_dias_sem : option Z;
  l_idade : Z;
  l_tempo_conta : Z;
  l_produto : option string;
  l_tipo : option string;
  l_limite : option Q;
  l_tempo_cartao : Z
}.

(** [df_analise], lines 90-120: the customers, left-merged with the churn
    flag and with their card columns. *)
Definition df_analise (clientes : list cliente_csv) (ts : list transacao_csv) (ks : list cartao_csv)
  : list linha :=
  let ref := TempoRigoroso.data_referencia ts in
  let m1 := merge_left csv_Cliente_ID (fun u => Some (TempoRigoroso.u_cliente u)) clientes
              (TempoRigoroso.ultima_transacao ts) in
  let m2 := merge_left (fun r => csv_Cliente_ID (fst r)) (fun p => Some (fst p)) m1 (cartao_por_cliente ts ks) in
  map (fun r =>
         let '((c, u), p) := r in
         let k := option_map snd p in
         let kcol {X} (f : cartao_cli -> option X) := match k with Some k => f k | None => None end in
         mk_linha (csv_Cliente_ID c) (csv_Renda_Anual c) (csv_Estado c) (csv_Possui_Conta_Adicional c)
           (option_map TempoRigoroso.u_churn u)
           (match u with Some u => dias_sem_transacao ref u | None => None end)
           (trunca_dias ref (csv_Data_Nascimento c) 36525 0)
           (trunca_dias ref (csv_Data_Criacao_Conta c) 3044 0)
           (kcol cc_produto) (kcol cc_tipo) (kcol cc_limite)
           (trunca_dias ref (kcol cc_emissao) 3044 (-1)))
    m2.

(** ** [analisar_churn_por_fator], lines 131-178 *)

Record resultado := mk_resultado {
  total_clientes : nat;
  clientes_churn : nat;
  taxa_churn : option Q;
  pct_base : option Q
}.

Definition nq (n : nat) : Q := inject_Z (Z.of_nat n).

(** [Taxa_Churn] and [Pct_Base]: a group of no row (an empty [pd.cut]
    interval, kept by [observed=False]) has a [NaN] rate. *)
Definition agrega (base : nat) (g : list bool) : resultado :=
  let n := length g in
  let c := #[fun b => b] g in
  mk_resultado n c
    (if (n =? 0)%nat then None else Some (np_round (nq c / nq n * 100) 1))
    (if (base =? 0)%nat then None else Some (np_round (nq n / nq base * 100) 1)).

Definition tabela {K} (grupos : list (K * list bool)) : list (K * resultado) :=
  let base := sum_list_with (fun kg => length (snd kg)) grupos in
  sort_desc (fun r => taxa_churn (snd r)) (map (fun kg => (fst kg, agrega base (snd kg))) grupos).

(** [df.dropna(subset=[coluna, 'Churn'])]: the value and the flag. *)
Definition limpo {X} (col : linha -> option X) (df : list linha) : list (X * bool) :=
  omap (fun r => match col r, l_churn r with Some x, Some b => Some (x, b) | _, _ => None end) df.

(** A categorical factor: one group per value present. *)
Definition por_categoria {K} `{EqDecision K} (col : linha -> option K) (df : list linha)
  : list (K * resultado) :=
  tabela (map (fun kg => (fst kg, map snd (snd kg))) (group_by fst (limpo col df))).

(** A numerical factor: [pd.cut(col, bins, include_lowest=True)], one group
    per interval [(b_i, b_{i+1}]], empty ones included. *)
Definition intervalos (bins : list Q) : list (Q * Q) := combine bins (tl bins).

Definition por_faixa (bins : list Q) (col : linha -> option Q) (df : list linha)
  : list ((Q * Q) * resultado) :=
  let rows := limpo col df in
  tabela (map (fun iv => (iv, map snd (List.filter (fun r => bool_decide
              (cut bins (intervalos bins) true (Some (fst r)) = Some iv)) rows)))
            (intervalos bins)).

Definition nz (z : Z) : Q := inject_Z z.

(** ** The nine analyses, lines 190-249 *)

Definition faixas_idade : list Q := [0; 25; 35; 45; 55; 65; 100]%Q.
Definition faixas_renda : list Q := [0; 30000; 50000; 75000; 100000; 150000; 1000000]%Q.
Definition faixas_tempo : list Q := [0; 6; 12; 18; 24; 36; 1000]%Q.
Definition faixas_limite : list Q := [0; 5000; 15000; 25000; 40000; 1000000]%Q.

Inductive tabela_fator :=
  | Numerica (t : list ((Q * Q) * resultado))
  | Categorica (t : list (string * resultado)).

(** [df_credito = df_analise[df_analise['Limite_Cartao'] > 0]]. *)
Definition df_credito (df : list linha) : list linha :=
  List.filter (fun r => match l_limite r with Some q => Qltb 0 q | None => false end) df.

Definition resultados_analises (df : list linha) : list (string * tabela_fator) :=
  [("Idade", Numerica (por_faixa faixas_idade (fun r => Some (nz (l_idade r))) df));
   ("Renda_Anual", Numerica (por_faixa faixas_renda l_renda df));
   ("Tempo_Conta", Numerica (por_faixa faixas_tempo (fun r => Some (nz (l_tempo_conta r))) df));
   ("Conta_Adicional", Categorica (por_categoria l_adicional df));
   ("Estado", Categorica (por_categoria l_estado df));
   ("Tipo_Cartao", Categorica (por_categoria l_tipo df));
   ("Produto_Mastercard", Categorica (por_categoria l_produto df));
   ("Tempo_Cartao", Numerica (por_faixa faixas_tempo (fun r => Some (nz (l_tempo_cartao r))) df));
   ("Limite_Cartao", Numerica (por_faixa faixas_limite l_limite (df_credito df)))]%string.

(** ** The insights, lines 349-358: the first and last rows of each table
    with more than one row, and the difference of their rates. *)
Definition extremos {K} (t : list (K * resultado)) : option (K * resultado * (K * resultado)) :=
  match t with
  | top :: _ :: _ => Some (top, List.last t top)
  | _ => None
  end.

Definition insights (res : list (string * tabela_fator)) :=
  map (fun nt => match snd nt with
                 | Numerica t => (fst nt, option_map (fun e => (taxa_churn (snd (fst e)), taxa_churn (snd (snd e)))) (extremos t))
                 | Categorica t => (fst nt, option_map (fun e => (taxa_churn (snd (fst e)), taxa_churn (snd (snd e)))) (extremos t))
                 end) res.

(** ** Properties *)

(** A customer none of whose transactions carries its id has a [NaN]
    churn flag in [df_analise]. *)
Lemma sem_transacao_sem_churn clientes ts ks r :
  In r (df_analise clientes ts ks) ->
  (forall t, In t ts -> csv_Cliente_ID_tx t <> l_cliente r) -> l_churn r = None.
Proof.
  unfold df_analise. rewrite in_map_iff. intros ([[c u] p] & <- & Hin) Hno. cbn.
  apply In_merge_left in Hin as [Hin _]. apply In_merge_left in Hin as [_ Hu].
  destruct u as [u|]; [|done]. exfalso. destruct Hu as [Hu Heq].
  unfold TempoRigoroso.ultima_transacao in Hu. apply in_map_iff in Hu as ([k g] & <- & Hkg).
  apply In_grupos in Hkg as (t & Ht & Htk). apply (Hno t Ht). cbn in Heq. rewrite Htk, Heq. done.
Qed.

(** Such a customer is in no group of any factor: the rows every table
    counts are those of the customers with a churn flag. *)
Lemma limpo_com_churn {X} (col : linha -> option X) df :
  limpo col df = limpo col (List.filter (fun r => if l_churn r is Some _ then true else false) df).
Proof.
  unfold limpo. induction df as [|r df IH]; [done|]. cbn.
  destruct (l_churn r) eqn:E; cbn; rewrite ?E; destruct (col r); cbn; rewrite ?E, ?IH; done.
Qed.

(** The row the insights call the highest risk has the largest rate of its
    table. *)
Lemma extremos_maior {K} (g : list (K * list bool)) top bot :
  extremos (tabela g) = Some (top, bot) ->
  forall r, In r (tabela g) -> desc_key (taxa_churn (snd top)) (taxa_churn (snd r)).
Proof.
  unfold extremos. destruct (tabela g) as [|t [|t' rest]] eqn:E; try done.
  intros [= <- _] r Hr. unfold tabela in E.
  apply (sort_desc_topo (fun r => taxa_churn (snd r)) _ t (t' :: rest) E).
  rewrite <- E in Hr. apply list_elem_of_In. apply list_elem_of_In in Hr. rewrite sort_desc_perm in Hr. done.
Qed.

(** [groupby('Cliente_ID').first()] takes each column's first non-missing
    value separately: a customer who used a debit card (no limit) and then a
    credit card gets the type of the first and the limit of the second. *)
Definition ex_transacoes : list transacao_csv :=
  [mk_transacao_csv (Some 1%Z) (Some (Dates.mk_stamp 2024 11 2 9 0 0)) (Some 40%Q) (Some 7%Z) (Some 10%Z) None None;
   mk_transacao_csv (Some 2%Z) (Some (Dates.mk_stamp 2024 12 5 9 0 0)) (Some 90%Q) (Some 7%Z) (Some 11%Z) None None].

Definition ex_cartoes : list cartao_csv :=
  [mk_cartao_csv (Some 10%Z) (Some "Debit Mastercard"%string) (Some "Débito"%string)
     (Some (Dates.mk_stamp 2023 3 1 0 0 0)) None None None;
   mk_cartao_csv (Some 11%Z) (Some "Gold"%string) (Some "Crédito"%string)
     (Some (Dates.mk_stamp 2024 1 15 0 0 0)) None None (Some 5000%Q)].

Lemma first_mistura_cartoes :
  cartao_por_cliente ex_transacoes ex_cartoes =
  [(7%Z, mk_cartao_cli (Some "Debit Mastercard"%string) (Some "Débito"%string)
           (Some (Dates.mk_stamp 2023 3 1 0 0 0)) (Some 5000%Q))].
Proof. vm_compute. reflexivity. Qed.

End Fatores.
