(* ===== verification/RendaIdade.v ===== *)
(** * Income against age: [src/analise_renda_idade.py]

    The customers' ages on 2025-10-03, rounded to whole years, banded with
    [pd.cut]; the rows with every analysed column present; the mean and
    median income of each band, ranked; the ages with at least five
    customers, ranked; the top 10% by income (the 0.9 quantile) and their
    bands; the mean income and age of each state, ranked.

    Modelled with [Pandas]: the band statistics, the ranking (bands with no
    customer kept with a [NaN] mean, as [groupby] on a categorical does),
    the percentile, the top-10% profile and the rest of the customers, the
    Pearson correlation as the two sums it is a quotient of (so its
    comparisons with the thresholds are decided without a square root,
    [r_menor_correto]), its interpretation and trend, and the insights with
    their [IndexError] on an empty table.  Not modelled: the standard
    deviation (a square root), the plotly figures with the pivot table
    they draw (whether [pivot_table] accepts an empty frame depends on the
    pandas version), and the CSV export.

    The theorems show that a constant age column (one customer
    included) makes [corr] [NaN] and the script print a 'MUITO FORTE'
    correlation, that the top 10% is never empty when some customer is
    analysed, that it and the rest split the table, and when the insights
    fail. *)

From stdpp Require Import base list strings.
From Stdlib Require Import ZArith QArith Qround String Lia Lqa.
From S2P Require Import Prelude Sql Dates Pandas Schema Sixty Banco.

Local Abbreviation length := Datatypes.length.
Local Open Scope nat_scope.

Module RendaIdade.
Import Sql Pandas Processamento.

(** ** The customer table, lines 26-40 *)

(** [data_referencia = datetime(2025, 10, 3)], line 30. *)
Definition data_referencia : Z := instante (Dates.mk_stamp 2025 10 3 0 0 0).

(** [((data_referencia - Data_Nascimento).dt.days / 365.25).round(0)]. *)
Definition idade (nascimento : option Dates.stamp) : option Q :=
  option_map (fun st => np_round (inject_Z (dias data_referencia (instante st)) / (36525 # 100)) 0) nascimento.

Definition faixas : list Q := [0; 25; 30; 35; 40; 45; 50; 55; 60; 65; 100]%Q.
Definition rotulos : list string :=
  ["18-25"; "26-30"; "31-35"; "36-40"; "41-45"; "46-50"; "51-55"; "56-60"; "61-65"; "65+"]%string.

(** [Faixa_Etaria = pd.cut(Idade, bins, labels)], lines 34-37. *)
Definition faixa_etaria (idade : option Q) : option string := cut faixas rotulos false idade.

Record linha := mk_linha {
  l_cliente : Z;
  l_idade : Q;
  l_renda : Q;
  l_faixa : string;
  l_estado : string;
  l_cidade : string;
  l_cartoes : Z
}.

(** [df[[...]].dropna()], line 40: the customers with all seven columns. *)
Definition df_analise (clientes : list cliente_csv) : list linha :=
  omap (fun c =>
          let i := idade (csv_Data_Nascimento c) in
          match csv_Cliente_ID c, i, csv_Renda_Anual c, faixa_etaria i, csv_Estado c, csv_Cidade c,
                csv_Numero_Cartoes c with
          | Some id, Some i, Some r, Some f, Some e, Some ci, Some n => Some (mk_linha id i r f e ci n)
          | _, _, _, _, _, _, _ => None
          end) clientes.

(** ** The Pearson correlation, lines 51-73 *)

(** [Renda_Anual.corr(Idade)] as the two sums it is a quotient of:
    [r = p_cov / sqrt p_var], with [p_cov] the sum of the products of the
    centred values and [p_var] the product of the sums of their squares
    (the degrees of freedom cancel).  numpy's [corrcoef] gives [NaN] when
    [p_var] is 0: one row, or a constant column. *)
Record pearson := mk_pearson { p_cov : Q; p_var : Q }.

Definition soma_q (l : list Q) : Q := fold_right Qplus 0%Q l.

Definition centra (xs : list Q) : list Q :=
  match media xs with Some m => map (fun x => x - m)%Q xs | None => [] end.

(** The Pearson correlation of two columns of the same rows. *)
Definition corr (xs ys : list Q) : pearson :=
  let dx := centra xs in
  let dy := centra ys in
  mk_pearson (soma_q (zip_with Qmult dx dy))
    (soma_q (map (fun x => x * x)%Q dx) * soma_q (map (fun y => y * y)%Q dy)).

Definition correlacao (df : list linha) : pearson := corr (map l_renda df) (map l_idade df).

(** [abs(correlacao) < t] on a float64: [False] on [NaN]. *)
Definition r_menor (t : Q) (p : pearson) : bool :=
  Qltb 0 (p_var p) && Qltb (p_cov p * p_cov p) (t * t * p_var p).

Definition muito_fraca : string := "MUITO FRACA - Praticamente sem relação linear".
Definition fraca : string := "FRACA - Pouca relação linear".
Definition moderada : string := "MODERADA - Relação linear moderada".
Definition forte : string := "FORTE - Forte relação linear".
Definition muito_forte : string := "MUITO FORTE - Relação linear muito forte".

(** The [if]/[elif] chain of lines 55-64. *)
Definition interpretacao (p : pearson) : string :=
  if r_menor (1 # 10) p then muito_fraca
  else if r_menor (3 # 10) p then fraca
  else if r_menor (1 # 2) p then moderada
  else if r_menor (7 # 10) p then forte
  else muito_forte.

Definition maior_idade_maior_renda : string := "Quanto MAIOR a idade, MAIOR tende a ser a renda".
Definition maior_idade_menor_renda : string := "Quanto MAIOR a idade, MENOR tende a ser a renda".
Definition sem_relacao : string := "Não há relação linear entre idade e renda".

(** Lines 68-73: [correlacao > 0], [correlacao < 0], else. *)
Definition tendencia (p : pearson) : string :=
  if Qltb 0 (p_var p) && Qltb 0 (p_cov p) then maior_idade_maior_renda
  else if Qltb 0 (p_var p) && Qltb (p_cov p) 0 then maior_idade_menor_renda
  else sem_relacao.

(** ** Income by age band, lines 81-108 *)

Record por_faixa := mk_por_faixa {
  renda_media : option Q;
  renda_mediana : option Q;
  num_clientes : nat
}.

Definition rendas (g : list linha) : list Q := map l_renda g.

Definition opt_round (x : option Q) (d : nat) : option Q := option_map (fun q => np_round q d) x.

(** One row per band, empty bands included, ranked by mean income
    ([NaN] last). *)
Definition renda_por_faixa (df : list linha) : list (string * por_faixa) :=
  sort_desc (fun r => renda_media (snd r))
    (map (fun f => let g := List.filter (fun r => String.eqb (l_faixa r) f) df in
                   (f, mk_por_faixa (opt_round (media (rendas g)) 2) (opt_round (mediana (rendas g)) 2) (length g)))
       rotulos).

(** [faixa_mais_rica], [faixa_mais_pobre] and [diferenca_percentual]. *)
Definition extremos (t : list (string * por_faixa)) : option ((string * por_faixa) * (string * por_faixa) * flt) :=
  match t with
  | [] => None
  | top :: _ =>
      let bot := List.last t top in
      Some (top, bot,
            match renda_media (snd top), renda_media (snd bot) with
            | Some a, Some b => mul_np (div_q (a - b) b) 100
            | _, _ => NaN
            end)
  end.

(** ** Income by exact age, lines 117-122 *)

Definition renda_por_idade (df : list linha) : list (Q * (option Q * nat)) :=
  sort_desc (fun r => fst (snd r))
    (List.filter (fun r => 5 <=? snd (snd r))
       (map (fun kg => (fst kg, (opt_round (media (rendas (snd kg))) 2, length (snd kg))))
          (group_by l_idade df))).

(** ** The top 10%, lines 135-151 *)

Definition percentil_90 (df : list linha) : option Q := quantil (9 # 10) (rendas df).

Definition clientes_ricos (df : list linha) : list linha :=
  match percentil_90 df with
  | Some p => List.filter (fun r => Qle_bool p (l_renda r)) df
  | None => []
  end.

(** [outros_clientes = df_analise[Renda_Anual < percentil_90]], line
    289: [NaN] compares false, so no row on an empty table. *)
Definition outros_clientes (df : list linha) : list linha :=
  match percentil_90 df with
  | Some p => List.filter (fun r => Qltb (l_renda r) p) df
  | None => []
  end.

(** [value_counts().sort_index()] of the bands of the top 10%, with the
    share of each. *)
Definition dist_ricos (df : list linha) : list (string * nat * flt) :=
  let ricos := clientes_ricos df in
  map (fun f => let n := #[fun r => String.eqb (l_faixa r) f] ricos in
                (f, n, mul_np (div_np (Z.of_nat n) (Z.of_nat (length ricos))) 100)) rotulos.

(** ** By state, lines 160-166 *)

Definition por_estado (df : list linha) : list (string * (option Q * option Q * nat)) :=
  sort_desc (fun r => fst (fst (snd r)))
    (map (fun kg => (fst kg, (opt_round (media (rendas (snd kg))) 2,
                              opt_round (media (map l_idade (snd kg))) 2, length (snd kg))))
       (group_by l_estado df)).

(** ** The insights, lines 311-340 *)

Definition erro_indice : string := "IndexError: index 0 is out of bounds for axis 0 with size 0".

Definition nao_preditor : string := "A idade NÃO é um bom preditor de renda".

Record insights := mk_insights {
  i_faixa_rica : string;
  i_renda_rica : option Q;
  i_idade_media_ricos : option Q;
  i_correlacao : string;
  i_estado_rico : string;
  i_renda_estado : option Q;
  i_faixas_premium : list string;
  i_qtd_ricos : nat;
  i_estados : list string
}.

(** [renda_por_faixa.index[0]] and [por_estado.index[0]]: the first has
    a row per band, the second raises [IndexError] on an empty table. *)
Definition gerar_insights (df : list linha) (p : pearson) : Sessenta.exec insights :=
  match renda_por_faixa df, por_estado df with
  | top :: _, e :: _ =>
      Sessenta.Ok (mk_insights (fst top) (renda_media (snd top))
        (opt_round (media (map l_idade (clientes_ricos df))) 1)
        (if r_menor (1 # 10) p then nao_preditor else interpretacao p)
        (fst e) (fst (fst (snd e)))
        (map fst (firstn 3 (renda_por_faixa df))) (length (clientes_ricos df))
        (map fst (firstn 3 (por_estado df))))
  | _, _ => Sessenta.Erro erro_indice
  end.

(** ** Properties *)

(** The age is rounded, not truncated: a customer born on 2000-01-01 is 25
    on 2025-10-03 but gets [Idade] 26 and the band '26-30'. *)
Lemma idade_arredondada :
  idade (Some (Dates.mk_stamp 2000 1 1 0 0 0)) = Some 26%Q /\
  faixa_etaria (Some 26%Q) = Some "26-30"%string.
Proof. vm_compute. split; reflexivity. Qed.

(** When some band has no customer, the ranking ends with it: the band the
    script reports as the poorest has no mean income, and the printed
    difference is [NaN]. *)
Lemma faixa_vazia_mais_pobre df f top bot d :
  In f rotulos -> (forall r, In r df -> l_faixa r <> f) ->
  extremos (renda_por_faixa df) = Some (top, bot, d) -> renda_media (snd bot) = None /\ d = NaN.
Proof.
  intros Hf Hno. unfold extremos. destruct (renda_por_faixa df) as [|t rest] eqn:E; [done|].
  intros [= <- <- <-].
  assert (renda_media (snd (List.last (t :: rest) t)) = None) as Hb.
  { unfold renda_por_faixa in E. apply desc_key_None_l.
    assert (List.filter (fun r => String.eqb (l_faixa r) f) df = []) as Hnil.
    { clear - Hno. induction df as [|r df IH]; [done|]. cbn.
      destruct (String.eqb_spec (l_faixa r) f) as [Heq|_]; [exfalso; apply (Hno r); [left|]; done|].
      apply IH. intros r' Hr'. apply Hno. right. done. }
    set (g := fun r : string * por_faixa => renda_media (snd r)) in *.
    change (desc_key (g (f, mk_por_faixa (opt_round (media (rendas [])) 2) (opt_round (mediana (rendas [])) 2) 0))
              (g (List.last (t :: rest) t))).
    rewrite <- E. apply sort_desc_ultimo; [rewrite E; done|].
    apply in_map_iff. exists f. rewrite Hnil. done. }
  split; [done|]. cbn [List.last] in Hb. rewrite Hb. destruct (renda_media (snd t)); done.
Qed.

(** For non-negative numbers, comparing them is comparing their squares. *)
Lemma sq_lt (r t : Q) : (0 <= r -> 0 <= t -> (r < t <-> r * r < t * t))%Q.
Proof.
  intros Hr Ht. split; intros H; [nra|].
  destruct (Qlt_le_dec r t) as [|Hle]; [done|]. exfalso. nra.
Qed.

(** The squared comparison the model makes decides the comparison
    the script makes: for a defined correlation [r] (a non-zero [p_var])
    and any threshold [t >= 0], [r_menor t] holds exactly when
    [abs(r) < t], where [abs(r)] is the non-negative number whose square
    times [p_var] is [p_cov] squared. *)
Theorem r_menor_correto (p : pearson) (r t : Q) :
  (0 < p_var p)%Q -> (0 <= r)%Q -> (0 <= t)%Q -> (r * r * p_var p == p_cov p * p_cov p)%Q ->
  r_menor t p = true <-> (r < t)%Q.
Proof.
  intros Hv Hr Ht He. unfold r_menor. rewrite (proj2 (Qltb_iff 0 _) Hv). cbn [andb].
  rewrite Qltb_iff, (sq_lt r t Hr Ht), <- He. split; intros H; nra.
Qed.

Lemma soma_q_const (xs : list Q) a :
  (forall x, In x xs -> x == a)%Q -> (soma_q xs == inject_Z (Z.of_nat (length xs)) * a)%Q.
Proof.
  induction xs as [|x xs IH]; intros H; cbn; [done|].
  rewrite (H x (or_introl eq_refl)), IH by (intros; apply H; right; done).
  rewrite Nat2Z.inj_succ, <- Z.add_1_l, inject_Z_plus. ring.
Qed.

(** A constant column is centred to zeros: the sum of its squares is 0. *)
Lemma centra_const (xs : list Q) a :
  (forall x, In x xs -> x == a)%Q -> (soma_q (map (fun x => x * x) (centra xs)) == 0)%Q.
Proof.
  intros H. unfold centra, media. destruct xs as [|x0 xs0] eqn:E; [done|]. rewrite <- E in *.
  assert (soma_q xs / inject_Z (Z.of_nat (length xs)) == a)%Q as Hm.
  { rewrite soma_q_const by done.
    field. subst xs. cbn. unfold Qeq. cbn. lia. }
  set (m := (fold_right Qplus 0%Q xs / _)%Q). change (m == a)%Q in Hm. clearbody m. clear E x0 xs0.
  induction xs as [|x xs IH]; cbn; [done|].
  rewrite IH by (intros; apply H; right; done). rewrite (H x (or_introl eq_refl)), Hm. ring.
Qed.

(** An undefined correlation passes none of the script's tests. *)
Lemma correlacao_nan p :
  (p_var p == 0)%Q -> interpretacao p = muito_forte /\ tendencia p = sem_relacao.
Proof.
  intros Hv. assert (Qltb 0 (p_var p) = false) as E.
  { destruct (Qltb_spec 0 (p_var p)); [lra|done]. }
  unfold interpretacao, tendencia, r_menor. rewrite E. done.
Qed.

(** C35: When every analysed customer has the same age (in particular
    when there is a single one), [corr] is [NaN], every [abs(correlacao) <
    t] test is false and the script reports a 'MUITO FORTE' correlation,
    with no trend. *)
Theorem idade_constante_muito_forte df a :
  (forall r, In r df -> l_idade r == a)%Q ->
  interpretacao (correlacao df) = muito_forte /\ tendencia (correlacao df) = sem_relacao.
Proof.
  intros H. apply correlacao_nan. cbn.
  rewrite (centra_const (map l_idade df) a); [ring|].
  intros x (r & <- & Hr)%in_map_iff. apply H. done.
Qed.

Lemma quantil_None p l : quantil p l = None -> l = [].
Proof.
  unfold quantil. destruct (ordena_asc l) eqn:E; [|done]. intros _.
  apply Permutation_nil. rewrite <- (ordena_asc_perm l), E. done.
Qed.

Lemma rendas_nil df : rendas df = [] -> df = [].
Proof. unfold rendas. apply map_eq_nil. Qed.

(** The threshold of the top 10% (the 0.9 quantile) never exceeds
    the largest income, so [clientes_ricos] is non-empty whenever some
    customer is analysed. *)
Theorem ricos_nao_vazio df : df <> [] -> clientes_ricos df <> [].
Proof.
  intros Hdf. unfold clientes_ricos, percentil_90. destruct (quantil (9 # 10) (rendas df)) as [p|] eqn:E.
  - apply quantil_le_valor in E as (x & (r & <- & Hr)%in_map_iff & Hle).
    intros Hnil. assert (In r (List.filter (fun r => Qle_bool p (l_renda r)) df)) as Hin
      by (apply filter_In; split; [done|apply Qle_bool_iff; done]).
    rewrite Hnil in Hin. done.
  - apply quantil_None, rendas_nil in E. done.
Qed.

(** The top 10% and the others split the analysed customers. *)
Lemma ricos_outros_particao df :
  length (clientes_ricos df) + length (outros_clientes df) = length df.
Proof.
  unfold clientes_ricos, outros_clientes. destruct (percentil_90 df) as [p|] eqn:E.
  - change (#[fun r => Qle_bool p (l_renda r)] df + #[fun r => negb (Qle_bool p (l_renda r))] df = length df).
    rewrite count_if_complement. pose proof (count_if_le (fun r => Qle_bool p (l_renda r)) df). lia.
  - apply quantil_None, rendas_nil in E as ->. done.
Qed.

Lemma renda_por_faixa_nao_vazia df : renda_por_faixa df <> [].
Proof.
  unfold renda_por_faixa. intros E. apply (f_equal length) in E.
  rewrite (Permutation_length (sort_desc_perm _ _)), length_map in E. done.
Qed.

Lemma por_estado_vazio df : por_estado df = [] <-> df = [].
Proof.
  unfold por_estado. split; [|intros ->; done].
  intros E. destruct df as [|r df']; [done|]. exfalso. apply (f_equal length) in E.
  rewrite (Permutation_length (sort_desc_perm _ _)), length_map in E. unfold group_by in E.
  rewrite length_map in E. apply length_zero_iff_nil in E.
  assert (l_estado r ∈ remove_dups (map l_estado (r :: df'))) as H
    by (apply elem_of_remove_dups; cbn; left).
  rewrite E in H. apply not_elem_of_nil in H. done.
Qed.

(** The insights stop with [IndexError] exactly when no customer
    has every analysed column: [por_estado] is then empty, while
    [renda_por_faixa] always has its ten bands. *)
Theorem insights_erro df p :
  (exists e, gerar_insights df p = Sessenta.Erro e) <-> df = [].
Proof.
  unfold gerar_insights. pose proof (renda_por_faixa_nao_vazia df) as Hf.
  rewrite <- por_estado_vazio.
  destruct (renda_por_faixa df) as [|top ?]; [done|]. destruct (por_estado df) as [|e ?].
  - split; [done|]. eauto.
  - split; [intros [? [=]]|done].
Qed.

(** ** Examples *)

Definition ex_linha (c : Z) (i r : Q) (e : string) : linha := mk_linha c i r "36-40" e "Cidade" 1.

(** Two customers of 40 with different incomes: the age column is constant. *)
Definition ex_df_constante : list linha :=
  [ex_linha 1 40 50000 "SP"; ex_linha 2 40 90000 "RJ"].

Lemma idade_constante_muito_forte_witness :
  interpretacao (correlacao ex_df_constante) = muito_forte /\ tendencia (correlacao ex_df_constante) = sem_relacao.
Proof. apply (idade_constante_muito_forte ex_df_constante 40). intros r [<-|[<-|[]]]; reflexivity. Defined.

(** A correlation of 0.3 ([p_cov] 3, [p_var] 100) is below 0.5. *)
Lemma r_menor_correto_witness : r_menor (1 # 2) (mk_pearson 3 100) = true <-> (3 # 10 < 1 # 2)%Q.
Proof. apply (r_menor_correto (mk_pearson 3 100) (3 # 10) (1 # 2)); vm_compute; try reflexivity; discriminate. Defined.

(** Incomes rising with age: a positive, 'FORTE' or stronger correlation. *)
Definition ex_df : list linha :=
  [ex_linha 1 30 40000 "SP"; ex_linha 2 40 60000 "RJ"; ex_linha 3 50 90000 "SP"; ex_linha 4 60 80000 "MG"].

Example correlacao_ex :
  tendencia (correlacao ex_df) = maior_idade_maior_renda /\ interpretacao (correlacao ex_df) = muito_forte /\
  r_menor (7 # 10) (correlacao ex_df) = false.
Proof. vm_compute. repeat split; reflexivity. Qed.

Lemma ricos_nao_vazio_witness : clientes_ricos ex_df <> [].
Proof. apply ricos_nao_vazio. discriminate. Defined.

Example ricos_ex : map l_cliente (clientes_ricos ex_df) = [3%Z] /\ map l_cliente (outros_clientes ex_df) = [1; 2; 4]%Z.
Proof. vm_compute. split; reflexivity. Qed.

End RendaIdade.
