(* ===== verification/Distribuicao.v ===== *)
(** * Card-type distribution: [src/analise_distribuicao_cartoes.py]

    Two queries on the SQLite database and a report over their results.
    [obter_distribuicao_cartoes] counts the rows of [cartoes_em_uso] (the
    distinct (card, type, limit, product, customer) rows of [cartoes INNER
    JOIN transacoes]) per card type, adds one 'Sem Cartão Ativo' row with
    the number of customers [NOT IN] the customer ids of [transacoes], gives
    each row its share of the sum, and orders by count.
    [obter_detalhes_cartoes] groups the same join by card and customer
    (transactions and mean ticket of each), then by (type, product).
    [criar_grafico_distribuicao_cartoes] and [gerar_relatorio_detalhado]
    read both tables; [main] runs the four steps inside one [try] block
    (the error monad [Sessenta.exec]).

    The theorems show what the numbers count: (card, customer) rows, not
    cards; the shares when the denominator is positive; which rows make the
    chart raise; and that the report's "most popular products" are the
    first rows of the query's own order. *)

From stdpp Require Import base list strings.
From Stdlib Require Import ZArith QArith Qround String Lia Lqa Sorting.Sorted FinFun.
From S2P Require Import Prelude Sql Dates Pandas Schema Churn Sixty.

Local Abbreviation length := Datatypes.length.
Local Open Scope nat_scope.

Module Distribuicao.
Import Sql Sessenta.
Local Open Scope exec_scope.

(** ** [obter_distribuicao_cartoes], lines 41-127 *)

(** A row of the CTE [cartoes_em_uso]. *)
Record em_uso := mk_em_uso {
  u_cartao : option Z;
  u_tipo : option string;
  u_limite : option Q;
  u_produto : option string;
  u_cliente : option Z
}.

#[export] Instance em_uso_eq_dec : EqDecision em_uso.
Proof. solve_decision. Defined.

(** [FROM cartoes c INNER JOIN transacoes t ON c.ID_Cartao = t.ID_Cartao]. *)
Definition cartoes_transacoes (cartoes : list Cartao.t) (transacoes : list Transacao.t)
  : list (Cartao.t * Transacao.t) :=
  inner_join (fun c t => s_eq (Cartao.ID_Cartao c) (Transacao.ID_Cartao t)) cartoes transacoes.

Definition chave (ct : Cartao.t * Transacao.t) : em_uso :=
  mk_em_uso (Cartao.ID_Cartao (fst ct)) (Cartao.Tipo_Cartao (fst ct)) (Cartao.Limite_Cartao (fst ct))
    (Cartao.Produto_Mastercard (fst ct)) (Transacao.Cliente_ID (snd ct)).

(** [cartoes_em_uso AS (SELECT DISTINCT c.ID_Cartao, c.Tipo_Cartao,
    c.Limite_Cartao, c.Produto_Mastercard, t.Cliente_ID FROM ...)]. *)
Definition cartoes_em_uso cartoes transacoes : list em_uso :=
  distinct (map chave (cartoes_transacoes cartoes transacoes)).

(** [clientes_sem_cartao AS (SELECT COUNT( * ) FROM clientes WHERE
    Cliente_ID NOT IN (SELECT DISTINCT Cliente_ID FROM transacoes))]. *)
Definition clientes_sem_cartao (clientes : list Cliente.t) (transacoes : list Transacao.t) : nat :=
  count_when (fun c => s_not_in (Cliente.Cliente_ID c) (Classifier.clientes_com_transacoes transacoes))
    clientes.

Definition nq (n : nat) : Q := inject_Z (Z.of_nat n).

(** [ROUND(n * 100.0 / d, 2)]; SQLite's division by zero is NULL. *)
Definition percentual_de (n d : nat) : option Q :=
  if d =? 0 then None else Some (sql_round (nq n * 100 / nq d) 2).

Record linha := mk_linha {
  tipo_cartao : option string;
  quantidade_cartoes : nat;
  percentual : option Q
}.

Definition sem_cartao_ativo : string := "Sem Cartão Ativo".

(** The two branches of the [UNION ALL], [ORDER BY quantidade_cartoes
    DESC]. *)
Definition obter_distribuicao_cartoes clientes cartoes transacoes : list linha :=
  let uso := cartoes_em_uso cartoes transacoes in
  let sem := clientes_sem_cartao clientes transacoes in
  let d := length uso + sem in
  order_by (fun a b => quantidade_cartoes b <? quantidade_cartoes a)
    (map (fun kg => mk_linha (fst kg) (length (snd kg)) (percentual_de (length (snd kg)) d))
       (group_by u_tipo uso) ++
     [mk_linha (Some sem_cartao_ativo) sem (percentual_de sem d)]).

(** [query_comparacao], lines 91-121: the four printed metrics. *)
Definition query_comparacao clientes cartoes transacoes : list (string * nat) :=
  [("Total de clientes cadastrados", length clientes);
   ("Clientes com cartão ativo", count_distinct (map Transacao.Cliente_ID transacoes));
   ("Total de cartões em uso",
      count_distinct (map (fun ct => Cartao.ID_Cartao (fst ct)) (cartoes_transacoes cartoes transacoes)));
   ("Clientes sem cartão ativo", clientes_sem_cartao clientes transacoes)]%string.

(** ** [obter_detalhes_cartoes], lines 129-159 *)

(** A row of its CTE [cartoes_em_uso]: one (card, customer) pair with
    [COUNT(DISTINCT t.ID_Transacao)] and [ROUND(AVG(t.Valor_Compra), 2)]. *)
Record uso_det := mk_uso_det {
  d_uso : em_uso;
  total_transacoes : nat;
  ticket_medio : option Q
}.

#[export] Instance uso_det_eq_dec : EqDecision uso_det.
Proof. solve_decision. Defined.

Definition opt_round (x : option Q) (d : nat) : option Q := option_map (fun q => sql_round q d) x.

Definition cartoes_em_uso_det cartoes transacoes : list uso_det :=
  distinct (map (fun kg => mk_uso_det (fst kg)
                   (count_distinct (map (fun ct => Transacao.ID_Transacao (snd ct)) (snd kg)))
                   (opt_round (avg_col (map (fun ct => Transacao.Valor_Compra (snd ct)) (snd kg))) 2))
              (group_by chave (cartoes_transacoes cartoes transacoes))).

Record detalhe := mk_detalhe {
  Tipo_Cartao : option string;
  Produto_Mastercard : option string;
  quantidade : nat;
  limite_medio : option Q;
  transacoes_medias : option Q;
  ticket_medio_geral : option Q
}.

(** [ORDER BY Tipo_Cartao, quantidade_cartoes DESC]: NULL first, then the
    texts in byte order; within a type, the larger count first. *)
Definition tipo_antes (a b : option string) : bool :=
  match a, b with
  | None, Some _ => true
  | Some x, Some y => str_ltb x y
  | _, None => false
  end.

Definition detalhe_antes (a b : detalhe) : bool :=
  tipo_antes (Tipo_Cartao a) (Tipo_Cartao b) ||
  (bool_decide (Tipo_Cartao a = Tipo_Cartao b) && (quantidade b <? quantidade a)).

Definition obter_detalhes_cartoes cartoes transacoes : list detalhe :=
  order_by detalhe_antes
    (map (fun kg => let g := snd kg in
                    mk_detalhe (fst (fst kg)) (snd (fst kg)) (length g)
                      (opt_round (avg_col (map (fun r => u_limite (d_uso r)) g)) 0)
                      (opt_round (avg_col (map (fun r => Some (nq (total_transacoes r))) g)) 1)
                      (opt_round (avg_col (map ticket_medio g)) 2))
       (group_by (fun r => (u_tipo (d_uso r), u_produto (d_uso r))) (cartoes_em_uso_det cartoes transacoes))).

(** ** [criar_grafico_distribuicao_cartoes], lines 161-296 *)

(** [df[df['tipo_cartao'] == t]['quantidade_cartoes'].iloc[0] if t in
    df['tipo_cartao'].values else 0]: the first row with that label. *)
Definition quantidade_de (df : list linha) (t : string) : nat :=
  match List.find (fun r => bool_decide (tipo_cartao r = Some t)) df with
  | Some r => quantidade_cartoes r
  | None => 0
  end.

(** [df_distribuicao['quantidade_cartoes'].sum()]. *)
Definition total_cartoes (df : list linha) : nat := sum_list_with quantidade_cartoes df.

(** [df_ativos.groupby('Tipo_Cartao')['limite_medio'].mean()], lines
    224-227: the rows of type 'Crédito' or 'Débito', one mean per type
    present (the keys sorted), [NaN] skipped. *)
Definition limite_por_tipo (det : list detalhe) : list (string * option Q) :=
  omap (fun t => match List.filter (fun r => bool_decide (Tipo_Cartao r = Some t)) det with
                 | [] => None
                 | g => Some (t, Pandas.media (omap limite_medio g))
                 end) ["Crédito"; "Débito"]%string.

Record grafico := mk_grafico {
  g_limite_por_tipo : list (string * option Q);
  g_total : nat;
  g_sem_cartao : nat;
  g_credito : nat;
  g_debito : nat;
  g_pct_credito : Pandas.flt;
  g_pct_debito : Pandas.flt;
  g_pct_sem : Pandas.flt
}.

(** [explode=[0.1 if 'Sem Cartão' in x else 0 for x in
    df_distribuicao['tipo_cartao']]], line 177: [in] on a NULL label
    raises [TypeError]. *)
Definition erro_rotulo : string := "argument of type 'NoneType' is not iterable".

Definition pct (n total : nat) : Pandas.flt :=
  Pandas.mul_np (Pandas.div_np (Z.of_nat n) (Z.of_nat total)) 100.

(** [ax3.barh(y_pos, df_distribuicao['percentual'])] and its labels
    [bar.get_width() + 0.5], lines 208-217: a NULL [percentual] (a zero
    denominator, where the pie of line 172 also gets only zero wedges)
    raises [TypeError]. *)
Definition erro_percentual : string := "unsupported operand type(s) for +: 'NoneType' and 'float'".

Definition criar_grafico_distribuicao_cartoes (dist : list linha) (det : list detalhe) : exec grafico :=
  if existsb (fun r => is_null (tipo_cartao r)) dist then Erro erro_rotulo
  else if existsb (fun r => is_null (percentual r)) dist then Erro erro_percentual
  else
    let total := total_cartoes dist in
    let sem := quantidade_de dist sem_cartao_ativo in
    let credito := quantidade_de dist "Crédito" in
    let debito := quantidade_de dist "Débito" in
    Ok (mk_grafico (limite_por_tipo det) total sem credito debito
          (pct credito total) (pct debito total) (pct sem total)).

(** ** [gerar_relatorio_detalhado], lines 298-353 *)

Record bloco := mk_bloco {
  b_tipo : string;
  b_total : nat;
  b_limite : option Q;
  b_top : list (option string * nat)
}.

(** The block of one type: [total_tipo], [limite_medio] (the mean of the
    product rows' [limite_medio]) and [nlargest(3, 'quantidade_cartoes')]. *)
Definition bloco_de (det : list detalhe) (t : string) : bloco :=
  let dados := List.filter (fun r => bool_decide (Tipo_Cartao r = Some t)) det in
  mk_bloco t (sum_list_with quantidade dados) (Pandas.media (omap limite_medio dados))
    (map (fun r => (Produto_Mastercard r, quantidade r)) (Pandas.nlargest 3 (fun r => nq (quantidade r)) dados)).

(** [tipo.upper()] on a NULL type raises [AttributeError]. *)
Definition erro_upper : string := "'NoneType' object has no attribute 'upper'".

Fixpoint blocos (det : list detalhe) (tipos : list (option string)) : exec (list bloco) :=
  match tipos with
  | [] => Ok []
  | None :: _ => Erro erro_upper
  | Some t :: ts => let* bs := blocos det ts in Ok (bloco_de det t :: bs)
  end.

Record relatorio := mk_relatorio {
  r_total : nat;
  r_blocos : list bloco;
  r_sem_cartao : nat;
  r_cartoes_ativos : nat
}.

(** [for tipo in df_detalhes['Tipo_Cartao'].unique()], then [sem_cartao]
    and [total_cartoes_ativos] (the rows whose label is not 'Sem Cartão
    Ativo'; a NULL label is not equal to it). *)
Definition gerar_relatorio_detalhado (dist : list linha) (det : list detalhe) : exec relatorio :=
  let* bs := blocos det (Pandas.drop_duplicates (map Tipo_Cartao det)) in
  Ok (mk_relatorio (total_cartoes dist) bs (quantidade_de dist sem_cartao_ativo)
        (sum_list_with quantidade_cartoes
           (List.filter (fun r => negb (bool_decide (tipo_cartao r = Some sem_cartao_ativo))) dist))).

(** ** [main], lines 355-385: the four steps in one [try] block *)

Definition main clientes cartoes transacoes : exec (grafico * relatorio) :=
  let dist := obter_distribuicao_cartoes clientes cartoes transacoes in
  let det := obter_detalhes_cartoes cartoes transacoes in
  let* g := criar_grafico_distribuicao_cartoes dist det in
  let* r := gerar_relatorio_detalhado dist det in
  Ok (g, r).

(** ** Where the rows come from *)

Lemma In_cartoes_em_uso cartoes transacoes u :
  In u (cartoes_em_uso cartoes transacoes) <->
  exists ct, In ct (cartoes_transacoes cartoes transacoes) /\ chave ct = u.
Proof. unfold cartoes_em_uso. rewrite In_distinct, in_map_iff. firstorder. Qed.

Lemma In_distribuicao clientes cartoes transacoes r :
  In r (obter_distribuicao_cartoes clientes cartoes transacoes) ->
  (tipo_cartao r = Some sem_cartao_ativo /\ quantidade_cartoes r = clientes_sem_cartao clientes transacoes) \/
  exists ct, In ct (cartoes_transacoes cartoes transacoes) /\ tipo_cartao r = Cartao.Tipo_Cartao (fst ct).
Proof.
  unfold obter_distribuicao_cartoes. rewrite In_order_by, in_app_iff, in_map_iff.
  intros [([k g] & <- & Hkg)|[<-|[]]]; [right|left; done].
  apply In_group_by in Hkg as ((u & Hu & <-) & _). apply In_cartoes_em_uso in Hu as (ct & Hct & <-).
  exists ct. done.
Qed.




Lemma blocos_erro det tipos msg : blocos det tipos = Erro msg -> msg = erro_upper.
Proof.
  induction tipos as [|[t|] tipos IH]; cbn; [done| |congruence].
  destruct (blocos det tipos); cbn; [done|]. intros H. apply IH. congruence.
Qed.

(** ** What the numbers count *)

Lemma total_distribuicao clientes cartoes transacoes :
  total_cartoes (obter_distribuicao_cartoes clientes cartoes transacoes) =
  length (cartoes_em_uso cartoes transacoes) + clientes_sem_cartao clientes transacoes.
Proof.
  unfold total_cartoes, obter_distribuicao_cartoes. rewrite order_by_perm, sum_list_with_app, sum_list_with_map.
  cbn. rewrite (sum_list_with_ext_in _ (fun kg => #[fun _ => true] (snd kg))) by
    (intros; symmetry; apply count_if_true; done).
  rewrite group_by_sum, count_if_true by done. lia.
Qed.

(** The rows of the card types, without the 'Sem Cartão Ativo' row. *)
Lemma ativos_distribuicao clientes cartoes transacoes :
  (forall ct, In ct (cartoes_transacoes cartoes transacoes) -> Cartao.Tipo_Cartao (fst ct) <> Some sem_cartao_ativo) ->
  sum_list_with quantidade_cartoes
    (List.filter (fun r => negb (bool_decide (tipo_cartao r = Some sem_cartao_ativo)))
       (obter_distribuicao_cartoes clientes cartoes transacoes)) =
  length (cartoes_em_uso cartoes transacoes).
Proof.
  intros Hs. rewrite sum_list_with_filter.
  rewrite (sum_list_with_ext_in _ (fun r => if bool_decide (tipo_cartao r = Some sem_cartao_ativo) then 0
                                            else quantidade_cartoes r)) by
    (intros r _; destruct (bool_decide _); done).
  pose proof (total_distribuicao clientes cartoes transacoes) as Ht. unfold total_cartoes in Ht.
  unfold obter_distribuicao_cartoes in *. rewrite order_by_perm in Ht |- *.
  rewrite sum_list_with_app, sum_list_with_map in Ht |- *. cbn in Ht |- *.
  rewrite bool_decide_eq_true_2 by done.
  rewrite (sum_list_with_ext_in _ (fun kg => length (snd kg))); [lia|].
  intros [k g] Hkg. rewrite bool_decide_eq_false_2; [done|]. cbn.
  apply In_group_by in Hkg as ((u & Hu & <-) & _). apply In_cartoes_em_uso in Hu as (ct & Hct & <-).
  apply Hs. done.
Qed.

Lemma quantidade_sem clientes cartoes transacoes :
  (forall ct, In ct (cartoes_transacoes cartoes transacoes) -> Cartao.Tipo_Cartao (fst ct) <> Some sem_cartao_ativo) ->
  quantidade_de (obter_distribuicao_cartoes clientes cartoes transacoes) sem_cartao_ativo =
  clientes_sem_cartao clientes transacoes.
Proof.
  intros Hs. unfold quantidade_de. destruct (List.find _ _) as [r|] eqn:E.
  - apply find_some in E as [Hr Hp]. apply bool_decide_eq_true in Hp.
    destruct (In_distribuicao _ _ _ _ Hr) as [[_ Hq]|(ct & Hct & He)]; [done|].
    exfalso. apply (Hs ct Hct). rewrite <- He. done.
  - exfalso. set (d := length (cartoes_em_uso cartoes transacoes) + clientes_sem_cartao clientes transacoes).
    assert (In (mk_linha (Some sem_cartao_ativo) (clientes_sem_cartao clientes transacoes)
                  (percentual_de (clientes_sem_cartao clientes transacoes) d))
               (obter_distribuicao_cartoes clientes cartoes transacoes)) as Hin.
    { apply In_order_by, in_app_iff. right. left. done. }
    pose proof (find_none _ _ E _ Hin) as Hf. cbn in Hf. rewrite bool_decide_eq_true_2 in Hf; done.
Qed.

(** Every card id the join reads is the id of a row of [cartoes_em_uso];
    the distinct ids are at most as many as the rows. *)
Lemma cartoes_distintos_le cartoes transacoes :
  count_distinct (map (fun ct => Cartao.ID_Cartao (fst ct)) (cartoes_transacoes cartoes transacoes)) <=
  length (distinct (map u_cartao (cartoes_em_uso cartoes transacoes))).
Proof.
  unfold count_distinct. rewrite <- (length_map Some).
  apply NoDup_incl_length.
  - apply Injective_map_NoDup; [intros ? ? [= ->]; done|]. apply NoDup_distinct.
  - intros x Hx. apply in_map_iff in Hx as (z & <- & Hz). apply In_distinct, In_nao_nulos, in_map_iff in Hz as (ct & Hid & Hct).
    apply In_distinct, in_map_iff. exists (chave ct). split; [done|]. apply In_cartoes_em_uso. eauto.
Qed.

(** One transaction with a NULL [Cliente_ID] makes every [NOT IN] of
    [clientes_sem_cartao] unknown: the 'Sem Cartão Ativo' row counts 0. *)
Lemma sem_cartao_nulo clientes transacoes t :
  In t transacoes -> Transacao.Cliente_ID t = None -> clientes_sem_cartao clientes transacoes = 0.
Proof.
  intros Ht Hn. unfold clientes_sem_cartao, count_when. apply count_if_false. intros c _.
  assert (In None (Classifier.clientes_com_transacoes transacoes)) as Hin
    by (apply In_distinct, in_map_iff; exists t; done).
  destruct (holds _) eqn:E; [|done]. apply holds_s_not_in in E as [Hnil|(a & _ & _ & Hnone)].
  - rewrite Hnil in Hin. done.
  - done.
Qed.

(** ** The shares *)

Lemma nq_S n : (nq (S n) == nq n + 1)%Q.
Proof. unfold nq. rewrite Nat2Z.inj_succ, <- Z.add_1_r, inject_Z_plus. reflexivity. Qed.

Lemma nq_add a b : (nq (a + b) == nq a + nq b)%Q.
Proof. unfold nq. rewrite Nat2Z.inj_add, inject_Z_plus. reflexivity. Qed.

(** Rounding each of [n] terms to hundredths moves their sum by at most
    [n / 200]. *)
Lemma soma_arredondada {A} (x : A -> Q) l :
  (- (nq (length l) * (1 # 200)) <= fold_right Qplus 0 (map (fun r => sql_round (x r) 2) l) -
                                    fold_right Qplus 0 (map x l) <= nq (length l) * (1 # 200))%Q.
Proof.
  induction l as [|y l IH]; cbn [length map fold_right]; [change (nq 0) with 0%Q; lra|].
  rewrite nq_S. pose proof (sql_round_2_bound (x y)). lra.
Qed.

Lemma soma_escala {A} (f : A -> nat) (c : Q) l :
  (fold_right Qplus 0 (map (fun r => nq (f r) * c) l) == nq (sum_list_with f l) * c)%Q.
Proof.
  induction l as [|y l IH]; cbn [map fold_right sum_list_with]; [change (nq 0) with 0%Q; lra|].
  rewrite IH, nq_add. ring.
Qed.

Lemma nq_pos n : (0 < n)%nat -> (0 < nq n)%Q.
Proof. intros H. unfold nq. change 0%Q with (inject_Z 0). rewrite <- Zlt_Qlt. lia. Qed.

(** Each row's share is its count over the sum of all counts. *)
Lemma distribuicao_linhas clientes cartoes transacoes r :
  In r (obter_distribuicao_cartoes clientes cartoes transacoes) ->
  percentual r = percentual_de (quantidade_cartoes r)
                   (length (cartoes_em_uso cartoes transacoes) + clientes_sem_cartao clientes transacoes) /\
  quantidade_cartoes r <= length (cartoes_em_uso cartoes transacoes) + clientes_sem_cartao clientes transacoes.
Proof.
  unfold obter_distribuicao_cartoes. rewrite In_order_by, in_app_iff, in_map_iff.
  intros [([k g] & <- & Hkg)|[<-|[]]]; cbn; [|split; [done|lia]].
  apply In_group_by in Hkg as (_ & ->). split; [done|].
  unfold group_of. pose proof (filter_length_le (fun r => bool_decide (u_tipo r = k)) (cartoes_em_uso cartoes transacoes)). lia.
Qed.

(** ** The order of [obter_detalhes_cartoes] *)

Lemma tipo_antes_asym a b : tipo_antes a b = true -> tipo_antes b a = false.
Proof. destruct a, b; cbn; try done. apply str_ltb_asym. Qed.

Lemma tipo_antes_weak a b c : tipo_antes a c = true -> tipo_antes a b = true \/ tipo_antes b c = true.
Proof. destruct a, b, c; cbn; auto; try done. apply str_ltb_weak. Qed.

Lemma tipo_antes_total a b : a <> b -> tipo_antes a b = true \/ tipo_antes b a = true.
Proof.
  destruct a as [x|], b as [y|]; cbn; auto.
  intros Hne. destruct (str_compare_cases x y) as [|[->|]]; auto.
Qed.

Lemma detalhe_antes_asym a b : detalhe_antes a b = true -> detalhe_antes b a = false.
Proof.
  unfold detalhe_antes. intros [Ht|[He Hq]%andb_prop]%orb_prop.
  - rewrite (tipo_antes_asym _ _ Ht). cbn.
    destruct (bool_decide _) eqn:E; [|done]. apply bool_decide_eq_true in E. rewrite E in Ht.
    assert (tipo_antes (Tipo_Cartao a) (Tipo_Cartao a) = false) as Hi by (destruct (Tipo_Cartao a); cbn; [apply str_ltb_irrefl|done]).
    congruence.
  - apply bool_decide_eq_true in He. rewrite He. apply Nat.ltb_lt in Hq.
    assert (tipo_antes (Tipo_Cartao b) (Tipo_Cartao b) = false) as -> by (destruct (Tipo_Cartao b); cbn; [apply str_ltb_irrefl|done]).
    rewrite orb_false_l. apply andb_false_iff. right. apply Nat.ltb_ge. lia.
Qed.

Lemma detalhe_antes_weak a b c :
  detalhe_antes a c = true -> detalhe_antes a b = true \/ detalhe_antes b c = true.
Proof.
  unfold detalhe_antes. intros [Ht|[He Hq]%andb_prop]%orb_prop.
  - destruct (tipo_antes_weak _ (Tipo_Cartao b) _ Ht) as [H|H]; rewrite H; auto.
  - apply bool_decide_eq_true in He. apply Nat.ltb_lt in Hq. rewrite <- He.
    destruct (decide (Tipo_Cartao b = Tipo_Cartao a)) as [Eb|Nb].
    + rewrite Eb, !bool_decide_eq_true_2 by done. rewrite !orb_true_iff, !andb_true_l, !Nat.ltb_lt.
      destruct (Nat.ltb_spec (quantidade b) (quantidade a)); [left|right]; right; lia.
    + destruct (tipo_antes_total _ _ (not_eq_sym Nb)) as [H|H]; rewrite H; auto.
Qed.

(** ** [main] *)



(** The fields of a completed run, read off the distribution table. *)
Lemma main_ok_campos clientes cartoes transacoes g r :
  main clientes cartoes transacoes = Ok (g, r) ->
  let dist := obter_distribuicao_cartoes clientes cartoes transacoes in
  g_total g = total_cartoes dist /\ r_total r = total_cartoes dist /\
  g_sem_cartao g = quantidade_de dist sem_cartao_ativo /\ r_sem_cartao r = quantidade_de dist sem_cartao_ativo /\
  r_cartoes_ativos r = sum_list_with quantidade_cartoes
    (List.filter (fun r => negb (bool_decide (tipo_cartao r = Some sem_cartao_ativo))) dist).
Proof.
  unfold main, criar_grafico_distribuicao_cartoes, gerar_relatorio_detalhado.
  destruct (existsb _ _); [done|]. destruct (existsb _ _); [done|].
  cbn. destruct (blocos _ _); [|done]. cbn. intros [= <- <-]. done.
Qed.

(** when [main] completes and no card type is itself named 'Sem Cartão
    Ativo', the chart's and the report's totals are the rows of
    [cartoes_em_uso] plus the customers [NOT IN] [transacoes], their
    'Sem Cartão Ativo' figure is that customer count, and the report's
    "cartões ativos" are the rows of [cartoes_em_uso], at least as many as
    the distinct cards the comparison query prints. *)
Theorem main_contagens clientes cartoes transacoes g r :
  (forall ct, In ct (cartoes_transacoes cartoes transacoes) -> Cartao.Tipo_Cartao (fst ct) <> Some sem_cartao_ativo) ->
  main clientes cartoes transacoes = Ok (g, r) ->
  g_total g = length (cartoes_em_uso cartoes transacoes) + clientes_sem_cartao clientes transacoes /\
  r_total r = g_total g /\
  g_sem_cartao g = clientes_sem_cartao clientes transacoes /\
  r_sem_cartao r = clientes_sem_cartao clientes transacoes /\
  r_cartoes_ativos r = length (cartoes_em_uso cartoes transacoes) /\
  count_distinct (map (fun ct => Cartao.ID_Cartao (fst ct)) (cartoes_transacoes cartoes transacoes)) <=
  r_cartoes_ativos r.
Proof.
  intros Hs Hm. destruct (main_ok_campos _ _ _ _ _ Hm) as (-> & -> & -> & -> & ->).
  rewrite total_distribuicao, quantidade_sem, ativos_distribuicao by done.
  pose proof (cartoes_distintos_le cartoes transacoes).
  pose proof (distinct_length_le (map u_cartao (cartoes_em_uso cartoes transacoes))). rewrite length_map in *.
  repeat split; lia.
Qed.

(** C28: [cartoes_em_uso] holds one row per (card, customer), so a card
    used by two customers is counted twice: the report's "cartões ativos"
    exceed the distinct cards of 'Total de cartões em uso'. *)
Theorem cartoes_ativos_pares clientes cartoes transacoes g r ct1 ct2 :
  (forall ct, In ct (cartoes_transacoes cartoes transacoes) -> Cartao.Tipo_Cartao (fst ct) <> Some sem_cartao_ativo) ->
  In ct1 (cartoes_transacoes cartoes transacoes) -> In ct2 (cartoes_transacoes cartoes transacoes) ->
  fst ct1 = fst ct2 -> Transacao.Cliente_ID (snd ct1) <> Transacao.Cliente_ID (snd ct2) ->
  main clientes cartoes transacoes = Ok (g, r) ->
  count_distinct (map (fun ct => Cartao.ID_Cartao (fst ct)) (cartoes_transacoes cartoes transacoes)) <
  r_cartoes_ativos r.
Proof.
  intros Hs H1 H2 Hc Hcli Hm. destruct (main_ok_campos _ _ _ _ _ Hm) as (_ & _ & _ & _ & ->).
  rewrite ativos_distribuicao by done. pose proof (cartoes_distintos_le cartoes transacoes).
  enough (length (distinct (map u_cartao (cartoes_em_uso cartoes transacoes))) <
          length (cartoes_em_uso cartoes transacoes)) by lia.
  apply (distinct_map_lt _ _ (chave ct1) (chave ct2)).
  - apply NoDup_distinct.
  - apply In_cartoes_em_uso. eauto.
  - apply In_cartoes_em_uso. eauto.
  - intros [= _ _ _ _ E]. done.
  - cbn. rewrite Hc. done.
Qed.

(** a share is NULL only when the denominator (rows of
    [cartoes_em_uso] plus customers without transactions) is zero, and
    otherwise lies in [0, 100]. *)
Theorem percentual_seguro clientes cartoes transacoes r :
  In r (obter_distribuicao_cartoes clientes cartoes transacoes) ->
  (percentual r = None <-> length (cartoes_em_uso cartoes transacoes) + clientes_sem_cartao clientes transacoes = 0) /\
  forall p, percentual r = Some p -> (0 <= p <= 100)%Q.
Proof.
  intros Hr. destruct (distribuicao_linhas _ _ _ _ Hr) as [-> Hle].
  set (d := length (cartoes_em_uso cartoes transacoes) + clientes_sem_cartao clientes transacoes) in *.
  unfold percentual_de. destruct (Nat.eqb_spec d 0) as [E|E]; [split; [done|intros ? [=]]|].
  split; [split; [done|lia]|]. intros p [= <-]. apply sql_round_2_range.
  pose proof (nq_pos d ltac:(lia)) as Hd.
  assert (nq (quantidade_cartoes r) <= nq d)%Q as Hq by (unfold nq; rewrite <- Zle_Qle; lia).
  assert (0 <= nq (quantidade_cartoes r))%Q as H0 by (unfold nq; change 0%Q with (inject_Z 0); rewrite <- Zle_Qle; lia).
  split.
  - apply Qle_shift_div_l; [done|]. lra.
  - apply Qle_shift_div_r; [done|]. lra.
Qed.

(** when the denominator is positive, the printed shares add up to
    100 up to the rounding of each row to hundredths. *)
Theorem soma_percentuais clientes cartoes transacoes :
  (0 < length (cartoes_em_uso cartoes transacoes) + clientes_sem_cartao clientes transacoes)%nat ->
  let dist := obter_distribuicao_cartoes clientes cartoes transacoes in
  (100 - nq (length dist) * (1 # 200) <= fold_right Qplus 0 (map (fun r => default 0%Q (percentual r)) dist) <=
   100 + nq (length dist) * (1 # 200))%Q.
Proof.
  intros Hd dist. pose proof (total_distribuicao clientes cartoes transacoes) as Ht.
  set (d := length (cartoes_em_uso cartoes transacoes) + clientes_sem_cartao clientes transacoes) in *.
  pose proof (nq_pos d Hd) as Hq.
  rewrite (map_ext_in _ (fun r => sql_round (nq (quantidade_cartoes r) * (100 / nq d)) 2)).
  - pose proof (soma_arredondada (fun r => nq (quantidade_cartoes r) * (100 / nq d))%Q dist) as Hb.
    rewrite soma_escala in Hb. fold (total_cartoes dist) in Hb. unfold dist in Hb. rewrite Ht in Hb.
    assert (nq d * (100 / nq d) == 100)%Q as E by (field; lra). rewrite E in Hb. unfold dist. lra.
  - intros r Hr. destruct (distribuicao_linhas _ _ _ _ Hr) as [-> _]. fold d. unfold percentual_de.
    destruct (Nat.eqb_spec d 0); [lia|]. cbn. apply sql_round_proper; [|done]. field. lra.
Qed.

(** the report's "produtos mais populares" of a type,
    [dados_tipo.nlargest(3, 'quantidade_cartoes')], are the first three
    rows of that type in the order of the query ([ORDER BY Tipo_Cartao,
    quantidade_cartoes DESC]). *)
Theorem top_produtos_primeiros cartoes transacoes t :
  b_top (bloco_de (obter_detalhes_cartoes cartoes transacoes) t) =
  map (fun r => (Produto_Mastercard r, quantidade r))
    (firstn 3 (List.filter (fun r => bool_decide (Tipo_Cartao r = Some t)) (obter_detalhes_cartoes cartoes transacoes))).
Proof.
  unfold bloco_de, Pandas.nlargest. cbn [b_top]. do 2 f_equal. apply Pandas.sort_desc_id.
  apply StronglySorted_Sorted, (StronglySorted_impl_in (fun a b => detalhe_antes b a = false)).
  - intros a b Ha Hb Hab. apply filter_In in Ha as [_ Ha], Hb as [_ Hb].
    apply bool_decide_eq_true in Ha, Hb. unfold detalhe_antes in Hab. rewrite Ha, Hb in Hab.
    rewrite bool_decide_eq_true_2 in Hab by done. apply orb_false_iff in Hab as [_ Hab].
    apply Nat.ltb_ge in Hab. cbn. unfold nq. rewrite <- Zle_Qle. lia.
  - apply StronglySorted_filter, order_by_sorted; [apply detalhe_antes_asym|apply detalhe_antes_weak].
Qed.

(** ** Examples *)

(** Four cards, two of them Gold credit cards; card 100 is used by
    customers 1 and 2; customer 3 never transacts. *)
Definition ex_cartoes : list Cartao.t :=
  [Cartao.cartao (Some 100%Z) (Some "Gold"%string) (Some "Crédito"%string) None (Some 5000%Q) None None;
   Cartao.cartao (Some 200%Z) (Some "Standard"%string) (Some "Débito"%string) None (Some 1000%Q) None None;
   Cartao.cartao (Some 300%Z) (Some "Platinum"%string) (Some "Crédito"%string) None (Some 9000%Q) None None;
   Cartao.cartao (Some 400%Z) (Some "Gold"%string) (Some "Crédito"%string) None (Some 3000%Q) None None].

Definition ex_clientes : list Cliente.t :=
  [Cliente.cli (Some 1%Z) None None None None None None; Cliente.cli (Some 2%Z) None None None None None None;
   Cliente.cli (Some 3%Z) None None None None None None].

Definition ex_transacoes : list Transacao.t :=
  [Transacao.tx (Some 1%Z) None (Some 50%Q) (Some 1%Z) (Some 100%Z);
   Transacao.tx (Some 2%Z) None (Some 20%Q) (Some 2%Z) (Some 100%Z);
   Transacao.tx (Some 3%Z) None (Some 10%Q) (Some 1%Z) (Some 200%Z);
   Transacao.tx (Some 4%Z) None (Some 30%Q) (Some 2%Z) (Some 300%Z);
   Transacao.tx (Some 5%Z) None (Some 40%Q) (Some 2%Z) (Some 400%Z)].

Definition cartao_nulo : Cartao.t := Cartao.cartao None None None None None None None.
Definition tx_nula : Transacao.t := Transacao.tx None None None None None.

Lemma ex_sem_rotulo_reservado :
  forall ct, In ct (cartoes_transacoes ex_cartoes ex_transacoes) -> Cartao.Tipo_Cartao (fst ct) <> Some sem_cartao_ativo.
Proof.
  intros ct Hct. vm_compute in Hct.
  repeat (destruct Hct as [<-|Hct]; [vm_compute; discriminate|]). done.
Qed.

(** The printed "Limite médio" of the credit cards is the mean of the two
    product means (Gold: 4333, the rounded mean over its three (card,
    customer) rows; Platinum: 9000), 6666.5, while the three credit cards'
    mean limit is 17000/3. *)
Lemma limite_medio_nao_ponderado :
  b_limite (bloco_de (obter_detalhes_cartoes ex_cartoes ex_transacoes) "Crédito") = Some (13333 # 2)%Q /\
  Pandas.media (omap Cartao.Limite_Cartao
    (List.filter (fun c => bool_decide (Cartao.Tipo_Cartao c = Some "Crédito"%string)) ex_cartoes)) = Some (17000 # 3)%Q.
Proof. vm_compute. split; reflexivity. Qed.

Lemma main_contagens_witness :
  (forall ct, In ct (cartoes_transacoes ex_cartoes ex_transacoes) -> Cartao.Tipo_Cartao (fst ct) <> Some sem_cartao_ativo) /\
  exists g r, main ex_clientes ex_cartoes ex_transacoes = Ok (g, r) /\
  g_total g = length (cartoes_em_uso ex_cartoes ex_transacoes) + clientes_sem_cartao ex_clientes ex_transacoes /\
  r_total r = g_total g /\
  g_sem_cartao g = clientes_sem_cartao ex_clientes ex_transacoes /\
  r_sem_cartao r = clientes_sem_cartao ex_clientes ex_transacoes /\
  r_cartoes_ativos r = length (cartoes_em_uso ex_cartoes ex_transacoes) /\
  count_distinct (map (fun ct => Cartao.ID_Cartao (fst ct)) (cartoes_transacoes ex_cartoes ex_transacoes)) <=
  r_cartoes_ativos r.
Proof.
  split; [exact ex_sem_rotulo_reservado|]. eexists _, _.
  assert (main ex_clientes ex_cartoes ex_transacoes = Ok _) as Hm by reflexivity.
  split; [exact Hm|]. exact (main_contagens _ _ _ _ _ ex_sem_rotulo_reservado Hm).
Defined.

Lemma cartoes_ativos_pares_witness :
  exists g r, main ex_clientes ex_cartoes ex_transacoes = Ok (g, r) /\
  In (List.nth 0 ex_cartoes cartao_nulo, List.nth 0 ex_transacoes tx_nula) (cartoes_transacoes ex_cartoes ex_transacoes) /\
  In (List.nth 0 ex_cartoes cartao_nulo, List.nth 1 ex_transacoes tx_nula) (cartoes_transacoes ex_cartoes ex_transacoes) /\
  count_distinct (map (fun ct => Cartao.ID_Cartao (fst ct)) (cartoes_transacoes ex_cartoes ex_transacoes)) <
  r_cartoes_ativos r.
Proof.
  eexists _, _.
  assert (main ex_clientes ex_cartoes ex_transacoes = Ok _) as Hm by reflexivity.
  assert (In (List.nth 0 ex_cartoes cartao_nulo, List.nth 0 ex_transacoes tx_nula)
            (cartoes_transacoes ex_cartoes ex_transacoes)) as H1 by (vm_compute; tauto).
  assert (In (List.nth 0 ex_cartoes cartao_nulo, List.nth 1 ex_transacoes tx_nula)
            (cartoes_transacoes ex_cartoes ex_transacoes)) as H2 by (vm_compute; tauto).
  split; [exact Hm|]. split; [exact H1|]. split; [exact H2|].
  exact (cartoes_ativos_pares _ _ _ _ _ _ _ ex_sem_rotulo_reservado H1 H2 eq_refl
           ltac:(vm_compute; discriminate) Hm).
Defined.

Definition ex_linha : linha := List.hd (mk_linha None 0 None)
  (obter_distribuicao_cartoes ex_clientes ex_cartoes ex_transacoes).

Lemma percentual_seguro_witness :
  In ex_linha (obter_distribuicao_cartoes ex_clientes ex_cartoes ex_transacoes) /\
  (percentual ex_linha = None <->
   length (cartoes_em_uso ex_cartoes ex_transacoes) + clientes_sem_cartao ex_clientes ex_transacoes = 0) /\
  (forall p, percentual ex_linha = Some p -> (0 <= p <= 100)%Q).
Proof.
  assert (In ex_linha (obter_distribuicao_cartoes ex_clientes ex_cartoes ex_transacoes)) as H
    by (vm_compute; left; reflexivity).
  split; [exact H|]. exact (percentual_seguro _ _ _ _ H).
Defined.

Lemma soma_percentuais_witness :
  (0 < length (cartoes_em_uso ex_cartoes ex_transacoes) + clientes_sem_cartao ex_clientes ex_transacoes)%nat /\
  let dist := obter_distribuicao_cartoes ex_clientes ex_cartoes ex_transacoes in
  (100 - nq (length dist) * (1 # 200) <= fold_right Qplus 0 (map (fun r => default 0%Q (percentual r)) dist) <=
   100 + nq (length dist) * (1 # 200))%Q.
Proof.
  assert (0 < length (cartoes_em_uso ex_cartoes ex_transacoes) + clientes_sem_cartao ex_clientes ex_transacoes)%nat
    as H by (vm_compute; lia).
  split; [exact H|]. exact (soma_percentuais _ _ _ H).
Defined.

End Distribuicao.
