(* ===== verification/Limites.v ===== *)
(** * Credit limits against monthly spending: [src/analiseCartoes1/analise_limites_corrigida.py]

    A pandas script over the three CSV files.  It counts the cards with a
    zero limit, the debit-card transactions and the credit cards with a
    zero limit (lines 27-66); keeps the credit cards with a positive limit,
    joins them with the distinct (customer, card) pairs of the
    transactions, and sums the limits per customer (lines 70-85); sums the
    purchases per customer and month (lines 91-96); joins both and the
    income (lines 99-104); computes the utilisation and labels each row
    with four successive [.loc] assignments (lines 107-131); and prints
    counts, shares, a [pd.cut] distribution and the totals of the summary.

    [situacao] models the four assignments as updates of a column;
    [situacao_classifica] shows they amount to one priority rule in which
    an inadequate limit hides a critical utilisation.  [analise] is the
    script as a value of [Sessenta.exec]: the share of problem cases
    divides Python integers and raises [ZeroDivisionError] when no row
    survives the joins.  The product statistics (lines 161-173), the
    [nlargest]/[head] listings and the charts only print. *)

From stdpp Require Import base list strings.
From Stdlib Require Import ZArith QArith Qround Qminmax String Lia Lqa.
From S2P Require Import Prelude Sql Dates Pandas Schema Churn Sixty Banco.

Local Abbreviation length := Datatypes.length.
Local Open Scope nat_scope.

Module LimitesCorrigida.
Import Sql Pandas Sessenta Processamento.
Local Open Scope exec_scope.

(** ** Preparation and the card counts, lines 15-66 *)

(** [Data.dt.to_period('M')]: the year and month; [NaT] stays missing. *)
Definition ano_mes (d : option Dates.stamp) : option (Z * Z) :=
  option_map (fun st => (Dates.ano st, Dates.mes st)) d.

Definition eh_tipo (t : string) (k : cartao_csv) : bool := bool_decide (csv_Tipo_Cartao k = Some t).

(** [Limite_Cartao == 0] and [Limite_Cartao > 0]: false on [NaN]. *)
Definition limite_zero (k : cartao_csv) : bool :=
  match csv_Limite_Cartao k with Some l => Qeq_bool l 0 | None => false end.
Definition limite_positivo (k : cartao_csv) : bool :=
  match csv_Limite_Cartao k with Some l => Qltb 0 l | None => false end.

(** [Series.nunique()]: the distinct values, [NaN] not counted. *)
Definition nunique {A} `{EqDecision A} (l : list (option A)) : nat := length (remove_dups (omap id l)).

(** [Series.sum()]: [NaN] skipped, 0 on no value. *)
Definition soma (l : list (option Q)) : Q := fold_right Qplus 0%Q (omap id l).

Record investigacao := mk_investigacao {
  cartoes_limite_zero : nat;
  transacoes_debito : nat;
  cartoes_credito : nat;
  credito_limite_positivo : nat;
  credito_limite_zero : nat;
  transacoes_credito_zero : nat;
  volume_impossivel : Q;
  clientes_afetados : nat
}.

(** Lines 27-66: [isin] matches a missing id with a missing id, as pandas
    does. *)
Definition investigar (ts : list transacao_csv) (ks : list cartao_csv) : investigacao :=
  let debito := drop_duplicates (map csv_ID_Cartao (List.filter (eh_tipo "Débito") ks)) in
  let tx_debito := List.filter (fun t => bool_decide (csv_ID_Cartao_tx t ∈ debito)) ts in
  let credito := List.filter (eh_tipo "Crédito") ks in
  let zero := map csv_ID_Cartao (List.filter limite_zero credito) in
  let tx_zero := List.filter (fun t => bool_decide (csv_ID_Cartao_tx t ∈ zero)) ts in
  mk_investigacao (length (List.filter limite_zero ks)) (length tx_debito) (length credito)
    (length (List.filter limite_positivo credito)) (length zero) (length tx_zero)
    (soma (map csv_Valor_Compra tx_zero)) (nunique (map csv_Cliente_ID_tx tx_zero)).

(** ** Limits per customer, lines 70-85 *)

Definition cartoes_credito_validos (ks : list cartao_csv) : list cartao_csv :=
  List.filter limite_positivo (List.filter (eh_tipo "Crédito") ks).

(** [transacoes[['Cliente_ID', 'ID_Cartao']].drop_duplicates()]. *)
Definition cliente_cartao (ts : list transacao_csv) : list (option Z * option Z) :=
  drop_duplicates (map (fun t => (csv_Cliente_ID_tx t, csv_ID_Cartao_tx t)) ts).

Definition cliente_cartao_credito ts ks : list ((option Z * option Z) * cartao_csv) :=
  merge_inner snd csv_ID_Cartao (cliente_cartao ts) (cartoes_credito_validos ks).

Record limite := mk_limite {
  l_cliente : Z;
  limite_total : Q;
  limite_maximo : Q;
  qtd_cartoes_credito : nat
}.

Definition limites_de (g : list ((option Z * option Z) * cartao_csv)) : list Q :=
  omap (fun r => csv_Limite_Cartao (snd r)) g.

(** [groupby('Cliente_ID').agg(sum, max, count).round(2)]; a missing id
    forms no group. *)
Definition limite_por_cliente ts ks : list limite :=
  map (fun kg => let xs := limites_de (snd kg) in
                 mk_limite (fst kg) (np_round (fold_right Qplus 0%Q xs) 2)
                   (np_round (fold_right Qmax (hd 0%Q xs) xs) 2) (length xs))
    (grupos (fun r => fst (fst r)) (cliente_cartao_credito ts ks)).

(** ** Monthly spending, lines 91-96 *)

Record gasto := mk_gasto {
  g_cliente : Z;
  g_mes : Z * Z;
  gasto_mensal : Q;
  qtd_transacoes : nat;
  ticket_medio : option Q
}.

(** [groupby(['Cliente_ID', 'Ano_Mes']).agg(sum, count, mean).round(2)]:
    a missing id or month forms no group; [sum] and [count] skip [NaN],
    the mean of no value is [NaN]. *)
Definition gasto_de (c : Z) (m : Z * Z) (g : list transacao_csv) : gasto :=
  let vs := map csv_Valor_Compra g in
  mk_gasto c m (np_round (soma vs) 2) (length (omap id vs))
    (option_map (fun q => np_round q 2) (media (omap id vs))).

Definition chave_mes (t : transacao_csv) : option Z * option (Z * Z) := (csv_Cliente_ID_tx t, ano_mes (csv_Data t)).

Definition gastos_mensais (ts : list transacao_csv) : list gasto :=
  omap (fun kg => match fst kg with
                  | (Some c, Some m) => Some (gasto_de c m (snd kg))
                  | _ => None
                  end)
    (group_by chave_mes ts).

(** ** The joined table and its labels, lines 99-131 *)

Record linha := mk_linha {
  a_gasto : gasto;
  a_limite : limite;
  renda_anual : option Q;
  utilizacao_limite : flt;
  renda_mensal : option Q
}.

(** [gastos_mensais.merge(limite_por_cliente, how='inner')], then
    [.merge(clientes[['Cliente_ID', 'Renda_Anual']], how='left')] and the
    two computed columns. *)
Definition analise_corrigida (clientes : list cliente_csv) ts ks : list linha :=
  map (fun r => let '((g, l), c) := r in
                let renda := match c with Some c => csv_Renda_Anual c | None => None end in
                mk_linha g l renda (mul_np (div_q (gasto_mensal g) (limite_total l)) 100)
                  (option_map (fun x => x / 12)%Q renda))
    (merge_left (fun r => Some (g_cliente (fst r))) csv_Cliente_ID
       (merge_inner g_cliente l_cliente (gastos_mensais ts) (limite_por_cliente ts ks)) clientes).

(** Comparisons of a float64 column with a constant: [NaN] compares false,
    [inf] is above every number. *)
Definition maior (x : flt) (q : Q) : bool :=
  match x with Fin a => Qltb q a | Inf b => b | NaN => false end.
Definition menor (x : flt) (q : Q) : bool :=
  match x with Fin a => Qltb a q | Inf b => negb b | NaN => false end.
Definition menor_igual (x : flt) (q : Q) : bool :=
  match x with Fin a => Qle_bool a q | Inf b => negb b | NaN => false end.

Definition critico : string := "CRÍTICO: Utilização >90%".
Definition alto_risco : string := "ALTO RISCO: Utilização 70-90%".
Definition muito_baixo : string := "Limite inadequado: Muito baixo".
Definition muito_alto : string := "Limite inadequado: Muito alto".

(** [df.loc[mask, 'Situacao'] = v]: the rows where the mask holds take
    [v], the others keep their label. *)
Definition atribui {A} (mask : A -> bool) (v : string) (df : list A) (col : list string) : list string :=
  zip_with (fun r s => if mask r then v else s) df col.

Definition mask_muito_alta (r : linha) : bool := maior (utilizacao_limite r) 90.
Definition mask_alta (r : linha) : bool := maior (utilizacao_limite r) 70 && menor_igual (utilizacao_limite r) 90.

(** The masks of lines 126 and 130, computed on the rows with an income
    and applied through their index. *)
Definition mask_limite_baixo (r : linha) : bool :=
  match renda_mensal r with Some m => Qltb (limite_total (a_limite r)) (m * (3 # 10)) | None => false end.
Definition mask_limite_alto (r : linha) : bool :=
  match renda_mensal r with Some m => Qltb (m * 2) (limite_total (a_limite r)) | None => false end.

(** The [Situacao] column after the four assignments, in the order of the
    code; the last two only [if len(analise_corrigida_com_renda) > 0]. *)
Definition situacao (df : list linha) : list string :=
  let s0 := map (fun _ => "Normal"%string) df in
  let s1 := atribui mask_muito_alta critico df s0 in
  let s2 := atribui mask_alta alto_risco df s1 in
  if bool_decide (List.filter (fun r => negb (is_null (renda_mensal r))) df = []) then s2
  else let s3 := atribui mask_limite_baixo muito_baixo df s2 in
       atribui mask_limite_alto muito_alto df s3.

(** The label the four assignments leave, as one rule: the later
    assignment wins. *)
Definition classifica (r : linha) : string :=
  if mask_limite_alto r then muito_alto
  else if mask_limite_baixo r then muito_baixo
  else if mask_alta r then alto_risco
  else if mask_muito_alta r then critico
  else "Normal".

(** ** The printed figures, lines 133-205 and 268-286 *)

(** [pd.cut(Utilizacao_Limite, bins=[0, 10, 30, 50, 70, 90, 100, inf])]:
    right-closed, so a utilisation of exactly 0 and [NaN] have no range. *)
Definition rotulos_utilizacao : list string :=
  ["0-10%"; "10-30%"; "30-50%"; "50-70%"; "70-90%"; "90-100%"; ">100%"]%string.

Definition faixa_utilizacao (x : flt) : option string :=
  match x with
  | Fin v => if Qltb 100 v then Some ">100%"%string
             else cut [0; 10; 30; 50; 70; 90; 100]%Q rotulos_utilizacao false (Some v)
  | Inf true => Some ">100%"%string
  | _ => None
  end.

Record resultado := mk_resultado {
  r_investigacao : investigacao;
  r_clientes_credito : nat;
  r_registros : nat;
  r_situacoes : list string;
  r_problematicos : nat;
  r_pct_problematicos : Q;
  r_faixas : list (string * nat);
  r_acima_limite : nat;
  r_aumento_limite : nat;
  r_volume_aumento : Q;
  r_baixa_utilizacao : nat;
  r_limite_subutilizado : Q;
  r_clientes_analisados : nat;
  r_volume_total : Q;
  r_volume_alto_risco : Q;
  r_pct_alto_risco : flt
}.

Definition erro_divisao : string := "division by zero".

(** The script from line 15 to the end; [problematicos/len(analise_corrigida)]
    (line 139) divides Python integers. *)
Definition analise (clientes : list cliente_csv) (ts : list transacao_csv) (ks : list cartao_csv)
  : exec resultado :=
  let df := analise_corrigida clientes ts ks in
  let sit := situacao df in
  let problematicos := #[fun s => negb (String.eqb s "Normal")] sit in
  if length df =? 0 then Erro erro_divisao
  else
    let alta := List.filter (fun r => maior (utilizacao_limite r) 70) df in
    let baixa := List.filter (fun r => menor (utilizacao_limite r) 10) df in
    let volume_total := fold_right Qplus 0%Q (map (fun r => gasto_mensal (a_gasto r)) df) in
    let volume_alto := fold_right Qplus 0%Q (map (fun r => gasto_mensal (a_gasto r)) alta) in
    Ok (mk_resultado (investigar ts ks) (length (limite_por_cliente ts ks)) (length df) sit problematicos
          (nq problematicos / nq (length df) * 100)%Q
          (map (fun l => (l, #[fun r => bool_decide (faixa_utilizacao (utilizacao_limite r) = Some l)] df))
             rotulos_utilizacao)
          (#[fun r => maior (utilizacao_limite r) 100] df)
          (length (remove_dups (map (fun r => g_cliente (a_gasto r)) alta))) volume_alto
          (length (remove_dups (map (fun r => g_cliente (a_gasto r)) baixa)))
          (fold_right Qplus 0%Q (map (fun r => limite_total (a_limite r)) baixa))
          (length (remove_dups (map (fun r => g_cliente (a_gasto r)) df)))
          volume_total volume_alto (mul_np (div_q volume_alto volume_total) 100)).

(** ** Properties *)

Lemma atribui_map {A} (mask : A -> bool) v df (f : A -> string) :
  atribui mask v df (map f df) = map (fun r => if mask r then v else f r) df.
Proof. unfold atribui. induction df as [|r df IH]; cbn; [done|]. rewrite IH. done. Qed.

Lemma sem_renda_masks df :
  List.filter (fun r => negb (is_null (renda_mensal r))) df = [] ->
  forall r, In r df -> mask_limite_baixo r = false /\ mask_limite_alto r = false.
Proof.
  intros Hnil r Hr. destruct (renda_mensal r) eqn:E; [|unfold mask_limite_baixo, mask_limite_alto; rewrite E; done].
  assert (In r (List.filter (fun r => negb (is_null (renda_mensal r))) df)) as Hin
    by (apply filter_In; rewrite E; done).
  rewrite Hnil in Hin. done.
Qed.

(** the four successive [.loc] assignments of [Situacao] amount to one
    priority rule: a limit above twice the monthly income, then a limit
    below 30% of it, then a utilisation in (70, 90], then above 90; a row
    whose limit is inadequate is never labelled by its utilisation. *)
Theorem situacao_classifica df : situacao df = map classifica df.
Proof.
  unfold situacao. cbv zeta.
  case_bool_decide as Hnil; rewrite !atribui_map; apply map_ext_in; intros r Hr; unfold classifica.
  - destruct (sem_renda_masks df Hnil r Hr) as [-> ->].
    destruct (mask_alta r), (mask_muito_alta r); done.
  - destruct (mask_limite_alto r), (mask_limite_baixo r), (mask_alta r), (mask_muito_alta r); done.
Qed.





Lemma soma_minima (m : Q) xs :
  xs <> [] -> (0 <= m)%Q -> (forall y, In y xs -> (m <= y)%Q) -> (m <= fold_right Qplus 0 xs)%Q.
Proof.
  induction xs as [|x xs IH]; intros Hne Hm Hall; [done|]. cbn.
  pose proof (Hall x (or_introl eq_refl)) as Hx. destruct xs as [|y xs]; [cbn; lra|].
  assert (m <= fold_right Qplus 0 (y :: xs))%Q by (apply IH; [done|done|intros; apply Hall; right; done]). lra.
Qed.

(** With every positive credit limit at least one cent, every customer's
    [Limite_Total] is positive. *)
Lemma limite_total_positivo ts ks l :
  (forall k, In k ks -> forall x, csv_Limite_Cartao k = Some x -> Qltb 0 x = true -> (1 # 100 <= x)%Q) ->
  In l (limite_por_cliente ts ks) -> (0 < limite_total l)%Q.
Proof.
  intros Hmin Hl. unfold limite_por_cliente in Hl. apply in_map_iff in Hl as ([c g] & <- & Hg). cbn.
  destruct (In_grupos _ _ _ _ Hg) as (x & Hx & Hkx). apply grupos_group_of in Hg.
  assert (forall r, In r g -> exists y, csv_Limite_Cartao (snd r) = Some y /\ (1 # 100 <= y)%Q) as Hval.
  { intros r Hr. rewrite Hg in Hr. apply In_group_of in Hr as [Hr _].
    destruct r as [p k]. unfold cliente_cartao_credito in Hr. apply In_merge_inner in Hr as (_ & Hk & _). unfold cartoes_credito_validos in Hk.
    apply filter_In in Hk as [Hk Hpos]. apply filter_In in Hk as [Hk _]. unfold limite_positivo in Hpos.
    cbn [snd]. destruct (csv_Limite_Cartao k) as [y|] eqn:Ey; [|done]. exists y. split; [done|].
    apply (Hmin _ Hk y Ey Hpos). }
  assert (1 # 100 <= fold_right Qplus 0 (limites_de g))%Q.
  { apply soma_minima; [| |].
    - assert (In x g) as Hxg by (rewrite Hg; apply In_group_of; done).
      destruct (Hval x Hxg) as (y & Ey & _). intros Hnil.
      assert (In y (limites_de g)) as Hy by (apply list_elem_of_In, list_elem_of_omap; exists x; split; [apply list_elem_of_In|]; done).
      rewrite Hnil in Hy. done.
    - lra.
    - intros y Hy. apply list_elem_of_In, list_elem_of_omap in Hy as (r & Hr & Ery). apply list_elem_of_In in Hr.
      destruct (Hval r Hr) as (y' & Ey' & Hle). congruence. }
  pose proof (np_round_2_bound (fold_right Qplus 0%Q (limites_de g))). unfold limites_de in *. lra.
Qed.

Lemma In_analise_corrigida clientes ts ks r :
  In r (analise_corrigida clientes ts ks) ->
  In (a_limite r) (limite_por_cliente ts ks) /\
  utilizacao_limite r = mul_np (div_q (gasto_mensal (a_gasto r)) (limite_total (a_limite r))) 100.
Proof.
  unfold analise_corrigida. rewrite in_map_iff. intros ([[g l] c] & <- & Hin).
  apply In_merge_left in Hin as [Hin _]. apply In_merge_inner in Hin as (_ & Hl & _). done.
Qed.

(** C30: when every positive credit limit is at least one cent, every
    utilisation is a finite number, as the comment of line 110 ("sem
    valores infinitos") claims. *)
Theorem utilizacao_finita clientes ts ks :
  (forall k, In k ks -> forall x, csv_Limite_Cartao k = Some x -> Qltb 0 x = true -> (1 # 100 <= x)%Q) ->
  forall r, In r (analise_corrigida clientes ts ks) -> exists u, utilizacao_limite r = Fin u.
Proof.
  intros Hmin r Hr. destruct (In_analise_corrigida _ _ _ _ Hr) as [Hl ->].
  pose proof (limite_total_positivo _ _ _ Hmin Hl) as Hpos. unfold div_q.
  destruct (Qeq_bool _ 0) eqn:E; [apply Qeq_bool_iff in E; lra|]. cbn. eauto.
Qed.

(** ** Examples *)

(** Customer 1 earns 12000 a year and spends 4800 in March 2024 on a
    credit card with limit 5000 (96% of it); customer 2 uses a credit card
    whose limit is a tenth of a cent. *)
Definition ex_clientes : list cliente_csv :=
  [mk_cliente_csv (Some 1%Z) None (Some 12000%Q) None None None None None;
   mk_cliente_csv (Some 2%Z) None None None None None None None].

Definition ex_cartoes : list cartao_csv :=
  [mk_cartao_csv (Some 10%Z) (Some "Gold"%string) (Some "Crédito"%string) None None None (Some 5000%Q)].

Definition ex_cartoes_minimo : list cartao_csv :=
  ex_cartoes ++ [mk_cartao_csv (Some 20%Z) (Some "Gold"%string) (Some "Crédito"%string) None None None (Some (1 # 1000)%Q)].

Definition ex_transacoes : list transacao_csv :=
  [mk_transacao_csv (Some 1%Z) (Some (Dates.mk_stamp 2024 3 5 10 0 0)) (Some 4800%Q) (Some 1%Z) (Some 10%Z) None None;
   mk_transacao_csv (Some 2%Z) (Some (Dates.mk_stamp 2024 3 6 10 0 0)) (Some 10%Q) (Some 2%Z) (Some 20%Z) None None].

(** The 96% row, above the critical 90%, is labelled by its limit. *)
Lemma critico_oculto :
  map (fun r => (mask_muito_alta r, situacao [r])) (analise_corrigida ex_clientes ex_transacoes ex_cartoes) =
  [(true, [muito_alto])].
Proof. vm_compute. reflexivity. Qed.

(** A limit of a tenth of a cent rounds to a [Limite_Total] of 0.00 and an
    infinite utilisation. *)
Lemma limite_minimo_infinito :
  map (fun r => match utilizacao_limite r with Inf b => b | _ => false end)
    (analise_corrigida ex_clientes ex_transacoes ex_cartoes_minimo) = [false; true].
Proof. vm_compute. reflexivity. Qed.

Lemma utilizacao_finita_witness :
  (forall k, In k ex_cartoes -> forall x, csv_Limite_Cartao k = Some x -> Qltb 0 x = true -> (1 # 100 <= x)%Q) /\
  forall r, In r (analise_corrigida ex_clientes ex_transacoes ex_cartoes) -> exists u, utilizacao_limite r = Fin u.
Proof.
  assert (forall k, In k ex_cartoes -> forall x, csv_Limite_Cartao k = Some x -> Qltb 0 x = true -> (1 # 100 <= x)%Q)
    as H.
  { intros k Hk x Hx _. destruct Hk as [<-|[]]. cbn in Hx. injection Hx as <-. vm_compute. discriminate. }
  split; [exact H|]. exact (utilizacao_finita _ _ _ H).
Defined.

(** Without a credit card of positive limit, no row survives the joins
    and the script stops at line 139. *)
Lemma sem_credito_erro : analise ex_clientes ex_transacoes [] = Erro erro_divisao.
Proof. vm_compute. reflexivity. Qed.

End LimitesCorrigida.
