(* ===== verification/LimitesCompleta.v ===== *)
(** * The first limits-vs-spending analysis: [src/analiseCartoes1/analise_limites_vs_gastos_completa.py]

    The script [analise_limites_corrigida.py] replaced ([Limites.v]).  It
    joins the distinct (customer, card) pairs of the transactions with
    every card ([how='left'], debit cards and missing cards included), sums
    the limits and joins the card types of each customer (lines 28-39);
    sums the purchases per customer and month (lines 49-55); joins both
    with the income (lines 74-85); labels each row with four successive
    [.loc] assignments (lines 88-104); flags as churned the customers whose
    last active month is three or more months before August 2024 (lines
    119-126); and prints per-label churn rates, critical cases, income
    bands and the business impact.

    Shared with [Limites.v]: the month key, the (customer, card) pairs,
    the monthly aggregates ([gasto_de]), the float comparisons and the
    column update [atribui].  The theorems show when the script raises
    ([TypeError] when a customer's card has no type, [ZeroDivisionError]
    on an empty join), that a customer-month whose card limits sum to 0
    and that has spending is labelled critical unless an income is known,
    that the labels follow one priority rule, and
    that the per-label churn count adds customer-months while the total
    counts customers.  The charts, [nlargest] listings and CSV export only
    print or write. *)

From stdpp Require Import base list strings.
From Stdlib Require Import ZArith QArith Qround Qminmax String Lia Lqa.
From S2P Require Import Prelude Sql Dates Pandas Schema Churn Sixty Banco Limites.

Local Abbreviation length := Datatypes.length.
Local Open Scope nat_scope.

Module LimitesCompleta.
Import Sql Pandas Sessenta Processamento LimitesCorrigida.
Local Open Scope exec_scope.

(** ** Limits per customer, lines 28-39 *)

(** [cliente_cartao.merge(cartoes[...], on='ID_Cartao', how='left')]. *)
Definition cliente_cartao_limite ts ks : list ((option Z * option Z) * option cartao_csv) :=
  merge_left snd csv_ID_Cartao (cliente_cartao ts) ks.

Definition tipo_de (r : (option Z * option Z) * option cartao_csv) : option string :=
  match snd r with Some k => csv_Tipo_Cartao k | None => None end.
Definition limite_de (r : (option Z * option Z) * option cartao_csv) : option Q :=
  match snd r with Some k => csv_Limite_Cartao k | None => None end.

(** [', '.join(...)] on a list holding a [NaN] (a float) raises
    [TypeError]. *)
Definition erro_join : string := "sequence item: expected str instance, float found".

Fixpoint juntar (l : list (option string)) : exec string :=
  match l with
  | [] => Ok ""%string
  | None :: _ => Erro erro_join
  | Some s :: l' =>
      match l' with
      | [] => Ok s
      | _ => let* r := juntar l' in Ok (s ++ ", " ++ r)%string
      end
  end.

Record limite_c := mk_limite_c {
  c_cliente : Z;
  c_limite_total : Q;
  c_limite_maximo : option Q;
  c_qtd_cartoes : nat;
  c_tipos : string
}.

(** One group of [groupby('Cliente_ID').agg({'Limite_Cartao': ['sum', 'max',
    'count'], 'Tipo_Cartao': lambda x: ', '.join(x.unique())}).round(2)]:
    the sum skips [NaN] (0 on none), the maximum of no value is [NaN]. *)
Definition limite_de_grupo (kg : Z * list ((option Z * option Z) * option cartao_csv)) : exec limite_c :=
  let xs := omap limite_de (snd kg) in
  let* tipos := juntar (drop_duplicates (map tipo_de (snd kg))) in
  Ok (mk_limite_c (fst kg) (np_round (fold_right Qplus 0%Q xs) 2)
        (match xs with [] => None | x :: _ => Some (np_round (fold_right Qmax x xs) 2) end)
        (length xs) tipos).

Definition limite_por_cliente ts ks : exec (list limite_c) :=
  mapM limite_de_grupo (grupos (fun r => fst (fst r)) (cliente_cartao_limite ts ks)).

(** ** Monthly spending, lines 49-55 *)

Record gasto_c := mk_gasto_c {
  c_gasto : gasto;
  cartoes_usados : nat
}.

(** The aggregates of [Limites.v] and [ID_Cartao: 'nunique']. *)
Definition gastos_mensais_c (ts : list transacao_csv) : list gasto_c :=
  omap (fun kg => match fst kg with
                  | (Some c, Some m) =>
                      Some (mk_gasto_c (gasto_de c m (snd kg)) (nunique (map csv_ID_Cartao_tx (snd kg))))
                  | _ => None
                  end)
    (group_by chave_mes ts).

(** ** The joined table and its labels, lines 74-104 *)

Record linha_c := mk_linha_c {
  l_gasto : gasto_c;
  l_limite : limite_c;
  l_renda : option Q;
  l_utilizacao : flt;
  l_renda_mensal : option Q;
  l_gasto_vs_renda : flt
}.

Definition cliente_de (r : linha_c) : Z := g_cliente (c_gasto (l_gasto r)).
Definition gasto_de_linha (r : linha_c) : Q := gasto_mensal (c_gasto (l_gasto r)).

(** [gastos_mensais.merge(limite_por_cliente, how='inner')], the left
    merge with the income, and the three computed columns. *)
Definition analise_limite_gasto (clientes : list cliente_csv) (gs : list gasto_c) (ls : list limite_c)
  : list linha_c :=
  map (fun r => let '((g, l), c) := r in
                let renda := match c with Some c => csv_Renda_Anual c | None => None end in
                let mensal := option_map (fun x => x / 12)%Q renda in
                mk_linha_c g l renda (mul_np (div_q (gasto_mensal (c_gasto g)) (c_limite_total l)) 100) mensal
                  (match mensal with Some m => mul_np (div_q (gasto_mensal (c_gasto g)) m) 100 | None => NaN end))
    (merge_left (fun r => Some (g_cliente (c_gasto (fst r)))) csv_Cliente_ID
       (merge_inner (fun g => g_cliente (c_gasto g)) c_cliente gs ls) clientes).

Definition critico_c : string := "CRÍTICO: Gasto > Limite".
Definition alto_risco_c : string := "ALTO RISCO: Utilização >90%".
Definition inconsistente_baixo : string := "INCONSISTENTE: Limite muito baixo".
Definition inconsistente_alto : string := "INCONSISTENTE: Limite muito alto".

Definition mask_acima_limite (r : linha_c) : bool := maior (l_utilizacao r) 100.
Definition mask_utilizacao_alta (r : linha_c) : bool :=
  maior (l_utilizacao r) 90 && menor_igual (l_utilizacao r) 100.
(** [Limite_Total < Renda_Mensal * 0.2] and [> Renda_Mensal * 3], each with
    [Renda_Anual.notna()]. *)
Definition mask_limite_baixo_c (r : linha_c) : bool :=
  match l_renda_mensal r with Some m => Qltb (c_limite_total (l_limite r)) (m * (1 # 5)) | None => false end.
Definition mask_limite_alto_c (r : linha_c) : bool :=
  match l_renda_mensal r with Some m => Qltb (m * 3) (c_limite_total (l_limite r)) | None => false end.

Definition situacao_c (df : list linha_c) : list string :=
  let s0 := map (fun _ => "Normal"%string) df in
  let s1 := atribui mask_acima_limite critico_c df s0 in
  let s2 := atribui mask_utilizacao_alta alto_risco_c df s1 in
  let s3 := atribui mask_limite_baixo_c inconsistente_baixo df s2 in
  atribui mask_limite_alto_c inconsistente_alto df s3.

(** The label the four assignments leave, the later one winning. *)
Definition classifica_c (r : linha_c) : string :=
  if mask_limite_alto_c r then inconsistente_alto
  else if mask_limite_baixo_c r then inconsistente_baixo
  else if mask_utilizacao_alta r then alto_risco_c
  else if mask_acima_limite r then critico_c
  else "Normal".

(** ** Churn by label, lines 119-141 *)

(** A month as a number of months, so that [Period] arithmetic is
    subtraction. *)
Definition indice_mes (m : Z * Z) : Z := fst m * 12 + snd m.

(** [Period('2024-08')], the fixed reference of line 124. *)
Definition mes_referencia : Z * Z := (2024, 8)%Z.

Definition mes_max (ms : list (Z * Z)) : option (Z * Z) :=
  fold_right (fun a acc => match acc with
                           | None => Some a
                           | Some b => if (indice_mes b <? indice_mes a)%Z then Some a else Some b
                           end) None ms.

Record ultimo := mk_ultimo {
  u_cliente : Z;
  u_mes : Z * Z;
  meses_inativo : Z;
  evadido : bool
}.

(** [gastos_mensais.groupby('Cliente_ID')['Ano_Mes'].max()], the months
    since it and [Meses_Inativo >= 3]. *)
Definition ultimo_mes_atividade (gs : list gasto_c) : list ultimo :=
  omap (fun kg => match mes_max (map (fun g => g_mes (c_gasto g)) (snd kg)) with
                  | Some m => let n := (indice_mes mes_referencia - indice_mes m)%Z in
                              Some (mk_ultimo (fst kg) m n (3 <=? n)%Z)
                  | None => None
                  end)
    (group_by (fun g => g_cliente (c_gasto g)) gs).

(** [merge(ultimo_mes_atividade, on='Cliente_ID', how='left')]: the flag of
    a row's customer. *)
Definition evadido_de (us : list ultimo) (c : Z) : option bool :=
  option_map evadido (List.find (fun u => (u_cliente u =? c)%Z) us).

Record taxa := mk_taxa {
  t_situacao : string;
  t_total_clientes : nat;
  t_clientes_evadidos : nat;
  t_taxa_evasao : option Q
}.

(** [groupby('Situacao').agg({'Cliente_ID': 'nunique', 'Evadido': ['sum',
    'mean']}).round(3)]: the sum and the mean run over the rows of a label,
    the total over its distinct customers. *)
Definition taxa_evasao (df : list linha_c) (sit : list string) (us : list ultimo) : list taxa :=
  let rows := zip df sit in
  map (fun s => let g := List.filter (fun rs => String.eqb (snd rs) s) rows in
                let fl := omap (fun rs => evadido_de us (cliente_de (fst rs))) g in
                mk_taxa s (length (remove_dups (map (fun rs => cliente_de (fst rs)) g)))
                  (#[fun b => b] fl)
                  (option_map (fun q => np_round q 3) (media (map (fun b : bool => if b then 1%Q else 0%Q) fl))))
    (remove_dups sit).

(** ** The printed figures, lines 106-113 and 146-242 *)

(** [str.contains(p)] for a literal pattern. *)
Fixpoint contem (p s : string) : bool :=
  String.prefix p s || match s with EmptyString => false | String _ s' => contem p s' end.

Definition rotulos_renda : list string := ["Até 50k"; "50k-100k"; "100k-150k"; "Acima 150k"]%string.

(** [pd.cut(Renda_Anual, bins=[0, 50000, 100000, 150000, inf])]. *)
Definition faixa_renda (r : Q) : option string :=
  if Qltb 150000 r then Some "Acima 150k"%string
  else cut [0; 50000; 100000; 150000]%Q rotulos_renda false (Some r).

Record resultado_c := mk_resultado_c {
  r_clientes_mapeados : nat;
  r_registros : nat;
  r_situacoes : list string;
  r_problematicos : nat;
  r_pct_problematicos : Q;
  r_taxas : list taxa;
  r_casos_criticos : nat;
  r_por_faixa : list (string * nat * option Q);
  r_ratio_alto : nat;
  r_ratio_baixo : nat;
  r_clientes_problema : nat;
  r_clientes_analisados : nat;
  r_volume_risco : Q;
  r_volume_total : Q;
  r_pct_volume : flt;
  r_perda_anual : Q;
  r_oportunidades : nat * Q;
  r_sugestoes : list (string * nat * Q);
  r_acima_50 : nat;
  r_acima_80 : nat;
  r_ticket_problematicos : option Q
}.

Definition soma_gastos (df : list linha_c) : Q := fold_right Qplus 0%Q (map gasto_de_linha df).
Definition clientes_de (df : list linha_c) : nat := length (remove_dups (map cliente_de df)).

(** The whole script: [limite_por_cliente] raises at line 33, and
    [problematicos/total] (line 113) divides Python integers. *)
Definition analise (clientes : list cliente_csv) (ts : list transacao_csv) (ks : list cartao_csv)
  : exec resultado_c :=
  let* ls := limite_por_cliente ts ks in
  let gs := gastos_mensais_c ts in
  let df := analise_limite_gasto clientes gs ls in
  let sit := situacao_c df in
  let rows := zip df sit in
  let prob := List.filter (fun rs => negb (String.eqb (snd rs) "Normal")) rows in
  if length df =? 0 then Erro erro_divisao
  else
    let us := ultimo_mes_atividade gs in
    let renda := omap (fun r => match l_renda r with Some x => Some (r, x) | None => None end) df in
    let ratio := map (fun rx => div_q (c_limite_total (l_limite (fst rx))) (snd rx)) renda in
    let oport := List.filter (fun rs => contem "INCONSISTENTE" (snd rs) || maior (l_utilizacao (fst rs)) 70) rows in
    Ok (mk_resultado_c (length ls) (length df) sit (length prob) (nq (length prob) / nq (length df) * 100)%Q
          (taxa_evasao df sit us)
          (#[fun rs => contem "CRÍTICO" (snd rs) || contem "ALTO RISCO" (snd rs) || maior (l_utilizacao (fst rs)) 80] rows)
          (map (fun f => let g := List.filter (fun rx => bool_decide (faixa_renda (snd rx) = Some f)) renda in
                         (f, length (remove_dups (map (fun rx => cliente_de (fst rx)) g)),
                          option_map (fun q => np_round q 2) (media (map (fun rx => c_limite_total (l_limite (fst rx))) g))))
             rotulos_renda)
          (#[fun x => maior x (3 # 2)] ratio) (#[fun x => menor x (1 # 10)] ratio)
          (clientes_de (map fst prob)) (clientes_de df)
          (soma_gastos (map fst prob)) (soma_gastos df) (mul_np (div_q (soma_gastos (map fst prob)) (soma_gastos df)) 100)
          (soma_gastos (map fst prob) * 12)%Q
          (clientes_de (map fst oport), soma_gastos (map fst oport))
          (omap (fun s => if String.eqb s "Normal" then None
                          else let g := List.filter (fun rs => String.eqb (snd rs) s) rows in
                               Some (s, length g, soma_gastos (map fst g)))
             (drop_duplicates sit))
          (#[fun r => maior (l_utilizacao r) 50] df) (#[fun r => maior (l_utilizacao r) 80] df)
          (option_map (fun q => q) (media (omap (fun rs => ticket_medio (c_gasto (l_gasto (fst rs)))) prob)))).

(** ** Properties *)

Lemma juntar_erro l e : juntar l = Erro e -> e = erro_join /\ In None l.
Proof.
  induction l as [|[x|] l IH]; cbn; [done| |intros [= <-]; auto].
  destruct l as [|y l]; [done|]. destruct (juntar (y :: l)) eqn:E; cbn; [done|].
  intros [= <-]. destruct IH as [-> Hn]; [done|]. auto.
Qed.

Lemma juntar_ok l : ~ In None l -> exists s, juntar l = Ok s.
Proof.
  induction l as [|[x|] l IH]; intros Hn; cbn; [eauto| |exfalso; apply Hn; left; done].
  destruct l as [|y l]; [eauto|]. destruct IH as [r ->]; [intros H; apply Hn; right; done|]. cbn. eauto.
Qed.

Lemma juntar_None l : In None l -> juntar l = Erro erro_join.
Proof.
  induction l as [|[x|] l IH]; cbn; [done| |done].
  intros [Hx|Hn]; [done|]. destruct l as [|y l]; [done|]. rewrite IH by done. done.
Qed.

Lemma limite_de_grupo_erro kg e :
  limite_de_grupo kg = Erro e <-> e = erro_join /\ exists r, In r (snd kg) /\ tipo_de r = None.
Proof.
  unfold limite_de_grupo. split.
  - destruct (juntar _) eqn:E; cbn; [done|]. intros [= <-]. apply juntar_erro in E as [-> Hn].
    split; [done|]. apply In_drop_duplicates, in_map_iff in Hn as (r & Hr & Hin). eauto.
  - intros [-> (r & Hr & Hn)]. rewrite juntar_None; [done|].
    apply In_drop_duplicates, in_map_iff. eauto.
Qed.

(** A (customer, card) pair of the transactions whose [Tipo_Cartao]
    is [NaN] after the left merge: the card is not in [cartoes.csv], or
    its type is empty. *)
Definition sem_tipo (ts : list transacao_csv) (ks : list cartao_csv) : Prop :=
  exists t, In t ts /\ csv_Cliente_ID_tx t <> None /\
    ((forall k, In k ks -> csv_ID_Cartao k <> csv_ID_Cartao_tx t) \/
     exists k, In k ks /\ csv_ID_Cartao k = csv_ID_Cartao_tx t /\ csv_Tipo_Cartao k = None).

Lemma linha_sem_tipo ts ks :
  (exists r, In r (cliente_cartao_limite ts ks) /\ fst (fst r) <> None /\ tipo_de r = None) <-> sem_tipo ts ks.
Proof.
  unfold sem_tipo, cliente_cartao_limite, cliente_cartao. split.
  - intros ([[c kid] m] & Hr & Hc & Ht). apply In_merge_left in Hr as [Hin Hm].
    apply In_drop_duplicates, in_map_iff in Hin as (t & [= <- <-] & Ht').
    exists t. repeat split; [done|done|]. destruct m as [k|]; cbn in *.
    + destruct Hm. right. eauto.
    + left. intros k Hk. apply not_eq_sym. eauto.
  - intros (t & Ht & Hc & [Hn|(k & Hk & Hid & Hty)]).
    + exists ((csv_Cliente_ID_tx t, csv_ID_Cartao_tx t), None). split; [|done].
      apply merge_left_None; [apply In_drop_duplicates, in_map_iff; eauto|].
      intros k Hk. apply not_eq_sym. eauto.
    + exists ((csv_Cliente_ID_tx t, csv_ID_Cartao_tx t), Some k). split; [|done].
      apply merge_left_Some; [apply In_drop_duplicates, in_map_iff; eauto|done|done].
Qed.

Lemma limite_por_cliente_erro ts ks e :
  limite_por_cliente ts ks = Erro e -> e = erro_join /\ sem_tipo ts ks.
Proof.
  unfold limite_por_cliente. intros (kg & Hin & He)%mapM_Erro.
  apply limite_de_grupo_erro in He as [-> (r & Hr & Hn)]. split; [done|].
  apply linha_sem_tipo. destruct kg as [c g]. pose proof Hin as ->%grupos_group_of.
  cbn in Hr. apply List.filter_In in Hr as [Hr Hk%bool_decide_eq_true].
  exists r. rewrite Hk. done.
Qed.

Lemma limite_por_cliente_ok ts ks ls :
  limite_por_cliente ts ks = Ok ls -> ~ sem_tipo ts ks.
Proof.
  unfold limite_por_cliente. intros Hok (r & Hr & Hc & Hn)%linha_sem_tipo.
  destruct (fst (fst r)) as [c|] eqn:Hk; [|done].
  destruct (mapM_Ok_inv _ _ _ Hok _ (grupos_In _ _ _ _ Hr Hk)) as [y Hy].
  assert (limite_de_grupo (c, group_of (fun r => fst (fst r)) (Some c) (cliente_cartao_limite ts ks)) = Erro erro_join)
    as Herr by (apply limite_de_grupo_erro; split; [done|]; exists r; split; [apply List.filter_In; split; [done|apply bool_decide_eq_true; done]|done]).
  congruence.
Qed.

(** C31: The script stops with the [TypeError] of [', '.join] exactly
    when some transaction with a customer uses a card whose type is
    [NaN] after the left merge with [cartoes.csv]: a card id missing from
    the cards file or a card with an empty type. *)
Theorem analise_tipo_ausente clientes ts ks :
  analise clientes ts ks = Erro erro_join <-> sem_tipo ts ks.
Proof.
  unfold analise. destruct (limite_por_cliente ts ks) as [ls|e] eqn:E; cbn.
  - split; [|intros H; exfalso; exact (limite_por_cliente_ok _ _ _ E H)].
    destruct (_ =? _); [|done]. unfold erro_divisao, erro_join. discriminate.
  - apply limite_por_cliente_erro in E as [-> Hs]. done.
Qed.

(** The four [.loc] assignments of lines 94-107 give each row the
    label of the last mask that holds: limit too high, limit too low,
    utilisation in (90, 100], utilisation above 100, in that priority. *)
Theorem situacao_c_classifica df : situacao_c df = map classifica_c df.
Proof.
  unfold situacao_c. rewrite !atribui_map. apply map_ext. intros r. unfold classifica_c.
  destruct (mask_limite_alto_c r), (mask_limite_baixo_c r), (mask_utilizacao_alta r), (mask_acima_limite r); done.
Qed.

Lemma In_analise_limite_gasto clientes gs ls r :
  In r (analise_limite_gasto clientes gs ls) ->
  exists g l c, r = (let renda := match c with Some c => csv_Renda_Anual c | None => None end in
                     let mensal := option_map (fun x => x / 12)%Q renda in
                     mk_linha_c g l renda (mul_np (div_q (gasto_mensal (c_gasto g)) (c_limite_total l)) 100) mensal
                       (match mensal with Some m => mul_np (div_q (gasto_mensal (c_gasto g)) m) 100 | None => NaN end)).
Proof. unfold analise_limite_gasto. intros (((g, l), c) & <- & _)%in_map_iff. eauto. Qed.

Lemma div_q_zero a b : (b == 0)%Q -> (0 < a)%Q -> div_q a b = Inf true.
Proof.
  intros Hb Ha. unfold div_q. rewrite (proj2 (Qeq_bool_iff b 0) Hb).
  destruct (Qeq_bool a 0) eqn:E; [apply Qeq_bool_iff in E; rewrite E in Ha; done|].
  rewrite (proj2 (Qltb_iff 0 a) Ha). done.
Qed.

(** C32: A customer whose cards carry no limit (debit cards, [NaN] limits
    summed to 0) has an infinite utilisation in every month with spending,
    and without an income such a month is labelled critical. *)
Theorem sem_limite_critico clientes gs ls r :
  In r (analise_limite_gasto clientes gs ls) ->
  (c_limite_total (l_limite r) == 0)%Q -> (0 < gasto_mensal (c_gasto (l_gasto r)))%Q ->
  l_utilizacao r = Inf true /\ (l_renda r = None -> classifica_c r = critico_c).
Proof.
  intros (g & l & c & ->)%In_analise_limite_gasto Hl Hg. cbn in *.
  rewrite div_q_zero by done. split; [done|]. intros ->. done.
Qed.

(** [Clientes_Evadidos] of a label is the [sum] of [Evadido] over
    the label's rows, one per customer and month: it counts the months of
    evaded customers, while [Total_Clientes] counts customers. *)
Theorem evadidos_por_linha df sit us t :
  In t (taxa_evasao df sit us) ->
  t_clientes_evadidos t =
  #[fun rs => String.eqb (snd rs) (t_situacao t) && bool_decide (evadido_de us (cliente_de (fst rs)) = Some true)]
    (zip df sit).
Proof.
  unfold taxa_evasao. intros (s & <- & _)%in_map_iff. cbn.
  rewrite count_if_omap, count_if_filter. apply count_if_ext_in. intros rs _.
  destruct (String.eqb _ _); [|done]. destruct (evadido_de _ _) as [[|]|]; done.
Qed.

(** The script stops with [ZeroDivisionError] at line 113 exactly when
    the limits are computed and the joined table is empty. *)
Lemma analise_vazia clientes ts ks :
  analise clientes ts ks = Erro erro_divisao <->
  exists ls, limite_por_cliente ts ks = Ok ls /\ analise_limite_gasto clientes (gastos_mensais_c ts) ls = [].
Proof.
  unfold analise. destruct (limite_por_cliente ts ks) as [ls|e] eqn:E; cbn.
  - destruct (Nat.eqb_spec (length (analise_limite_gasto clientes (gastos_mensais_c ts) ls)) 0) as [H|H].
    + apply length_zero_iff_nil in H. split; [eauto|done].
    + split; [done|]. intros (ls' & [= <-] & Hn). rewrite Hn in H. done.
  - apply limite_por_cliente_erro in E as [-> _]. split; [|intros (? & ? & _); done].
    unfold erro_join, erro_divisao. discriminate.
Qed.

(** ** Examples *)

(** Customer 3, absent from [clientes.csv], spends 200 in March 2024 and
    in April 2024 on a debit card without a limit; customer 1 is the
    credit customer of [LimitesCorrigida]. *)
Definition ex_cartoes_c : list cartao_csv :=
  LimitesCorrigida.ex_cartoes_minimo ++
  [mk_cartao_csv (Some 30%Z) (Some "Maestro"%string) (Some "Débito"%string) None None None None].

Definition ex_transacoes_c : list transacao_csv :=
  LimitesCorrigida.ex_transacoes ++
  [mk_transacao_csv (Some 3%Z) (Some (Dates.mk_stamp 2024 3 7 10 0 0)) (Some 200%Q) (Some 3%Z) (Some 30%Z) None None;
   mk_transacao_csv (Some 4%Z) (Some (Dates.mk_stamp 2024 4 7 10 0 0)) (Some 200%Q) (Some 3%Z) (Some 30%Z) None None].

Definition ex_limites : list limite_c :=
  match limite_por_cliente ex_transacoes_c ex_cartoes_c with Ok ls => ls | Erro _ => [] end.

Definition ex_df : list linha_c :=
  analise_limite_gasto LimitesCorrigida.ex_clientes (gastos_mensais_c ex_transacoes_c) ex_limites.

Definition linha_vazia : linha_c :=
  mk_linha_c (mk_gasto_c (mk_gasto 0 (0, 0)%Z 0 0 None) 0) (mk_limite_c 0 0 None 0 "") None NaN None NaN.

(** With the cards of [LimitesCorrigida.ex_cartoes], card 20 of customer 2
    is missing and the script stops at line 33. *)
Example ex_sem_cartao :
  analise LimitesCorrigida.ex_clientes LimitesCorrigida.ex_transacoes LimitesCorrigida.ex_cartoes = Erro erro_join.
Proof. vm_compute. reflexivity. Qed.

(** The third row, customer 3 in March 2024, is critical with an infinite
    utilisation. *)
Lemma sem_limite_critico_witness :
  l_utilizacao (nth 2 ex_df linha_vazia) = Inf true /\ classifica_c (nth 2 ex_df linha_vazia) = critico_c.
Proof.
  destruct (sem_limite_critico LimitesCorrigida.ex_clientes (gastos_mensais_c ex_transacoes_c) ex_limites
              (nth 2 ex_df linha_vazia)) as [Hu Hc].
  - apply nth_In. vm_compute. lia.
  - vm_compute. reflexivity.
  - vm_compute. reflexivity.
  - split; [exact Hu|]. apply Hc. vm_compute. reflexivity.
Defined.

(** Customer 2, whose only card has a limit of a tenth of a cent, and
    customer 3 make two customers labelled critical, but their three
    months count three evasions: [Clientes_Evadidos] exceeds
    [Total_Clientes]. *)
Example evadidos_excedem_total :
  match analise LimitesCorrigida.ex_clientes ex_transacoes_c ex_cartoes_c with
  | Ok res => map (fun t => (t_total_clientes t, t_clientes_evadidos t)) (r_taxas res) = [(1, 1); (2, 3)]
  | Erro _ => False
  end.
Proof. vm_compute. reflexivity. Qed.

Definition ex_taxas : list taxa :=
  taxa_evasao ex_df (situacao_c ex_df) (ultimo_mes_atividade (gastos_mensais_c ex_transacoes_c)).

(** The critical label has two customers and three counted evasions, one
    per row. *)
Lemma evadidos_por_linha_witness :
  let t := nth 1 ex_taxas (mk_taxa "" 0 0 None) in
  t_total_clientes t = 2 /\ t_clientes_evadidos t = 3 /\
  t_clientes_evadidos t =
  #[fun rs => String.eqb (snd rs) (t_situacao t) &&
              bool_decide (evadido_de (ultimo_mes_atividade (gastos_mensais_c ex_transacoes_c)) (cliente_de (fst rs)) = Some true)]
    (zip ex_df (situacao_c ex_df)).
Proof.
  cbv zeta. split; [vm_compute; reflexivity|]. split; [vm_compute; reflexivity|].
  apply evadidos_por_linha. apply nth_In. vm_compute. lia.
Defined.

End LimitesCompleta.
