(* ===== verification/Hipoteses.v ===== *)
(** * The hypotheses analysis: [src/analise_profunda_hipoteses.py]

    The script tests six hypotheses on the loss of market share.  The
    first two and the last two read the data: transactions per quarter
    ([dt.to_period('Q')], lines 58-85), new customers per quarter of
    account creation (lines 90-103), payment methods (lines 147-154) and
    the income profile (lines 165-180).  Hypotheses 3 and 4 print literal
    benchmarking tables, and the charts of lines 245-312 only draw.

    The quarter lookups [loc['2024Q1']], [loc['2024Q4']] and
    [novos_clientes['2024Q3']], [['2024Q2']], [['2024Q4']] raise [KeyError]
    on a quarter without rows; they are the script's only failures, since
    every other division is a numpy division ([inf] or [NaN], no
    exception).  The theorems characterise when the script runs to its
    end, show that the quarterly counts and the new-customer counts
    partition the dated rows, that the quarters come out in calendar
    order, and that the share of customers without an income is a
    percentage. *)

From stdpp Require Import base list strings.
From Stdlib Require Import ZArith QArith Qround String Lia Lqa Sorting.Sorted.
From S2P Require Import Prelude Sql Dates Pandas Schema Churn Sixty Banco Limites LimitesCompleta.

Local Abbreviation length := Datatypes.length.
Local Open Scope nat_scope.

Module Hipoteses.
Import Sql Pandas Sessenta Processamento LimitesCorrigida.
Local Open Scope exec_scope.

(** ** The rows this script reads *)

(** [Base_transacoes.csv] also has the [Contactless] flag (the
    [contactless] column of [criar_banco_sqlite.py]), read at line 148. *)
Record transacao_h := mk_transacao_h {
  h_tx : transacao_csv;
  csv_Contactless : option Z
}.

(** [dt.to_period('Q')]: the year and the quarter; [NaT] has none. *)
Definition trimestre_de (d : option Dates.stamp) : option (Z * Z) :=
  option_map (fun st => (Dates.ano st, (Dates.mes st - 1) / 3 + 1)%Z) d.

(** The order of [Period] keys, which [groupby] sorts. *)
Definition trim_ltb (a b : Z * Z) : bool :=
  (fst a <? fst b)%Z || ((fst a =? fst b)%Z && (snd a <? snd b)%Z).

(** The text of a quarter, [str(Period('2024Q1'))]. *)
Definition rotulo_trim (k : Z * Z) : string :=
  (Dates.pad 4 (fst k) ++ "Q" ++ Dates.pad 1 (snd k))%string.

(** [KeyError] of a [loc] or [[]] lookup of a missing label. *)
Definition erro_chave (k : Z * Z) : string := ("KeyError: '" ++ rotulo_trim k ++ "'")%string.

(** ** Hypothesis 1: transactions per quarter, lines 58-85 *)

Record volume := mk_volume {
  v_trimestre : Z * Z;
  valor_total : Q;
  qtd_transacoes : nat;
  ticket_medio : option Q;
  clientes_ativos : nat
}.

(** The [agg] of one quarter with [round(2)]: [sum] and [count] skip
    [NaN] amounts, [nunique] skips [NaN] ids. *)
Definition volume_de (k : Z * Z) (g : list transacao_csv) : volume :=
  let vs := map csv_Valor_Compra g in
  mk_volume k (np_round (soma vs) 2) (length (omap id vs))
    (option_map (fun q => np_round q 2) (media (omap id vs)))
    (nunique (map csv_Cliente_ID_tx g)).

Definition volume_trimestral (ts : list transacao_csv) : list volume :=
  order_by (fun a b => trim_ltb (v_trimestre a) (v_trimestre b))
    (map (fun kg => volume_de (fst kg) (snd kg)) (grupos (fun t => trimestre_de (csv_Data t)) ts)).

(** [x - 1] on a float64. *)
Definition menos_um (x : flt) : flt := match x with Fin q => Fin (q - 1)%Q | _ => x end.

Fixpoint variacoes (prev : Q) (l : list Q) : list flt :=
  match l with
  | [] => []
  | x :: l' => mul_np (menos_um (div_q x prev)) 100 :: variacoes x l'
  end.

(** [pct_change() * 100]: each row against the row before it; the first
    has none. *)
Definition pct_change (l : list Q) : list flt :=
  match l with [] => [] | x :: l' => NaN :: variacoes x l' end.

(** [df.loc[k]] on the quarter index. *)
Definition loc_trim {V} (chave : V -> Z * Z) (k : Z * Z) (vs : list V) : exec V :=
  match List.find (fun v => bool_decide (chave v = k)) vs with
  | Some v => Ok v
  | None => Erro (erro_chave k)
  end.

(** ** Hypothesis 2: new customers per quarter, lines 90-103 *)

(** [groupby('Trimestre_Criacao').size()]: rows per quarter, sorted. *)
Definition novos_clientes (cs : list cliente_csv) : list ((Z * Z) * nat) :=
  order_by (fun a b => trim_ltb (fst a) (fst b))
    (map (fun kg => (fst kg, length (snd kg))) (grupos (fun c => trimestre_de (csv_Data_Criacao_Conta c)) cs)).

(** [(novos[a] - novos[b]) / novos[b] * 100] on numpy integers. *)
Definition variacao (a b : nat) : flt := mul_np (div_q (nq a - nq b) (nq b)) 100.

(** The quarters whose text contains the year, [mean()] of their counts. *)
Definition media_ano (y : Z) (nc : list ((Z * Z) * nat)) : option Q :=
  media (map (fun kn => nq (snd kn)) (List.filter (fun kn => (fst (fst kn) =? y)%Z) nc)).

(** ** Hypotheses 5 and 6: payment methods and income, lines 147-180 *)

(** [value_counts()]: the count of each non-missing value, largest first. *)
Definition value_counts {K} `{EqDecision K} (l : list (option K)) : list (K * nat) :=
  sort_desc (fun kn => Some (nq (snd kn))) (map (fun kg => (fst kg, length (snd kg))) (grupos id l)).

(** A numpy count over [len(df)], times 100. *)
Definition pct_de (n total : nat) : flt := mul_np (div_np (Z.of_nat n) (Z.of_nat total)) 100.

(** [pd.cut(Renda_Anual, bins=[0, 50000, 100000, 150000, inf])], the bins
    of [analise_limites_vs_gastos_completa.py]. *)
Definition faixa_de (c : cliente_csv) : option string :=
  match csv_Renda_Anual c with Some r => LimitesCompleta.faixa_renda r | None => None end.

(** [value_counts()] of the categorical [Faixa_Renda]: every label, the
    empty ones included, largest first. *)
Definition faixas (cs : list cliente_csv) : list (string * nat) :=
  sort_desc (fun kn => Some (nq (snd kn)))
    (map (fun f => (f, #[fun c => bool_decide (faixa_de c = Some f)] cs))
       LimitesCompleta.rotulos_renda).

(** ** The whole script *)

Record resultado_h := mk_resultado_h {
  h_volume : list volume;
  h_var_valor : list flt;
  h_var_qtd : list flt;
  h_var_clientes : list flt;
  h_queda_2024 : flt;
  h_clientes_q4 : nat;
  h_clientes_q1 : nat;
  h_novos : list ((Z * Z) * nat);
  h_var_aquisicao_q3 : flt;
  h_var_aquisicao_q4 : flt;
  h_media_2023 : option Q;
  h_media_2024 : option Q;
  h_metodos : list (string * nat);
  h_contactless_pct : flt;
  h_wallet_pct : flt;
  h_renda_media : option Q;
  h_renda_mediana : option Q;
  h_sem_renda : nat;
  h_sem_renda_pct : flt;
  h_faixas : list (string * nat)
}.

(** Lines 58-180 in order; the lookups fail in the order the script
    evaluates them. *)
Definition hipoteses (cs : list cliente_csv) (ts : list transacao_h) : exec resultado_h :=
  let tx := map h_tx ts in
  let vt := volume_trimestral tx in
  let* q1 := loc_trim v_trimestre (2024, 1)%Z vt in
  let* q4 := loc_trim v_trimestre (2024, 4)%Z vt in
  let nc := novos_clientes cs in
  let* n3 := loc_trim fst (2024, 3)%Z nc in
  let* n2 := loc_trim fst (2024, 2)%Z nc in
  let* n4 := loc_trim fst (2024, 4)%Z nc in
  let rendas := omap id (map csv_Renda_Anual cs) in
  let sem := #[fun c => is_null (csv_Renda_Anual c)] cs in
  Ok (mk_resultado_h vt (pct_change (map valor_total vt))
        (pct_change (map (fun v => nq (qtd_transacoes v)) vt))
        (pct_change (map (fun v => nq (clientes_ativos v)) vt))
        (mul_np (div_q (valor_total q4 - valor_total q1) (valor_total q1)) 100)
        (clientes_ativos q4) (clientes_ativos q1)
        nc (variacao (snd n3) (snd n2)) (variacao (snd n4) (snd n3))
        (media_ano 2023 nc) (media_ano 2024 nc)
        (firstn 5 (value_counts (map csv_Input_Mode tx)))
        (pct_de (#[fun t => bool_decide (csv_Contactless t = Some 1%Z)] ts) (length ts))
        (pct_de (#[fun t => negb (is_null (csv_Wallet (h_tx t)))] ts) (length ts))
        (media rendas) (mediana rendas) sem (pct_de sem (length cs)) (faixas cs)).

(** ** Properties *)

(** A quarter has rows in the data. *)
Definition tem_trimestre {A} (data : A -> option Dates.stamp) (l : list A) (k : Z * Z) : Prop :=
  exists x, In x l /\ trimestre_de (data x) = Some k.

Lemma loc_trim_ok {V} (chave : V -> Z * Z) k vs :
  (exists v, loc_trim chave k vs = Ok v) <-> exists v, In v vs /\ chave v = k.
Proof.
  unfold loc_trim. destruct (List.find _ vs) as [v|] eqn:E.
  - apply find_some in E as [Hv Hk%bool_decide_eq_true]. split; eauto.
  - split; [intros [? [=]]|]. intros (v & Hv & Hk). apply (find_none _ _ E) in Hv.
    rewrite bool_decide_true in Hv; done.
Qed.

Lemma loc_trim_erro {V} (chave : V -> Z * Z) k vs e : loc_trim chave k vs = Erro e -> e = erro_chave k.
Proof. unfold loc_trim. destruct (List.find _ vs); congruence. Qed.

(** A sorted [groupby] table has a row for exactly the keys of the data. *)
Lemma chave_grupos {A V} lt (f : Z * Z -> list A -> V) (chave : V -> Z * Z) data l k :
  (forall k g, chave (f k g) = k) ->
  (exists v, In v (order_by lt (map (fun kg => f (fst kg) (snd kg)) (grupos (fun x => trimestre_de (data x)) l)))
             /\ chave v = k) <-> tem_trimestre data l k.
Proof.
  intros Hf. unfold tem_trimestre. setoid_rewrite In_order_by. split.
  - intros (v & ([k' g] & <- & Hin)%in_map_iff & <-). rewrite Hf. apply In_grupos in Hin. done.
  - intros (x & Hx & Hk). eexists. split; [apply in_map_iff; eexists; split; [reflexivity|]|].
    + apply (grupos_In _ _ _ _ Hx Hk).
    + apply Hf.
Qed.

Ltac trim_cases :=
  unfold trim_ltb; cbn;
  repeat match goal with
  | |- context [(?x <? ?y)%Z] => destruct (Z.ltb_spec x y)
  | |- context [(?x =? ?y)%Z] => destruct (Z.eqb_spec x y)
  end; cbn; try done; try lia.

(** [trim_ltb] is the strict lexicographic order on (year, quarter). *)
Lemma trim_ltb_asym a b : trim_ltb a b = true -> trim_ltb b a = false.
Proof. destruct a as [a1 a2], b as [b1 b2]. trim_cases. Qed.

Lemma trim_ltb_weak a b c : trim_ltb a c = true -> trim_ltb a b = true \/ trim_ltb b c = true.
Proof. destruct a as [a1 a2], b as [b1 b2], c as [c1 c2]. trim_cases. Qed.

Lemma trim_ltb_total a b : a <> b -> trim_ltb b a = false -> trim_ltb a b = true.
Proof.
  destruct a as [a1 a2], b as [b1 b2]. intros Hne. trim_cases.
  all: exfalso; apply Hne; f_equal; lia.
Qed.

(** A sorted [groupby] table is strictly increasing in its key. *)
Lemma grupos_ordenados {A V} (f : Z * Z -> list A -> V) (chave : V -> Z * Z) data l :
  (forall k g, chave (f k g) = k) ->
  StronglySorted (fun a b => trim_ltb (chave a) (chave b) = true)
    (order_by (fun a b => trim_ltb (chave a) (chave b))
       (map (fun kg => f (fst kg) (snd kg)) (grupos (fun x => trimestre_de (data x)) l))).
Proof.
  intros Hf. eapply StronglySorted_impl_in;
    [|apply (StronglySorted_distinct (fun a b => trim_ltb (chave b) (chave a) = false) chave)].
  - intros a b _ _ [Hba Hne]. apply trim_ltb_total; done.
  - apply order_by_sorted; intros *; [apply trim_ltb_asym|apply trim_ltb_weak].
  - eapply Permutation_NoDup; [symmetry; apply Permutation_map, order_by_perm|].
    rewrite map_map. erewrite map_ext; [apply grupos_keys_NoDup|]. intros; apply Hf.
Qed.

(** The quarterly table comes out in strictly increasing quarter
    order, so [pct_change] compares each quarter with the latest earlier
    quarter that has transactions. *)
Theorem volume_ordenado tx :
  StronglySorted (fun a b => trim_ltb (v_trimestre a) (v_trimestre b) = true) (volume_trimestral tx).
Proof. apply grupos_ordenados. done. Qed.

Lemma novos_ordenados cs :
  StronglySorted (fun a b => trim_ltb (fst a) (fst b) = true) (novos_clientes cs).
Proof. apply (grupos_ordenados (fun k g => (k, length g))). done. Qed.

Lemma volume_chave tx k :
  (exists v, In v (volume_trimestral tx) /\ v_trimestre v = k) <-> tem_trimestre csv_Data tx k.
Proof. apply chave_grupos. done. Qed.

Lemma novos_chave cs k :
  (exists n, In n (novos_clientes cs) /\ fst n = k) <-> tem_trimestre csv_Data_Criacao_Conta cs k.
Proof. apply (chave_grupos _ (fun k g => (k, length g))). done. Qed.

(** C33: The script runs past its lookups, to the end, exactly when the
    transactions have rows in the first and the last quarter of 2024 and
    accounts were created in its second, third and fourth quarters;
    otherwise it stops with [KeyError]. *)
Theorem hipoteses_completa cs ts :
  (exists r, hipoteses cs ts = Ok r) <->
  tem_trimestre csv_Data (map h_tx ts) (2024, 1)%Z /\ tem_trimestre csv_Data (map h_tx ts) (2024, 4)%Z /\
  tem_trimestre csv_Data_Criacao_Conta cs (2024, 3)%Z /\ tem_trimestre csv_Data_Criacao_Conta cs (2024, 2)%Z /\
  tem_trimestre csv_Data_Criacao_Conta cs (2024, 4)%Z.
Proof.
  unfold hipoteses. rewrite <- !volume_chave, <- !novos_chave, <- !loc_trim_ok.
  destruct (loc_trim v_trimestre (2024, 1)%Z _), (loc_trim v_trimestre (2024, 4)%Z _),
    (loc_trim fst (2024, 3)%Z _), (loc_trim fst (2024, 2)%Z _), (loc_trim fst (2024, 4)%Z _);
    cbn; naive_solver.
Qed.

Lemma loc_trim_ausente {V} (chave : V -> Z * Z) k vs e :
  loc_trim chave k vs = Erro e -> e = erro_chave k /\ ~ exists v, In v vs /\ chave v = k.
Proof.
  intros E. split; [apply (loc_trim_erro _ _ _ _ E)|]. rewrite <- loc_trim_ok, E. intros [? [=]].
Qed.

(** Every failure of the script is the [KeyError] of a quarter missing
    from the transactions or from the account creations. *)
Lemma hipoteses_erro cs ts e :
  hipoteses cs ts = Erro e ->
  exists k, e = erro_chave k /\
    (~ tem_trimestre csv_Data (map h_tx ts) k \/ ~ tem_trimestre csv_Data_Criacao_Conta cs k).
Proof.
  unfold hipoteses.
  repeat match goal with
  | |- context [loc_trim ?c ?k ?vs] =>
      let E := fresh "E" in destruct (loc_trim c k vs) as [?|e'] eqn:E; cbn;
      [|intros [= <-]; apply loc_trim_ausente in E as [-> Hn]; eexists; split; [reflexivity|];
        first [left; rewrite <- volume_chave; exact Hn | right; rewrite <- novos_chave; exact Hn]]
  end.
  intros [=].
Qed.

(** The quarterly [Qtd_Transacoes] add up to the transactions that
    have a date and an amount: [groupby] drops the rows without a
    quarter, and [count] the amounts that are [NaN]. *)
Theorem volume_particao tx :
  sum_list_with qtd_transacoes (volume_trimestral tx) =
  #[fun t => negb (is_null (trimestre_de (csv_Data t))) && negb (is_null (csv_Valor_Compra t))] tx.
Proof.
  unfold volume_trimestral. rewrite order_by_perm, sum_list_with_map, <- grupos_sum.
  apply sum_list_with_ext_in. intros kg _. apply length_nao_nulos.
Qed.

(** The new-customer counts add up to the customers with a creation date. *)
Lemma novos_particao cs :
  sum_list_with snd (novos_clientes cs) = #[fun c => negb (is_null (trimestre_de (csv_Data_Criacao_Conta c))) && true] cs.
Proof.
  unfold novos_clientes. rewrite order_by_perm, sum_list_with_map, <- grupos_sum.
  apply sum_list_with_ext_in. intros kg _. cbn. symmetry. apply count_if_true. done.
Qed.

(** A numpy percentage of a count over a non-empty table is the exact
    share, between 0 and 100. *)
Lemma pct_de_range n t : n <= t -> 0 < t -> exists q, pct_de n t = Fin q /\ (0 <= q <= 100)%Q.
Proof.
  intros Hn Ht. unfold pct_de, div_np. destruct (Z.eqb_spec (Z.of_nat t) 0) as [E|_]; [lia|].
  cbn. eexists. split; [reflexivity|]. destruct (Classifier.share_range n t Hn Ht) as [H0 H1].
  unfold Classifier.share in *. unfold Qdiv in *. split.
  - eapply Qle_trans; [exact H0|]. apply Qle_lteq. right. ring.
  - eapply Qle_trans; [|exact H1]. apply Qle_lteq. right. ring.
Qed.

Lemma tem_trimestre_nil {A} (data : A -> option Dates.stamp) k : ~ tem_trimestre data [] k.
Proof. intros (x & [] & _). Qed.

(** When the script runs to its end, the contactless share, the
    digital-wallet share and the share of customers without an income are
    finite percentages in [0, 100]: the tables they divide by are not
    empty. *)
Theorem hipoteses_percentuais cs ts r :
  hipoteses cs ts = Ok r ->
  Forall (fun p => exists q, p = Fin q /\ (0 <= q <= 100)%Q)
    [h_contactless_pct r; h_wallet_pct r; h_sem_renda_pct r].
Proof.
  intros H. destruct (proj1 (hipoteses_completa cs ts) (ex_intro _ r H)) as (Ht & _ & Hc & _).
  assert (0 < length ts) as Hts by (destruct ts; [destruct (tem_trimestre_nil _ _ Ht)|cbn; lia]).
  assert (0 < length cs) as Hcs by (destruct cs; [destruct (tem_trimestre_nil _ _ Hc)|cbn; lia]).
  unfold hipoteses in H.
  destruct (loc_trim v_trimestre (2024, 1)%Z _), (loc_trim v_trimestre (2024, 4)%Z _),
    (loc_trim fst (2024, 3)%Z _), (loc_trim fst (2024, 2)%Z _), (loc_trim fst (2024, 4)%Z _);
    cbn in H; try discriminate H.
  injection H as <-. cbn. repeat constructor; apply pct_de_range; auto using count_if_le.
Qed.

(** ** Examples *)

Definition ex_tx (i : Z) (y m : Z) (v : option Q) (c : Z) (w : option string) (k : option Z) : transacao_h :=
  mk_transacao_h (mk_transacao_csv (Some i) (Some (Dates.mk_stamp y m 5 12 0 0)) v (Some c) (Some 10%Z) w
                    (Some "Chip"%string)) k.

(** Purchases in January, August and November 2024, none from April to
    June; one amount is missing. *)
Definition ex_transacoes_h : list transacao_h :=
  [ex_tx 1 2024 1 (Some 100%Q) 1 None (Some 1%Z); ex_tx 2 2024 2 (Some 300%Q) 2 (Some "Apple Pay"%string) (Some 0%Z);
   ex_tx 3 2024 8 (Some 200%Q) 1 None (Some 0%Z); ex_tx 4 2024 11 (Some 50%Q) 1 None None;
   ex_tx 5 2024 11 None 2 None (Some 1%Z)].

Definition ex_cliente (i : Z) (y m : Z) (r : option Q) : cliente_csv :=
  mk_cliente_csv (Some i) None r (Some (Dates.mk_stamp y m 1 0 0 0)) None None None None.

Definition ex_clientes_h : list cliente_csv :=
  [ex_cliente 1 2023 11 (Some 40000%Q); ex_cliente 2 2024 5 None; ex_cliente 3 2024 7 (Some 120000%Q);
   ex_cliente 4 2024 10 (Some 60000%Q)].

(** The third quarter is compared with the first: the second has no
    purchase. *)
Example volume_sem_q2 :
  match hipoteses ex_clientes_h ex_transacoes_h with
  | Ok r => map v_trimestre (h_volume r) = [(2024, 1); (2024, 3); (2024, 4)]%Z /\
            map (fun v => (Qfloor (valor_total v), qtd_transacoes v)) (h_volume r) = [(400%Z, 2); (200%Z, 1); (50%Z, 1)] /\
            map (fun x => match x with Fin q => Some (Qfloor q) | _ => None end) (h_var_valor r) =
              [None; Some (-50)%Z; Some (-75)%Z]
  | Erro _ => False
  end.
Proof. vm_compute. repeat split; reflexivity. Qed.

(** Without the November purchases the lookup of line 77 fails. *)
Example sem_q4 :
  hipoteses ex_clientes_h (firstn 3 ex_transacoes_h) = Erro "KeyError: '2024Q4'".
Proof. vm_compute. reflexivity. Qed.

Lemma hipoteses_percentuais_witness :
  exists r, hipoteses ex_clientes_h ex_transacoes_h = Ok r /\
  Forall (fun p => exists q, p = Fin q /\ (0 <= q <= 100)%Q)
    [h_contactless_pct r; h_wallet_pct r; h_sem_renda_pct r].
Proof.
  destruct (hipoteses ex_clientes_h ex_transacoes_h) as [r|e] eqn:E; [|vm_compute in E; discriminate E].
  exists r. split; [reflexivity|]. apply (hipoteses_percentuais ex_clientes_h ex_transacoes_h r E).
Defined.

End Hipoteses.
