(* ===== verification/Graficos.v ===== *)
(** * Per-factor churn charts: [src/churnPorCategoria/graficos_churn_individuais.py]

    The script repeats the data preparation of
    [analise_churn_fatores_completa.py] (lines 28-73; the only difference
    is the [Dias_Sem_Transacao] column, which it does not compute and
    never reads), so it is modelled by [Fatores.df_analise].  Its function
    [criar_grafico_individual] (lines 78-162) builds the table each chart
    draws: the rows with a value and a churn flag, grouped by the value or
    by its [pd.cut] interval, with [Total_Clientes], [Clientes_Churn],
    [Taxa_Churn] and [Pct_Base]; it then drops the groups without a rate,
    keeps the [top_n] largest rates when asked, and returns nothing when
    no group is left.  Nine calls (lines 165-231) draw the nine factors.

    The theorems show that each table holds, up to order, exactly the
    non-empty groups of the table [analisar_churn_por_fator] prints for the
    same factor (so the two scripts agree on every count and rate), that
    each row has customers and a rate in [0, 100], and that a categorical
    table comes out in increasing key order. *)

From stdpp Require Import base list strings.
From Stdlib Require Import ZArith QArith Qround String Lia Lqa Sorting.Sorted.
From S2P Require Import Prelude Sql Dates Pandas Schema Churn Banco TempoRigoroso Fatores.

Local Abbreviation length := Datatypes.length.
Local Open Scope nat_scope.

Module Graficos.
Import Sql Pandas Processamento Fatores.

(** ** [criar_grafico_individual], lines 78-162 *)

(** [analise.dropna(subset=['Taxa_Churn'])] then
    [analise[analise['Total_Clientes'] > 0]]. *)
Definition validos {K} (t : list (K * resultado)) : list (K * resultado) :=
  List.filter (fun kr => negb (total_clientes (snd kr) =? 0))
    (List.filter (fun kr => negb (is_null (taxa_churn (snd kr)))) t).

(** The aggregate of lines 93-105 over the groups, without a sort. *)
Definition agrega_grupos {K} (grupos : list (K * list bool)) : list (K * resultado) :=
  let base := sum_list_with (fun kg => length (snd kg)) grupos in
  map (fun kg => (fst kg, agrega base (snd kg))) grupos.

(** With [bins]: one group per interval, in interval order, empty ones
    included ([observed=False]). *)
Definition tabela_faixa (bins : list Q) (col : linha -> option Q) (df : list linha)
  : list ((Q * Q) * resultado) :=
  let rows := limpo col df in
  validos (agrega_grupos (map (fun iv => (iv, map snd (List.filter (fun r => bool_decide
              (cut bins (intervalos bins) true (Some (fst r)) = Some iv)) rows)))
            (intervalos bins))).

(** Without [bins]: one group per value present, [groupby] sorting the
    values. *)
Definition tabela_categoria (col : linha -> option string) (df : list linha) : list (string * resultado) :=
  validos (agrega_grupos (order_by (fun a b => str_ltb (fst a) (fst b))
    (map (fun kg => (fst kg, map snd (snd kg))) (group_by fst (limpo col df))))).

(** [if top_n: analise = analise.nlargest(top_n, 'Taxa_Churn')], and
    [return] without a table when no group is left. *)
Definition criar_grafico_individual {K} (t : list (K * resultado)) (top_n : nat) : option (list (K * resultado)) :=
  let t' := if top_n =? 0 then t else firstn top_n (sort_desc (fun kr => taxa_churn (snd kr)) t) in
  if length t' =? 0 then None else Some t'.

Record graficos := mk_graficos {
  g_idade : option (list ((Q * Q) * resultado));
  g_renda : option (list ((Q * Q) * resultado));
  g_tempo_conta : option (list ((Q * Q) * resultado));
  g_conta_adicional : option (list (string * resultado));
  g_estado : option (list (string * resultado));
  g_tipo_cartao : option (list (string * resultado));
  g_produto : option (list (string * resultado));
  g_tempo_cartao : option (list ((Q * Q) * resultado));
  g_limite : option (list ((Q * Q) * resultado))
}.

(** The nine calls of lines 165-231, on the prepared table. *)
Definition main (clientes : list cliente_csv) (ts : list transacao_csv) (ks : list cartao_csv) : graficos :=
  let df := df_analise clientes ts ks in
  mk_graficos
    (criar_grafico_individual (tabela_faixa faixas_idade (fun r => Some (nz (l_idade r))) df) 0)
    (criar_grafico_individual (tabela_faixa faixas_renda l_renda df) 0)
    (criar_grafico_individual (tabela_faixa faixas_tempo (fun r => Some (nz (l_tempo_conta r))) df) 0)
    (criar_grafico_individual (tabela_categoria l_adicional df) 0)
    (criar_grafico_individual (tabela_categoria l_estado df) 10)
    (criar_grafico_individual (tabela_categoria l_tipo df) 0)
    (criar_grafico_individual (tabela_categoria l_produto df) 0)
    (criar_grafico_individual (tabela_faixa faixas_tempo (fun r => Some (nz (l_tempo_cartao r))) df) 0)
    (criar_grafico_individual (tabela_faixa faixas_limite l_limite (df_credito df)) 0).

(** ** Properties *)

Lemma filter_perm {A} (p : A -> bool) (l l' : list A) : l ≡ₚ l' -> List.filter p l ≡ₚ List.filter p l'.
Proof.
  induction 1 as [|x l l' _ IH|x y l|l l' l'' _ IH1 _ IH2]; cbn.
  - done.
  - destruct (p x); [constructor|]; done.
  - destruct (p x), (p y); [apply perm_swap|constructor..|]; done.
  - etrans; done.
Qed.

Lemma validos_perm {K} (t t' : list (K * resultado)) : t ≡ₚ t' -> validos t ≡ₚ validos t'.
Proof. intros H. unfold validos. repeat apply filter_perm. exact H. Qed.

Lemma agrega_grupos_perm {K} (g g' : list (K * list bool)) : g ≡ₚ g' -> agrega_grupos g ≡ₚ agrega_grupos g'.
Proof.
  intros H. unfold agrega_grupos. etrans; [apply Permutation_map, H|].
  erewrite map_ext; [reflexivity|]. intros kg. do 2 f_equal. rewrite H. done.
Qed.

(** A group with a row has customers and a rate. *)
Lemma agrega_valido base g : g <> [] -> 0 < total_clientes (agrega base g) /\ taxa_churn (agrega base g) <> None.
Proof. destruct g; [done|]. intros _. cbn. split; [lia|done]. Qed.

Lemma validos_id {K} (t : list (K * resultado)) :
  (forall kr, In kr t -> 0 < total_clientes (snd kr) /\ taxa_churn (snd kr) <> None) -> validos t = t.
Proof.
  unfold validos. induction t as [|x t IH]; intros H; cbn; [done|].
  destruct (H x (or_introl eq_refl)) as [H1 H2]. destruct (taxa_churn (snd x)); [|done]. cbn.
  destruct (Nat.eqb_spec (total_clientes (snd x)) 0); [lia|]. cbn.
  rewrite IH; [done|]. intros; apply H; right; done.
Qed.

Lemma grupos_categoria_nao_vazios {K} `{EqDecision K} (l : list (K * bool)) kg :
  In kg (map (fun kg => (fst kg, map snd (snd kg))) (group_by fst l)) -> snd kg <> [].
Proof.
  intros ([k g] & <- & ((x & Hx & Hk) & ->)%In_group_by)%in_map_iff. cbn.
  intros Hnil%map_eq_nil. assert (In x (group_of fst k l)) as Hin by (apply In_group_of; done).
  rewrite Hnil in Hin. done.
Qed.

(** C34: For a categorical factor, the chart's table is, up to order,
    the whole table [analisar_churn_por_fator] prints: every value present
    has customers, so no row is dropped. *)
Theorem tabela_categoria_equiv col df :
  tabela_categoria col df ≡ₚ por_categoria col df.
Proof.
  unfold tabela_categoria, por_categoria, tabela. rewrite validos_id.
  - rewrite (agrega_grupos_perm _ _ (order_by_perm _ _)). symmetry. apply sort_desc_perm.
  - intros kr ([k g] & <- & Hin)%in_map_iff. apply agrega_valido.
    apply (grupos_categoria_nao_vazios (limpo col df) (k, g)). apply In_order_by in Hin. done.
Qed.

(** For a banded factor, the chart's table holds, up to order,
    exactly the rows with a rate and customers of the table
    [analisar_churn_por_fator] prints: the same intervals, counts, rates
    and shares of the base; the chart keeps interval order, the printed
    table sorts by rate. *)
Theorem tabela_faixa_equiv bins col df :
  tabela_faixa bins col df ≡ₚ validos (por_faixa bins col df).
Proof. apply validos_perm. symmetry. apply sort_desc_perm. Qed.

(** A row of a group: its churn count is at most its customers, and its
    rate is a percentage. *)
Lemma agrega_taxa base g q :
  taxa_churn (agrega base g) = Some q -> clientes_churn (agrega base g) <= total_clientes (agrega base g) /\ (0 <= q <= 100)%Q.
Proof.
  unfold agrega. cbn. destruct (Nat.eqb_spec (length g) 0) as [|Hn]; [done|]. intros [= <-].
  pose proof (count_if_le (fun b => b) g) as Hc. split; [done|]. apply np_round_1_range.
  pose proof (Classifier.share_range _ _ Hc ltac:(lia)) as [H0 H1]. unfold Classifier.share in *.
  unfold nq. split.
  - eapply Qle_trans; [exact H0|]. apply Qle_lteq. right. field.
    intros E. apply Hn. unfold Qeq in E. cbn in E. lia.
  - eapply Qle_trans; [|exact H1]. apply Qle_lteq. right. field.
    intros E. apply Hn. unfold Qeq in E. cbn in E. lia.
Qed.

Lemma In_firstn_l {A} n (l : list A) x : In x (firstn n l) -> In x l.
Proof. intros H. rewrite <- (firstn_skipn n l). apply in_or_app. left. done. Qed.

Definition linha_valida {K} (kr : K * resultado) : Prop :=
  0 < total_clientes (snd kr) /\ clientes_churn (snd kr) <= total_clientes (snd kr) /\
  exists q, taxa_churn (snd kr) = Some q /\ (0 <= q <= 100)%Q.

Lemma validos_agrega {K} (g : list (K * list bool)) kr :
  In kr (validos (agrega_grupos g)) -> linha_valida kr.
Proof.
  unfold validos. intros (Hkr & Ht%negb_true_iff%Nat.eqb_neq)%filter_In.
  apply filter_In in Hkr as [Hkr Hn]. unfold agrega_grupos in Hkr.
  apply in_map_iff in Hkr as ([k g'] & <- & _). cbn [fst snd] in *.
  destruct (taxa_churn (agrega _ g')) as [q|] eqn:E; [|done]. destruct (agrega_taxa _ _ _ E).
  unfold linha_valida. cbn [snd]. split; [lia|]. split; [done|]. eauto.
Qed.

(** Every table a chart draws is non-empty, and each of its rows has
    customers, at most as many churned customers, and a churn rate in
    [0, 100], also after [nlargest]. *)
Theorem grafico_linhas_validas {K} (g : list (K * list bool)) n t :
  criar_grafico_individual (validos (agrega_grupos g)) n = Some t ->
  t <> [] /\ Forall linha_valida t.
Proof.
  unfold criar_grafico_individual. cbv zeta.
  set (u := if n =? 0 then _ else _).
  assert (forall kr, In kr u -> In kr (validos (agrega_grupos g))) as Hu.
  { unfold u. destruct (n =? 0); [done|]. intros kr Hkr.
    apply In_firstn_l, list_elem_of_In in Hkr. rewrite sort_desc_perm in Hkr. apply list_elem_of_In. done. }
  destruct (Nat.eqb_spec (length u) 0) as [|Hl]; [done|]. intros [= <-].
  split; [intros E; rewrite E in Hl; done|]. apply List.Forall_forall. intros kr Hkr.
  apply (validos_agrega g), Hu, Hkr.
Qed.

(** ** Examples *)

(** Customer 1 (SP) last bought in June 2024, customer 2 (RJ) in
    December, customer 3 (SP) never; the reference date is the last
    purchase, 2024-12-05. *)
Definition ex_clientes : list cliente_csv :=
  [mk_cliente_csv (Some 1%Z) (Some (Dates.mk_stamp 1980 5 1 0 0 0)) (Some 60000%Q) (Some (Dates.mk_stamp 2022 1 1 0 0 0))
     None None (Some "SP"%string) (Some "Sim"%string);
   mk_cliente_csv (Some 2%Z) (Some (Dates.mk_stamp 1995 5 1 0 0 0)) (Some 20000%Q) (Some (Dates.mk_stamp 2023 6 1 0 0 0))
     None None (Some "RJ"%string) (Some "Não"%string);
   mk_cliente_csv (Some 3%Z) None None None None None (Some "SP"%string) None].

Definition ex_transacoes : list transacao_csv :=
  [mk_transacao_csv (Some 1%Z) (Some (Dates.mk_stamp 2024 6 10 9 0 0)) (Some 40%Q) (Some 1%Z) (Some 10%Z) None None;
   mk_transacao_csv (Some 2%Z) (Some (Dates.mk_stamp 2024 12 5 9 0 0)) (Some 90%Q) (Some 2%Z) (Some 11%Z) None None].

Definition ex_df : list linha := df_analise ex_clientes ex_transacoes Fatores.ex_cartoes.

(** The state chart: SP has one customer, churned; RJ one, active;
    customer 3 has no churn flag and is left out. *)
Example estados_ex :
  map (fun kr => (fst kr, total_clientes (snd kr), clientes_churn (snd kr))) (tabela_categoria l_estado ex_df) =
  [("RJ"%string, 1, 0); ("SP"%string, 1, 1)].
Proof. vm_compute. reflexivity. Qed.

Lemma grafico_linhas_validas_witness :
  exists t, criar_grafico_individual (tabela_categoria l_estado ex_df) 10 = Some t /\ t <> [] /\ Forall linha_valida t.
Proof.
  destruct (criar_grafico_individual (tabela_categoria l_estado ex_df) 10) as [t|] eqn:E;
    [|vm_compute in E; discriminate E].
  exists t. split; [done|].
  apply (grafico_linhas_validas (order_by (fun a b => str_ltb (fst a) (fst b))
    (map (fun kg => (fst kg, map snd (snd kg))) (group_by fst (limpo l_estado ex_df)))) 10 t E).
Defined.

End Graficos.
