(* ===== verification/Persona.v ===== *)
(** * Customer personas: [src/analise_persona_clientes.py]

    [obter_dados_personas] reads one row per group of a SQL query (customers
    with a transaction, their transactions and the cards of those, grouped
    by the customer columns and the card columns), [criar_faixas_categoricas]
    adds four [pd.cut] bands, and [gerar_relatorio_personas] prints the
    overall means, the profile of each age band, the most common products,
    three Pearson correlations and the "top 20%" of spending.

    The query is modelled on the tables of [Schema.v] with the SQL fragment
    of [Sql.v] (the mixed-case column names of the query resolve, SQLite
    names being case-insensitive); the DataFrame operations with [Pandas.v].

    The theorems show that the rows the script reports as "clientes ativos"
    are (customer, card attributes) pairs: a customer who used cards of two
    types is two rows; that every active registered customer is a row; and
    that the "top 20%" of spending ([> quantile(0.8)]) holds at most
    [n - 1 - floor(0.8 (n - 1))] of the [n] customers, none when all spend
    the same. *)

From stdpp Require Import base list sets strings.
From Stdlib Require Import ZArith QArith Qround String Lia Lqa Sorting.Sorted.
From S2P Require Import Prelude Sql Pandas Schema Banco Validacao RendaIdade Hipoteses.

Local Abbreviation length := Datatypes.length.
Local Open Scope nat_scope.

Module Persona.
Import Sql Pandas Banco.Visoes Validacao.Validacao RendaIdade.RendaIdade Hipoteses.Hipoteses.

(** ** [obter_dados_personas], lines 43-78 *)

(** [clientes_ativos]: [SELECT DISTINCT Cliente_ID FROM transacoes]. *)
Definition clientes_ativos (ts : list Transacao.t) : list (option Z) :=
  distinct (map Transacao.Cliente_ID ts).

(** A row of [clientes c INNER JOIN clientes_ativos ca LEFT JOIN transacoes
    t LEFT JOIN cartoes cart]. *)
Definition linha_join : Type := ((Cliente.t * option Z) * option Transacao.t) * option Cartao.t.

Definition juncao (cs : list Cliente.t) (ts : list Transacao.t) (ks : list Cartao.t) : list linha_join :=
  left_join (fun r k => s_eq (col_t Transacao.ID_Cartao r) (Cartao.ID_Cartao k))
    (left_join (fun r t => s_eq (Cliente.Cliente_ID (fst r)) (Transacao.Cliente_ID t))
       (inner_join (fun c a => s_eq (Cliente.Cliente_ID c) a) cs (clientes_ativos ts)) ts) ks.

(** A column of [cart] in a joined row: NULL where no card matched. *)
Definition col_k {A} (f : Cartao.t -> option A) (r : linha_join) : option A :=
  coluna (option_map f (snd r)).

Definition cliente_de (r : linha_join) : Cliente.t := fst (fst (fst r)).

(** [GROUP BY c.Cliente_ID, c.Idade, c.Renda_Anual, cart.Tipo_Cartao,
    cart.Limite_Cartao, cart.Produto_Mastercard]: NULLs form one group. *)
Definition chave : Type :=
  option Z * option Z * option Q * option string * option Q * option string.

Definition chave_de (r : linha_join) : chave :=
  (Cliente.Cliente_ID (cliente_de r), Cliente.Idade (cliente_de r), Cliente.Renda_Anual (cliente_de r),
   col_k Cartao.Tipo_Cartao r, col_k Cartao.Limite_Cartao r, col_k Cartao.Produto_Mastercard r).

(** A row of [dados_completos]. *)
Record persona := mk_persona {
  ps_cliente_id : option Z;
  ps_idade : option Z;
  ps_renda_anual : option Q;
  ps_tipo_cartao : option string;
  ps_limite_cartao : option Q;
  ps_produto_mastercard : option string;
  ps_total_transacoes : nat;
  ps_ticket_medio : option Q;
  ps_valor_total_gasto : option Q;
  ps_primeira_transacao : option string;
  ps_ultima_transacao : option string
}.

#[export] Instance persona_eq_dec : EqDecision persona.
Proof. solve_decision. Defined.

(** [ROUND(x, 2)] of a column aggregate: NULL stays NULL. *)
Definition round2 (x : option Q) : option Q := option_map (fun a => sql_round a 2) x.

Definition persona_de (r : linha_join) (g : list linha_join) : persona :=
  let ts := map fst g in
  mk_persona (Cliente.Cliente_ID (cliente_de r)) (Cliente.Idade (cliente_de r))
    (Cliente.Renda_Anual (cliente_de r)) (col_k Cartao.Tipo_Cartao r) (col_k Cartao.Limite_Cartao r)
    (col_k Cartao.Produto_Mastercard r)
    (count_distinct (map (col_t Transacao.ID_Transacao) ts))
    (round2 (avg_col (map (col_t Transacao.Valor_Compra) ts)))
    (round2 (sum_col (map (col_t Transacao.Valor_Compra) ts)))
    (min_col (map (col_t Transacao.Data) ts)) (max_col (map (col_t Transacao.Data) ts)).

(** [dados_completos]: [SELECT DISTINCT ... GROUP BY ...]. *)
Definition dados_completos (cs : list Cliente.t) (ts : list Transacao.t) (ks : list Cartao.t)
  : list persona :=
  distinct (agrupar chave_de persona_de (juncao cs ts ks)).

(** [SELECT * FROM dados_completos WHERE total_transacoes > 0 ORDER BY
    valor_total_gasto DESC]. *)
Definition obter_dados_personas (cs : list Cliente.t) (ts : list Transacao.t) (ks : list Cartao.t)
  : list persona :=
  order_by (desc_nulos_ultimos ps_valor_total_gasto)
    (where_ (fun p => s_gt (Some (Z.of_nat (ps_total_transacoes p))) (Some 0%Z))
       (dados_completos cs ts ks)).

(** ** [criar_faixas_categoricas], lines 80-104 *)

Definition rotulos_etaria : list string := ["18-25"; "26-35"; "36-45"; "46-55"; "55+"]%string.

(** A row of the DataFrame after the four [pd.cut] bands. *)
Record linha := mk_linha {
  l_persona : persona;
  faixa_etaria : option string;
  faixa_renda : option string;
  faixa_limite : option string;
  perfil_gasto : option string
}.

Definition criar_faixas (p : persona) : linha :=
  mk_linha p
    (cut [0; 25; 35; 45; 55; 100]%Q rotulos_etaria false (option_map inject_Z (ps_idade p)))
    (cut_inf [0; 50000; 80000; 120000]%Q ["Até R$ 50k"; "R$ 50k-80k"; "R$ 80k-120k"]%string
       "Acima R$ 120k"%string (ps_renda_anual p))
    (cut_inf [0; 1000; 5000; 10000]%Q ["Até R$ 1k"; "R$ 1k-5k"; "R$ 5k-10k"]%string
       "Acima R$ 10k"%string (ps_limite_cartao p))
    (cut_inf [0; 10000; 50000; 100000]%Q ["Baixo (<R$ 10k)"; "Médio (R$ 10k-50k)"; "Alto (R$ 50k-100k)"]%string
       "Premium (>R$ 100k)"%string (ps_valor_total_gasto p)).

Definition criar_faixas_categoricas (df : list persona) : list linha := map criar_faixas df.

(** ** [gerar_relatorio_personas], lines 360-415 *)

(** [Series.mean()]: the missing values skipped, [NaN] on none. *)
Definition media_col {A} (f : A -> option Q) (df : list A) : option Q := media (omap f df).

Definition idade_q (r : linha) : option Q := option_map inject_Z (ps_idade (l_persona r)).
Definition renda (r : linha) : option Q := ps_renda_anual (l_persona r).
Definition limite (r : linha) : option Q := ps_limite_cartao (l_persona r).
Definition ticket (r : linha) : option Q := ps_ticket_medio (l_persona r).
Definition gasto (r : linha) : option Q := ps_valor_total_gasto (l_persona r).

(** [mode().iloc[0] if not mode().empty else 'N/A'] on a text column:
    [mode()] lists the most frequent values in sorted order. *)
Definition ocorrencias (v : string) (vs : list string) : nat := #[fun w => bool_decide (w = v)] vs.

(** [mode()[0]]: the smallest of the most frequent values, none when
    every value is missing. *)
Definition moda_opt (l : list (option string)) : option string :=
  let vs := nao_nulos l in
  let m := fold_right Nat.max 0 (map (fun v => ocorrencias v vs) vs) in
  fold_right (fun v acc => if bool_decide (ocorrencias v vs = m) then
                             match acc with
                             | Some w => if str_ltb v w then Some v else Some w
                             | None => Some v
                             end
                           else acc) None vs.

Definition moda (l : list (option string)) : string :=
  match moda_opt l with Some v => v | None => "N/A"%string end.

(** The same on the categorical [faixa_etaria]: the modes in the order of
    the categories. *)
Definition moda_cat (cats : list string) (l : list (option string)) : string :=
  let n c := #[fun x => bool_decide (x = Some c)] l in
  let m := fold_right Nat.max 0 (map n cats) in
  match List.find (fun c => bool_decide (n c = m) && negb (n c =? 0)) cats with
  | Some c => c
  | None => "N/A"%string
  end.

(** The profile of an age band, lines 374-383. *)
Record perfil := mk_perfil {
  pf_faixa : string;
  pf_clientes : nat;
  pf_pct : Q;
  pf_renda : option Q;
  pf_limite : option Q;
  pf_ticket : option Q;
  pf_produto : string;
  pf_tipo : string
}.

(** [for faixa in df['faixa_etaria'].cat.categories], the empty bands
    skipped. *)
Definition perfis (df : list linha) : list perfil :=
  omap (fun f =>
          let subset := List.filter (fun r => bool_decide (faixa_etaria r = Some f)) df in
          match subset with
          | [] => None
          | _ => Some (mk_perfil f (length subset) (nq (length subset) / nq (length df) * 100)%Q
                         (media_col renda subset) (media_col limite subset) (media_col ticket subset)
                         (moda (map (fun r => ps_produto_mastercard (l_persona r)) subset))
                         (moda (map (fun r => ps_tipo_cartao (l_persona r)) subset)))
          end) rotulos_etaria.

(** [value_counts().head(5)] of the products, with their share. *)
Definition top_produtos (df : list linha) : list (string * nat * Q) :=
  map (fun kn => (fst kn, snd kn, (nq (snd kn) / nq (length df) * 100)%Q))
    (firstn 5 (value_counts (map (fun r => ps_produto_mastercard (l_persona r)) df))).

(** A pairwise [corr()]: the rows where both columns are defined. *)
Definition pares (f g : linha -> option Q) (df : list linha) : list (Q * Q) :=
  omap (fun r => match f r, g r with Some x, Some y => Some (x, y) | _, _ => None end) df.

Definition correlacao_de (f g : linha -> option Q) (df : list linha) : pearson :=
  corr (map fst (pares f g df)) (map snd (pares f g df)).

(** [df[df['valor_total_gasto'] > df['valor_total_gasto'].quantile(0.8)]]:
    [NaN] compares false, and the quantile of no value is [NaN]. *)
Definition valores (df : list linha) : list Q := omap gasto df.

Definition high_value (df : list linha) : list linha :=
  match quantil (4 # 5) (valores df) with
  | Some q => List.filter (fun r => match gasto r with Some v => Qltb q v | None => false end) df
  | None => []
  end.

Record relatorio := mk_relatorio {
  r_total : nat;
  r_idade : option Q;
  r_renda : option Q;
  r_limite : option Q;
  r_ticket : option Q;
  r_perfis : list perfil;
  r_top_produtos : list (string * nat * Q);
  r_renda_limite : pearson;
  r_idade_ticket : pearson;
  r_limite_gasto : pearson;
  r_alto_quantidade : nat;
  r_alto_idade : option Q;
  r_alto_renda : option Q;
  r_alto_gasto : option Q;
  r_alto_faixa : string
}.

Definition gerar_relatorio_personas (df : list linha) : relatorio :=
  let hv := high_value df in
  mk_relatorio (length df) (media_col idade_q df) (media_col renda df) (media_col limite df)
    (media_col ticket df) (perfis df) (top_produtos df)
    (correlacao_de renda limite df) (correlacao_de idade_q ticket df) (correlacao_de limite gasto df)
    (length hv) (media_col idade_q hv) (media_col renda hv) (media_col gasto hv)
    (moda_cat rotulos_etaria (map faixa_etaria hv)).

(** ** Properties of the query *)

(** [c] bought with card [k] in transaction [t]: the three rows exist and
    their keys match, none of them NULL. *)
Definition compra (cs : list Cliente.t) (ts : list Transacao.t) (ks : list Cartao.t)
    (c : Cliente.t) (t : Transacao.t) (k : Cartao.t) : Prop :=
  In c cs /\ Cliente.Cliente_ID c <> None /\
  In t ts /\ Transacao.Cliente_ID t = Cliente.Cliente_ID c /\ Transacao.ID_Transacao t <> None /\
  In k ks /\ Transacao.ID_Cartao t = Cartao.ID_Cartao k /\ Cartao.ID_Cartao k <> None.

Lemma juncao_In cs ts ks c t k :
  compra cs ts ks c t k -> In (((c, Cliente.Cliente_ID c), Some t), Some k) (juncao cs ts ks).
Proof.
  intros (Hc & Hid & Ht & Htc & _ & Hk & Htk & Hkid). unfold juncao.
  apply left_join_In; [|done|].
  - apply left_join_In; [|done|].
    + apply In_inner_join. split; [done|]. split.
      * apply In_distinct, in_map_iff. exists t. done.
      * apply holds_s_eq. done.
    + apply holds_s_eq. cbn. split; [congruence|done].
  - apply holds_s_eq. cbn. split; [done|congruence].
Qed.

(** A group holding a transaction with an id has [total_transacoes > 0]. *)
Lemma total_positivo (g : list linha_join) r t :
  In r g -> snd (fst r) = Some t -> Transacao.ID_Transacao t <> None ->
  holds (s_gt (Some (Z.of_nat (count_distinct (map (col_t Transacao.ID_Transacao) (map fst g)))))
           (Some 0%Z)) = true.
Proof.
  intros Hr Ht Hid. unfold count_distinct. destruct (Transacao.ID_Transacao t) as [i|] eqn:Ei; [|done].
  assert (In i (distinct (nao_nulos (map (col_t Transacao.ID_Transacao) (map fst g))))) as Hi.
  { apply In_distinct, In_nao_nulos, in_map_iff. exists (fst r).
    split; [unfold col_t; rewrite Ht; cbn; done|apply in_map; done]. }
  destruct (distinct _); [done|]. cbn. rewrite (proj2 (Z.ltb_lt _ _)) by lia. done.
Qed.

(** Every purchase shows up as a row of the persona data, with the
    customer and the card type of the purchase. *)
Lemma compra_contada cs ts ks c t k :
  compra cs ts ks c t k ->
  exists p, In p (obter_dados_personas cs ts ks) /\ ps_cliente_id p = Cliente.Cliente_ID c /\
            ps_tipo_cartao p = Cartao.Tipo_Cartao k.
Proof.
  intros Hcp. pose proof (juncao_In cs ts ks c t k Hcp) as Hr.
  set (r := (((c, Cliente.Cliente_ID c), Some t), Some k)) in Hr.
  destruct (agrupar_In chave_de persona_de _ r Hr) as (r0 & rest & Hg & Hin).
  assert (In r0 (group_of chave_de (chave_de r) (juncao cs ts ks))) as Hr0 by (rewrite Hg; left; done).
  apply In_group_of in Hr0 as [_ Hk]. unfold chave_de in Hk. injection Hk as Hid' _ _ Htipo _ _.
  exists (persona_de r0 (r0 :: rest)). split; [|cbn; rewrite Hid', Htipo; done].
  apply In_order_by, In_where. split; [apply In_distinct; done|].
  assert (In r (r0 :: rest)) as Hr' by (rewrite <- Hg; apply In_group_of; done).
  apply (total_positivo _ r t Hr' eq_refl). destruct Hcp as (_ & _ & _ & _ & ? & _). done.
Qed.

(** C13: the rows the script counts as "clientes ativos" are (customer,
    card attributes) groups: a registered customer who bought with cards of
    two different types is counted in two rows of [obter_dados_personas]. *)
Theorem cliente_conta_por_tipo cs ts ks c t1 k1 t2 k2 :
  compra cs ts ks c t1 k1 -> compra cs ts ks c t2 k2 ->
  Cartao.Tipo_Cartao k1 <> Cartao.Tipo_Cartao k2 ->
  2 <= #[fun p => bool_decide (ps_cliente_id p = Cliente.Cliente_ID c)] (obter_dados_personas cs ts ks).
Proof.
  intros H1 H2 Htipo.
  destruct (compra_contada cs ts ks c t1 k1 H1) as (p1 & Hp1 & Hid1 & Ht1).
  destruct (compra_contada cs ts ks c t2 k2 H2) as (p2 & Hp2 & Hid2 & Ht2).
  apply (count_if_two _ _ p1 p2 Hp1 Hp2); [congruence|apply bool_decide_eq_true; done..].
Qed.

(** ** Properties of the report *)

(** The largest of the counts is one of them. *)
Lemma max_atingido {A} (g : A -> nat) (l : list A) :
  l <> [] -> exists x, In x l /\ g x = fold_right Nat.max 0 (map g l).
Proof.
  induction l as [|x l IH]; [done|]. intros _. cbn [map fold_right].
  destruct l as [|y l']; [exists x; cbn; split; [left; done|lia]|].
  destruct IH as (z & Hz & Ez); [done|].
  destruct (Nat.max_spec (g x) (fold_right Nat.max 0 (map g (y :: l')))) as [[_ ->]|[_ ->]].
  - exists z. split; [right; done|done].
  - exists x. split; [left; done|done].
Qed.

(** [mode()] is empty exactly when every value is missing. *)
Lemma moda_opt_None l : moda_opt l = None <-> nao_nulos l = [].
Proof.
  unfold moda_opt. set (vs := nao_nulos l).
  set (m := fold_right Nat.max 0 (map (fun v => ocorrencias v vs) vs)).
  assert (forall ws, fold_right (fun v acc => if bool_decide (ocorrencias v vs = m) then
            match acc with Some w => if str_ltb v w then Some v else Some w | None => Some v end
            else acc) None ws = None <-> forall v, In v ws -> ocorrencias v vs <> m) as Hf.
  { induction ws as [|v ws IH]; cbn; [naive_solver|].
    case_bool_decide as Hv; [destruct (fold_right _ None ws); [destruct (str_ltb _ _)|]; naive_solver|].
    rewrite IH. naive_solver. }
  rewrite Hf. split; [|intros E v Hv; rewrite E in Hv; done].
  intros H. destruct (decide (vs = [])) as [E|Hne]; [done|]. exfalso.
  destruct (max_atingido (fun v => ocorrencias v vs) vs Hne) as (x & Hx & Ex).
  exact (H x Hx Ex).
Qed.


(** The rows of [high_value] are the spending values above the quantile. *)
Lemma high_value_conta df q :
  quantil (4 # 5) (valores df) = Some q ->
  length (high_value df) = #[fun x => Qltb q x] (valores df).
Proof.
  intros Hq. unfold high_value. rewrite Hq. unfold valores. rewrite count_if_omap. done.
Qed.

(** C14: the "top 20%" of spending ([> quantile(0.8)]) holds at most
    [n - 1 - floor(0.8 (n - 1))] of the [n] rows with a spending value, and
    none at all when every row spends the same: the strict comparison
    leaves out the rows tied with the quantile. *)
Theorem alto_valor_limite df :
  length (high_value df) <=
    length (valores df) - S (Z.to_nat (Qfloor (inject_Z (Z.of_nat (length (valores df)) - 1) * (4 # 5)))) /\
  ((forall x y, In x (valores df) -> In y (valores df) -> (x == y)%Q) -> high_value df = []).
Proof.
  destruct (quantil (4 # 5) (valores df)) as [q|] eqn:Hq;
    [|unfold high_value; rewrite Hq; cbn; split; [lia|done]].
  split.
  - rewrite (high_value_conta df q Hq).
    pose proof (quantil_acima (4 # 5) (valores df) q ltac:(split; discriminate) Hq). lia.
  - intros Hall. apply length_zero_iff_nil. rewrite (high_value_conta df q Hq).
    apply count_if_false. intros x Hx. destruct (valores df) as [|v vs] eqn:E; [done|].
    assert (q == v)%Q as Hqv.
    { apply (quantil_constante (4 # 5) (v :: vs)); [|done].
      apply List.Forall_forall. intros y Hy. apply Hall; [done|left; done]. }
    assert (x == v)%Q as Hxv by (apply Hall; [done|left; done]).
    destruct (Qltb_spec q x); [lra|done].
Qed.

(** A share [n / N * 100] of a non-empty part of a table. *)
Lemma pct_range n N : 1 <= n <= N -> (0 < nq n / nq N * 100 <= 100)%Q.
Proof.
  intros Hn. unfold nq.
  assert (0 < inject_Z (Z.of_nat N))%Q by (change 0%Q with (inject_Z 0); rewrite <- Zlt_Qlt; lia).
  assert (0 < inject_Z (Z.of_nat n))%Q by (change 0%Q with (inject_Z 0); rewrite <- Zlt_Qlt; lia).
  assert (inject_Z (Z.of_nat n) <= inject_Z (Z.of_nat N))%Q by (rewrite <- Zle_Qle; lia).
  assert (0 < inject_Z (Z.of_nat n) / inject_Z (Z.of_nat N))%Q by (apply Qlt_shift_div_l; lra).
  assert (inject_Z (Z.of_nat n) / inject_Z (Z.of_nat N) <= 1)%Q by (apply Qle_shift_div_r; lra).
  lra.
Qed.

(** The band of a row is one of the five labels. *)
Lemma faixa_etaria_In p f : faixa_etaria (criar_faixas p) = Some f -> In f rotulos_etaria.
Proof. apply cut_In. Qed.

(** The profiles count, band by band, the rows of the band. *)
Lemma perfis_soma df :
  sum_list_with pf_clientes (perfis df) =
  sum_list_with (fun f => #[fun r => bool_decide (faixa_etaria r = Some f)] df) rotulos_etaria.
Proof.
  unfold perfis. rewrite sum_list_with_omap. apply sum_list_with_ext_in. intros f _. cbv zeta.
  unfold count_if. destruct (List.filter _ df); done.
Qed.

(** the age-band profiles of the report partition the rows that have
    a band: their customer counts add up to the rows whose age falls in
    [(0, 100]], and every share is in [(0, 100]]. *)
Theorem perfis_particao ps :
  sum_list_with pf_clientes (perfis (criar_faixas_categoricas ps)) =
    #[fun r => negb (is_null (faixa_etaria r))] (criar_faixas_categoricas ps) /\
  Forall (fun p => 0 < pf_pct p <= 100)%Q (perfis (criar_faixas_categoricas ps)).
Proof.
  set (df := criar_faixas_categoricas ps). split.
  - rewrite perfis_soma. apply soma_por_rotulo; [apply (bool_decide_unpack _); vm_compute; done|].
    intros r f Hr Hf. unfold df, criar_faixas_categoricas in Hr.
    apply in_map_iff in Hr as (p & <- & _). apply (faixa_etaria_In p f Hf).
  - apply List.Forall_forall. intros pf Hpf. unfold perfis in Hpf.
    apply list_elem_of_In, list_elem_of_omap in Hpf as (f & _ & Hf). cbv zeta in Hf.
    pose proof (count_if_le (fun r => bool_decide (faixa_etaria r = Some f)) df) as Hle.
    unfold count_if in Hle. destruct (List.filter _ df) as [|r0 rs]; [done|].
    injection Hf as <-. apply pct_range. cbn [length] in *. lia.
Qed.

(** ** Examples *)

Definition ex_c1 : Cliente.t :=
  Cliente.cli (Some 1%Z) (Some 60000%Q) (Some "2023-02-10 00:00:00"%string) (Some "MG"%string)
    (Some "Não"%string) (Some 30%Z) (Some 22%Q).
Definition ex_c2 : Cliente.t :=
  Cliente.cli (Some 2%Z) (Some 150000%Q) (Some "2022-07-01 00:00:00"%string) (Some "SP"%string)
    (Some "Sim"%string) (Some 50%Z) (Some 30%Q).
Definition ex_c3 : Cliente.t :=
  Cliente.cli (Some 3%Z) (Some 40000%Q) (Some "2024-03-05 00:00:00"%string) (Some "RJ"%string)
    (Some "Não"%string) (Some 22%Z) (Some 9%Q).
Definition ex_cs : list Cliente.t := [ex_c1; ex_c2; ex_c3].

Definition ex_k10 : Cartao.t :=
  Cartao.cartao (Some 10%Z) (Some "Gold"%string) (Some "Crédito"%string) None (Some 5000%Q) None None.
Definition ex_k11 : Cartao.t :=
  Cartao.cartao (Some 11%Z) (Some "Standard"%string) (Some "Débito"%string) None (Some 1000%Q) None None.
Definition ex_k12 : Cartao.t :=
  Cartao.cartao (Some 12%Z) (Some "Black"%string) (Some "Crédito"%string) None (Some 20000%Q) None None.
Definition ex_ks : list Cartao.t := [ex_k10; ex_k11; ex_k12].

Definition ex_t100 : Transacao.t :=
  Transacao.tx (Some 100%Z) (Some "2024-11-02 10:00:00"%string) (Some 500%Q) (Some 1%Z) (Some 10%Z).
Definition ex_t101 : Transacao.t :=
  Transacao.tx (Some 101%Z) (Some "2024-12-01 09:00:00"%string) (Some 300%Q) (Some 1%Z) (Some 11%Z).
Definition ex_t102 : Transacao.t :=
  Transacao.tx (Some 102%Z) (Some "2024-06-15 18:00:00"%string) (Some 20000%Q) (Some 2%Z) (Some 12%Z).
Definition ex_ts : list Transacao.t := [ex_t100; ex_t101; ex_t102].

Lemma cliente_conta_por_tipo_witness :
  compra ex_cs ex_ts ex_ks ex_c1 ex_t100 ex_k10 /\ compra ex_cs ex_ts ex_ks ex_c1 ex_t101 ex_k11 /\
  Cartao.Tipo_Cartao ex_k10 <> Cartao.Tipo_Cartao ex_k11 /\
  2 <= #[fun p => bool_decide (ps_cliente_id p = Cliente.Cliente_ID ex_c1)]
         (obter_dados_personas ex_cs ex_ts ex_ks).
Proof.
  assert (compra ex_cs ex_ts ex_ks ex_c1 ex_t100 ex_k10) as H1
    by (repeat split; cbn; auto; discriminate).
  assert (compra ex_cs ex_ts ex_ks ex_c1 ex_t101 ex_k11) as H2
    by (repeat split; cbn; auto; discriminate).
  assert (Cartao.Tipo_Cartao ex_k10 <> Cartao.Tipo_Cartao ex_k11) as H3 by discriminate.
  split; [exact H1|]. split; [exact H2|]. split; [exact H3|].
  exact (cliente_conta_por_tipo ex_cs ex_ts ex_ks ex_c1 ex_t100 ex_k10 ex_t101 ex_k11 H1 H2 H3).
Defined.

(** The three rows, largest spending first, and the two of customer 1. *)
Example dados_ex :
  map (fun p => (ps_cliente_id p, ps_tipo_cartao p, ps_total_transacoes p, ps_valor_total_gasto p))
    (obter_dados_personas ex_cs ex_ts ex_ks) =
  [(Some 2%Z, Some "Crédito"%string, 1, Some (2000000 # 100)%Q);
   (Some 1%Z, Some "Crédito"%string, 1, Some (50000 # 100)%Q);
   (Some 1%Z, Some "Débito"%string, 1, Some (30000 # 100)%Q)].
Proof. vm_compute. reflexivity. Qed.

Definition ex_df : list linha := criar_faixas_categoricas (obter_dados_personas ex_cs ex_ts ex_ks).

(** The "top 20%" of three rows is one row (above 12200), and the age
    profiles count the three rows in two bands. *)
Example relatorio_ex :
  r_alto_quantidade (gerar_relatorio_personas ex_df) = 1 /\
  map (fun p => (pf_faixa p, pf_clientes p)) (r_perfis (gerar_relatorio_personas ex_df)) =
    [("26-35"%string, 2); ("46-55"%string, 1)] /\
  r_alto_faixa (gerar_relatorio_personas ex_df) = "46-55"%string.
Proof. vm_compute. repeat split; reflexivity. Qed.

(** Equal spending: nobody is in the "top 20%". *)
Lemma alto_valor_limite_witness :
  high_value (criar_faixas_categoricas (map (fun p => mk_persona (ps_cliente_id p) (ps_idade p)
     (ps_renda_anual p) (ps_tipo_cartao p) (ps_limite_cartao p) (ps_produto_mastercard p)
     (ps_total_transacoes p) (ps_ticket_medio p) (Some 100%Q) (ps_primeira_transacao p)
     (ps_ultima_transacao p)) (obter_dados_personas ex_cs ex_ts ex_ks))) = [].
Proof.
  apply alto_valor_limite. intros x y Hx Hy. vm_compute in Hx, Hy.
  destruct Hx as [<-|[<-|[<-|[]]]], Hy as [<-|[<-|[<-|[]]]]; reflexivity.
Defined.

End Persona.
