(* ===== verification/Estatistica.v ===== *)
(** * Analyses 4 and 5 of [src/analiseProfunda/analise_estatistica_completa.py]

    The script's first three analyses run scipy's regressions on literal
    tables; the fourth and fifth read the customer and transaction CSVs,
    each inside its own [try ... except Exception].  Analysis 4 computes the
    spending of each customer ([groupby(...).sum()], a left merge and
    [fillna(0)]), its mean, median and count per income band, and the band
    of largest mean ([idxmax]).  Analysis 5 counts the distinct customers
    with a transaction in each month, the relative drop from a month to the
    next, the mean of the positive drops, its yearly projection
    [1 - (1 - c)^12], and, above the 8% benchmark, a value at risk that
    multiplies by [valor_mais_valioso], a variable of analysis 4.

    The two [try] blocks are values of [Sessenta.exec]; the exception of
    analysis 4 is the [KeyError] of [.loc] on the [NaN] label [idxmax]
    gives when no band has a customer, and the exception of analysis 5 the
    [NameError] of [valor_mais_valioso] when analysis 4 failed.

    The theorems show that the monthly churn is an average over the months
    with a drop only, each in (0, 100), so it is positive and at least the
    mean of all the monthly changes; that analysis 5 fails exactly when
    analysis 4 did and the projection exceeds the benchmark; that analysis 4
    fails exactly when no customer has an income band; and that the band
    counts add up to the merged rows that have a band.  Whether [idxmax] of
    no value returns [NaN] (pandas 2) or raises (pandas 3), the block
    raises; the categorical [groupby] keeps the empty bands ([observed=False],
    the default before pandas 3). *)

From stdpp Require Import base list sets strings.
From Stdlib Require Import ZArith QArith Qround String Lia Lqa Sorting.Sorted.
From S2P Require Import Prelude Sql Dates Pandas Schema Sixty Banco LimitesCompleta Hipoteses.

Local Abbreviation length := Datatypes.length.
Local Open Scope nat_scope.

Module Estatistica.
Import Sql Pandas Sessenta Processamento Hipoteses.

(** ** Analysis 4: spending per income band, lines 136-167 *)

(** [transacoes.groupby('Cliente_ID')['Valor_Compra'].sum()]: rows without
    a customer dropped, missing amounts adding 0. *)
Definition volume_por_cliente (ts : list transacao_csv) : list (Z * Q) :=
  map (fun kg => (fst kg, fold_right Qplus 0%Q (omap csv_Valor_Compra (snd kg))))
    (grupos csv_Cliente_ID_tx ts).

(** [clientes.merge(volume_por_cliente, on='Cliente_ID', how='left')] and
    [['Valor_Compra'].fillna(0)]. *)
Definition clientes_com_volume (cs : list cliente_csv) (ts : list transacao_csv)
  : list (cliente_csv * Q) :=
  map (fun cv => (fst cv, match snd cv with Some kv => snd kv | None => 0%Q end))
    (merge_left csv_Cliente_ID (fun kv => Some (fst kv)) cs (volume_por_cliente ts)).

(** A row of [ltv_por_faixa]. *)
Record ltv := mk_ltv {
  ltv_faixa : string;
  ltv_media : option Q;
  ltv_mediana : option Q;
  ltv_count : nat;
  ltv_renda : option Q
}.

Definition round2 (x : option Q) : option Q := option_map (fun q => np_round q 2) x.

(** The rows of a band. *)
Definition da_faixa (f : string) (l : list (cliente_csv * Q)) : list (cliente_csv * Q) :=
  List.filter (fun cv => bool_decide (faixa_de (fst cv) = Some f)) l.

(** [groupby('Faixa_Renda').agg(...).round(2)] on the categorical band:
    one row per category, in their order, the empty ones with [NaN]. *)
Definition ltv_de (l : list (cliente_csv * Q)) (f : string) : ltv :=
  let g := da_faixa f l in
  mk_ltv f (round2 (media (map snd g))) (round2 (mediana (map snd g))) (length g)
    (round2 (media (omap (fun cv => csv_Renda_Anual (fst cv)) g))).

Definition ltv_por_faixa (cs : list cliente_csv) (ts : list transacao_csv) : list ltv :=
  map (ltv_de (clientes_com_volume cs ts)) LimitesCompleta.rotulos_renda.

(** [.loc[NaN, ...]] after an [idxmax] of no value. *)
Definition erro_loc : string := "KeyError: nan".

(** [faixa_mais_valiosa = ...idxmax()] ([NaN] skipped) and
    [valor_mais_valioso = ltv_por_faixa.loc[faixa_mais_valiosa, ...]]. *)
Definition analise_4 (cs : list cliente_csv) (ts : list transacao_csv)
  : exec (list ltv * string * Q) :=
  let t := ltv_por_faixa cs ts in
  match idxmax (omap (fun l => option_map (fun m => (ltv_faixa l, m)) (ltv_media l)) t) with
  | Some (f, v) => Ok (t, f, v)
  | None => Erro erro_loc
  end.

(** ** Analysis 5: monthly churn, lines 169-215 *)

(** [Data.dt.to_period('M')]. *)
Definition mes_de (t : transacao_csv) : option (Z * Z) :=
  option_map (fun st => (Dates.ano st, Dates.mes st)) (csv_Data t).

(** [transacoes.groupby(['Mes', 'Cliente_ID']).size()] drops the rows
    missing either key; [groupby('Mes')['Cliente_ID'].nunique()] counts the
    customers of each month, months in increasing order. *)
Definition clientes_ativos_mes (ts : list transacao_csv) : list ((Z * Z) * nat) :=
  order_by (fun a b => trim_ltb (fst a) (fst b))
    (map (fun kg => (fst kg, length (remove_dups (omap csv_Cliente_ID_tx (snd kg)))))
       (grupos mes_de (List.filter (fun t => negb (is_null (csv_Cliente_ID_tx t))) ts))).

(** [(mes_anterior - mes_atual) / mes_anterior * 100] for each month after
    the first. *)
Fixpoint taxas (anterior : nat) (l : list nat) : list Q :=
  match l with
  | [] => []
  | x :: l' => ((nq anterior - nq x) / nq anterior * 100)%Q :: taxas x l'
  end.

Definition churn_rates (l : list nat) : list Q :=
  match l with [] => [] | x :: l' => taxas x l' end.

(** [np.mean([c for c in churn_rates if c > 0])]: [NaN] on no drop. *)
Definition churn_medio (rates : list Q) : option Q := media (List.filter (fun c => Qltb 0 c) rates).

(** [(1 - (1 - churn_medio/100)**12)*100]. *)
Definition anual (c : Q) : Q := ((1 - (1 - c / 100) ^ 12) * 100)%Q.

Definition churn_benchmark_tradicional : Q := 8.

Definition erro_nome : string := "NameError: name 'valor_mais_valioso' is not defined".

Record resultado_5 := mk_resultado_5 {
  r5_churn_medio : option Q;
  r5_anual : option Q;
  r5_valor_em_risco : option Q
}.

(** The block of analysis 5, given the outcome of analysis 4 (whose
    [valor_mais_valioso] it reads); [NaN > 8] is false. *)
Definition analise_5 (r4 : exec (list ltv * string * Q)) (ts : list transacao_csv) : exec resultado_5 :=
  let c := churn_medio (churn_rates (map snd (clientes_ativos_mes ts))) in
  let a := option_map anual c in
  match a with
  | Some p =>
      if Qltb churn_benchmark_tradicional p then
        match r4 with
        | Ok (_, _, v) =>
            Ok (mk_resultado_5 c a (Some ((p - churn_benchmark_tradicional) / 100 * v * 1961)%Q))
        | Erro _ => Erro erro_nome
        end
      else Ok (mk_resultado_5 c a None)
  | None => Ok (mk_resultado_5 c a None)
  end.

(** The two blocks, each caught by its own [except]. *)
Definition analises_4_5 (cs : list cliente_csv) (ts : list transacao_csv)
  : exec (list ltv * string * Q) * exec resultado_5 :=
  (analise_4 cs ts, analise_5 (analise_4 cs ts) ts).

(** ** Analysis 4: when [idxmax] finds no band *)

(** Every customer is a row of the merge, and every row a customer. *)
Lemma clientes_com_volume_In cs ts c :
  In c cs -> exists v, In (c, v) (clientes_com_volume cs ts).
Proof.
  intros Hc.
  destruct (merge_left_cobre csv_Cliente_ID (fun kv => Some (fst kv)) cs (volume_por_cliente ts) c Hc)
    as [m Hm].
  exists (match m with Some kv => snd kv | None => 0%Q end). apply in_map_iff. exists (c, m). done.
Qed.

Lemma In_clientes_com_volume cs ts c v : In (c, v) (clientes_com_volume cs ts) -> In c cs.
Proof.
  intros ([c' m] & Hcv & Hm)%in_map_iff. injection Hcv as <- _.
  apply In_merge_left in Hm as [? _]. done.
Qed.

(** A band is one of the four labels. *)
Lemma faixa_de_In c f : faixa_de c = Some f -> In f LimitesCompleta.rotulos_renda.
Proof.
  unfold faixa_de, LimitesCompleta.faixa_renda. destruct (csv_Renda_Anual c) as [r|]; [|done].
  destruct (Qltb 150000 r); [intros H; injection H as <-; cbn; tauto|apply cut_In].
Qed.

(** A band has a mean exactly when it has a row. *)
Lemma ltv_media_None l f : ltv_media (ltv_de l f) = None <-> da_faixa f l = [].
Proof. cbn. destruct (da_faixa f l); done. Qed.

(** A band has no row exactly when no customer is in it. *)
Lemma da_faixa_nil cs ts f :
  da_faixa f (clientes_com_volume cs ts) = [] <-> forall c, In c cs -> faixa_de c <> Some f.
Proof.
  unfold da_faixa. split.
  - intros H c Hc Hf. destruct (clientes_com_volume_In cs ts c Hc) as [v Hv].
    assert (In (c, v) (List.filter (fun cv => bool_decide (faixa_de (fst cv) = Some f))
                         (clientes_com_volume cs ts))) as Hin
      by (apply filter_In; split; [done|apply bool_decide_eq_true; done]).
    rewrite H in Hin. done.
  - intros H. rewrite (List.filter_ext_in _ (fun _ => false)); [apply List.filter_false|].
    intros [c v] Hv. apply bool_decide_false. apply H. apply In_clientes_com_volume in Hv. done.
Qed.

(** C16: analysis 4 raises (and prints "Usando dados estimados") exactly
    when no customer has an income band: every income missing or not
    positive, or no customer at all. *)
Theorem analise_4_erro cs ts :
  (exists e, analise_4 cs ts = Erro e) <-> forall c, In c cs -> faixa_de c = None.
Proof.
  unfold analise_4.
  transitivity (idxmax (omap (fun l => option_map (fun m => (ltv_faixa l, m)) (ltv_media l))
                          (ltv_por_faixa cs ts)) = None).
  { destruct (idxmax _) as [[f v]|]; naive_solver. }
  rewrite idxmax_None, omap_nil_iff. unfold ltv_por_faixa. split.
  - intros H c Hc. destruct (faixa_de c) as [f|] eqn:Hf; [exfalso|done].
    assert (ltv_media (ltv_de (clientes_com_volume cs ts) f) = None) as Hm.
    { pose proof (H _ (in_map _ _ _ (faixa_de_In c f Hf))) as H'.
      destruct (ltv_media _); done. }
    assert (da_faixa f (clientes_com_volume cs ts) = []) as Hd by (apply ltv_media_None; exact Hm).
    exact (proj1 (da_faixa_nil cs ts f) Hd c Hc Hf).
  - intros H l (f & <- & _)%in_map_iff.
    replace (ltv_media (ltv_de (clientes_com_volume cs ts) f)) with (@None Q); [done|].
    symmetry. apply ltv_media_None, da_faixa_nil. intros c Hc. rewrite H by done. done.
Qed.

(** The counts of [ltv_por_faixa] add up to the merged rows that have a
    band. *)
Lemma ltv_contagem cs ts :
  sum_list_with ltv_count (ltv_por_faixa cs ts) =
  #[fun cv => negb (is_null (faixa_de (fst cv)))] (clientes_com_volume cs ts).
Proof.
  unfold ltv_por_faixa. rewrite sum_list_with_map. cbn [ltv_count ltv_de]. unfold da_faixa.
  apply (soma_por_rotulo LimitesCompleta.rotulos_renda (fun cv => faixa_de (fst cv))).
  - apply (bool_decide_unpack _). vm_compute. done.
  - intros cv f _ Hf. apply (faixa_de_In _ f Hf).
Qed.

(** ** Analysis 5: when the [NameError] is raised *)

(** analysis 5 raises (and prints its estimates) exactly when analysis
    4 failed and the projected yearly churn exceeds the 8% benchmark, the
    only branch that reads [valor_mais_valioso]; a [NaN] projection takes
    no branch. *)
Theorem analise_5_erro r4 ts :
  (exists e, analise_5 r4 ts = Erro e) <->
  (exists e, r4 = Erro e) /\
  exists c, churn_medio (churn_rates (map snd (clientes_ativos_mes ts))) = Some c /\
            (churn_benchmark_tradicional < anual c)%Q.
Proof.
  unfold analise_5. destruct (churn_medio _) as [c|]; cbn; [|naive_solver].
  destruct (Qltb_spec churn_benchmark_tradicional (anual c)) as [Hlt|Hge].
  - destruct r4 as [[[t f] v]|e]; [|naive_solver]. split; [naive_solver|].
    intros [[e He] _]. done.
  - split; [naive_solver|]. intros [_ (c' & Hc' & Hlt)]. injection Hc' as <-. lra.
Qed.

(** ** Analysis 5: the monthly churn *)

(** Every month listed has a customer. *)
Lemma clientes_ativos_mes_pos ts : Forall (fun n => 1 <= n) (map snd (clientes_ativos_mes ts)).
Proof.
  apply List.Forall_forall. intros n ([k n'] & <- & Hx)%in_map_iff. cbn.
  apply In_order_by, in_map_iff in Hx as ([k' g] & Hkn & Hg). injection Hkn as <- <-.
  pose proof Hg as Hg'. apply In_grupos in Hg as (t & Ht & Hk).
  apply grupos_group_of in Hg'. subst g.
  apply filter_In in Ht as [Ht Hid]. destruct (csv_Cliente_ID_tx t) as [i|] eqn:Ei; [|done].
  assert (i ∈ remove_dups (omap csv_Cliente_ID_tx (group_of mes_de (Some k')
               (List.filter (fun t => negb (is_null (csv_Cliente_ID_tx t))) ts)))) as Hi.
  { apply elem_of_remove_dups, list_elem_of_omap. exists t. split; [|done].
    apply list_elem_of_In, In_group_of. split; [apply filter_In; rewrite Ei; done|done]. }
  destruct (remove_dups _); [set_solver|cbn; lia].
Qed.

(** A drop from a month with customers to a month with customers is
    below 100%. *)
Lemma taxas_lt_100 p l :
  Forall (fun n => 1 <= n) (p :: l) -> Forall (fun r => r < 100)%Q (taxas p l).
Proof.
  revert p. induction l as [|x l IH]; intros p Hf; cbn; [constructor|].
  inversion Hf as [|? ? Hp Hxl]; subst. inversion Hxl as [|? ? Hx _]; subst.
  constructor; [|apply IH; done]. unfold nq.
  assert (0 < inject_Z (Z.of_nat p))%Q by (change 0%Q with (inject_Z 0); rewrite <- Zlt_Qlt; lia).
  assert (0 < inject_Z (Z.of_nat x))%Q by (change 0%Q with (inject_Z 0); rewrite <- Zlt_Qlt; lia).
  assert ((inject_Z (Z.of_nat p) - inject_Z (Z.of_nat x)) / inject_Z (Z.of_nat p) < 1)%Q
    by (apply Qlt_shift_div_r; lra).
  lra.
Qed.

Lemma churn_rates_lt_100 l : Forall (fun n => 1 <= n) l -> Forall (fun r => r < 100)%Q (churn_rates l).
Proof. destruct l as [|p l]; [constructor|]. apply taxas_lt_100. Qed.

(** C15: the monthly churn of analysis 5 is the mean of the months whose
    count of active customers dropped, each drop in (0, 100): it lies in
    (0, 100) and is at least the mean of all the monthly changes, the
    months of growth being left out. *)
Theorem churn_medio_limites ts c :
  churn_medio (churn_rates (map snd (clientes_ativos_mes ts))) = Some c ->
  (0 < c < 100)%Q /\
  forall m, media (churn_rates (map snd (clientes_ativos_mes ts))) = Some m -> (m <= c)%Q.
Proof.
  intros Hc. pose proof (churn_rates_lt_100 _ (clientes_ativos_mes_pos ts)) as Hlt.
  set (rs := churn_rates (map snd (clientes_ativos_mes ts))) in *.
  split.
  - apply (media_estrita 0 100 (List.filter (fun c => Qltb 0 c) rs)); [|exact Hc].
    apply List.Forall_forall. intros v (Hv & Hp)%filter_In. rewrite List.Forall_forall in Hlt.
    specialize (Hlt v Hv). apply Qltb_iff in Hp. lra.
  - intros m Hm. exact (media_positivos _ c m Hc Hm).
Qed.

(** ** Examples *)

(** Four customers in January 2024, two in February, three in March. *)
Definition ex_tx (i m c : Z) : transacao_csv :=
  mk_transacao_csv (Some i) (Some (Dates.mk_stamp 2024 m 10 12 0 0)) (Some 100%Q) (Some c) None None None.

Definition ex_ts : list transacao_csv :=
  [ex_tx 1 1 1; ex_tx 2 1 2; ex_tx 3 1 3; ex_tx 4 1 4; ex_tx 5 2 1; ex_tx 6 2 2;
   ex_tx 7 3 1; ex_tx 8 3 2; ex_tx 9 3 3].

Definition ex_cli (i : Z) (renda : option Q) : cliente_csv :=
  mk_cliente_csv (Some i) None renda None (Some 1%Z) (Some "Cidade"%string) (Some "SP"%string) (Some "Não"%string).

Definition ex_cs : list cliente_csv :=
  [ex_cli 1 (Some 40000%Q); ex_cli 2 (Some 120000%Q); ex_cli 3 (Some 45000%Q); ex_cli 4 None].

Example clientes_ativos_mes_ex :
  clientes_ativos_mes ex_ts = [((2024%Z, 1%Z), 4); ((2024%Z, 2%Z), 2); ((2024%Z, 3%Z), 3)].
Proof. vm_compute. reflexivity. Qed.

Example churn_ex :
  option_map Qred (churn_medio (churn_rates (map snd (clientes_ativos_mes ex_ts)))) = Some 50%Q /\
  option_map Qred (media (churn_rates (map snd (clientes_ativos_mes ex_ts)))) = Some 0%Q.
Proof. vm_compute. split; reflexivity. Qed.

Example analise_4_ex :
  match analise_4 ex_cs ex_ts with
  | Ok (t, f, v) => (map ltv_count t, f, Qred v) = ([2; 0; 1; 0], "100k-150k"%string, 300%Q)
  | Erro _ => False
  end.
Proof. vm_compute. reflexivity. Qed.

Lemma churn_medio_limites_witness :
  churn_medio (churn_rates (map snd (clientes_ativos_mes ex_ts))) = Some (200 # 4)%Q /\
  (0 < 200 # 4 < 100)%Q.
Proof.
  assert (churn_medio (churn_rates (map snd (clientes_ativos_mes ex_ts))) = Some (200 # 4)%Q) as H
    by (vm_compute; reflexivity).
  split; [exact H|]. exact (proj1 (churn_medio_limites ex_ts (200 # 4) H)).
Defined.

(** Analysis 4 fails on customers without an income, and analysis 5 with
    it, the projected churn (about 99.98%) being above 8%. *)
Example analises_sem_renda :
  match analises_4_5 [ex_cli 1 None; ex_cli 2 None] ex_ts with
  | (Erro e4, Erro e5) => e4 = erro_loc /\ e5 = erro_nome
  | _ => False
  end.
Proof. vm_compute. split; reflexivity. Qed.

End Estatistica.
