(* ===== verification/Segmentacao.v ===== *)
(** * Customer segmentation: [src/analise_segmentacao.py]

    The script derives the features of each customer (the age rounded to
    whole years, the years as a customer, two [pd.cut] bands and the 0/1
    additional-account flag), prints descriptive statistics, keeps the
    customers with all five clustering features ([df_cluster]), runs the
    elbow loop [KMeans(k).fit] for [k] in 2..10, clusters with [k = 5],
    profiles each segment, names the most frequent state and city of each
    segment ([mode()[0]]) and prints a summary.

    scikit-learn's [StandardScaler] and [KMeans] are not modelled: the
    labels are an arbitrary function [kmeans] of [k] and of the feature rows
    (a [Variable] of [Section Kmeans] and [Section Propriedades]), of which the theorems assume only
    what the library documents: one label per row, below [k].  What the
    library does on too few rows is modelled: [StandardScaler] raises on no
    row and [KMeans(n_clusters=k).fit] on fewer than [k] rows.  There is no
    [try] in the script, so an exception stops it ([Sessenta.exec]).

    The theorems show that the script reaches its summary exactly when at
    least ten customers have all five features and every segment has a
    customer with a state and one with a city ([mode()[0]] of an all-[NaN]
    column raises [KeyError]), whatever the clustering; and that the
    segment sizes add up to the clustered customers, each share a
    percentage and the printed shares add up to 100 within their rounding.
    The standard deviations of the profile are not modelled. *)

From stdpp Require Import base list sets strings sorting.
From Stdlib Require Import ZArith QArith Qround Qminmax String Lia Lqa.
From S2P Require Import Prelude Sql Dates Pandas Schema Sixty Banco RendaIdade Persona.

Local Abbreviation length := Datatypes.length.
Local Open Scope nat_scope.
Local Open Scope exec_scope.

Module Segmentacao.
Import Sql Pandas Sessenta Processamento Persona.Persona.

(** ** Features, lines 79-104 *)

(** [((data_referencia - Data_Criacao_Conta).dt.days / 365.25).round(2)]. *)
Definition tempo_cliente_anos (criacao : option Dates.stamp) : option Q :=
  option_map (fun st => np_round (inject_Z (dias RendaIdade.data_referencia (instante st)) / (36525 # 100)) 2)
    criacao.

Definition rotulos_etaria : list string := ["18-25"; "26-35"; "36-45"; "46-55"; "56-65"; "65+"]%string.

Definition faixa_etaria (i : option Q) : option string :=
  cut [0; 25; 35; 45; 55; 65; 100]%Q rotulos_etaria false i.

Definition faixa_renda (r : option Q) : option string :=
  cut_inf [0; 30000; 50000; 80000; 120000]%Q ["Até 30k"; "30k-50k"; "50k-80k"; "80k-120k"]%string
    "Acima 120k"%string r.

(** [map({'Sim': 1, 'Não': 0})]: any other text is [NaN]. *)
Definition conta_adicional_bin (s : option string) : option Q :=
  match s with
  | Some v => if bool_decide (v = "Sim"%string) then Some 1%Q
              else if bool_decide (v = "Não"%string) then Some 0%Q else None
  | None => None
  end.

Record linha := mk_linha {
  l_cliente : cliente_csv;
  l_idade : option Q;
  l_tempo : option Q;
  l_faixa_etaria : option string;
  l_faixa_renda : option string;
  l_adicional : option Q
}.

(** The age is [RendaIdade.idade], the same expression on the same
    reference date. *)
Definition preparar (c : cliente_csv) : linha :=
  let i := RendaIdade.idade (csv_Data_Nascimento c) in
  mk_linha c i (tempo_cliente_anos (csv_Data_Criacao_Conta c)) (faixa_etaria i)
    (faixa_renda (csv_Renda_Anual c)) (conta_adicional_bin (csv_Possui_Conta_Adicional c)).

Definition features (cs : list cliente_csv) : list linha := map preparar cs.

(** ** Descriptive statistics, lines 113-266 *)

Definition minimo (xs : list Q) : option Q :=
  match xs with [] => None | x :: r => Some (fold_right Qmin x r) end.
Definition maximo (xs : list Q) : option Q :=
  match xs with [] => None | x :: r => Some (fold_right Qmax x r) end.

(** [mean()], [median()], [min()], [max()] of a column, [NaN] skipped. *)
Record estatisticas := mk_estatisticas {
  e_media : option Q;
  e_mediana : option Q;
  e_minimo : option Q;
  e_maximo : option Q
}.

Definition estatisticas_de (xs : list Q) : estatisticas :=
  mk_estatisticas (media xs) (mediana xs) (minimo xs) (maximo xs).

(** [value_counts().sort_index()] of a categorical band: every label, in
    the order of the bins. *)
Definition distribuicao (rotulos : list string) (f : linha -> option string) (df : list linha)
  : list (string * nat) :=
  map (fun r => (r, #[fun l => bool_decide (f l = Some r)] df)) rotulos.

(** [groupby('Estado')[col].mean().sort_values(ascending=False)]. *)
Definition media_por_estado (col : linha -> option Q) (df : list linha) : list (string * option Q) :=
  sort_desc snd (map (fun kg => (fst kg, media (omap col (snd kg))))
                   (grupos (fun l => csv_Estado (l_cliente l)) df)).

(** [estado_stats]: [groupby('Estado').agg({'Cliente_ID': 'count',
    'Renda_Anual': 'mean'})], the states in sorted order. *)
Definition estado_stats (df : list linha) : list (string * nat * option Q) :=
  order_by (fun a b => str_ltb (fst (fst a)) (fst (fst b)))
    (map (fun kg => (fst kg, count_col (map (fun l => csv_Cliente_ID (l_cliente l)) (snd kg)),
                     media (omap (fun l => csv_Renda_Anual (l_cliente l)) (snd kg))))
       (grupos (fun l => csv_Estado (l_cliente l)) df)).

Record descricao := mk_descricao {
  d_idade : estatisticas;
  d_faixas_etarias : list (string * nat);
  d_idade_por_estado : list (string * option Q);
  d_renda : estatisticas;
  d_faixas_renda : list (string * nat);
  d_renda_por_estado : list (string * option Q);
  d_estados : nat;
  d_cidades : nat;
  d_estado_count : list (string * nat);
  d_top_cidades : list (string * nat);
  d_estado_stats : list (string * nat * option Q)
}.

Definition descrever (df : list linha) : descricao :=
  mk_descricao (estatisticas_de (omap l_idade df)) (distribuicao rotulos_etaria l_faixa_etaria df)
    (media_por_estado l_idade df)
    (estatisticas_de (omap (fun l => csv_Renda_Anual (l_cliente l)) df))
    (distribuicao ["Até 30k"; "30k-50k"; "50k-80k"; "80k-120k"; "Acima 120k"]%string l_faixa_renda df)
    (media_por_estado (fun l => csv_Renda_Anual (l_cliente l)) df)
    (length (remove_dups (omap (fun l => csv_Estado (l_cliente l)) df)))
    (length (remove_dups (omap (fun l => csv_Cidade (l_cliente l)) df)))
    (Hipoteses.Hipoteses.value_counts (map (fun l => csv_Estado (l_cliente l)) df))
    (firstn 10 (Hipoteses.Hipoteses.value_counts (map (fun l => csv_Cidade (l_cliente l)) df)))
    (estado_stats df).

(** ** The clustering, lines 331-389 *)

(** [df[['Idade', 'Renda_Anual', 'Numero_Cartoes',
    'Possui_Conta_Adicional_Bin', 'Tempo_Cliente_Anos']].dropna()]. *)
Definition completo (l : linha) : option (list Q) :=
  match l_idade l, csv_Renda_Anual (l_cliente l), csv_Numero_Cartoes (l_cliente l), l_adicional l,
        l_tempo l with
  | Some i, Some r, Some n, Some a, Some t => Some [i; r; inject_Z n; a; t]
  | _, _, _, _, _ => None
  end.

Definition df_cluster (df : list linha) : list (linha * list Q) :=
  omap (fun l => option_map (pair l) (completo l)) df.

(** A count as sklearn prints it (the counts of the messages are below
    100). *)
Definition texto_nat (n : nat) : string :=
  if n <? 10 then Dates.pad 1 (Z.of_nat n) else Dates.pad 2 (Z.of_nat n).

Definition erro_vazio : string :=
  "ValueError: Found array with 0 sample(s) (shape=(0, 5)) while a minimum of 1 is required by StandardScaler.".

Definition erro_amostras (n k : nat) : string :=
  ("ValueError: n_samples=" ++ texto_nat n ++ " should be >= n_clusters=" ++ texto_nat k ++ ".")%string.

(** [StandardScaler().fit_transform] and the elbow loop [for k in
    range(2, 11): KMeans(n_clusters=k).fit(df_scaled)]. *)
Definition cotovelo (n : nat) : exec (list nat) :=
  if n =? 0 then Erro erro_vazio
  else mapM (fun k => if n <? k then Erro (erro_amostras n k) else Ok k) (seq 2 9).

Definition n_clusters : nat := 5.

Section Kmeans.

(** The labels of [KMeans(n_clusters=k, random_state=42,
    n_init=10).fit_predict] on the standardised rows. *)
Variable kmeans : nat -> list (list Q) -> list nat.

(** A clustered row: the customer, its features and its segment. *)
Definition rotular (cl : list (linha * list Q)) : list (linha * list Q * nat) :=
  zip_with (fun lx s => (fst lx, snd lx, s)) cl (kmeans n_clusters (map snd cl)).

Definition segmentar (df : list linha) : exec (list (linha * list Q * nat)) :=
  let cl := df_cluster df in
  let* _ := cotovelo (length cl) in
  Ok (rotular cl).

Definition segmento (r : linha * list Q * nat) : nat := snd r.

Definition do_segmento (rs : list (linha * list Q * nat)) (s : nat) : list (linha * list Q * nat) :=
  List.filter (fun r => segmento r =? s) rs.

(** [sorted(df_cluster['Segmento'].unique())], which are also the sorted
    keys of [groupby('Segmento')]. *)
Definition segmentos (rs : list (linha * list Q * nat)) : list nat :=
  merge_sort (≤) (remove_dups (map segmento rs)).

(** ** The profile of the segments, lines 436-453 *)

Record perfil := mk_perfil {
  sp_segmento : nat;
  sp_idade : option Q;
  sp_renda : option Q;
  sp_cartoes : option Q;
  sp_adicional : option Q;
  sp_tempo : option Q;
  sp_clientes : nat;
  sp_pct : Q
}.

Definition round2 (x : option Q) : option Q := option_map (fun q => np_round q 2) x.

Definition media_feature (i : nat) (g : list (linha * list Q * nat)) : option Q :=
  round2 (media (map (fun r => nth i (snd (fst r)) 0%Q) g)).

Definition perfil_de (rs : list (linha * list Q * nat)) (s : nat) : perfil :=
  let g := do_segmento rs s in
  mk_perfil s (media_feature 0 g) (media_feature 1 g) (media_feature 2 g) (media_feature 3 g)
    (media_feature 4 g) (length g) (np_round (nq (length g) / nq (length rs) * 100) 1).

Definition segment_profile (rs : list (linha * list Q * nat)) : list perfil :=
  map (perfil_de rs) (segmentos rs).

(** ** The characterisation loop, lines 457-477 *)

(** [mode()[0]] on an empty [mode()] is a [KeyError]. *)
Definition erro_moda : string := "KeyError: 0".

Definition moda_ou_erro (l : list (option string)) : exec string :=
  match moda_opt l with Some v => Ok v | None => Erro erro_moda end.

Definition caracterizar (rs : list (linha * list Q * nat)) (s : nat) : exec (string * string) :=
  let g := do_segmento rs s in
  if length g =? 0 then Ok ("N/A"%string, "N/A"%string)
  else
    let* e := moda_ou_erro (map (fun r => csv_Estado (l_cliente (fst (fst r)))) g) in
    let* c := moda_ou_erro (map (fun r => csv_Cidade (l_cliente (fst (fst r)))) g) in
    Ok (e, c).

(** ** The summary and the whole script, lines 480-501 *)

Record resultado := mk_resultado {
  r_descricao : descricao;
  r_perfis : list perfil;
  r_locais : list (string * string);
  r_pct_completos : Q;
  r_maior_renda : option nat;
  r_maior_base : option nat;
  r_mais_jovem : option nat;
  r_mais_cartoes : option nat
}.

Definition maior (f : perfil -> option Q) (ps : list perfil) : option nat :=
  option_map fst (idxmax (omap (fun p => option_map (pair (sp_segmento p)) (f p)) ps)).

(** [idxmin]: the first label of the smallest value. *)
Definition menor (f : perfil -> option Q) (ps : list perfil) : option nat :=
  maior (fun p => option_map Qopp (f p)) ps.

Definition analise_segmentacao (cs : list cliente_csv) : exec resultado :=
  let df := features cs in
  let* rs := segmentar df in
  let ps := segment_profile rs in
  let* locais := mapM (caracterizar rs) (segmentos rs) in
  Ok (mk_resultado (descrever df) ps locais (nq (length rs) / nq (length df) * 100)%Q
        (maior sp_renda ps) (maior (fun p => Some (nq (sp_clientes p))) ps) (menor sp_idade ps)
        (maior sp_cartoes ps)).

End Kmeans.

End Segmentacao.

Section Propriedades.
Import Sql Pandas Sessenta Processamento Persona.Persona Segmentacao.
Variable kmeans : nat -> list (list Q) -> list nat.

(** [StandardScaler] and the elbow loop fail on fewer than ten rows, at the
    first [k] above the number of rows. *)
Lemma cotovelo_spec n :
  cotovelo n = if n <? 10 then Erro (if n =? 0 then erro_vazio else erro_amostras n (S n)) else Ok (seq 2 9).
Proof. do 10 (destruct n as [|n]; [reflexivity|]). reflexivity. Qed.

Lemma segmentar_Ok df rs :
  segmentar kmeans df = Ok rs <-> 10 <= length (df_cluster df) /\ rs = rotular kmeans (df_cluster df).
Proof.
  unfold segmentar. rewrite cotovelo_spec.
  destruct (Nat.ltb_spec (length (df_cluster df)) 10); cbn; split; try intros [= <-]; intuition (subst; done || lia).
Qed.

Lemma segmentos_In rs s : In s (segmentos rs) <-> exists r, In r rs /\ segmento r = s.
Proof.
  unfold segmentos. rewrite <- list_elem_of_In, (merge_sort_Permutation _ _), elem_of_remove_dups,
    list_elem_of_In, in_map_iff. naive_solver.
Qed.

Lemma segmentos_NoDup rs : NoDup (segmentos rs).
Proof. unfold segmentos. rewrite (merge_sort_Permutation _ _). apply NoDup_remove_dups. Qed.

Lemma do_segmento_In rs s r : In r (do_segmento rs s) <-> In r rs /\ segmento r = s.
Proof. unfold do_segmento. rewrite filter_In, Nat.eqb_eq. done. Qed.

Lemma do_segmento_nao_vazio rs s : In s (segmentos rs) -> do_segmento rs s <> [].
Proof.
  intros (r & Hr & Hs)%segmentos_In E.
  assert (In r (do_segmento rs s)) as Hin by (apply do_segmento_In; done). rewrite E in Hin. done.
Qed.

(** [mode()[0]] answers exactly when some value is present. *)
Lemma moda_ou_erro_Ok l : (exists v, moda_ou_erro l = Ok v) <-> exists v, In (Some v) l.
Proof.
  unfold moda_ou_erro. destruct (moda_opt l) eqn:E.
  - split; [intros _|eauto]. destruct (nao_nulos l) as [|v vs] eqn:En; [apply moda_opt_None in En; congruence|].
    assert (v ∈ omap id l) as Hv by (unfold nao_nulos in En; rewrite En; left).
    apply list_elem_of_omap in Hv as (x & Hx & Ex). apply list_elem_of_In in Hx. cbn in Ex. subst. eauto.
  - split; [intros [? [=]]|]. intros (v & Hv). apply moda_opt_None in E.
    pose proof (proj1 (omap_nil_iff _ _) E (Some v) Hv). done.
Qed.

Lemma moda_ou_erro_map {X} (f : X -> option string) g :
  (exists v, moda_ou_erro (map f g) = Ok v) <-> exists r v, In r g /\ f r = Some v.
Proof.
  rewrite moda_ou_erro_Ok. split.
  - intros (v & (r & Hr & Hin)%in_map_iff). eauto.
  - intros (r & v & Hr & Hf). exists v. apply in_map_iff. eauto.
Qed.

Lemma caracterizar_Ok rs s :
  do_segmento rs s <> [] ->
  (exists p, caracterizar rs s = Ok p) <->
  (exists r v, In r (do_segmento rs s) /\ csv_Estado (l_cliente (fst (fst r))) = Some v) /\
  (exists r v, In r (do_segmento rs s) /\ csv_Cidade (l_cliente (fst (fst r))) = Some v).
Proof.
  intros Hne. unfold caracterizar.
  destruct (length (do_segmento rs s) =? 0) eqn:E; [apply Nat.eqb_eq, length_zero_iff_nil in E; done|].
  set (fE := fun r : linha * list Q * nat => csv_Estado (l_cliente (fst (fst r)))).
  set (fC := fun r : linha * list Q * nat => csv_Cidade (l_cliente (fst (fst r)))).
  change (csv_Estado (l_cliente (fst (fst ?r)))) with (fE r).
  change (csv_Cidade (l_cliente (fst (fst ?r)))) with (fC r).
  rewrite <- (moda_ou_erro_map fE), <- (moda_ou_erro_map fC).
  destruct (moda_ou_erro (map fE _)) as [e|]; cbn [bind];
    [destruct (moda_ou_erro (map fC _)) as [c|]; cbn [bind]|].
  - split; [intros _; split; eauto|eauto].
  - split; [intros [? [=]]|intros [_ [? [=]]]].
  - split; [intros [? [=]]|intros [[? [=]] _]].
Qed.

(** C17: the segmentation script reaches its summary exactly when at
    least ten customers have all five clustering features (fewer make
    [StandardScaler] or [KMeans(k).fit] of the elbow loop raise) and every
    segment [k-means] forms has a customer with a state and one with a city:
    the guard [len(seg_geo) > 0] of lines 472-473 does not protect
    [mode()[0]] from a segment whose [Estado] or [Cidade] are all missing,
    which raises [KeyError]. This holds whatever labels [KMeans] returns. *)
Theorem analise_segmentacao_Ok cs :
  (exists res, analise_segmentacao kmeans cs = Ok res) <->
  10 <= length (df_cluster (features cs)) /\
  forall s, In s (segmentos (rotular kmeans (df_cluster (features cs)))) ->
    (exists r v, In r (do_segmento (rotular kmeans (df_cluster (features cs))) s) /\
                 csv_Estado (l_cliente (fst (fst r))) = Some v) /\
    (exists r v, In r (do_segmento (rotular kmeans (df_cluster (features cs))) s) /\
                 csv_Cidade (l_cliente (fst (fst r))) = Some v).
Proof.
  unfold analise_segmentacao. destruct (segmentar kmeans (features cs)) as [rs|e] eqn:Hs; cbn [bind].
  - apply segmentar_Ok in Hs as [Hn ->]. set (rs := rotular kmeans (df_cluster (features cs))).
    assert ((forall s, In s (segmentos rs) -> exists p, caracterizar rs s = Ok p) <->
            forall s, In s (segmentos rs) ->
              (exists r v, In r (do_segmento rs s) /\ csv_Estado (l_cliente (fst (fst r))) = Some v) /\
              (exists r v, In r (do_segmento rs s) /\ csv_Cidade (l_cliente (fst (fst r))) = Some v)) as Hc.
    { split; intros H s Hs'; apply caracterizar_Ok; auto using do_segmento_nao_vazio. }
    rewrite <- Hc, <- mapM_Ok_iff.
    destruct (mapM (caracterizar rs) (segmentos rs)) as [ys|e] eqn:Hm; cbn [bind]; [split; eauto|].
    split; [intros [? [=]]|intros [_ [ys [=]]]].
  - split; [intros [? [=]]|intros [Hn _]]. unfold segmentar in Hs. rewrite cotovelo_spec in Hs.
    destruct (Nat.ltb_spec (length (df_cluster (features cs))) 10); [lia|done].
Qed.

(** the clustering stops the script with the message of the
    library that raises first: [StandardScaler]'s on no complete customer,
    otherwise [KMeans]'s for [n_clusters = n + 1] on [n < 10] customers,
    the first [k] of [range(2, 11)] above [n]. *)
Theorem segmentar_erro df e :
  segmentar kmeans df = Erro e <->
  length (df_cluster df) < 10 /\
  e = (if length (df_cluster df) =? 0 then erro_vazio
       else erro_amostras (length (df_cluster df)) (S (length (df_cluster df)))).
Proof.
  unfold segmentar. rewrite cotovelo_spec.
  destruct (Nat.ltb_spec (length (df_cluster df)) 10); cbn; split; try intros [= <-];
    intuition (subst; done || lia).
Qed.

(** A share [n / N * 100] of a part of a table, rounded to one place. *)
Lemma pct_np_round n N : n <= N -> (0 <= np_round (nq n / nq N * 100) 1 <= 100)%Q.
Proof.
  intros Hn. apply np_round_1_range. destruct n as [|n].
  - unfold nq, Qdiv. change (inject_Z (Z.of_nat 0)) with 0%Q. rewrite !Qmult_0_l. lra.
  - pose proof (pct_range (S n) N ltac:(lia)). lra.
Qed.

Lemma do_segmento_length rs s : length (do_segmento rs s) <= length rs.
Proof. unfold do_segmento. apply (count_if_le (fun r => segmento r =? s)). Qed.

(** The segment sizes add up to the clustered rows. *)
Lemma segmentos_soma rs : sum_list_with (fun s => length (do_segmento rs s)) (segmentos rs) = length rs.
Proof.
  transitivity (#[fun r : linha * list Q * nat => negb (is_null (Some (segmento r)))] rs);
    [|apply count_if_true; done].
  rewrite <- (soma_por_rotulo (segmentos rs) (fun r => Some (segmento r)) rs).
  - apply sum_list_with_ext_in. intros s _. apply count_if_ext_in. intros r _.
    apply eq_bool_prop_intro. rewrite Is_true_true, Nat.eqb_eq, bool_decide_spec. split; congruence.
  - apply segmentos_NoDup.
  - intros r s Hr [= <-]. apply segmentos_In. eauto.
Qed.

(** The exact shares of the segments add up to 100. *)
Lemma soma_shares rs :
  rs <> [] ->
  (fold_right Qplus 0 (map (fun s => nq (length (do_segmento rs s)) / nq (length rs) * 100) (segmentos rs))
   == 100)%Q.
Proof.
  intros Hne.
  assert (forall l, fold_right Qplus 0 (map (fun s => nq (length (do_segmento rs s)) / nq (length rs) * 100) l)
                    == nq (sum_list_with (fun s => length (do_segmento rs s)) l) / nq (length rs) * 100)%Q as Hl.
  { induction l as [|s l IH]; cbn [map fold_right sum_list_with]; [unfold nq; cbn; reflexivity|].
    rewrite IH. unfold nq. rewrite Nat2Z.inj_add, inject_Z_plus. unfold Qdiv. ring. }
  rewrite Hl, segmentos_soma. assert (0 < nq (length rs))%Q as Hp.
  { unfold nq. change 0%Q with (inject_Z 0). rewrite <- Zlt_Qlt. destruct rs; [done|]. cbn. lia. }
  field. lra.
Qed.

(** C18: when [KMeans] gives each row one label below [n_clusters = 5],
    the clustered rows are the customers with the five features, the
    profile of [segment_profile] has at most five segments whose
    [Num_Clientes] add up to those customers, every [Pct_Total] is a
    percentage, and the printed [Pct_Total] column adds up to 100 up to
    its rounding to one decimal (within a quarter of a point): the shares
    are taken over [len(df_cluster)], the customers that were clustered. *)
Theorem segment_profile_particao df rs :
  (forall xs, length (kmeans n_clusters xs) = length xs) ->
  (forall xs s, In s (kmeans n_clusters xs) -> s < n_clusters) ->
  segmentar kmeans df = Ok rs ->
  length rs = length (df_cluster df) /\
  length (segment_profile rs) <= n_clusters /\
  sum_list_with sp_clientes (segment_profile rs) = length rs /\
  Forall (fun p => 0 <= sp_pct p <= 100)%Q (segment_profile rs) /\
  (100 - (1 # 4) <= fold_right Qplus 0 (map sp_pct (segment_profile rs)) <= 100 + (1 # 4))%Q.
Proof.
  intros Hlen Hlt [H10 ->]%segmentar_Ok. set (rs := rotular kmeans (df_cluster df)).
  assert (length rs = length (df_cluster df)) as Hrs
    by (unfold rs, rotular; rewrite length_zip_with, Hlen, length_map; lia).
  assert (length (segmentos rs) <= n_clusters) as H5.
  { change n_clusters with (length (seq 0 n_clusters)). apply NoDup_incl_length.
    - apply NoDup_ListNoDup, segmentos_NoDup.
    - intros s (r & Hr & <-)%segmentos_In. apply in_seq. split; [lia|]. cbn.
      unfold rs, rotular in Hr. apply list_elem_of_In, elem_of_lookup_zip_with in Hr
        as (i & x & l & -> & _ & Hl). apply Hlt with (map snd (df_cluster df)).
      apply list_elem_of_In, list_elem_of_lookup_2 with i. done. }
  unfold segment_profile. rewrite length_map. split; [done|]. split; [done|]. split.
  { rewrite sum_list_with_map. apply segmentos_soma. } split.
  { apply List.Forall_forall. intros p (s & <- & _)%in_map_iff. apply pct_np_round, do_segmento_length. }
  rewrite map_map. cbn [sp_pct perfil_de].
    pose proof (soma_np_round_1 (fun s => nq (length (do_segmento rs s)) / nq (length rs) * 100)%Q (segmentos rs)).
    rewrite (soma_shares rs) in H by (intros E; rewrite E in Hrs; cbn in Hrs; lia).
    assert (nq (length (segmentos rs)) <= 5)%Q
      by (unfold nq; change 5%Q with (inject_Z 5); rewrite <- Zle_Qle; unfold n_clusters in H5; lia).
    lra.
Qed.

End Propriedades.

(** ** Examples *)

Import Sql Pandas Sessenta Processamento Segmentacao.

(** A clustering that deals the rows out over the [k] segments in turn. *)
Definition ex_kmeans (k : nat) (xs : list (list Q)) : list nat := map (fun i => i mod k) (seq 0 (length xs)).

Definition ex_seg (i : Z) (estado : option string) : cliente_csv :=
  mk_cliente_csv (Some i) (Some (Dates.mk_stamp (1970 + 3 * i)%Z 5 10 0 0 0)) (Some (inject_Z (20000 + 9000 * i)%Z))
    (Some (Dates.mk_stamp (2010 + i)%Z 1 15 0 0 0)) (Some (Z.modulo i 3 + 1)%Z) (Some "Recife"%string) estado
    (Some (if Z.even i then "Sim" else "Não")%string).

Definition ex_seg_cs (n : Z) : list cliente_csv :=
  map (fun i => ex_seg i (Some "PE"%string)) (map Z.of_nat (seq 1 (Z.to_nat n))).

(** The customers of segment 0 (the first and the sixth) have no state. *)
Definition ex_sem_estado : list cliente_csv :=
  map (fun i => ex_seg i (if (Z.modulo i 5 =? 1)%Z then None else Some "PE"%string)) (map Z.of_nat (seq 1 10)).

Example segmentar_ex :
  segmentar ex_kmeans (features (ex_seg_cs 9)) = Erro "ValueError: n_samples=9 should be >= n_clusters=10."%string /\
  segmentar ex_kmeans [] = Erro erro_vazio.
Proof. split; vm_compute; reflexivity. Qed.

Example perfil_ex :
  map (fun p => (sp_segmento p, sp_clientes p, Qred (sp_pct p))) (segment_profile (rotular ex_kmeans (df_cluster (features (ex_seg_cs 10))))) =
  [(0, 2, 20%Q); (1, 2, 20%Q); (2, 2, 20%Q); (3, 2, 20%Q); (4, 2, 20%Q)].
Proof. vm_compute. reflexivity. Qed.

Example sem_estado_ex : analise_segmentacao ex_kmeans ex_sem_estado = Erro erro_moda.
Proof. vm_compute. reflexivity. Qed.

Lemma segment_profile_particao_witness :
  segmentar ex_kmeans (features (ex_seg_cs 10)) = Ok (rotular ex_kmeans (df_cluster (features (ex_seg_cs 10)))) /\
  (length (rotular ex_kmeans (df_cluster (features (ex_seg_cs 10)))) = length (df_cluster (features (ex_seg_cs 10))) /\
   length (segment_profile (rotular ex_kmeans (df_cluster (features (ex_seg_cs 10))))) <= n_clusters /\
   sum_list_with sp_clientes (segment_profile (rotular ex_kmeans (df_cluster (features (ex_seg_cs 10))))) =
     length (rotular ex_kmeans (df_cluster (features (ex_seg_cs 10)))) /\
   Forall (fun p => 0 <= sp_pct p <= 100)%Q (segment_profile (rotular ex_kmeans (df_cluster (features (ex_seg_cs 10))))) /\
   (100 - (1 # 4) <= fold_right Qplus 0 (map sp_pct (segment_profile (rotular ex_kmeans (df_cluster (features (ex_seg_cs 10)))))) <= 100 + (1 # 4))%Q).
Proof.
  split; [vm_compute; reflexivity|].
  apply (segment_profile_particao ex_kmeans).
  - intros xs. unfold ex_kmeans. rewrite length_map, length_seq. reflexivity.
  - intros xs s (i & <- & _)%in_map_iff. apply Nat.mod_upper_bound. discriminate.
  - vm_compute. reflexivity.
Defined.
